(** * pam_namespace: the polyinstantiation engine of Linux-PAM

    A shallow embedding of [modules/pam_namespace/pam_namespace.c] and the
    properties its specification states about it.

    The module is sequential C code that talks to the kernel, to libpam, to
    libselinux and to two child programs.  It is embedded as functions in a
    state monad over a [world]: the part of the machine the module can see
    (file-system objects, the mount table, the open descriptors, the
    disposition of SIGCHLD, the heap cells of the rule lists and the data slot
    libpam keeps for the module) together with the list of the calls made so
    far.  Whatever the module cannot decide itself (a call failing with some
    errno, the status a child ends with, the name [mkdtemp] picks, what
    SELinux answers) is answered by an [oracle] that sees the whole history,
    so a theorem quantified over the world holds for every behaviour of the
    environment.

    Conventions: C strings are [string]s; [int], [uid_t], [mode_t] and
    [pid_t] values are [Z]; allocation ([malloc], [asprintf], [strdup],
    [alloca]) is taken to succeed.

    Two limits of the world are kept in view by the statements.  The
    file-system objects are kept by path name and a mount does not rename
    them: what a name at or below a mount target shows is not followed
    through the mount table.  A statement about the object at a path is
    therefore made for paths that no mount covers ([uncovered], [apart]), or
    about a run that mounts nothing before it looks.  And the heap does not
    trap: a list that was freed reads as the empty list, so a statement
    about a walk over a rule list says that the list is live. *)

From Stdlib Require Import ZArith List String Ascii Bool Lia Arith.
Import ListNotations.

Local Open Scope string_scope.
Local Open Scope Z_scope.

(* ===================================================================== *)
(** ** C strings *)
(* ===================================================================== *)

Module CStr.

Definition strlen (s : string) : Z := Z.of_nat (String.length s).

(** [strchr s c] as the offset of the first [c] in [s]. *)
Fixpoint strchr (s : string) (c : ascii) : option nat :=
  match s with
  | EmptyString => None
  | String a t =>
      if Ascii.eqb a c then Some O
      else option_map S (strchr t c)
  end.

(** [strrchr s c] as the offset of the last [c] in [s]. *)
Fixpoint strrchr (s : string) (c : ascii) : option nat :=
  match s with
  | EmptyString => None
  | String a t =>
      match strrchr t c with
      | Some n => Some (S n)
      | None => if Ascii.eqb a c then Some O else None
      end
  end.

Fixpoint take (n : nat) (s : string) : string :=
  match n, s with
  | S k, String a t => String a (take k t)
  | _, _ => EmptyString
  end.

Fixpoint drop (n : nat) (s : string) : string :=
  match n, s with
  | S k, String _ t => drop k t
  | _, _ => s
  end.

(** [*strchr(s, c) = '\0'] when the character is found: the string now ends
    there. *)
Definition cut_at (c : ascii) (s : string) : string :=
  match strchr s c with
  | Some n => take n s
  | None => s
  end.

(** [strstr hay needle] as the offset of the first occurrence. *)
Fixpoint strstr (hay needle : string) : option nat :=
  if String.prefix needle hay then Some O
  else match hay with
       | EmptyString => None
       | String _ t => option_map S (strstr t needle)
       end.

(** [strstr(hay, needle)] read as a C condition. *)
Definition contains (hay needle : string) : bool :=
  match strstr hay needle with
  | Some _ => true
  | None => false
  end.

(** [strncmp a b (strlen b) == 0]: every character of [b] is matched by [a]. *)
Definition strncmp_eq (a b : string) : bool := String.prefix b a.

Definition isspace (c : ascii) : bool :=
  let n := nat_of_ascii c in
  (Nat.eqb n 32 || (Nat.leb 9 n && Nat.leb n 13))%bool.

Fixpoint skip_space (s : string) : string :=
  match s with
  | String a t => if isspace a then skip_space t else s
  | EmptyString => s
  end.

Definition is_delim (delim : string) (c : ascii) : bool :=
  existsb (Ascii.eqb c) (list_ascii_of_string delim).

Fixpoint skip_delim (delim s : string) : string :=
  match s with
  | String a t => if is_delim delim a then skip_delim delim t else s
  | EmptyString => s
  end.

(** The token at the head of [s] and what follows the delimiter that ended
    it. *)
Fixpoint span_token (delim s : string) : string * string :=
  match s with
  | EmptyString => (EmptyString, EmptyString)
  | String a t =>
      if is_delim delim a then (EmptyString, t)
      else let (tok, rest) := span_token delim t in (String a tok, rest)
  end.

(** [strtok_r]: [None] is the NULL it returns when only delimiters are
    left; otherwise the token and the new save pointer. *)
Definition strtok_r (s delim : string) : option (string * string) :=
  match skip_delim delim s with
  | EmptyString => None
  | s1 => Some (span_token delim s1)
  end.

(** The first character of a string, NUL for the empty one. *)
Definition head (s : string) : ascii :=
  match s with
  | String a _ => a
  | EmptyString => zero
  end.

(** The pieces of [s] between commas, as the loop over [strchr(ustr, ',')]
    in [process_line] meets them. *)
Fixpoint split_commas (s : string) : list string :=
  match s with
  | EmptyString => [EmptyString]
  | String a t =>
      if Ascii.eqb a "," then EmptyString :: split_commas t
      else match split_commas t with
           | x :: l => String a x :: l
           | [] => [String a EmptyString]
           end
  end.

(** [sprintf(expanded, "%s%s%s", before, val, after)] around the first
    occurrence of a five-character variable. *)
Definition expand_var (var val s : string) : string :=
  match strstr s var with
  | Some n => take n s ++ val ++ drop (n + String.length var) s
  | None => s
  end.

End CStr.

(* ===================================================================== *)
(** ** Constants of the headers *)
(* ===================================================================== *)

(** Modelled from the spec: libpam's [_pam_types.h] is not among the sources.
    The outcomes the spec names Success, SessionError and SystemError (and the
    service error the loader uses) carry libpam's numbers; all the failures
    are positive. *)
Definition PAM_SUCCESS : Z := 0.
Definition PAM_SERVICE_ERR : Z := 3.
Definition PAM_SYSTEM_ERR : Z := 4.
Definition PAM_SESSION_ERR : Z := 14.

(** Modelled from the spec: [pam_namespace.h] is not among the sources.  The
    feature flags of the session identity are distinct one-bit masks of
    [idata->flags]. *)
Definition PAMNS_DEBUG : Z := 256.
Definition PAMNS_SELINUX_ENABLED : Z := 1024.
Definition PAMNS_CTXT_BASED_INST : Z := 2048.
Definition PAMNS_GEN_HASH : Z := 8192.
Definition PAMNS_IGN_CONFIG_ERR : Z := 16384.
Definition PAMNS_IGN_INST_PARENT_MODE : Z := 32768.
Definition PAMNS_NO_UNMOUNT_ON_CLOSE : Z := 65536.

(** [flags & mask] read as a C condition. *)
Definition flag_set (flags mask : Z) : bool := negb (Z.land flags mask =? 0).

(** Modelled from the spec: the fixed, well-known paths and the name of the
    session-scoped slot are macros of [pam_namespace.h]. *)
Definition PAM_NAMESPACE_CONFIG : string := "/etc/security/namespace.conf".
Definition NAMESPACE_INIT_SCRIPT : string := "/etc/security/namespace.init".
Definition NAMESPACE_POLYDIR_DATA : string := "pam_namespace:polydir_data".

(** System constants: [limits.h], [errno.h], [sys/stat.h], [syslog.h],
    [openssl/md5.h]. *)
Definition PATH_MAX : Z := 4096.
Definition LOGIN_NAME_MAX : Z := 256.
Definition MD5_DIGEST_LENGTH : nat := 16.

Definition ENOENT : Z := 2.
Definition EBADF : Z := 9.
Definition ECHILD : Z := 10.
Definition EEXIST : Z := 17.
Definition ENOTDIR : Z := 20.
Definition EINVAL : Z := 22.

Definition S_IFMT : Z := 61440.     (* 0170000 *)
Definition S_IFDIR : Z := 16384.    (* 0040000 *)
Definition S_IRWXUGO : Z := 511.    (* S_IRWXU|S_IRWXG|S_IRWXO = 0777 *)
Definition S_IRUSR : Z := 256.      (* 0400 *)
Definition S_IRWXU : Z := 448.      (* 0700 *)
Definition S_IXUGO : Z := 73.       (* 0111 *)
Definition MODE_BITS : Z := 4095.   (* 07777 *)

Definition S_ISDIR (mode : Z) : bool := Z.land mode S_IFMT =? S_IFDIR.

Definition F_OK : Z := 0.
Definition X_OK : Z := 1.
Definition MS_BIND : Z := 4096.
Definition CLONE_NEWNS : Z := 131072.

Definition LOG_ERR : Z := 3.
Definition LOG_NOTICE : Z := 5.
Definition LOG_DEBUG : Z := 7.

(** The status macros of [sys/wait.h]. *)
Definition WTERMSIG (status : Z) : Z := Z.land status 127.
Definition WIFEXITED (status : Z) : bool := WTERMSIG status =? 0.
Definition WIFSIGNALED (status : Z) : bool :=
  let t := WTERMSIG status + 1 in
  let sc := if 128 <=? t then t - 256 else t in   (* (signed char) *)
  0 <? Z.shiftr sc 1.
Definition WEXITSTATUS (status : Z) : Z := Z.shiftr (Z.land status 65280) 8.

(* ===================================================================== *)
(** ** The rule model *)
(* ===================================================================== *)

(** [enum polymethod] *)
Inductive polymethod : Set := NONE | USER | CONTEXT | LEVEL | TMPDIR | TMPFS.

(** [enum unmnt_op] *)
Inductive unmnt_op : Set := NO_UNMNT | UNMNT_REMNT | UNMNT_ONLY.

Definition polymethod_eqb (a b : polymethod) : bool :=
  match a, b with
  | NONE, NONE | USER, USER | CONTEXT, CONTEXT | LEVEL, LEVEL
  | TMPDIR, TMPDIR | TMPFS, TMPFS => true
  | _, _ => false
  end.

Definition unmnt_op_eqb (a b : unmnt_op) : bool :=
  match a, b with
  | NO_UNMNT, NO_UNMNT | UNMNT_REMNT, UNMNT_REMNT | UNMNT_ONLY, UNMNT_ONLY => true
  | _, _ => false
  end.

(** [struct polydir_s].  [uid] is the array of override uids; [num_uids] is
    its length; [next] is the position in the list. *)
Record polydir_s : Type := mk_polydir {
  dir : string;
  instance_prefix : string;
  method : polymethod;
  uid : list Z;
  exclusive : Z
}.

Definition num_uids (p : polydir_s) : nat := List.length (uid p).

Definition set_instance_prefix (s : string) (p : polydir_s) : polydir_s :=
  mk_polydir (dir p) s (method p) (uid p) (exclusive p).

Definition set_method (m : polymethod) (p : polydir_s) : polydir_s :=
  mk_polydir (dir p) (instance_prefix p) m (uid p) (exclusive p).

(** A [struct polydir_s *]: the list it belongs to and its position there. *)
Definition polyptr : Set := (nat * nat)%type.

(** [struct instance_data]; the handle [pamh] is the world itself. *)
Record instance_data : Type := mk_idata {
  polydirs_ptr : option nat;
  user : string;
  id_uid : Z;
  flags : Z
}.

Definition set_polydirs_ptr (p : option nat) (i : instance_data) : instance_data :=
  mk_idata p (user i) (id_uid i) (flags i).

(* ===================================================================== *)
(** ** The world *)
(* ===================================================================== *)

(** What [stat] reports of a file-system object, and its security label. *)
Record inode : Type := mk_inode {
  st_mode : Z;
  st_uid : Z;
  st_gid : Z;
  st_con : string
}.

(** A disposition of a signal.  Where C has a [sighandler_t] that may be
    SIG_ERR the model has an [option sighandler], [None] for SIG_ERR. *)
Inductive sighandler : Set := SIG_DFL | SIG_IGN | SIG_FUN (n : nat).

(** The calls the module makes. *)
Inductive call : Type :=
| c_signal (h : option sighandler)
| c_access (path : string) (mode : Z)
| c_fork (prog : string) (argv : list string)
| c_waitpid (pid : Z)
| c_stat (path : string)
| c_mkdir (path : string) (mode : Z)
| c_mkdtemp (template : string)
| c_open (path : string)
| c_fstat (fd : Z)
| c_fchown (fd u g : Z)
| c_fchmod (fd mode : Z)
| c_close (fd : Z)
| c_rmdir (path : string)
| c_mount (source target fstype : string) (mflags : Z)
| c_umount (target : string)
| c_getcwd
| c_chdir (path : string)
| c_unshare (uflags : Z)
| c_fopen (path : string)
| c_pam_get_item (item : string)
| c_pam_set_data (data : option nat)
| c_pam_get_data
| c_getfilecon (path : string)
| c_getexeccon
| c_compute_member (scon tcon : string)
| c_trans_to_raw (con : string)
| c_fsetfilecon (fd : Z) (con : string).

(** A call with the errno it ended with (0: it succeeded), or a line given
    to [pam_syslog]: its priority and format. *)
Inductive event : Type :=
| EvCall (c : call) (errno : Z)
| EvLog (prio : Z) (fmt : string).

Record passwd : Type := mk_passwd { pw_uid : Z; pw_dir : string }.

(** What the module does not decide.  The functions of the history are asked
    at the moment of the call; the history is newest first. *)
Record oracle : Type := mk_oracle {
  (* built with WITH_SELINUX? *)
  WITH_SELINUX : bool;
  (* the macro of pam_namespace.h bounding an instance name *)
  NAMESPACE_MAX_DIR_LEN : Z;
  (* the errno a call fails with now, 0 when nothing goes wrong *)
  fault : list event -> call -> Z;
  (* the pid of the next child *)
  child_pid : list event -> positive;
  (* the status the child ends with *)
  child_status : list event -> Z;
  (* the six characters mkdtemp fills in *)
  temp_suffix : list event -> string;
  (* the user database *)
  getpwnam : string -> option passwd;
  (* the real uid of the process, and the ids and umask new objects get *)
  getuid : Z;
  euid : Z;
  egid : Z;
  umask : Z;
  (* PAM_USER and PAM_RUSER *)
  pam_user : option string;
  pam_ruser : option string;
  (* the lines of the configuration file, as getline returns them *)
  conf_lines : list string;
  (* SELinux: enabled?, the exec context, the policy's member context, the
     raw form of a context, the label of a new object *)
  is_selinux_enabled : bool;
  execcon : option string;
  member_con : string -> string -> string;
  raw_con : string -> string;
  default_con : string;
  (* what a child that is not /bin/rm (the site's init script) leaves of the
     files and of the mount table, given its arguments *)
  script_effect : list event -> list string ->
                  (string -> option inode) * list (string * string * string) ->
                  (string -> option inode) * list (string * string * string);
  (* of the tree an rm that failed was to remove: is this path gone? *)
  rm_partial : list event -> string -> bool
}.

Record world : Type := mk_world {
  w_os : oracle;
  w_trace : list event;
  (* file-system objects by path *)
  w_fs : string -> option inode;
  (* the mount table: (source, target, type), newest first *)
  w_mounts : list (string * string * string);
  (* open descriptors and the object each refers to *)
  w_fds : list (Z * string);
  w_next_fd : Z;
  w_cwd : string;
  w_sigchld : sighandler;
  (* children not waited for yet: pid and what they exec *)
  w_children : list (Z * (string * list string));
  (* has the process left its parent's mount namespace? *)
  w_unshared : bool;
  (* the rule lists on the heap and the next free address *)
  w_heap : nat -> option (list polydir_s);
  w_brk : nat;
  (* libpam's slot NAMESPACE_POLYDIR_DATA: its data and whether cleanup_data
     is registered with it *)
  w_data : option (option nat * bool)
}.

Definition set_trace (x : list event) (w : world) : world :=
  mk_world (w_os w) x (w_fs w) (w_mounts w) (w_fds w) (w_next_fd w) (w_cwd w)
    (w_sigchld w) (w_children w) (w_unshared w) (w_heap w) (w_brk w) (w_data w).
Definition set_fs (x : string -> option inode) (w : world) : world :=
  mk_world (w_os w) (w_trace w) x (w_mounts w) (w_fds w) (w_next_fd w) (w_cwd w)
    (w_sigchld w) (w_children w) (w_unshared w) (w_heap w) (w_brk w) (w_data w).
Definition set_mounts (x : list (string * string * string)) (w : world) : world :=
  mk_world (w_os w) (w_trace w) (w_fs w) x (w_fds w) (w_next_fd w) (w_cwd w)
    (w_sigchld w) (w_children w) (w_unshared w) (w_heap w) (w_brk w) (w_data w).
Definition set_fds (x : list (Z * string)) (n : Z) (w : world) : world :=
  mk_world (w_os w) (w_trace w) (w_fs w) (w_mounts w) x n (w_cwd w)
    (w_sigchld w) (w_children w) (w_unshared w) (w_heap w) (w_brk w) (w_data w).
Definition set_cwd (x : string) (w : world) : world :=
  mk_world (w_os w) (w_trace w) (w_fs w) (w_mounts w) (w_fds w) (w_next_fd w) x
    (w_sigchld w) (w_children w) (w_unshared w) (w_heap w) (w_brk w) (w_data w).
Definition set_sigchld (x : sighandler) (w : world) : world :=
  mk_world (w_os w) (w_trace w) (w_fs w) (w_mounts w) (w_fds w) (w_next_fd w) (w_cwd w)
    x (w_children w) (w_unshared w) (w_heap w) (w_brk w) (w_data w).
Definition set_children (x : list (Z * (string * list string))) (w : world) : world :=
  mk_world (w_os w) (w_trace w) (w_fs w) (w_mounts w) (w_fds w) (w_next_fd w) (w_cwd w)
    (w_sigchld w) x (w_unshared w) (w_heap w) (w_brk w) (w_data w).
Definition set_unshared (x : bool) (w : world) : world :=
  mk_world (w_os w) (w_trace w) (w_fs w) (w_mounts w) (w_fds w) (w_next_fd w) (w_cwd w)
    (w_sigchld w) (w_children w) x (w_heap w) (w_brk w) (w_data w).
Definition set_heap (x : nat -> option (list polydir_s)) (n : nat) (w : world) : world :=
  mk_world (w_os w) (w_trace w) (w_fs w) (w_mounts w) (w_fds w) (w_next_fd w) (w_cwd w)
    (w_sigchld w) (w_children w) (w_unshared w) x n (w_data w).
Definition set_data (x : option (option nat * bool)) (w : world) : world :=
  mk_world (w_os w) (w_trace w) (w_fs w) (w_mounts w) (w_fds w) (w_next_fd w) (w_cwd w)
    (w_sigchld w) (w_children w) (w_unshared w) (w_heap w) (w_brk w) x.

(* ===================================================================== *)
(** ** The monad *)
(* ===================================================================== *)

Definition M (A : Type) : Type := world -> A * world.

Definition ret {A} (a : A) : M A := fun w => (a, w).
Definition bind {A B} (m : M A) (k : A -> M B) : M B :=
  fun w => let (a, w1) := m w in k a w1.
Definition gets {A} (f : world -> A) : M A := fun w => (f w, w).
Definition modify (f : world -> world) : M unit := fun w => (tt, f w).

Declare Scope m_scope.
Delimit Scope m_scope with M.
Notation "x <- m ;; k" := (bind m (fun x => k))
  (at level 61, m at next level, right associativity) : m_scope.
Notation "m ;; k" := (bind m (fun _ => k))
  (at level 61, right associativity) : m_scope.
Local Open Scope m_scope.

(** The value and the world a computation ends with. *)
Definition result {A} (m : M A) (w : world) : A := fst (m w).
Definition after {A} (m : M A) (w : world) : world := snd (m w).

Definition emit (e : event) : M unit :=
  modify (fun w => set_trace (e :: w_trace w) w).

(** Does the environment make this call fail, and with which errno? *)
Definition ask (c : call) : M Z :=
  fun w => (fault (w_os w) (w_trace w) c, w).

Definition record_call (c : call) (errno : Z) : M unit := emit (EvCall c errno).

(** A call: the environment may fail it with an errno of its choice;
    otherwise [body] gives what the call does to the world, the errno it ends
    with for the world's own reasons, and its value.  [dflt] is the value of
    a call the environment failed. *)
Definition sys {A} (c : call) (dflt : A) (body : M (Z * A)) : M (Z * A) :=
  e <- ask c ;;
  if e =? 0 then
    r <- body ;;
    record_call c (fst r) ;;
    ret r
  else
    record_call c e ;;
    ret (e, dflt).

(** [pam_syslog] *)
Definition pam_syslog (prio : Z) (fmt : string) : M unit := emit (EvLog prio fmt).

(** [if (idata->flags & PAMNS_DEBUG) pam_syslog(...)] *)
Definition debug (idata : instance_data) (prio : Z) (fmt : string) : M unit :=
  if flag_set (flags idata) PAMNS_DEBUG then pam_syslog prio fmt else ret tt.

(* ===================================================================== *)
(** ** The kernel, libc, libpam and libselinux as the module meets them *)
(* ===================================================================== *)

Definition fs_set (p : string) (i : option inode)
    (fs : string -> option inode) : string -> option inode :=
  fun q => if String.eqb q p then i else fs q.

(** Below [p], or [p] itself. *)
Definition in_tree (p q : string) : bool :=
  (String.eqb q p || String.prefix (p ++ "/") q)%bool.

Definition fs_remove_tree (p : string)
    (fs : string -> option inode) : string -> option inode :=
  fun q => if in_tree p q then None else fs q.

Fixpoint assoc_find {A} (k : Z) (l : list (Z * A)) : option A :=
  match l with
  | [] => None
  | (k', a) :: t => if k' =? k then Some a else assoc_find k t
  end.

Fixpoint assoc_remove {A} (k : Z) (l : list (Z * A)) : list (Z * A) :=
  match l with
  | [] => []
  | (k', a) :: t => if k' =? k then t else (k', a) :: assoc_remove k t
  end.

(** [signal(SIGCHLD, h)]: the previous disposition, or SIG_ERR. *)
Definition signal_SIGCHLD (h : option sighandler) : M (option sighandler) :=
  r <- sys (c_signal h) None
         (match h with
          | None => ret (EINVAL, None)
          | Some d =>
              old <- gets w_sigchld ;;
              modify (set_sigchld d) ;;
              ret (0, Some old)
          end) ;;
  ret (if fst r =? 0 then snd r else None).

(** [access(path, mode)]: 0 or -1. *)
Definition access (path : string) (mode : Z) : M Z :=
  r <- sys (c_access path mode) tt
         (fs <- gets w_fs ;;
          match fs path with
          | None => ret (ENOENT, tt)
          | Some i =>
              if (mode =? X_OK) && (Z.land (st_mode i) S_IXUGO =? 0)
              then ret (13, tt)
              else ret (0, tt)
          end) ;;
  ret (if fst r =? 0 then 0 else -1).

(** [fork()] as the parent sees it, with what the child goes on to exec: the
    pid of the child, or -1.  The child's side ([setexeccon], [execl],
    [exit(1)]) shows in the status it ends with. *)
Definition fork (prog : string) (argv : list string) : M Z :=
  r <- sys (c_fork prog argv) (-1)
         (fun w =>
            let pid := Z.pos (child_pid (w_os w) (w_trace w)) in
            ((0, pid), set_children ((pid, (prog, argv)) :: w_children w) w)) ;;
  ret (if fst r =? 0 then snd r else -1).

(** What a child that has ended leaves behind.  [/bin/rm -rf path] that
    exits with 0 has removed the tree; one that ends otherwise has removed
    what the environment says of the tree, and nothing outside it.  Any other
    child, the site's init script, shares the files and the mount namespace
    with the module: what it leaves of them is the environment's to say. *)
Definition child_effect (prog : string) (argv : list string) (status : Z)
    (w : world) : world :=
  if String.eqb prog "/bin/rm" then
    match argv with
    | [_; opt; path] =>
        if String.eqb opt "-rf" then
          if WIFEXITED status && (WEXITSTATUS status =? 0)
          then set_fs (fs_remove_tree path (w_fs w)) w
          else set_fs (fun q => if in_tree path q
                                   && rm_partial (w_os w) (w_trace w) q
                                then None else w_fs w q) w
        else w
    | _ => w
    end
  else
    let s := script_effect (w_os w) (w_trace w) argv (w_fs w, w_mounts w) in
    set_mounts (snd s) (set_fs (fst s) w).

(** [while (((rc = waitpid(pid, &status, 0)) == -1) && (errno == EINTR));]:
    the answer that ends the loop, [(rc, status)]. *)
Definition waitpid (pid : Z) : M (Z * Z) :=
  r <- sys (c_waitpid pid) 0
         (fun w =>
            match assoc_find pid (w_children w) with
            | None => ((ECHILD, 0), w)
            | Some (prog, argv) =>
                let status := child_status (w_os w) (w_trace w) in
                ((0, status),
                 child_effect prog argv status
                   (set_children (assoc_remove pid (w_children w)) w))
            end) ;;
  ret (if fst r =? 0 then (pid, snd r) else (-1, 0)).

(** [stat(path, &buf)] *)
Definition stat (path : string) : M (option inode) :=
  r <- sys (c_stat path) None
         (fs <- gets w_fs ;;
          match fs path with
          | None => ret (ENOENT, None)
          | Some i => ret (0, Some i)
          end) ;;
  ret (if fst r =? 0 then snd r else None).

Definition new_dir (mode : Z) (w : world) : inode :=
  mk_inode (Z.lor S_IFDIR mode) (euid (w_os w)) (egid (w_os w))
           (default_con (w_os w)).

(** [mkdir(path, mode)]: 0, or the errno. *)
Definition mkdir (path : string) (mode : Z) : M Z :=
  r <- sys (c_mkdir path mode) tt
         (fun w =>
            match w_fs w path with
            | Some _ => ((EEXIST, tt), w)
            | None =>
                let m := Z.land mode (Z.lnot (umask (w_os w))) in
                ((0, tt), set_fs (fs_set path (Some (new_dir m w)) (w_fs w)) w)
            end) ;;
  ret (fst r).

Definition has_template (s : string) : bool :=
  let n := String.length s in
  (Nat.leb 6 n && String.eqb (CStr.drop (n - 6) s) "XXXXXX")%bool.

(** [mkdtemp(template)]: the name it wrote into the template, or NULL. *)
Definition mkdtemp (template : string) : M (option string) :=
  r <- sys (c_mkdtemp template) None
         (fun w =>
            if has_template template then
              let name := CStr.take (String.length template - 6) template
                          ++ temp_suffix (w_os w) (w_trace w) in
              match w_fs w name with
              | Some _ => ((EEXIST, None), w)
              | None =>
                  ((0, Some name),
                   set_fs (fs_set name (Some (new_dir S_IRWXU w)) (w_fs w)) w)
              end
            else ((EINVAL, None), w)) ;;
  ret (if fst r =? 0 then snd r else None).

(** [open(path, O_DIRECTORY | O_RDONLY)]: the descriptor, or -1. *)
Definition open_dir (path : string) : M Z :=
  r <- sys (c_open path) (-1)
         (fun w =>
            match w_fs w path with
            | None => ((ENOENT, -1), w)
            | Some i =>
                if S_ISDIR (st_mode i) then
                  let fd := w_next_fd w in
                  ((0, fd), set_fds ((fd, path) :: w_fds w) (fd + 1) w)
                else ((ENOTDIR, -1), w)
            end) ;;
  ret (if fst r =? 0 then snd r else -1).

(** The object behind a descriptor. *)
Definition fd_inode (fd : Z) (w : world) : option (string * inode) :=
  match assoc_find fd (w_fds w) with
  | None => None
  | Some p => match w_fs w p with
              | None => None
              | Some i => Some (p, i)
              end
  end.

Definition fstat (fd : Z) : M (option inode) :=
  r <- sys (c_fstat fd) None
         (o <- gets (fd_inode fd) ;;
          match o with
          | None => ret (EBADF, None)
          | Some (_, i) => ret (0, Some i)
          end) ;;
  ret (if fst r =? 0 then snd r else None).

(** A call that changes the object behind a descriptor: 0 or -1. *)
Definition on_fd (c : call) (fd : Z) (f : inode -> inode) : M Z :=
  r <- sys c tt
         (fun w =>
            match fd_inode fd w with
            | None => ((EBADF, tt), w)
            | Some (p, i) => ((0, tt), set_fs (fs_set p (Some (f i)) (w_fs w)) w)
            end) ;;
  ret (if fst r =? 0 then 0 else -1).

Definition fchown (fd u g : Z) : M Z :=
  on_fd (c_fchown fd u g) fd
        (fun i => mk_inode (st_mode i) u g (st_con i)).

Definition fchmod (fd mode : Z) : M Z :=
  on_fd (c_fchmod fd mode) fd
        (fun i => mk_inode (Z.lor (Z.land (st_mode i) S_IFMT) (Z.land mode MODE_BITS))
                           (st_uid i) (st_gid i) (st_con i)).

Definition fsetfilecon (fd : Z) (con : string) : M Z :=
  on_fd (c_fsetfilecon fd con) fd
        (fun i => mk_inode (st_mode i) (st_uid i) (st_gid i) con).

Definition close (fd : Z) : M unit :=
  sys (c_close fd) tt
      (fun w =>
         match assoc_find fd (w_fds w) with
         | None => ((EBADF, tt), w)
         | Some _ => ((0, tt), set_fds (assoc_remove fd (w_fds w)) (w_next_fd w) w)
         end) ;;
  ret tt.

Definition rmdir (path : string) : M unit :=
  sys (c_rmdir path) tt
      (fun w =>
         match w_fs w path with
         | None => ((ENOENT, tt), w)
         | Some i =>
             if S_ISDIR (st_mode i)
             then ((0, tt), set_fs (fs_set path None (w_fs w)) w)
             else ((ENOTDIR, tt), w)
         end) ;;
  ret tt.

(** The errno of a mount for the world's own reasons: the target has to be
    there, and so has the source of a bind mount. *)
Definition mount_errno (w : world) (source target : string) (mflags : Z) : Z :=
  match w_fs w target with
  | None => ENOENT
  | Some _ =>
      if negb (Z.land mflags MS_BIND =? 0) then
        match w_fs w source with
        | None => ENOENT
        | Some _ => 0
        end
      else 0
  end.

(** [mount(source, target, fstype, flags, NULL)]: 0 or -1. *)
Definition mount (source target fstype : string) (mflags : Z) : M Z :=
  r <- sys (c_mount source target fstype mflags) tt
         (fun w =>
            let e := mount_errno w source target mflags in
            if e =? 0
            then ((0, tt), set_mounts ((source, target, fstype) :: w_mounts w) w)
            else ((e, tt), w)) ;;
  ret (if fst r =? 0 then 0 else -1).

Definition mounted_on (target : string) (m : string * string * string) : bool :=
  String.eqb (snd (fst m)) target.

(** The table without its newest mount on [target]. *)
Fixpoint unmount_top (target : string) (l : list (string * string * string))
  : list (string * string * string) :=
  match l with
  | [] => []
  | m :: t => if mounted_on target m then t else m :: unmount_top target t
  end.

(** [umount(target)]: 0, or the errno; ENOENT when the target is not there,
    EINVAL when it is there and nothing is mounted on it. *)
Definition umount (target : string) : M Z :=
  r <- sys (c_umount target) tt
         (fun w =>
            match w_fs w target with
            | None => ((ENOENT, tt), w)
            | Some _ =>
                if existsb (mounted_on target) (w_mounts w)
                then ((0, tt), set_mounts (unmount_top target (w_mounts w)) w)
                else ((EINVAL, tt), w)
            end) ;;
  ret (fst r).

(** [getcwd(cwd, PATH_MAX)] *)
Definition getcwd : M (option string) :=
  r <- sys c_getcwd None (d <- gets w_cwd ;; ret (0, Some d)) ;;
  ret (if fst r =? 0 then snd r else None).

(** [chdir(path)]: 0 or -1. *)
Definition chdir (path : string) : M Z :=
  r <- sys (c_chdir path) tt (modify (set_cwd path) ;; ret (0, tt)) ;;
  ret (if fst r =? 0 then 0 else -1).

(** [unshare(CLONE_NEWNS)]: 0 or -1. *)
Definition unshare (uflags : Z) : M Z :=
  r <- sys (c_unshare uflags) tt (modify (set_unshared true) ;; ret (0, tt)) ;;
  ret (if fst r =? 0 then 0 else -1).

(** [fopen(PAM_NAMESPACE_CONFIG, "r")] and the lines [getline] will return. *)
Definition fopen_lines (path : string) : M (option (list string)) :=
  r <- sys (c_fopen path) None
         (l <- gets (fun w => conf_lines (w_os w)) ;; ret (0, Some l)) ;;
  ret (if fst r =? 0 then snd r else None).

(** [pam_modutil_getpwnam] *)
Definition pam_modutil_getpwnam (name : string) : M (option passwd) :=
  gets (fun w => getpwnam (w_os w) name).

(** Modelled from the spec: libpam is not among the sources.  [pam_get_item]
    gives the return value and the item, NULL when it is not set. *)
Definition pam_get_item (item : string) (read : oracle -> option string)
  : M (Z * option string) :=
  r <- sys (c_pam_get_item item) None
         (v <- gets (fun w => read (w_os w)) ;; ret (0, v)) ;;
  ret r.

Definition PAM_USER : string := "PAM_USER".
Definition PAM_RUSER : string := "PAM_RUSER".

(** Deletes all the entries in the linked list. *)
Definition del_polydir_list (polydirs : option nat) : M unit :=
  match polydirs with
  | None => ret tt
  | Some a =>
      modify (fun w => set_heap (fun b => if Nat.eqb b a then None else w_heap w b)
                                (w_brk w) w)
  end.

(** [cleanup_data], the callback registered with the slot. *)
Definition cleanup_data (data : option nat) : M unit := del_polydir_list data.

(** Modelled from the spec: libpam is not among the sources.  The
    session-scoped slot: [pam_set_data] replaces what the slot holds, running
    the cleanup registered with the old data, and that cannot fail; making
    the slot the first time can (libpam allocates it).  [pam_get_data] reads
    the slot. *)
Definition PAM_NO_MODULE_DATA : Z := 18.

Definition pam_set_data (data : option nat) (cleanup : bool) : M Z :=
  old <- gets w_data ;;
  match old with
  | Some (d, c) =>
      (if c then cleanup_data d else ret tt) ;;
      modify (set_data (Some (data, cleanup))) ;;
      record_call (c_pam_set_data data) 0 ;;
      ret PAM_SUCCESS
  | None =>
      r <- sys (c_pam_set_data data) tt
             (modify (set_data (Some (data, cleanup))) ;; ret (0, tt)) ;;
      ret (fst r)
  end.

Definition pam_get_data : M (Z * option nat) :=
  s <- gets w_data ;;
  let r := match s with
           | None => (PAM_NO_MODULE_DATA, None)
           | Some (d, _) => (PAM_SUCCESS, d)
           end in
  record_call c_pam_get_data (fst r) ;;
  ret r.

(** libselinux.  A context that may be NULL is an [option string]. *)
Definition getfilecon (path : string) : M (Z * option string) :=
  r <- sys (c_getfilecon path) None
         (fs <- gets w_fs ;;
          match fs path with
          | None => ret (ENOENT, None)
          | Some i => ret (0, Some (st_con i))
          end) ;;
  ret (if fst r =? 0 then (0, snd r) else (-1, None)).

Definition getexeccon : M (Z * option string) :=
  r <- sys c_getexeccon None
         (c <- gets (fun w => execcon (w_os w)) ;; ret (0, c)) ;;
  ret (if fst r =? 0 then (0, snd r) else (-1, None)).

Definition security_compute_member (scon tcon : string) : M (Z * option string) :=
  r <- sys (c_compute_member scon tcon) None
         (c <- gets (fun w => member_con (w_os w) scon tcon) ;; ret (0, Some c)) ;;
  ret (if fst r =? 0 then (0, snd r) else (-1, None)).

Definition selinux_trans_to_raw_context (con : option string)
  : M (Z * option string) :=
  match con with
  | None => ret (0, None)
  | Some c =>
      r <- sys (c_trans_to_raw c) None
             (x <- gets (fun w => raw_con (w_os w) c) ;; ret (0, Some x)) ;;
      ret (if fst r =? 0 then (0, snd r) else (-1, None))
  end.

(** [context_t]: user, role, type and the optional range. *)
Record context_t : Type := mk_context {
  ctx_user : string; ctx_role : string; ctx_type : string;
  ctx_range : option string
}.

Definition split_colon (s : string) : option (string * string) :=
  match CStr.strchr s ":" with
  | None => None
  | Some n => Some (CStr.take n s, CStr.drop (S n) s)
  end.

Definition context_new (s : string) : option context_t :=
  match split_colon s with
  | None => None
  | Some (u, s1) =>
      match split_colon s1 with
      | None => None
      | Some (r, s2) =>
          match split_colon s2 with
          | None => Some (mk_context u r s2 None)
          | Some (t, rg) => Some (mk_context u r t (Some rg))
          end
      end
  end.

Definition context_range_get (c : context_t) : option string := ctx_range c.

Definition context_range_set (c : context_t) (r : option string) : context_t :=
  mk_context (ctx_user c) (ctx_role c) (ctx_type c) r.

Definition context_str (c : context_t) : string :=
  ctx_user c ++ ":" ++ ctx_role c ++ ":" ++ ctx_type c ++
  match ctx_range c with
  | None => EmptyString
  | Some r => ":" ++ r
  end.

(** [%s] of a string that may be NULL, as glibc prints it. *)
Definition show_null (s : option string) : string :=
  match s with
  | Some x => x
  | None => "(null)"
  end.

(* ===================================================================== *)
(** ** MD5 *)
(* ===================================================================== *)

(** [MD5()] of libcrypto, written after RFC 1321 on 32-bit words held in
    [Z]. *)
Module MD5.

Definition w32 (x : Z) : Z := x mod 4294967296.

Definition rotl (x n : Z) : Z :=
  w32 (Z.lor (Z.shiftl x n) (Z.shiftr x (32 - n))).

Definition not32 (x : Z) : Z := Z.lxor x 4294967295.

Definition K : list Z :=
  [3614090360; 3905402710; 606105819; 3250441966; 4118548399; 1200080426;
   2821735955; 4249261313; 1770035416; 2336552879; 4294925233; 2304563134;
   1804603682; 4254626195; 2792965006; 1236535329; 4129170786; 3225465664;
   643717713; 3921069994; 3593408605; 38016083; 3634488961; 3889429448;
   568446438; 3275163606; 4107603335; 1163531501; 2850285829; 4243563512;
   1735328473; 2368359562; 4294588738; 2272392833; 1839030562; 4259657740;
   2763975236; 1272893353; 4139469664; 3200236656; 681279174; 3936430074;
   3572445317; 76029189; 3654602809; 3873151461; 530742520; 3299628645;
   4096336452; 1126891415; 2878612391; 4237533241; 1700485571; 2399980690;
   4293915773; 2240044497; 1873313359; 4264355552; 2734768916; 1309151649;
   4149444226; 3174756917; 718787259; 3951481745].

Definition S : list Z :=
  [7; 12; 17; 22; 7; 12; 17; 22; 7; 12; 17; 22; 7; 12; 17; 22;
   5; 9; 14; 20; 5; 9; 14; 20; 5; 9; 14; 20; 5; 9; 14; 20;
   4; 11; 16; 23; 4; 11; 16; 23; 4; 11; 16; 23; 4; 11; 16; 23;
   6; 10; 15; 21; 6; 10; 15; 21; 6; 10; 15; 21; 6; 10; 15; 21].

Definition state : Type := (Z * Z * Z * Z)%type.

Definition init : state := (1732584193, 4023233417, 2562383102, 271733878).

(** One of the 64 operations of a block. *)
Definition step (m : list Z) (st : state) (i : nat) : state :=
  let '(a, b, c, d) := st in
  let iz := Z.of_nat i in
  let '(f, g) :=
    if iz <? 16 then (Z.lor (Z.land b c) (Z.land (not32 b) d), iz)
    else if iz <? 32 then (Z.lor (Z.land d b) (Z.land (not32 d) c), (5 * iz + 1) mod 16)
    else if iz <? 48 then (Z.lxor b (Z.lxor c d), (3 * iz + 5) mod 16)
    else (Z.lxor c (Z.lor b (not32 d)), (7 * iz) mod 16) in
  let f' := w32 (f + a + nth i K 0 + nth (Z.to_nat g) m 0) in
  (d, w32 (b + rotl f' (nth i S 0)), b, c).

Definition block (st : state) (m : list Z) : state :=
  let '(a0, b0, c0, d0) := st in
  let '(a, b, c, d) := fold_left (step m) (seq 0 64) st in
  (w32 (a0 + a), w32 (b0 + b), w32 (c0 + c), w32 (d0 + d)).

(** Little-endian bytes of a word, and back. *)
Definition bytes_of (n : nat) (x : Z) : list Z :=
  map (fun k => Z.shiftr x (8 * Z.of_nat k) mod 256) (seq 0 n).

Fixpoint word_of (l : list Z) : Z :=
  match l with
  | [] => 0
  | b :: t => b + 256 * word_of t
  end.

(** The padded message cut into words, then into blocks of 16 words;
    [fuel] bounds the number of pieces. *)
Fixpoint chunks {A} (fuel n : nat) (l : list A) : list (list A) :=
  match fuel with
  | O => []
  | Datatypes.S k =>
      match l with
      | [] => []
      | _ => firstn n l :: chunks k n (skipn n l)
      end
  end.

Definition pad (msg : list Z) : list Z :=
  let len := List.length msg in
  let zeros := ((119 - len mod 64) mod 64)%nat in
  msg ++ [128] ++ repeat 0 zeros ++ bytes_of 8 (8 * Z.of_nat len).

Definition digest (msg : list Z) : list Z :=
  let p := pad msg in
  let words := map word_of (chunks (List.length p) 4 p) in
  let '(a, b, c, d) :=
    fold_left block (chunks (List.length words) 16 words) init in
  bytes_of 4 a ++ bytes_of 4 b ++ bytes_of 4 c ++ bytes_of 4 d.

End MD5.

Definition bytes_of_string (s : string) : list Z :=
  map (fun c => Z.of_nat (nat_of_ascii c)) (list_ascii_of_string s).

(** [MD5(instname, strlen(instname), inst_digest)] *)
Definition MD5_of (instname : string) : list Z := MD5.digest (bytes_of_string instname).

Definition hex_digit (n : Z) : ascii :=
  ascii_of_nat (Z.to_nat (if n <? 10 then 48 + n else 87 + n)).

(** [snprintf(to, 3, "%02x", (unsigned int)b)] for a byte. *)
Definition hex2 (b : Z) : string :=
  String (hex_digit (b / 16 mod 16)) (String (hex_digit (b mod 16)) EmptyString).

(** md5hash generates a hash of the passed in instance directory name. *)
Definition md5hash (instname : string) : string :=
  String.concat EmptyString (map hex2 (MD5_of instname)).


(* ===================================================================== *)
(** ** The rule list *)
(* ===================================================================== *)

(** The cells a list pointer leads to; NULL leads to none. *)
Definition cells (p : option nat) (w : world) : list polydir_s :=
  match p with
  | None => []
  | Some a => match w_heap w a with
              | Some l => l
              | None => []
              end
  end.

Definition null_rule : polydir_s := mk_polydir EmptyString EmptyString NONE [] 0.

(** [*polyptr] *)
Definition load (p : polyptr) : M polydir_s :=
  gets (fun w => nth (snd p) (cells (Some (fst p)) w) null_rule).

Fixpoint list_set {A} (i : nat) (x : A) (l : list A) : list A :=
  match l, i with
  | [], _ => []
  | _ :: t, O => x :: t
  | a :: t, S k => a :: list_set k x t
  end.

(** [*polyptr = r] *)
Definition store (p : polyptr) (r : polydir_s) : M unit :=
  modify (fun w =>
    set_heap (fun b => if Nat.eqb b (fst p)
                       then option_map (list_set (snd p) r) (w_heap w b)
                       else w_heap w b)
             (w_brk w) w).

(** Copies the contents of ent into pent *)
Definition copy_ent (ent : polydir_s) : polydir_s :=
  mk_polydir (dir ent) (instance_prefix ent) (method ent)
             (firstn (num_uids ent) (uid ent)) (exclusive ent).

(** Adds an entry for a polyinstantiated directory to the linked list of
    polyinstantiated directories: a first cell makes the list, a later one
    goes to its tail. *)
Definition add_polydir_entry (idata : instance_data) (ent : polydir_s)
  : M (Z * instance_data) :=
  let pent := copy_ent ent in
  match polydirs_ptr idata with
  | None =>
      fun w =>
        let a := w_brk w in
        ((0, set_polydirs_ptr (Some a) idata),
         set_heap (fun b => if Nat.eqb b a then Some [pent] else w_heap w b)
                  (S a) w)
  | Some a =>
      modify (fun w =>
        set_heap (fun b => if Nat.eqb b a
                           then option_map (fun l => (l ++ [pent])%list) (w_heap w b)
                           else w_heap w b)
                 (w_brk w) w) ;;
      ret (0, idata)
  end.

(* ===================================================================== *)
(** ** The config loader *)
(* ===================================================================== *)

(** The delimiters [" \t"] of [strtok_r]. *)
Definition blank : string := String " " (String "009" EmptyString).

(** The label [skipping:] of [process_line]. *)
Definition skipping (idata : instance_data) : Z :=
  if flag_set (flags idata) PAMNS_IGN_CONFIG_ERR then 0 else PAM_SERVICE_ERR.

(** The loop over the override names: an unknown name is reported and
    dropped. *)
Fixpoint lookup_uids (names : list string) : M (list Z) :=
  match names with
  | [] => ret []
  | ustr :: rest =>
      pwd <- pam_modutil_getpwnam ustr ;;
      match pwd with
      | None =>
          pam_syslog LOG_ERR "Unknown user %s in configuration" ;;
          lookup_uids rest
      | Some pw =>
          l <- lookup_uids rest ;;
          ret (pw_uid pw :: l)
      end
  end.

(** Called from parse_config_file, this function processes a single line of
    the namespace configuration file.  The value is the return code and the
    instance data with its list pointer. *)
Definition process_line (line home : string) (idata : instance_data)
  : M (Z * instance_data) :=
  let skip (msg : string) : M (Z * instance_data) :=
    pam_syslog LOG_NOTICE msg ;; ret (skipping idata, idata) in
  let line := CStr.skip_space line in
  let line := CStr.cut_at "#" line in
  let line := CStr.cut_at "010" line in
  if String.eqb line EmptyString then ret (0, idata) else
  match CStr.strtok_r line blank with
  | None => skip "Invalid line missing polydir"
  | Some (dir_tok, tptr) =>
  match CStr.strtok_r tptr blank with
  | None => skip "Invalid line missing instance_prefix"
  | Some (prefix_tok, tptr) =>
  match CStr.strtok_r tptr blank with
  | None => skip "Invalid line missing method"
  | Some (method_tok, tptr) =>
    let uids := option_map fst (CStr.strtok_r tptr blank) in
    let dir := if String.eqb dir_tok "$HOME" then home else dir_tok in
    let instance_prefix := CStr.expand_var "$USER" (user idata) prefix_tok in
    let instance_prefix := CStr.expand_var "$HOME" home instance_prefix in
    if (PATH_MAX <=? CStr.strlen dir) || (PATH_MAX <=? CStr.strlen instance_prefix)
    then skip "Pathnames too long" else
    let poly_method := if String.eqb method_tok "user" then USER else NONE in
    if String.eqb method_tok "tmpdir"
       && (PATH_MAX - CStr.strlen instance_prefix <? 7)
    then skip "Pathnames too long" else
    let poly_prefix :=
      if String.eqb method_tok "tmpdir" then instance_prefix ++ "XXXXXX"
      else instance_prefix in
    let poly_method := if String.eqb method_tok "tmpdir" then TMPDIR else poly_method in
    let poly_method := if String.eqb method_tok "tmpfs" then TMPFS else poly_method in
    ws <- gets (fun w => WITH_SELINUX (w_os w)) ;;
    let ctxt := flag_set (flags idata) PAMNS_CTXT_BASED_INST in
    let poly_method :=
      if ws && String.eqb method_tok "level"
      then (if ctxt then LEVEL else USER) else poly_method in
    let poly_method :=
      if ws && String.eqb method_tok "context"
      then (if ctxt then CONTEXT else USER) else poly_method in
    if polymethod_eqb poly_method NONE then skip "Illegal method" else
    if negb (Ascii.eqb (CStr.head dir) "/")
       || (negb (polymethod_eqb poly_method TMPFS)
           && negb (Ascii.eqb (CStr.head instance_prefix) "/"))
    then skip "Pathnames must start with '/'" else
    if CStr.contains dir ".." || CStr.contains instance_prefix ".."
    then skip "Pathnames must not contain '..'" else
    poly <-
      match uids with
      | None => ret (mk_polydir dir poly_prefix poly_method [] 0)
      | Some u =>
          let tilde := Ascii.eqb (CStr.head u) "~" in
          let u := if tilde then CStr.drop 1 u else u in
          l <- lookup_uids (CStr.split_commas u) ;;
          ret (mk_polydir dir poly_prefix poly_method l (if tilde then 1 else 0))
      end ;;
    r <- add_polydir_entry idata poly ;;
    if fst r <? 0 then
      pam_syslog LOG_ERR "Allocation Error" ;;
      ret (PAM_SERVICE_ERR, snd r)
    else ret (0, snd r)
  end end end.

(** The loop [while (getline(&line, &len, fil) > 0)] of parse_config_file:
    [false] when a line was refused. *)
Fixpoint read_lines (lines : list string) (home : string)
    (idata : instance_data) : M (bool * instance_data) :=
  match lines with
  | [] => ret (true, idata)
  | line :: rest =>
      if CStr.strlen line <=? 0 then ret (true, idata) else
      r <- process_line line home idata ;;
      if negb (fst r =? 0) then
        pam_syslog LOG_ERR "Error processing conf file line %s" ;;
        ret (false, snd r)
      else read_lines rest home (snd r)
  end.

(** The debug lines at the end of parse_config_file. *)
Definition dump_polydirs (idata : instance_data) : M unit :=
  if flag_set (flags idata) PAMNS_DEBUG then
    l <- gets (cells (polydirs_ptr idata)) ;;
    pam_syslog LOG_DEBUG
      (match polydirs_ptr idata with
       | Some _ => "Configured poly dirs:"
       | None => "No configured poly dirs"
       end) ;;
    fold_right
      (fun d k =>
         pam_syslog LOG_DEBUG "dir='%s' iprefix='%s' meth=%d" ;;
         fold_right
           (fun _ k' => pam_syslog LOG_DEBUG "override user %d " ;; k')
           k (uid d))
      (ret tt) l
  else ret tt.

(** Parses the configuration file to build a linked list of polyinstantiated
    directory structures.  The instance data comes back with the list, also
    when the parse fails half way. *)
Definition parse_config_file (idata : instance_data) : M (Z * instance_data) :=
  debug idata LOG_DEBUG "Parsing config file %s" ;;
  cpwd <- pam_modutil_getpwnam (user idata) ;;
  match cpwd with
  | None =>
      pam_syslog LOG_ERR "Error getting home dir for '%s'" ;;
      ret (PAM_SESSION_ERR, idata)
  | Some pw =>
      let home := pw_dir pw in
      fil <- fopen_lines PAM_NAMESPACE_CONFIG ;;
      match fil with
      | None =>
          pam_syslog LOG_ERR "Error opening config file" ;;
          ret (PAM_SERVICE_ERR, idata)
      | Some lines =>
          r <- read_lines lines home idata ;;
          if fst r then
            dump_polydirs (snd r) ;;
            ret (PAM_SUCCESS, snd r)
          else ret (PAM_SERVICE_ERR, snd r)
      end
  end.

(* ===================================================================== *)
(** ** The override evaluator *)
(* ===================================================================== *)

(** The loop of ns_override over the override uids. *)
Fixpoint uid_scan (u : Z) (uids : list Z) (excl : Z) : Z :=
  match uids with
  | [] => excl
  | x :: rest =>
      if u =? x then (if excl =? 0 then 1 else 0)     (* !polyptr->exclusive *)
      else uid_scan u rest excl
  end.

(** This function returns true if a given uid is present in the
    polyinstantiated directory's list of override uids.  If exclusive is set
    the returned values are opposite. *)
Definition ns_override (polyptr : polydir_s) (idata : instance_data) (u : Z)
  : M Z :=
  debug idata LOG_DEBUG "Checking for ns override in dir %s for uid %d" ;;
  ret (uid_scan u (uid polyptr) (exclusive polyptr)).

(** A C [int] read as a condition. *)
Definition truthy (x : Z) : bool := negb (x =? 0).

(* ===================================================================== *)
(** ** The instance namer *)
(* ===================================================================== *)

(** form_context (WITH_SELINUX): the return code, the instance context and
    the context of the original directory. *)
Definition form_context (polyptr : polydir_s) (idata : instance_data)
  : M (Z * option string * option string) :=
  r <- getfilecon (dir polyptr) ;;
  match r with
  | (rc, Some origcon) =>
      if rc <? 0 then
        pam_syslog LOG_ERR "Error getting poly dir context, %m" ;;
        ret (PAM_SESSION_ERR, None, None)
      else if polymethod_eqb (method polyptr) USER then
        ret (PAM_SUCCESS, None, Some origcon)
      else
        e <- getexeccon ;;
        match e with
        | (rc, Some scon) =>
            if rc <? 0 then
              pam_syslog LOG_ERR "Error getting exec context, %m" ;;
              ret (PAM_SESSION_ERR, None, Some origcon)
            else if polymethod_eqb (method polyptr) CONTEXT then
              m <- security_compute_member scon origcon ;;
              if fst m <? 0 then
                pam_syslog LOG_ERR "Error computing poly dir member context" ;;
                ret (PAM_SESSION_ERR, None, Some origcon)
              else
                debug idata LOG_DEBUG "member context returned by policy %s" ;;
                ret (PAM_SUCCESS, snd m, Some origcon)
            else if polymethod_eqb (method polyptr) LEVEL then
              match context_new scon with
              | None =>
                  pam_syslog LOG_ERR "out of memory" ;;
                  ret (PAM_SESSION_ERR, None, Some origcon)
              | Some scontext =>
                  match context_new origcon with
                  | None =>
                      pam_syslog LOG_ERR "out of memory" ;;
                      ret (PAM_SESSION_ERR, None, Some origcon)
                  | Some fcontext =>
                      ret (PAM_SUCCESS,
                           Some (context_str
                                   (context_range_set fcontext
                                      (context_range_get scontext))),
                           Some origcon)
                  end
              end
            else ret (PAM_SUCCESS, None, Some origcon)   (* Should never get here *)
        | (_, None) =>
            pam_syslog LOG_ERR "Error getting exec context, %m" ;;
            ret (PAM_SESSION_ERR, None, Some origcon)
        end
  | (_, None) =>
      pam_syslog LOG_ERR "Error getting poly dir context, %m" ;;
      ret (PAM_SESSION_ERR, None, None)
  end.

(** [asprintf(&newname, "%.*s_%s", prec, name, hash)]: a negative precision
    is taken as if it were omitted. *)
Definition printf_prec (prec : Z) (s : string) : string :=
  if prec <? 0 then s else CStr.take (Z.to_nat prec) s.

(** The end of poly_name, from the debug line after the switch on: the name
    is hashed when gen_hash is given or when it is too long. *)
Definition hash_name (i_name : string) (idata : instance_data) : M string :=
  debug idata LOG_DEBUG "poly_name %s" ;;
  mx <- gets (fun w => NAMESPACE_MAX_DIR_LEN (w_os w)) ;;
  if flag_set (flags idata) PAMNS_GEN_HASH || (mx <? CStr.strlen i_name) then
    let hash := md5hash i_name in
    if flag_set (flags idata) PAMNS_GEN_HASH then ret hash
    else ret (printf_prec (mx - 1 - CStr.strlen hash) i_name ++ "_" ++ hash)
  else ret i_name.

(** poly_name returns the name of the polyinstantiated instance directory
    based on the method used for polyinstantiation, and (WITH_SELINUX) the
    security contexts of the instance and of the original directory: the
    value is [(rc, i_name, i_context, origcon)]. *)
Definition poly_name (polyptr : polydir_s) (idata : instance_data)
  : M (Z * option string * option string * option string) :=
  ws <- gets (fun w => WITH_SELINUX (w_os w)) ;;
  fc <- (if ws && flag_set (flags idata) PAMNS_SELINUX_ENABLED
         then form_context polyptr idata
         else ret (PAM_SUCCESS, None, None)) ;;
  let '(rc0, i_context, origcon) := fc in
  if negb (rc0 =? PAM_SUCCESS) then ret (rc0, None, i_context, origcon) else
  let fail : M (Z * option string * option string * option string) :=
    ret (PAM_SESSION_ERR, None, None, None) in
  let unknown : M (Z * option string * option string * option string) :=
    debug idata LOG_ERR "Unknown method" ;; fail in
  let named (n : string) : M (Z * option string * option string * option string) :=
    h <- hash_name n idata ;;
    ret (PAM_SUCCESS, Some h, i_context, origcon) in
  match method polyptr with
  | USER => named (user idata)
  | LEVEL | CONTEXT =>
      if ws then
        r <- selinux_trans_to_raw_context i_context ;;
        if fst r <? 0 then
          pam_syslog LOG_ERR "Error translating directory context" ;;
          fail
        else named (show_null (snd r) ++ "_" ++ user idata)
      else unknown
  | TMPDIR | TMPFS => ret (PAM_SUCCESS, Some EmptyString, i_context, origcon)
  | NONE => unknown
  end.

(* ===================================================================== *)
(** ** The init hook runner *)
(* ===================================================================== *)

(** Check to see if there is a namespace initialization script in the
    /etc/security directory.  If such a script exists execute it and pass
    directory to polyinstantiate and instance directory as arguments. *)
Definition inst_init (polyptr : polydir_s) (ipath : string)
    (idata : instance_data) (newdir : Z) : M Z :=
  osighand <- signal_SIGCHLD (Some SIG_DFL) ;;
  rc <- (match osighand with
         | None =>
           pam_syslog LOG_ERR "Cannot set signal value" ;;
           ret PAM_SESSION_ERR
         | Some _ =>
           f <- access NAMESPACE_INIT_SCRIPT F_OK ;;
           if f =? 0 then
             x <- access NAMESPACE_INIT_SCRIPT X_OK ;;
             if x <? 0 then
               debug idata LOG_ERR "Namespace init script not executable" ;;
               ret PAM_SESSION_ERR
             else
               pid <- fork NAMESPACE_INIT_SCRIPT
                        [NAMESPACE_INIT_SCRIPT; dir polyptr; ipath;
                         if truthy newdir then "1" else "0"; user idata] ;;
               if 0 <? pid then
                 ws <- waitpid pid ;;
                 if fst ws =? -1 then
                   pam_syslog LOG_ERR "waitpid failed- %m" ;;
                   ret PAM_SESSION_ERR
                 else if negb (WIFEXITED (snd ws)) || WIFSIGNALED (snd ws) then
                   pam_syslog LOG_ERR "Error initializing instance" ;;
                   ret PAM_SESSION_ERR
                 else ret PAM_SUCCESS
               else if pid <? 0 then
                 pam_syslog LOG_ERR "Cannot fork to run namespace init script, %m" ;;
                 ret PAM_SESSION_ERR
               else ret PAM_SUCCESS     (* pid == 0 is the child's side *)
           else ret PAM_SUCCESS
         end) ;;
  signal_SIGCHLD osighand ;;
  ret rc.

(* ===================================================================== *)
(** ** The directory materializer *)
(* ===================================================================== *)

(** [strcpy(inst_parent, ipath); trailing_slash = strrchr(inst_parent, '/');
    if (trailing_slash) *trailing_slash = '\0';] *)
Definition inst_parent_of (ipath : string) : string :=
  match CStr.strrchr ipath "/" with
  | Some n => CStr.take n ipath
  | None => ipath
  end.

Definition check_inst_parent (ipath : string) (idata : instance_data) : M Z :=
  let inst_parent := inst_parent_of ipath in
  sb <- stat inst_parent ;;
  match sb with
  | None =>
      pam_syslog LOG_ERR "Error stating %s, %m" ;;
      ret PAM_SESSION_ERR
  | Some instpbuf =>
      if negb (S_ISDIR (st_mode instpbuf)) then
        pam_syslog LOG_ERR "Instance parent %s is not a dir" ;;
        ret PAM_SESSION_ERR
      else if negb (flag_set (flags idata) PAMNS_IGN_INST_PARENT_MODE)
              && truthy (Z.land (st_mode instpbuf) S_IRWXUGO) then
        pam_syslog LOG_ERR "Mode of inst parent %s not 000" ;;
        ret PAM_SESSION_ERR
      else ret PAM_SUCCESS
  end.

(** create_dirs from [newdir = 1] on: the new directory is opened and gets
    its label, its owner and group and its mode through the descriptor; then
    the init hook runs. *)
Definition dress_new_dir (polyptr : polydir_s) (ipath : string)
    (statbuf : inode) (icontext ocontext : option string)
    (idata : instance_data) : M Z :=
  fd <- open_dir ipath ;;
  if fd <? 0 then
    pam_syslog LOG_ERR "Error opening %s, %m" ;;
    rmdir ipath ;;
    ret PAM_SESSION_ERR
  else
    ws <- gets (fun w => WITH_SELINUX (w_os w)) ;;
    lab <- (if ws && flag_set (flags idata) PAMNS_SELINUX_ENABLED then
              match icontext with
              | Some ic => fsetfilecon fd ic
              | None =>     (* If method is USER, icontext is NULL *)
                  match ocontext with
                  | Some oc => fsetfilecon fd oc
                  | None => ret (-1)
                  end
              end
            else ret 0) ;;
    if lab <? 0 then
      pam_syslog LOG_ERR "Error setting context of %s to %s" ;;
      close fd ;;
      rmdir ipath ;;
      ret PAM_SESSION_ERR
    else
      nb <- fstat fd ;;
      match nb with
      | None =>
          pam_syslog LOG_ERR "Error stating %s, %m" ;;
          rmdir ipath ;;
          ret PAM_SESSION_ERR
      | Some newstatbuf =>
          own <- (if negb (st_uid newstatbuf =? st_uid statbuf)
                     || negb (st_gid newstatbuf =? st_gid statbuf)
                  then fchown fd (st_uid statbuf) (st_gid statbuf)
                  else ret 0) ;;
          if own <? 0 then
            pam_syslog LOG_ERR "Error changing owner for %s, %m" ;;
            close fd ;;
            rmdir ipath ;;
            ret PAM_SESSION_ERR
          else
            md <- fchmod fd (Z.land (st_mode statbuf) MODE_BITS) ;;
            if md <? 0 then
              pam_syslog LOG_ERR "Error changing mode for %s, %m" ;;
              close fd ;;
              rmdir ipath ;;
              ret PAM_SESSION_ERR
            else
              close fd ;;
              inst_init polyptr ipath idata 1
      end.

(** Create polyinstantiated instance directory (ipath).  The value is the
    return code and what [ipath] holds at the end: for the tmpdir method the
    name [mkdtemp] made is copied into it. *)
Definition create_dirs (p : polyptr) (ipath : string)
    (icontext ocontext : option string) (idata : instance_data)
  : M (Z * string) :=
  polyptr <- load p ;;
  sb <- stat (dir polyptr) ;;
  match sb with
  | None =>
      pam_syslog LOG_ERR "Error stating %s, %m" ;;
      ret (PAM_SESSION_ERR, ipath)
  | Some statbuf =>
      if negb (S_ISDIR (st_mode statbuf)) then
        pam_syslog LOG_ERR "poly dir %s is not a dir" ;;
        ret (PAM_SESSION_ERR, ipath)
      else
        cp <- check_inst_parent ipath idata ;;
        if truthy cp then ret (PAM_SESSION_ERR, ipath)
        else if polymethod_eqb (method polyptr) TMPDIR then
          t <- mkdtemp (instance_prefix polyptr) ;;
          match t with
          | None =>
              pam_syslog LOG_ERR "Error creating temporary instance %s, %m" ;;
              store p (set_method NONE polyptr) ;;      (* do not clean up! *)
              ret (PAM_SESSION_ERR, ipath)
          | Some name =>
              store p (set_instance_prefix name polyptr) ;;
              rc <- dress_new_dir polyptr name statbuf icontext ocontext idata ;;
              ret (rc, name)
          end
        else
          e <- mkdir ipath S_IRUSR ;;
          if truthy e then
            if e =? EEXIST then
              rc <- inst_init polyptr ipath idata 0 ;;
              ret (rc, ipath)
            else
              pam_syslog LOG_ERR "Error creating %s, %m" ;;
              ret (PAM_SESSION_ERR, ipath)
          else
            rc <- dress_new_dir polyptr ipath statbuf icontext ocontext idata ;;
            ret (rc, ipath)
  end.

(** This function performs the namespace setup for a particular directory
    that is being polyinstantiated. *)
Definition ns_setup (p : polyptr) (idata : instance_data) : M Z :=
  polyptr <- load p ;;
  debug idata LOG_DEBUG "Set namespace for directory %s" ;;
  if polymethod_eqb (method polyptr) TMPFS then
    m <- mount "tmpfs" (dir polyptr) "tmpfs" 0 ;;
    if m <? 0 then
      pam_syslog LOG_ERR "Error mounting tmpfs on %s, %m" ;;
      ret PAM_SESSION_ERR
    else
      (* we must call inst_init after the mount in this case *)
      inst_init polyptr "tmpfs" idata 1
  else
    n <- poly_name polyptr idata ;;
    let '(retval, instname, instcontext, origcontext) := n in
    if truthy retval then
      pam_syslog LOG_ERR "Error getting instance name" ;;
      ret PAM_SESSION_ERR
    else
      ws <- gets (fun w => WITH_SELINUX (w_os w)) ;;
      (if ws && flag_set (flags idata) PAMNS_DEBUG
          && flag_set (flags idata) PAMNS_SELINUX_ENABLED
       then pam_syslog LOG_DEBUG "Inst ctxt %s Orig ctxt %s" else ret tt) ;;
      let inst_dir := instance_prefix polyptr ++ show_null instname in
      debug idata LOG_DEBUG "instance_dir %s" ;;
      c <- create_dirs p inst_dir instcontext origcontext idata ;;
      let '(retval, inst_dir) := c in
      if retval <? 0 then
        pam_syslog LOG_ERR "Error creating instance dir" ;;
        ret PAM_SESSION_ERR
      else
        m <- mount inst_dir (dir polyptr) EmptyString MS_BIND ;;
        if m <? 0 then
          pam_syslog LOG_ERR "Error mounting %s on %s, %m" ;;
          ret PAM_SESSION_ERR
        else ret retval.

(* ===================================================================== *)
(** ** The namespace orchestrator *)
(* ===================================================================== *)

(** This function checks to see if the current working directory is inside
    the directory passed in as the first argument. *)
Definition cwd_in (d : string) (idata : instance_data) : M Z :=
  c <- getcwd ;;
  match c with
  | None =>
      pam_syslog LOG_ERR "Can't get current dir, %m" ;;
      ret (-1)
  | Some cwd =>
      if CStr.strncmp_eq cwd d then
        debug idata LOG_DEBUG "cwd is inside %s" ;;
        ret 1
      else
        debug idata LOG_DEBUG "cwd is outside %s" ;;
        ret 0
  end.

(** The loop of cleanup_tmpdirs over the rules. *)
Fixpoint cleanup_loop (l : list polydir_s) : M Z :=
  match l with
  | [] => ret PAM_SUCCESS
  | pptr :: rest =>
      if polymethod_eqb (method pptr) TMPDIR then
        f <- access (instance_prefix pptr) F_OK ;;
        if f =? 0 then
          pid <- fork "/bin/rm" ["/bin/rm"; "-rf"; instance_prefix pptr] ;;
          if 0 <? pid then
            ws <- waitpid pid ;;
            if fst ws =? -1 then
              pam_syslog LOG_ERR "waitpid failed- %m" ;;
              ret PAM_SESSION_ERR
            else
              (if negb (WIFEXITED (snd ws)) || WIFSIGNALED (snd ws)
               then pam_syslog LOG_ERR "Error removing %s"
               else ret tt) ;;
              cleanup_loop rest
          else if pid <? 0 then
            pam_syslog LOG_ERR "Cannot fork to run namespace init script, %m" ;;
            ret PAM_SESSION_ERR
          else cleanup_loop rest
        else cleanup_loop rest
      else cleanup_loop rest
  end.

Definition cleanup_tmpdirs (idata : instance_data) : M Z :=
  osighand <- signal_SIGCHLD (Some SIG_DFL) ;;
  rc <- (match osighand with
         | None =>
           pam_syslog LOG_ERR "Cannot set signal value" ;;
           ret PAM_SESSION_ERR
         | Some _ =>
           l <- gets (cells (polydirs_ptr idata)) ;;
           cleanup_loop l
         end) ;;
  signal_SIGCHLD osighand ;;
  ret rc.

(** The head of setup_namespace: the uid of the requesting identity, from
    PAM_RUSER. *)
Definition requesting_uid : M Z :=
  r <- pam_get_item PAM_RUSER pam_ruser ;;
  match r with
  | (retval, Some ruser_name) =>
      if negb (retval =? PAM_SUCCESS) then gets (fun w => getuid (w_os w))
      else
        pwd <- pam_modutil_getpwnam ruser_name ;;
        match pwd with
        | Some pw => ret (pw_uid pw)
        | None => gets (fun w => getuid (w_os w))
        end
  | (_, None) => gets (fun w => getuid (w_os w))
  end.

(** [ns_override(pptr, idata, idata->uid) &&
     (unmnt == NO_UNMNT || ns_override(pptr, idata, req_uid))], with C's
    order of evaluation: [(first, second)]. *)
Definition overridden (pptr : polydir_s) (idata : instance_data)
    (unmnt : unmnt_op) (req_uid : Z) : M (bool * bool) :=
  o <- ns_override pptr idata (id_uid idata) ;;
  if truthy o then
    if unmnt_op_eqb unmnt NO_UNMNT then ret (true, true)
    else
      o2 <- ns_override pptr idata req_uid ;;
      ret (true, truthy o2)
  else ret (false, false).

(** The first loop of setup_namespace: is polyinstantiation needed at all? *)
Fixpoint need_poly_scan (l : list polydir_s) (idata : instance_data)
    (unmnt : unmnt_op) (req_uid : Z) : M bool :=
  match l with
  | [] => ret false
  | pptr :: rest =>
      o <- overridden pptr idata unmnt req_uid ;;
      match o with
      | (true, true) =>
          debug idata LOG_DEBUG "Overriding poly for user %d for dir %s" ;;
          need_poly_scan rest idata unmnt req_uid
      | (true, false) =>
          debug idata LOG_DEBUG "Need unmount ns for user %d for dir %s" ;;
          ret true
      | (false, _) =>
          debug idata LOG_DEBUG "Need poly ns for user %d for dir %s" ;;
          ret true
      end
  end.

(** The directory the working directory moves to before an unmount. *)
Definition poly_parent (d : string) : string :=
  match CStr.strchr d "/", CStr.strrchr d "/" with
  | Some f, Some c => if Nat.eqb f c then "/" else CStr.take c d
  | _, Some c => CStr.take c d
  | _, None => d
  end.

(** The unmount of one rule in the second loop: [Some retval] is the jump to
    [out] with that value. *)
Definition unmount_rule (pptr : polydir_s) (idata : instance_data)
  : M (option Z) :=
  changing_dir <- cwd_in (dir pptr) idata ;;
  if changing_dir <? 0 then ret (Some PAM_SESSION_ERR)
  else
    (if truthy changing_dir then
       debug idata LOG_DEBUG "changing cwd" ;;
       c <- chdir (poly_parent (dir pptr)) ;;
       if c <? 0 then pam_syslog LOG_ERR "Can't chdir to %s, %m" else ret tt
     else ret tt) ;;
    e <- umount (dir pptr) ;;
    if truthy e then
      pam_syslog LOG_ERR "Unmount of %s failed, %m" ;;
      if negb (e =? EINVAL) then ret (Some PAM_SESSION_ERR) else ret None
    else
      debug idata LOG_DEBUG "Umount succeeded %s" ;;
      ret None.

(** One turn of the second loop of setup_namespace on the rule at [p]:
    [None] goes on to the next rule, [Some retval] leaves the loop with a
    [retval] that is not PAM_SUCCESS. *)
Definition setup_rule (p : polyptr) (idata : instance_data)
    (unmnt : unmnt_op) (req_uid : Z) : M (option Z) :=
  pptr <- load p ;;
  o <- overridden pptr idata unmnt req_uid ;;
  match o with
  | (true, true) => ret None                       (* continue *)
  | _ =>
      let dir_unmnt := if fst o then UNMNT_ONLY else unmnt in
      debug idata LOG_DEBUG "Setting poly ns for user %d for dir %s" ;;
      u <- (if unmnt_op_eqb dir_unmnt UNMNT_REMNT
               || unmnt_op_eqb dir_unmnt UNMNT_ONLY
            then unmount_rule pptr idata
            else ret None) ;;
      match u with
      | Some retval => ret (Some retval)             (* goto out *)
      | None =>
          if negb (unmnt_op_eqb dir_unmnt UNMNT_ONLY) then
            retval <- ns_setup p idata ;;
            if negb (retval =? PAM_SUCCESS) then ret (Some retval)   (* break *)
            else ret None
          else ret None
      end
  end.

(** The second loop: [n] cells are left, the next one at position [i] of
    the list at [a]. *)
Fixpoint setup_loop (n i a : nat) (idata : instance_data)
    (unmnt : unmnt_op) (req_uid : Z) : M Z :=
  match n with
  | O => ret PAM_SUCCESS
  | S k =>
      r <- setup_rule (a, i) idata unmnt req_uid ;;
      match r with
      | Some retval => ret retval
      | None => setup_loop k (S i) a idata unmnt req_uid
      end
  end.

(** The first half of setup_namespace, up to the call of unshare: [inl
    retval] is a [return retval] there, [inr req_uid] goes on to the second
    loop. *)
Definition setup_begin (idata : instance_data) (unmnt : unmnt_op) : M (Z + Z) :=
  debug idata LOG_DEBUG "Set up namespace for pid %d" ;;
  req_uid <- requesting_uid ;;
  l <- gets (cells (polydirs_ptr idata)) ;;
  need_poly <- need_poly_scan l idata unmnt req_uid ;;
  if need_poly then
    s <- pam_set_data (polydirs_ptr idata) true ;;
    if negb (s =? PAM_SUCCESS) then
      pam_syslog LOG_ERR "Unable to set namespace data" ;;
      ret (inl PAM_SYSTEM_ERR)
    else
      u <- unshare CLONE_NEWNS ;;
      if u <? 0 then
        pam_set_data None false ;;
        pam_syslog LOG_ERR "Unable to unshare from parent namespace, %m" ;;
        ret (inl PAM_SESSION_ERR)
      else ret (inr req_uid)
  else
    del_polydir_list (polydirs_ptr idata) ;;
    ret (inl PAM_SUCCESS).

(** The second half of setup_namespace: the loop over the rules, the label
    [out] and the return. *)
Definition setup_rules (idata : instance_data) (unmnt : unmnt_op)
    (req_uid : Z) : M Z :=
  l <- gets (cells (polydirs_ptr idata)) ;;
  retval <- setup_loop (List.length l)
              0 (match polydirs_ptr idata with Some a => a | None => O end)
              idata unmnt req_uid ;;
  (if negb (retval =? PAM_SUCCESS)
   then cleanup_tmpdirs idata ;; ret tt
   else ret tt) ;;
  ret retval.

(** This function checks to see if polyinstantiation is needed for any of
    the directories listed in the configuration file.  If needed, cycles
    through all polyinstantiated directory entries and calls ns_setup to
    setup polyinstantiation for each one of them. *)
Definition setup_namespace (idata : instance_data) (unmnt : unmnt_op) : M Z :=
  b <- setup_begin idata unmnt ;;
  match b with
  | inl retval => ret retval
  | inr req_uid => setup_rules idata unmnt req_uid
  end.

(* ===================================================================== *)
(** ** Session teardown *)
(* ===================================================================== *)

(** The loop of orig_namespace: [false] is its [return PAM_SESSION_ERR]. *)
Fixpoint orig_loop (l : list polydir_s) (idata : instance_data) : M bool :=
  match l with
  | [] => ret true
  | pptr :: rest =>
      o <- ns_override pptr idata (id_uid idata) ;;
      if truthy o then orig_loop rest idata
      else
        debug idata LOG_DEBUG "Unmounting instance dir for user %d & dir %s" ;;
        e <- umount (dir pptr) ;;
        if truthy e then
          pam_syslog LOG_ERR "Unmount of %s failed, %m" ;;
          ret false
        else
          debug idata LOG_DEBUG "Unmount of %s succeeded" ;;
          orig_loop rest idata
  end.

(** Orig namespace.  This function is called from when closing a pam
    session.  If authorized, it unmounts instance directory. *)
Definition orig_namespace (idata : instance_data) : M Z :=
  debug idata LOG_DEBUG "orig namespace for pid %d" ;;
  l <- gets (cells (polydirs_ptr idata)) ;;
  ok <- orig_loop l idata ;;
  if ok then
    cleanup_tmpdirs idata ;;
    ret 0
  else ret PAM_SESSION_ERR.

(* ===================================================================== *)
(** ** The entry points *)
(* ===================================================================== *)

(** ctxt_based_inst_needed (WITH_SELINUX): has the calling program asked for
    a context change? *)
Definition ctxt_based_inst_needed : M Z :=
  e <- getexeccon ;;
  match e with
  | (rc, Some _) => if rc <? 0 then ret 0 else ret 1
  | (_, None) => ret 0
  end.

(** The flags both entry points start with. *)
Definition init_flags : M Z :=
  ws <- gets (fun w => WITH_SELINUX (w_os w)) ;;
  if ws then
    en <- gets (fun w => is_selinux_enabled (w_os w)) ;;
    c <- ctxt_based_inst_needed ;;
    ret (Z.lor (if en then PAMNS_SELINUX_ENABLED else 0)
               (if truthy c then PAMNS_CTXT_BASED_INST else 0))
  else ret 0.

Definition arg_flag (arg name : string) (mask fl : Z) : Z :=
  if String.eqb arg name then Z.lor fl mask else fl.

(** The argument loop of pam_sm_close_session. *)
Definition close_args (argv : list string) (fl : Z) : Z :=
  fold_left
    (fun f a =>
       arg_flag a "no_unmount_on_close" PAMNS_NO_UNMOUNT_ON_CLOSE
         (arg_flag a "ignore_config_error" PAMNS_IGN_CONFIG_ERR
            (arg_flag a "debug" PAMNS_DEBUG f)))
    argv fl.

(** [idata.user[0] = 0; strncat(idata.user, user_name, sizeof(idata.user) - 1)] *)
Definition copy_user (user_name : string) : string :=
  CStr.take (Z.to_nat (LOGIN_NAME_MAX - 1)) user_name.

(** Entry point from pam_close_session call. *)
Definition pam_sm_close_session (argv : list string) : M Z :=
  fl0 <- init_flags ;;
  let fl := close_args argv fl0 in
  let idata0 := mk_idata None EmptyString 0 fl in
  debug idata0 LOG_DEBUG "close_session - start" ;;
  if flag_set fl PAMNS_NO_UNMOUNT_ON_CLOSE then
    debug idata0 LOG_DEBUG "close_session - sucessful" ;;
    ret PAM_SUCCESS
  else
    it <- pam_get_item PAM_USER pam_user ;;
    match it with
    | (retval, Some user_name) =>
        if negb (retval =? PAM_SUCCESS) then
          pam_syslog LOG_ERR "Error recovering pam user name" ;;
          ret PAM_SESSION_ERR
        else
          pwd <- pam_modutil_getpwnam user_name ;;
          match pwd with
          | None =>
              pam_syslog LOG_ERR "user unknown '%s'" ;;
              ret PAM_SESSION_ERR
          | Some pw =>
              let idata1 := mk_idata None (copy_user user_name) (pw_uid pw) fl in
              d <- pam_get_data ;;
              match d with
              | (retval, Some polyptr) =>
                  if negb (retval =? PAM_SUCCESS) then ret PAM_SUCCESS
                  else
                    let idata := set_polydirs_ptr (Some polyptr) idata1 in
                    debug idata LOG_DEBUG "Resetting namespace for pid %d" ;;
                    retval <- orig_namespace idata ;;
                    debug idata LOG_DEBUG
                      (if truthy retval
                       then "resetting namespace failed for pid %d"
                       else "resetting namespace ok for pid %d") ;;
                    pam_set_data None false ;;
                    ret PAM_SUCCESS
              | (_, None) => ret PAM_SUCCESS      (* nothing to reset *)
              end
          end
    | (_, None) =>
        pam_syslog LOG_ERR "Error recovering pam user name" ;;
        ret PAM_SESSION_ERR
    end.

(** The argument loop of pam_sm_open_session: the flags and the unmount
    mode, or [None] at its [return PAM_SESSION_ERR]. *)
Fixpoint open_args (argv : list string) (fl : Z) (unmnt : unmnt_op)
  : option (Z * unmnt_op) :=
  match argv with
  | [] => Some (fl, unmnt)
  | a :: rest =>
      let fl := arg_flag a "debug" PAMNS_DEBUG fl in
      let fl := arg_flag a "gen_hash" PAMNS_GEN_HASH fl in
      let fl := arg_flag a "ignore_config_error" PAMNS_IGN_CONFIG_ERR fl in
      let fl := arg_flag a "ignore_instance_parent_mode"
                         PAMNS_IGN_INST_PARENT_MODE fl in
      let unmnt := if String.eqb a "unmnt_remnt" then UNMNT_REMNT else unmnt in
      let unmnt := if String.eqb a "unmnt_only" then UNMNT_ONLY else unmnt in
      if String.eqb a "require_selinux"
         && truthy (Z.lnot (Z.land fl PAMNS_SELINUX_ENABLED))
      then None
      else open_args rest fl unmnt
  end.

(** Entry point from pam_open_session call. *)
Definition pam_sm_open_session (argv : list string) : M Z :=
  fl0 <- init_flags ;;
  match open_args argv fl0 NO_UNMNT with
  | None =>
      pam_syslog LOG_ERR "selinux_required option given and selinux is disabled" ;;
      ret PAM_SESSION_ERR
  | Some (fl, unmnt) =>
      let idata0 := mk_idata None EmptyString 0 fl in
      debug idata0 LOG_DEBUG "open_session - start" ;;
      it <- pam_get_item PAM_USER pam_user ;;
      match it with
      | (retval, Some user_name) =>
          if negb (retval =? PAM_SUCCESS) then
            pam_syslog LOG_ERR "Error recovering pam user name" ;;
            ret PAM_SESSION_ERR
          else
            pwd <- pam_modutil_getpwnam user_name ;;
            match pwd with
            | None =>
                pam_syslog LOG_ERR "user unknown '%s'" ;;
                ret PAM_SESSION_ERR
            | Some pw =>
                let idata1 := mk_idata None (copy_user user_name) (pw_uid pw) fl in
                pr <- parse_config_file idata1 ;;
                let '(retval, idata) := pr in
                if negb (retval =? PAM_SUCCESS) then
                  del_polydir_list (polydirs_ptr idata) ;;
                  ret PAM_SESSION_ERR
                else
                  retval <-
                    match polydirs_ptr idata with
                    | Some _ =>
                        retval <- setup_namespace idata unmnt ;;
                        debug idata LOG_DEBUG
                          (if truthy retval
                           then "namespace setup failed for pid %d"
                           else "namespace setup ok for pid %d") ;;
                        ret retval
                    | None =>
                        debug idata LOG_DEBUG "Nothing to polyinstantiate" ;;
                        ret retval
                    end ;;
                  (if negb (retval =? PAM_SUCCESS)
                   then del_polydir_list (polydirs_ptr idata)
                   else ret tt) ;;
                  ret retval
            end
      | (_, None) =>
          pam_syslog LOG_ERR "Error recovering pam user name" ;;
          ret PAM_SESSION_ERR
      end
  end.

(* ===================================================================== *)
(** ** Notions used to state the properties *)
(* ===================================================================== *)

(** What ns_override answers, read as a condition; its debug line apart the
    function does not touch the world. *)
Definition is_overridden (polyptr : polydir_s) (u : Z) : bool :=
  truthy (uid_scan u (uid polyptr) (exclusive polyptr)).

(** The events a computation adds to the history, newest first. *)
Definition events_of {A} (m : M A) (w : world) : list event :=
  firstn (List.length (w_trace (after m w)) - List.length (w_trace w))
         (w_trace (after m w)).

(** The uid of the requesting identity as setup_namespace resolves it. *)
Definition setup_req_uid (idata : instance_data) (w : world) : Z :=
  result requesting_uid
         (after (debug idata LOG_DEBUG "Set up namespace for pid %d") w).

(** The invariant of a rule in the list. *)
Definition rule_ok (r : polydir_s) : Prop :=
  CStr.head (dir r) = "/"%char
  /\ CStr.contains (dir r) ".." = false
  /\ CStr.contains (instance_prefix r) ".." = false
  /\ (method r <> TMPFS -> CStr.head (instance_prefix r) = "/"%char)
  /\ method r <> NONE.

(** The mode bits, the owner and the group of two objects agree. *)
Definition same_attributes (a b : inode) : Prop :=
  st_uid a = st_uid b
  /\ st_gid a = st_gid b
  /\ Z.land (st_mode a) MODE_BITS = Z.land (st_mode b) MODE_BITS.

(** An environment that fails no call. *)
Definition quiet (os : oracle) : Prop := forall t c, fault os t c = 0.

(** The target of an entry of the mount table. *)
Definition mount_target (m : string * string * string) : string := snd (fst m).

(** No mount of the table covers [p]: none is on [p] or on a directory
    above it, so that the name [p] leads to the object kept under it. *)
Definition uncovered (ms : list (string * string * string)) (p : string)
  : Prop :=
  forall m, In m ms -> in_tree (mount_target m) p = false.

(** [p] lies apart from the mounts: none covers it and none is below it. *)
Definition apart (ms : list (string * string * string)) (p : string) : Prop :=
  forall m, In m ms ->
    in_tree (mount_target m) p = false /\ in_tree p (mount_target m) = false.

(** What is asked of the site's init script, where a statement speaks of
    the world after it has run: that it leaves the object at [path] as it
    is; that it leaves the mount table as it is; that it changes nothing. *)
Definition script_spares (os : oracle) (path : string) : Prop :=
  forall t argv fs ms, fst (script_effect os t argv (fs, ms)) path = fs path.

Definition script_keeps_mounts (os : oracle) : Prop :=
  forall t argv fs ms, snd (script_effect os t argv (fs, ms)) = ms.

Definition script_idle (os : oracle) : Prop :=
  forall t argv s, script_effect os t argv s = s.

(** An environment that does not get in the way of the cleanup pass: the
    calls of cleanup_tmpdirs are not failed and the children end with
    [exit(0)]. *)
Definition cleanup_unhindered (os : oracle) : Prop :=
  (forall t h, fault os t (c_signal h) = 0)
  /\ (forall t p, fault os t (c_access p F_OK) = 0)
  /\ (forall t a, fault os t (c_fork "/bin/rm" a) = 0)
  /\ (forall t pid, fault os t (c_waitpid pid) = 0)
  /\ (forall t, child_status os t = 0).

(** The part of the world that only the history tells apart: [w'] is [w]
    with some lines of pam_syslog added. *)
Definition is_log (e : event) : bool :=
  match e with
  | EvLog _ _ => true
  | EvCall _ _ => false
  end.

Definition only_logs (w w' : world) : Prop :=
  exists evs, forallb is_log evs = true
              /\ w' = set_trace (evs ++ w_trace w)%list w.

(** [keeps f m]: the run of [m] does not change the view [f] of the world. *)
Definition keeps {X A} (f : world -> X) (m : M A) : Prop :=
  forall w, f (snd (m w)) = f w.

Definition ignores_trace {X} (f : world -> X) : Prop :=
  forall t w, f (set_trace t w) = f w.
Definition ignores_fs {X} (f : world -> X) : Prop :=
  forall x w, f (set_fs x w) = f w.
Definition ignores_mounts {X} (f : world -> X) : Prop :=
  forall x w, f (set_mounts x w) = f w.
Definition ignores_fds {X} (f : world -> X) : Prop :=
  forall x n w, f (set_fds x n w) = f w.
Definition ignores_cwd {X} (f : world -> X) : Prop :=
  forall x w, f (set_cwd x w) = f w.
Definition ignores_sigchld {X} (f : world -> X) : Prop :=
  forall x w, f (set_sigchld x w) = f w.
Definition ignores_children {X} (f : world -> X) : Prop :=
  forall x w, f (set_children x w) = f w.
Definition ignores_unshared {X} (f : world -> X) : Prop :=
  forall x w, f (set_unshared x w) = f w.
Definition ignores_heap {X} (f : world -> X) : Prop :=
  forall x n w, f (set_heap x n w) = f w.
Definition ignores_data {X} (f : world -> X) : Prop :=
  forall x w, f (set_data x w) = f w.

(** [P] is an invariant of [m]: it holds after a run that began where it
    held. *)
Definition holds {A} (P : world -> Prop) (m : M A) : Prop :=
  forall w, P w -> P (snd (m w)).

(** The mount [mnt] is in the table of a world under the environment
    [os]. *)
Definition has_mount (os : oracle) (mnt : string * string * string)
    (w : world) : Prop :=
  w_os w = os /\ In mnt (w_mounts w).

(** The [dir] fields of the rule list at [a], in order, and the [dir] of the
    cell a pointer leads to. *)
Definition dirs_at (a : nat) (w : world) : list string :=
  map dir (cells (Some a) w).

Definition dir_of_cell (p : polyptr) (w : world) : string :=
  dir (nth (snd p) (cells (Some (fst p)) w) null_rule).

(** The list at [a] has the dirs [D] and the cell at [p] the dir [d]. *)
Definition has_dirs (a : nat) (D : list string) (p : polyptr) (d : string)
    (w : world) : Prop :=
  dirs_at a w = D /\ dir_of_cell p w = d.


(* ===================================================================== *)
(** ** Sample worlds *)
(* ===================================================================== *)

(** A small machine on which the statements below are tried: [/tmp] is a
    sticky world-writable directory of root, [/tmp-inst] a directory of mode
    000, alice (uid 1000) opens a session from a process of root. *)
Module Sample.

Definition nl : string := String "010" EmptyString.

Definition fs (p : string) : option inode :=
  if String.eqb p "/tmp" then Some (mk_inode (Z.lor S_IFDIR 1023) 0 0 "tmp_t")
  else if String.eqb p "/tmp-inst" then Some (mk_inode S_IFDIR 0 0 "inst_t")
  else if String.eqb p "/home/alice"
       then Some (mk_inode (Z.lor S_IFDIR 448) 1000 1000 "home_t")
  else if String.eqb p "/home/alice/.inst" then Some (mk_inode S_IFDIR 0 0 "inst_t")
  else None.

Definition users (n : string) : option passwd :=
  if String.eqb n "alice" then Some (mk_passwd 1000 "/home/alice")
  else if String.eqb n "root" then Some (mk_passwd 0 "/root")
  else None.

Definition conf : list string :=
  ["# polyinstantiated directories" ++ nl;
   "/tmp /tmp-inst/ user root" ++ nl;
   "$HOME  $HOME/.inst/  tmpdir ~alice,bob" ++ nl].

(** An environment that fails nothing; [status] is what children end
    with; the init script, where one is installed, changes nothing. *)
Definition os_with (fault : list event -> call -> Z) (status : Z)
    (ruser : option string) : oracle :=
  mk_oracle false 80 fault (fun _ => 100%positive) (fun _ => status)
    (fun _ => "abcdef") users 0 0 0 18 (Some "alice") ruser conf
    false None (fun _ _ => EmptyString) (fun s => s) "default_t"
    (fun _ _ s => s) (fun _ _ => false).

Definition os : oracle := os_with (fun _ _ => 0) 0 None.

Definition world_with (o : oracle) (f : string -> option inode) : world :=
  mk_world o [] f [] [] 3 "/" SIG_IGN [] false (fun _ => None) O None.

Definition w0 : world := world_with os fs.

(** The session of alice. *)
Definition alice : instance_data := mk_idata None "alice" 1000 0.

(** The same machine with the init script installed, executable or not. *)
Definition fs_script (mode : Z) (p : string) : option inode :=
  if String.eqb p NAMESPACE_INIT_SCRIPT then Some (mk_inode mode 0 0 "bin_t")
  else fs p.

Definition tmp_rule : polydir_s := mk_polydir "/tmp" "/tmp-inst/" USER [0] 0.

Definition home_rule : polydir_s :=
  mk_polydir "/home/alice" "/home/alice/.inst/XXXXXX" TMPDIR [1000] 1.

(** A world whose heap holds the list [l] at address 0. *)
Definition with_rules (l : list polydir_s) (w : world) : world :=
  set_heap (fun a => if Nat.eqb a 0 then Some l else None) 1 w.

End Sample.

(** A computation that only writes to the log. *)
Definition logs_only {A} (m : M A) (a : A) (w : world) : Prop :=
  exists evs, forallb is_log evs = true
              /\ m w = (a, set_trace (evs ++ w_trace w)%list w).


(** What the environment answers to the init hook runner: the two [access]
    calls on the script are not failed; [fork] and [waitpid] succeed or not;
    the child ends with a given status. *)
Definition access_answered (os : oracle) : Prop :=
  forall t m, fault os t (c_access NAMESPACE_INIT_SCRIPT m) = 0.
Definition fork_answer (os : oracle) (ok : bool) : Prop :=
  forall t p a, (fault os t (c_fork p a) =? 0) = ok.
Definition wait_answer (os : oracle) (ok : bool) : Prop :=
  forall t pid, (fault os t (c_waitpid pid) =? 0) = ok.
Definition children_end_with (os : oracle) (status : Z) : Prop :=
  forall t, child_status os t = status.

(** [wp m Q w]: the run of [m] from [w] ends with a value and a world that
    satisfy [Q]. *)
Definition wp {A} (m : M A) (Q : A -> world -> Prop) (w : world) : Prop :=
  Q (fst (m w)) (snd (m w)).

(** The world after a call [c] that ended with [errno] and changed nothing
    else. *)
Definition called (c : call) (errno : Z) (w : world) : world :=
  set_trace (EvCall c errno :: w_trace w) w.

(** The errno [access] ends with. *)
Definition access_errno (w : world) (path : string) (mode : Z) : Z :=
  let e := fault (w_os w) (w_trace w) (c_access path mode) in
  if e =? 0 then
    match w_fs w path with
    | None => ENOENT
    | Some i =>
        if (mode =? X_OK) && (Z.land (st_mode i) S_IXUGO =? 0) then 13 else 0
    end
  else e.


(** More sample worlds: the init script installed with a given mode, children
    that end with a given status, and an environment that fails only the
    calls [bad] picks. *)
Module Sample2.

Definition w_script (mode status : Z) : world :=
  Sample.world_with (Sample.os_with (fun _ _ => 0) status None)
                    (Sample.fs_script mode).

(** A regular file of mode 0755, and one of mode 0644. *)
Definition exec_mode : Z := 33261.
Definition plain_mode : Z := 33188.

Definition failing (bad : call -> Z) (f : string -> option inode) : world :=
  Sample.world_with (Sample.os_with (fun _ c => bad c) 0 None) f.

Definition no_signal (c : call) : Z :=
  match c with
  | c_signal _ => EINVAL
  | _ => 0
  end.

Definition no_fork (c : call) : Z :=
  match c with
  | c_fork _ _ => 11          (* EAGAIN *)
  | _ => 0
  end.

Definition no_wait (c : call) : Z :=
  match c with
  | c_waitpid _ => ECHILD
  | _ => 0
  end.

Definition no_umount (c : call) : Z :=
  match c with
  | c_umount _ => 16          (* EBUSY *)
  | _ => 0
  end.

Definition no_mount (c : call) : Z :=
  match c with
  | c_mount _ _ _ _ => 1      (* EPERM *)
  | _ => 0
  end.

(** The session of root, with the rule list at address 0. *)
Definition root : instance_data := mk_idata (Some O) "root" 0 0.

(** The session of alice, with the rule list at address 0. *)
Definition alice : instance_data := mk_idata (Some O) "alice" 1000 0.

(** After a session of alice was opened: the tmpdir rule has its
    directory, made by mkdtemp and mounted on her home, and the list is
    published. *)
Definition home_made : polydir_s :=
  mk_polydir "/home/alice" "/home/alice/.inst/abcdef" TMPDIR [1000] 1.

Definition fs_made (p : string) : option inode :=
  if String.eqb p "/home/alice/.inst/abcdef"
  then Some (mk_inode (Z.lor S_IFDIR 448) 1000 1000 "home_t")
  else Sample.fs p.

Definition opened (bad : call -> Z) : world :=
  set_data (Some (Some O, true))
    (set_mounts [("/home/alice/.inst/abcdef", "/home/alice", EmptyString)]
       (Sample.with_rules [home_made] (failing bad fs_made))).

Definition all_fine (c : call) : Z := 0.

(** Four rules for the session of alice; the third is on a directory that
    is not there. *)
Definition var_rule : polydir_s := mk_polydir "/var/tmp" "/var/tmp-inst/" USER [] 0.
Definition opt_rule : polydir_s := mk_polydir "/opt" "/opt-inst/" USER [] 0.

Definition four_rules : world :=
  Sample.with_rules [Sample.tmp_rule; Sample.home_rule; var_rule; opt_rule]
                    Sample.w0.

End Sample2.

(** The machine of [Sample] with the rule for /tmp loaded, before any
    session of alice, and with an instance directory of hers left there by
    an earlier setup, when it was made for her alone. *)
Module Sample3.

Definition old_instance : inode := mk_inode (Z.lor S_IFDIR 448) 1000 1000 "tmp_t".

Definition fs_old (p : string) : option inode :=
  if String.eqb p "/tmp-inst/alice" then Some old_instance else Sample.fs p.

Definition fresh : world := Sample.with_rules [Sample.tmp_rule] Sample.w0.

Definition reopened : world :=
  Sample.with_rules [Sample.tmp_rule] (Sample.world_with Sample.os fs_old).

Definition tmp_dir : inode := mk_inode (Z.lor S_IFDIR 1023) 0 0 "tmp_t".

End Sample3.

(** A digit of a lower-case hexadecimal numeral. *)
Definition is_hex (c : ascii) : bool :=
  let n := nat_of_ascii c in
  ((48 <=? n)%nat && (n <=? 57)%nat) || ((97 <=? n)%nat && (n <=? 102)%nat).

(** A session with a given user name and flags, and a name longer than the
    sample machine allows for a directory. *)
Module Sample4.

Definition session (user : string) (flags : Z) : instance_data :=
  mk_idata (Some O) user 1000 flags.

Definition long_name : string :=
  "a-user-name-that-is-much-longer-than-the-eighty-characters-allowed-for-an-instance-directory".

End Sample4.

(** The rule list of a session. *)
Definition rules_of (idata : instance_data) (w : world) : list polydir_s :=
  cells (polydirs_ptr idata) w.

(** From the session [idata] in [w] to the session [idata'] in [w'] the rule
    list only grew, at its end, by rules that satisfy the invariant. *)
Definition appends_ok (idata : instance_data) (w : world)
    (idata' : instance_data) (w' : world) : Prop :=
  exists added,
    rules_of idata' w' = (rules_of idata w ++ added)%list
    /\ Forall rule_ok added.

(** Rule lists no configuration file gives: rules of the user, the tmpdir
    and the tmpfs method whose two path names are relative and go through
    [..], on a machine that has the directories they name. *)
Module Sample5.

Definition odd_rule : polydir_s := mk_polydir "tmp/../srv" "../inst/" USER [] 0.

Definition fs_odd (p : string) : option inode :=
  if String.eqb p "tmp/../srv" then Some (mk_inode (Z.lor S_IFDIR 493) 0 0 "srv_t")
  else if String.eqb p "../inst" then Some (mk_inode S_IFDIR 0 0 "inst_t")
  else if String.eqb p "../inst/alice"
       then Some (mk_inode (Z.lor S_IFDIR 493) 0 0 "srv_t")
  else None.

Definition w_odd : world :=
  Sample.with_rules [odd_rule] (Sample.world_with Sample.os fs_odd).

Definition odd_tmpdir : polydir_s :=
  mk_polydir "tmp/../srv" "../inst/XXXXXX" TMPDIR [] 0.

Definition w_odd_tmpdir : world :=
  Sample.with_rules [odd_tmpdir] (Sample.world_with Sample.os fs_odd).

Definition odd_tmpfs : polydir_s := mk_polydir "tmp/../srv" "../inst/" TMPFS [] 0.

Definition w_odd_tmpfs : world :=
  Sample.with_rules [odd_tmpfs] (Sample.world_with Sample.os fs_odd).

End Sample5.

(** The calls of the cleanup pass. *)
Definition cleanup_call (c : call) : Prop :=
  match c with
  | c_signal _ | c_access _ _ | c_waitpid _ => True
  | c_fork prog _ => prog = "/bin/rm"
  | _ => False
  end.

(** The events a computation may add. *)
Definition event_ok (P : call -> Prop) (e : event) : Prop :=
  match e with
  | EvLog _ _ => True
  | EvCall c _ => P c
  end.

(** [adds P m]: the run of [m] adds to the history only lines of the log and
    calls that satisfy [P]. *)
Definition adds {A} (P : call -> Prop) (m : M A) : Prop :=
  forall w, exists evs,
    w_trace (snd (m w)) = (evs ++ w_trace w)%list /\ Forall (event_ok P) evs.

(* ===================================================================== *)
(** ** Notions used to state further properties *)
(* ===================================================================== *)

(** A name with no slash in it: one component of a path. *)
Definition no_slash (s : string) : Prop := CStr.strchr s "/" = None.

(** A string of white space only. *)
Definition all_space (s : string) : bool :=
  forallb CStr.isspace (list_ascii_of_string s).

(** The uids of the names the password database knows, in the order of the
    names. *)
Definition known_uids (os : oracle) (names : list string) : list Z :=
  flat_map (fun n => match getpwnam os n with
                     | Some pw => [pw_uid pw]
                     | None => []
                     end) names.

(** The number of commas in a string. *)
Fixpoint commas (s : string) : nat :=
  match s with
  | EmptyString => O
  | String a t => ((if Ascii.eqb a "," then 1 else 0) + commas t)%nat
  end.

(** The sample machine with an instance parent anyone may enter, and with a
    rule of the tmpfs method. *)
Module Sample6.

Definition fs_loose (p : string) : option inode :=
  if String.eqb p "/tmp-inst" then Some (mk_inode (Z.lor S_IFDIR 493) 0 0 "inst_t")
  else Sample3.fs_old p.

Definition w_loose : world :=
  Sample.with_rules [Sample.tmp_rule] (Sample.world_with Sample.os fs_loose).

Definition tmpfs_rule : polydir_s := mk_polydir "/tmp" EmptyString TMPFS [] 0.

Definition w_tmpfs (bad : call -> Z) : world :=
  Sample.with_rules [tmpfs_rule] (Sample2.failing bad Sample.fs).

End Sample6.

(** The test of both loops of setup_namespace, read off the rule: the rule
    is left alone when it is overridden for the session uid and, unless the
    mode is NO_UNMNT, for the requesting uid as well. *)
Definition needs_poly (idata : instance_data) (unmnt : unmnt_op) (req_uid : Z)
    (r : polydir_s) : bool :=
  negb (is_overridden r (id_uid idata)
        && (unmnt_op_eqb unmnt NO_UNMNT || is_overridden r req_uid)).

(** Environments that fail unshare, and the first pam_set_data. *)
Module Sample7.

Definition no_unshare (c : call) : Z :=
  match c with
  | c_unshare _ => 1            (* EPERM *)
  | _ => 0
  end.

Definition no_set_data (c : call) : Z :=
  match c with
  | c_pam_set_data _ => 5       (* PAM_BUF_ERR *)
  | _ => 0
  end.

Definition w_rules (bad : call -> Z) : world :=
  Sample.with_rules [Sample.tmp_rule] (Sample2.failing bad Sample.fs).

End Sample7.

(** The sample machine built with SELinux, which is enabled. *)
Module Sample8.

Definition os_selinux : oracle :=
  mk_oracle true 80 (fun _ _ => 0) (fun _ => 100%positive) (fun _ => 0)
    (fun _ => "abcdef") Sample.users 0 0 0 18 (Some "alice") None Sample.conf
    true None (fun _ _ => EmptyString) (fun s => s) "default_t"
    (fun _ _ s => s) (fun _ _ => false).

Definition w_selinux : world := Sample.world_with os_selinux Sample.fs.

End Sample8.

(** The calls of a session close over the rules [l]: those of the cleanup
    pass, and the unmount of the directory of a rule that is not overridden
    for the user of the session. *)
Definition close_call (idata : instance_data) (l : list polydir_s) (c : call)
  : Prop :=
  cleanup_call c
  \/ exists r, In r l /\ is_overridden r (id_uid idata) = false
                /\ c = c_umount (dir r).

(** Environments that fail fchmod, and fstat. *)
Module Sample9.

Definition no_fchmod (c : call) : Z :=
  match c with
  | c_fchmod _ _ => 1           (* EPERM *)
  | _ => 0
  end.

Definition no_fstat (c : call) : Z :=
  match c with
  | c_fstat _ => 5              (* EIO *)
  | _ => 0
  end.

Definition no_mkdtemp (c : call) : Z :=
  match c with
  | c_mkdtemp _ => 13           (* EACCES *)
  | _ => 0
  end.

Definition w_rules (bad : call -> Z) : world :=
  Sample.with_rules [Sample.tmp_rule] (Sample2.failing bad Sample.fs).

End Sample9.

(** The sample machine with a scratch directory for alice: a rule of the
    tmpdir method on her home whose instances are made under /tmp-inst,
    outside the directory they are mounted on; the state after her session
    was opened under it; and two rules on /tmp, the second with an instance
    parent that is not there. *)
Module Sample10.

Definition scratch_rule : polydir_s :=
  mk_polydir "/home/alice" "/tmp-inst/XXXXXX" TMPDIR [] 0.

Definition scratch_made : polydir_s :=
  mk_polydir "/home/alice" "/tmp-inst/abcdef" TMPDIR [] 0.

Definition fs_scratch (p : string) : option inode :=
  if String.eqb p "/tmp-inst/abcdef"
  then Some (mk_inode (Z.lor S_IFDIR 448) 1000 1000 "home_t")
  else Sample.fs p.

Definition opened (bad : call -> Z) : world :=
  set_data (Some (Some O, true))
    (set_mounts [("/tmp-inst/abcdef", "/home/alice", EmptyString)]
       (Sample.with_rules [scratch_made] (Sample2.failing bad fs_scratch))).

Definition four_rules : world :=
  Sample.with_rules
    [Sample.tmp_rule; scratch_rule; Sample2.var_rule; Sample2.opt_rule]
    Sample.w0.

Definition again_rule : polydir_s := mk_polydir "/tmp" "/srv/inst/" USER [] 0.

Definition two_on_tmp : world :=
  Sample.with_rules [Sample.tmp_rule; again_rule] Sample.w0.

End Sample10.

(** The sample machine built with SELinux, which is enabled, for a program
    that runs in a context of its own, and a rule of the context method. *)
Module Sample11.

Definition os_mls : oracle :=
  mk_oracle true 80 (fun _ _ => 0) (fun _ => 100%positive) (fun _ => 0)
    (fun _ => "abcdef") Sample.users 0 0 0 18 (Some "alice") None Sample.conf
    true (Some "staff_u:staff_r:staff_t:s0-s15")
    (fun _ _ => "staff_u:object_r:user_tmp_t:s0") (fun s => s) "default_t"
    (fun _ _ s => s) (fun _ _ => false).

Definition ctx_rule : polydir_s := mk_polydir "/tmp" "/tmp-inst/" CONTEXT [] 0.

Definition w_mls : world :=
  Sample.with_rules [ctx_rule] (Sample.world_with os_mls Sample.fs).

End Sample11.

(** A character that can stand in a field of the configuration file: not a
    blank, not the comment sign, not a newline. *)
Definition plain_char (c : ascii) : bool :=
  negb (CStr.is_delim blank c) && negb (Ascii.eqb c "#")
  && negb (Ascii.eqb c "010").

Definition plain (s : string) : bool :=
  forallb plain_char (list_ascii_of_string s).

(* ===================================================================== *)
(** * Properties *)
(* ===================================================================== *)

(** ** Sanity checks of the embedding *)

Example strtok_demo :
  CStr.strtok_r "  /tmp /inst user" (String " " (String "009"%char EmptyString))
  = Some ("/tmp", "/inst user").
Proof. reflexivity. Qed.

Example split_commas_demo : CStr.split_commas "a,,bc" = ["a"; EmptyString; "bc"].
Proof. reflexivity. Qed.

Example expand_demo : CStr.expand_var "$USER" "bob" "/i/$USER.d" = "/i/bob.d".
Proof. reflexivity. Qed.

(** The digests of RFC 1321's test suite. *)
Example md5_empty : md5hash EmptyString = "d41d8cd98f00b204e9800998ecf8427e".
Proof. vm_compute. reflexivity. Qed.

Example md5_abc : md5hash "abc" = "900150983cd24fb0d6963f7d28e17f72".
Proof. vm_compute. reflexivity. Qed.

Example md5_80_digits :
  md5hash "12345678901234567890123456789012345678901234567890123456789012345678901234567890"
  = "57edf4a22be3c955ac49da2e2107b67a".
Proof. vm_compute. reflexivity. Qed.

(* ===================================================================== *)
(** ** Running the monad *)
(* ===================================================================== *)

Lemma run_bind {A B} (m : M A) (k : A -> M B) (w : world) :
  bind m k w = k (fst (m w)) (snd (m w)).
Proof. unfold bind. destruct (m w). reflexivity. Qed.

Lemma run_ret {A} (a : A) (w : world) : ret a w = (a, w).
Proof. reflexivity. Qed.

Lemma set_trace_same (w : world) : set_trace (w_trace w) w = w.
Proof. destruct w. reflexivity. Qed.

(** What a call does, spelled out. *)
Lemma run_sys {A} (c : call) (dflt : A) (body : M (Z * A)) (w : world) :
  sys c dflt body w =
  if fault (w_os w) (w_trace w) c =? 0
  then (fst (body w),
        set_trace (EvCall c (fst (fst (body w))) :: w_trace (snd (body w)))
                  (snd (body w)))
  else ((fault (w_os w) (w_trace w) c, dflt),
        set_trace (EvCall c (fault (w_os w) (w_trace w) c) :: w_trace w) w).
Proof.
  unfold sys, ask, bind, record_call, emit, modify, ret.
  destruct (fault (w_os w) (w_trace w) c =? 0); [destruct (body w)|]; reflexivity.
Qed.

(* ===================================================================== *)
(** ** Frames: what a computation leaves alone *)
(* ===================================================================== *)

Create HintDb keeps.

#[local] Hint Extern 1 (ignores_trace _) => (intros ? ?; reflexivity) : keeps.
#[local] Hint Extern 1 (ignores_fs _) => (intros ? ?; reflexivity) : keeps.
#[local] Hint Extern 1 (ignores_mounts _) => (intros ? ?; reflexivity) : keeps.
#[local] Hint Extern 1 (ignores_fds _) => (intros ? ? ?; reflexivity) : keeps.
#[local] Hint Extern 1 (ignores_cwd _) => (intros ? ?; reflexivity) : keeps.
#[local] Hint Extern 1 (ignores_sigchld _) => (intros ? ?; reflexivity) : keeps.
#[local] Hint Extern 1 (ignores_children _) => (intros ? ?; reflexivity) : keeps.
#[local] Hint Extern 1 (ignores_unshared _) => (intros ? ?; reflexivity) : keeps.
#[local] Hint Extern 1 (ignores_heap _) => (intros ? ? ?; reflexivity) : keeps.
#[local] Hint Extern 1 (ignores_data _) => (intros ? ?; reflexivity) : keeps.

Section Keeps.
Context {X : Type} (f : world -> X).

Lemma keeps_ret {A} (a : A) : keeps f (ret a).
Proof. intros w. reflexivity. Qed.

Lemma keeps_gets {A} (g : world -> A) : keeps f (gets g).
Proof. intros w. reflexivity. Qed.

Lemma keeps_bind {A B} (m : M A) (k : A -> M B) :
  keeps f m -> (forall a, keeps f (k a)) -> keeps f (bind m k).
Proof.
  intros Hm Hk w. rewrite run_bind. rewrite Hk. apply Hm.
Qed.

Hypothesis f_trace : ignores_trace f.

Lemma keeps_emit e : keeps f (emit e).
Proof. intros w. apply f_trace. Qed.

Lemma keeps_syslog p s : keeps f (pam_syslog p s).
Proof. apply keeps_emit. Qed.

Lemma keeps_debug i p s : keeps f (debug i p s).
Proof. unfold debug. destruct flag_set; [apply keeps_syslog | apply keeps_ret]. Qed.

Lemma keeps_sys {A} c (d : A) body : keeps f body -> keeps f (sys c d body).
Proof.
  intros Hb w. rewrite run_sys.
  destruct (_ =? 0); cbn [snd]; rewrite f_trace; [apply Hb | reflexivity].
Qed.

Lemma keeps_getpwnam n : keeps f (pam_modutil_getpwnam n).
Proof. apply keeps_gets. Qed.

Lemma keeps_ns_override r i u : keeps f (ns_override r i u).
Proof. apply keeps_bind; [apply keeps_debug | intros; apply keeps_ret]. Qed.

Lemma keeps_access p m : keeps f (access p m).
Proof.
  apply keeps_bind; [apply keeps_sys | intros; apply keeps_ret].
  apply keeps_bind; [apply keeps_gets | intros g].
  destruct (g p); [destruct (_ && _)|]; apply keeps_ret.
Qed.

Lemma keeps_stat p : keeps f (stat p).
Proof.
  apply keeps_bind; [apply keeps_sys | intros; apply keeps_ret].
  apply keeps_bind; [apply keeps_gets | intros g].
  destruct (g p); apply keeps_ret.
Qed.

Lemma keeps_pam_get_item it rd : keeps f (pam_get_item it rd).
Proof.
  apply keeps_bind; [apply keeps_sys | intros; apply keeps_ret].
  apply keeps_bind; [apply keeps_gets | intros; apply keeps_ret].
Qed.

Lemma keeps_getcwd : keeps f getcwd.
Proof.
  apply keeps_bind; [apply keeps_sys | intros; apply keeps_ret].
  apply keeps_bind; [apply keeps_gets | intros; apply keeps_ret].
Qed.

Lemma keeps_signal h : ignores_sigchld f -> keeps f (signal_SIGCHLD h).
Proof.
  intros Hs.
  apply keeps_bind; [apply keeps_sys | intros; apply keeps_ret].
  destruct h; [|apply keeps_ret].
  apply keeps_bind; [apply keeps_gets | intros].
  apply keeps_bind; [| intros; apply keeps_ret].
  intros w. apply Hs.
Qed.

Lemma keeps_fork p a : ignores_children f -> keeps f (fork p a).
Proof.
  intros Hc.
  apply keeps_bind; [apply keeps_sys | intros; apply keeps_ret].
  intros w. apply Hc.
Qed.

Lemma keeps_child_effect p a s w :
  ignores_fs f -> ignores_mounts f -> f (child_effect p a s w) = f w.
Proof.
  intros Hf Hm. unfold child_effect.
  destruct (String.eqb p "/bin/rm").
  - destruct a as [|? [|? [|? [|? ?]]]]; try reflexivity.
    destruct (String.eqb _ _); [|reflexivity]. destruct (_ && _); apply Hf.
  - cbv zeta. rewrite Hm. apply Hf.
Qed.

Lemma keeps_waitpid pid :
  ignores_children f -> ignores_fs f -> ignores_mounts f ->
  keeps f (waitpid pid).
Proof.
  intros Hc Hf Hm.
  apply keeps_bind; [apply keeps_sys | intros; apply keeps_ret].
  intros w. destruct (assoc_find pid (w_children w)) as [[p a]|]; [|reflexivity].
  cbn [snd]. rewrite keeps_child_effect by assumption. apply Hc.
Qed.

Lemma keeps_umount t : ignores_mounts f -> keeps f (umount t).
Proof.
  intros Hm.
  apply keeps_bind; [apply keeps_sys | intros; apply keeps_ret].
  intros w. destruct (w_fs w t); [|reflexivity].
  destruct (existsb _ _); [apply Hm | reflexivity].
Qed.

Lemma keeps_mount s t ty fl : ignores_mounts f -> keeps f (mount s t ty fl).
Proof.
  intros Hm.
  apply keeps_bind; [apply keeps_sys | intros; apply keeps_ret].
  intros w. cbv zeta. destruct (_ =? 0); [apply Hm | reflexivity].
Qed.

Lemma keeps_chdir p : ignores_cwd f -> keeps f (chdir p).
Proof.
  intros Hm.
  apply keeps_bind; [apply keeps_sys | intros; apply keeps_ret].
  apply keeps_bind; [| intros; apply keeps_ret].
  intros w. apply Hm.
Qed.

Lemma keeps_mkdir p m : ignores_fs f -> keeps f (mkdir p m).
Proof.
  intros Hm.
  apply keeps_bind; [apply keeps_sys | intros; apply keeps_ret].
  intros w. destruct (w_fs w p); [reflexivity | apply Hm].
Qed.

Lemma keeps_mkdtemp t : ignores_fs f -> keeps f (mkdtemp t).
Proof.
  intros Hm.
  apply keeps_bind; [apply keeps_sys | intros; apply keeps_ret].
  intros w. cbv beta zeta. destruct (has_template t); [|reflexivity].
  match goal with |- context [w_fs w ?n] => destruct (w_fs w n) end;
    [reflexivity | apply Hm].
Qed.

Lemma keeps_open_dir p : ignores_fds f -> keeps f (open_dir p).
Proof.
  intros Hm.
  apply keeps_bind; [apply keeps_sys | intros; apply keeps_ret].
  intros w. destruct (w_fs w p) as [i|]; [|reflexivity].
  destruct (S_ISDIR _); [apply Hm | reflexivity].
Qed.

Lemma keeps_fstat fd : keeps f (fstat fd).
Proof.
  apply keeps_bind; [apply keeps_sys | intros; apply keeps_ret].
  apply keeps_bind; [apply keeps_gets | intros [[? ?]|]; apply keeps_ret].
Qed.

Lemma keeps_on_fd c fd g : ignores_fs f -> keeps f (on_fd c fd g).
Proof.
  intros Hm.
  apply keeps_bind; [apply keeps_sys | intros; apply keeps_ret].
  intros w. destruct (fd_inode fd w) as [[? ?]|]; [apply Hm | reflexivity].
Qed.

Lemma keeps_close fd : ignores_fds f -> keeps f (close fd).
Proof.
  intros Hm.
  apply keeps_bind; [apply keeps_sys | intros; apply keeps_ret].
  intros w. destruct (assoc_find _ _); [apply Hm | reflexivity].
Qed.

Lemma keeps_rmdir p : ignores_fs f -> keeps f (rmdir p).
Proof.
  intros Hm.
  apply keeps_bind; [apply keeps_sys | intros; apply keeps_ret].
  intros w. destruct (w_fs w p) as [i|]; [|reflexivity].
  destruct (S_ISDIR _); [apply Hm | reflexivity].
Qed.

Lemma keeps_load p : keeps f (load p).
Proof. apply keeps_gets. Qed.

Lemma keeps_store p r : ignores_heap f -> keeps f (store p r).
Proof. intros Hm w. apply Hm. Qed.

End Keeps.

#[local] Hint Resolve keeps_ret keeps_gets keeps_emit keeps_syslog keeps_debug
  keeps_sys keeps_getpwnam keeps_ns_override keeps_access keeps_stat
  keeps_pam_get_item keeps_getcwd keeps_signal keeps_fork keeps_waitpid
  keeps_umount keeps_mount keeps_chdir keeps_mkdir keeps_mkdtemp
  keeps_open_dir keeps_fstat keeps_on_fd keeps_close keeps_rmdir keeps_load
  keeps_store : keeps.

(** One step of a frame proof: split a bind, decide a test, or close the
    goal with a lemma of the database. *)
Ltac keeps_step :=
  first
    [ solve [eauto 3 with keeps]
    | apply keeps_bind; [ | intros ]
    | match goal with
      | |- keeps _ (if ?b then _ else _) => destruct b
      | |- keeps _ (match ?x with _ => _ end) => destruct x
      end ].

Ltac keeps_tac := repeat keeps_step.

Lemma keeps_cleanup_loop {X} (f : world -> X) l :
  ignores_trace f -> ignores_children f -> ignores_fs f -> ignores_mounts f ->
  keeps f (cleanup_loop l).
Proof.
  intros Ht Hc Hf Hm. induction l as [|r l IH]; cbn [cleanup_loop]; keeps_tac.
Qed.

Lemma keeps_cleanup_tmpdirs {X} (f : world -> X) idata :
  ignores_trace f -> ignores_children f -> ignores_fs f -> ignores_sigchld f ->
  ignores_mounts f ->
  keeps f (cleanup_tmpdirs idata).
Proof.
  intros Ht Hc Hf Hs Hm. unfold cleanup_tmpdirs.
  pose proof (keeps_cleanup_loop f) as Hl. keeps_tac.
Qed.

(* ===================================================================== *)
(** ** Lines of the log *)
(* ===================================================================== *)

Lemma only_logs_refl w : only_logs w w.
Proof. exists []. split; [reflexivity | symmetry; apply set_trace_same]. Qed.

Lemma only_logs_trans a b c : only_logs a b -> only_logs b c -> only_logs a c.
Proof.
  intros (e1 & H1 & ->) (e2 & H2 & ->). exists (e2 ++ e1)%list. split.
  - rewrite forallb_app, H1, H2. reflexivity.
  - destruct a. cbn. rewrite app_assoc. reflexivity.
Qed.

Lemma only_logs_syslog p s w : only_logs w (snd (pam_syslog p s w)).
Proof. exists [EvLog p s]. split; reflexivity. Qed.

Lemma only_logs_debug i p s w : only_logs w (snd (debug i p s w)).
Proof.
  unfold debug. destruct flag_set; [apply only_logs_syslog | apply only_logs_refl].
Qed.

Lemma bind_eq {A B} (m : M A) (k : A -> M B) w a w' :
  m w = (a, w') -> bind m k w = k a w'.
Proof. intros H. unfold bind. rewrite H. reflexivity. Qed.

Lemma set_trace_twice t1 t2 w : set_trace t2 (set_trace t1 w) = set_trace t2 w.
Proof. reflexivity. Qed.

Lemma debug_run i p s w : logs_only (debug i p s) tt w.
Proof.
  unfold debug. destruct flag_set.
  - exists [EvLog p s]. split; reflexivity.
  - exists []. split; [reflexivity|]. cbn. rewrite set_trace_same. reflexivity.
Qed.

Lemma logs_only_bind {A B} (m : M A) (k : A -> M B) a b w :
  logs_only m a w ->
  (forall w1, logs_only (k a) b w1) ->
  logs_only (bind m k) b w.
Proof.
  intros (e1 & L1 & E1) Hk.
  destruct (Hk (set_trace (e1 ++ w_trace w)%list w)) as (e2 & L2 & E2).
  exists (e2 ++ e1)%list. split.
  - rewrite forallb_app, L1, L2. reflexivity.
  - rewrite (bind_eq _ _ _ _ _ E1), E2. cbn. rewrite app_assoc. reflexivity.
Qed.

Lemma logs_only_ret {A} (a : A) w : logs_only (ret a) a w.
Proof. exists []. split; [reflexivity|]. cbn. rewrite set_trace_same. reflexivity. Qed.

(** ns_override consults nothing but the rule. *)
Lemma ns_override_run r i u w :
  logs_only (ns_override r i u) (uid_scan u (uid r) (exclusive r)) w.
Proof.
  unfold ns_override. eapply logs_only_bind; [apply debug_run|].
  intros w1. apply logs_only_ret.
Qed.

Lemma uid_scan_truthy u l e :
  truthy (uid_scan u l e) = xorb (existsb (Z.eqb u) l) (truthy e).
Proof.
  induction l as [|x l IH]; cbn [uid_scan existsb].
  - destruct (truthy e); reflexivity.
  - destruct (u =? x); cbn [orb]; [|exact IH].
    unfold truthy. destruct (e =? 0); reflexivity.
Qed.

Lemma existsb_eqb_In u l : existsb (Z.eqb u) l = true <-> In u l.
Proof.
  rewrite existsb_exists. split.
  - intros (x & Hx & E). apply Z.eqb_eq in E. subst. exact Hx.
  - intros H. exists u. split; [exact H | apply Z.eqb_refl].
Qed.

(* ===================================================================== *)
(** ** C1: the override evaluator *)
(* ===================================================================== *)

(** C1.  For every rule and every uid, in every world, what ns_override
    returns is true exactly when (the uid is among the rule's override uids)
    XOR (the rule is exclusive): with [exclusive] clear it is true iff the
    uid is in the set, with [exclusive] set it is true iff the uid is not. *)
Theorem ns_override_xor :
  forall (polyptr : polydir_s) (idata : instance_data) (u : Z) (w : world),
    let answer := truthy (result (ns_override polyptr idata u) w) in
    answer = xorb (existsb (Z.eqb u) (uid polyptr)) (truthy (exclusive polyptr))
    /\ (exclusive polyptr = 0 -> (answer = true <-> In u (uid polyptr)))
    /\ (exclusive polyptr <> 0 -> (answer = true <-> ~ In u (uid polyptr))).
Proof.
  intros polyptr idata u w answer.
  assert (E : answer
              = xorb (existsb (Z.eqb u) (uid polyptr)) (truthy (exclusive polyptr))).
  { unfold answer, result.
    destruct (ns_override_run polyptr idata u w) as (evs & _ & ->).
    apply uid_scan_truthy. }
  split; [exact E|]. rewrite E. split; intros Hx.
  - rewrite Hx. cbn. rewrite xorb_false_r. apply existsb_eqb_In.
  - assert (T : truthy (exclusive polyptr) = true).
    { unfold truthy. apply negb_true_iff. apply Z.eqb_neq. exact Hx. }
    rewrite T, xorb_true_r, negb_true_iff, <- existsb_eqb_In.
    destruct (existsb (Z.eqb u) (uid polyptr)); split; congruence.
Qed.

(* ===================================================================== *)
(** ** C6: the requesting identity *)
(* ===================================================================== *)

(** The uid the head of setup_namespace computes, and its one call. *)
Lemma requesting_uid_run w :
  let os := w_os w in
  let e := fault os (w_trace w) (c_pam_get_item PAM_RUSER) in
  requesting_uid w =
  (match pam_ruser os with
   | Some name =>
       if e =? 0 then
         match getpwnam os name with
         | Some pw => pw_uid pw
         | None => getuid os
         end
       else getuid os
   | None => getuid os
   end,
   set_trace (EvCall (c_pam_get_item PAM_RUSER) e :: w_trace w) w).
Proof.
  cbv zeta. unfold requesting_uid, pam_get_item.
  rewrite !run_bind, run_sys.
  destruct (fault (w_os w) (w_trace w) (c_pam_get_item PAM_RUSER) =? 0) eqn:E.
  - apply Z.eqb_eq in E. rewrite E.
    unfold gets, bind, ret, pam_modutil_getpwnam. cbn.
    destruct (pam_ruser (w_os w)) as [name|]; cbn; [|reflexivity].
    destruct (getpwnam (w_os w) name); reflexivity.
  - cbn. destruct (pam_ruser (w_os w)); reflexivity.
Qed.

(** C6, as the code has it.  The requesting uid is the uid of the user that
    PAM_RUSER names when the item is there, is retrieved and names a known
    user; whenever it is absent, not retrieved or unknown, the requesting
    uid is the real uid of the calling process, [getuid()], whatever the uid
    of the session is. *)
Theorem requesting_uid_resolves :
  forall (w : world),
    let os := w_os w in
    let retrieved := fault os (w_trace w) (c_pam_get_item PAM_RUSER) =? 0 in
    result requesting_uid w =
    match pam_ruser os with
    | Some name =>
        if retrieved then
          match getpwnam os name with
          | Some pw => pw_uid pw
          | None => getuid os
          end
        else getuid os
    | None => getuid os
    end.
Proof.
  intros w. cbv zeta. unfold result.
  pose proof (requesting_uid_run w) as H. cbv zeta in H. rewrite H. reflexivity.
Qed.

(** C6 as stated fails: alice (uid 1000) opens a session from a process of
    root with no PAM_RUSER; the requesting uid is 0, not the session's. *)
Lemma requesting_uid_is_not_session_uid :
  pam_ruser (w_os Sample.w0) = None
  /\ id_uid Sample.alice = 1000
  /\ setup_req_uid Sample.alice Sample.w0 = 0
  /\ setup_req_uid Sample.alice Sample.w0 <> id_uid Sample.alice.
Proof. repeat split. vm_compute. discriminate. Qed.

(* ===================================================================== *)
(** ** C3: nothing to polyinstantiate *)
(* ===================================================================== *)

Lemma overridden_both r idata unmnt req w :
  is_overridden r (id_uid idata) = true ->
  unmnt = NO_UNMNT \/ is_overridden r req = true ->
  logs_only (overridden r idata unmnt req) (true, true) w.
Proof.
  intros H1 H2. unfold overridden.
  eapply logs_only_bind; [apply ns_override_run|]. intros w1.
  fold (is_overridden r (id_uid idata)). rewrite H1.
  destruct (unmnt_op_eqb unmnt NO_UNMNT) eqn:U; [apply logs_only_ret|].
  destruct H2 as [-> | H2]; [discriminate U|].
  eapply logs_only_bind; [apply ns_override_run|]. intros w2.
  fold (is_overridden r req). rewrite H2. apply logs_only_ret.
Qed.

Lemma need_poly_scan_none l idata unmnt req w :
  (forall r, In r l ->
     is_overridden r (id_uid idata) = true
     /\ (unmnt = NO_UNMNT \/ is_overridden r req = true)) ->
  logs_only (need_poly_scan l idata unmnt req) false w.
Proof.
  revert w. induction l as [|r l IH]; intros w H; cbn [need_poly_scan].
  - apply logs_only_ret.
  - destruct (H r (or_introl eq_refl)) as [H1 H2].
    eapply logs_only_bind; [apply overridden_both; assumption|]. intros w1.
    eapply logs_only_bind; [apply debug_run|]. intros w2.
    apply IH. intros r' Hr'. apply H. right. exact Hr'.
Qed.

Lemma In_log_call evs c e :
  forallb is_log evs = true -> In (EvCall c e) evs -> False.
Proof.
  intros H Hin. rewrite forallb_forall in H. specialize (H _ Hin). discriminate H.
Qed.

Lemma events_of_trace {A} (m : M A) w evs :
  w_trace (snd (m w)) = (evs ++ w_trace w)%list ->
  events_of m w = evs.
Proof.
  intros H. unfold events_of, after. rewrite H.
  rewrite length_app, Nat.add_sub, firstn_app, firstn_all, Nat.sub_diag.
  cbn. apply app_nil_r.
Qed.

(** The run of setup_namespace when nothing is needed: the debug lines, the
    call that reads PAM_RUSER, and the list is freed. *)
Lemma setup_namespace_nothing_run idata unmnt w :
  (forall r, In r (cells (polydirs_ptr idata) w) ->
     is_overridden r (id_uid idata) = true
     /\ (unmnt = NO_UNMNT \/ is_overridden r (setup_req_uid idata w) = true)) ->
  exists ev1 ev3 e,
    forallb is_log ev1 = true /\ forallb is_log ev3 = true
    /\ setup_namespace idata unmnt w =
       (PAM_SUCCESS,
        snd (del_polydir_list (polydirs_ptr idata)
               (set_trace (ev3 ++ EvCall (c_pam_get_item PAM_RUSER) e
                               :: ev1 ++ w_trace w)%list w))).
Proof.
  intros H.
  destruct (debug_run idata LOG_DEBUG "Set up namespace for pid %d" w)
    as (ev1 & L1 & E1).
  assert (Q : setup_req_uid idata w
              = fst (requesting_uid (set_trace (ev1 ++ w_trace w)%list w))).
  { unfold setup_req_uid, after, result. rewrite E1. reflexivity. }
  pose proof (requesting_uid_run (set_trace (ev1 ++ w_trace w)%list w)) as R.
  cbv zeta in R. rewrite R in Q. cbn [fst] in Q.
  set (w1 := set_trace (ev1 ++ w_trace w)%list w) in *.
  set (e := fault (w_os w1) (w_trace w1) (c_pam_get_item PAM_RUSER)) in *.
  set (w2 := set_trace (EvCall (c_pam_get_item PAM_RUSER) e :: w_trace w1) w1) in *.
  assert (C : cells (polydirs_ptr idata) w2 = cells (polydirs_ptr idata) w)
    by reflexivity.
  rewrite <- C in H.
  destruct (need_poly_scan_none _ idata unmnt (setup_req_uid idata w) w2 H)
    as (ev3 & L3 & E3).
  exists ev1, ev3, e. split; [exact L1|]. split; [exact L3|].
  assert (B : setup_begin idata unmnt w =
              (inl PAM_SUCCESS,
               snd (del_polydir_list (polydirs_ptr idata)
                      (set_trace (ev3 ++ w_trace w2)%list w2)))).
  { unfold setup_begin.
    rewrite (bind_eq _ _ w _ _ E1). fold w1.
    rewrite (bind_eq _ _ w1 _ _ R). fold e w2. rewrite <- Q.
    unfold gets at 1. unfold bind at 1.
    rewrite (bind_eq _ _ w2 _ _ E3).
    unfold del_polydir_list, bind, ret, modify.
    destruct (polydirs_ptr idata); reflexivity. }
  unfold setup_namespace. rewrite (bind_eq _ _ w _ _ B). reflexivity.
Qed.

(** C3.  If every rule of the list is overridden for the session uid and,
    for each of them, either the unmount mode is NO_UNMNT or the rule is
    also overridden for the requesting uid, then setup_namespace returns
    PAM_SUCCESS having made no call but the one that reads PAM_RUSER: it
    neither calls unshare nor publishes the list (the mount namespace, the
    mount table and the data slot are as before), and the list is freed. *)
Theorem setup_namespace_nothing_needed :
  forall (idata : instance_data) (unmnt : unmnt_op) (w : world),
    (forall r, In r (cells (polydirs_ptr idata) w) ->
       is_overridden r (id_uid idata) = true
       /\ (unmnt = NO_UNMNT \/ is_overridden r (setup_req_uid idata w) = true)) ->
    let w' := after (setup_namespace idata unmnt) w in
    result (setup_namespace idata unmnt) w = PAM_SUCCESS
    /\ (forall c e, In (EvCall c e) (events_of (setup_namespace idata unmnt) w) ->
          c = c_pam_get_item PAM_RUSER)
    /\ w_unshared w' = w_unshared w
    /\ w_data w' = w_data w
    /\ w_mounts w' = w_mounts w
    /\ (forall a, polydirs_ptr idata = Some a -> w_heap w' a = None).
Proof.
  intros idata unmnt w H. cbv zeta.
  destruct (setup_namespace_nothing_run idata unmnt w H)
    as (ev1 & ev3 & e & L1 & L3 & E).
  assert (Ev : events_of (setup_namespace idata unmnt) w
               = (ev3 ++ EvCall (c_pam_get_item PAM_RUSER) e :: ev1)%list).
  { apply events_of_trace. rewrite E.
    rewrite <- app_assoc. cbn [app].
    unfold del_polydir_list. destruct (polydirs_ptr idata); reflexivity. }
  unfold result, after. rewrite Ev, E. cbn [fst snd].
  split; [reflexivity|]. split.
  { intros c e' Hin. apply in_app_or in Hin. destruct Hin as [Hin | [Hin | Hin]].
    - exfalso. exact (In_log_call _ _ _ L3 Hin).
    - congruence.
    - exfalso. exact (In_log_call _ _ _ L1 Hin). }
  unfold del_polydir_list.
  destruct (polydirs_ptr idata) as [a|]; cbn; repeat split; try reflexivity.
  - intros a' Ea. inversion Ea; subst. rewrite Nat.eqb_refl. reflexivity.
  - intros a' Ea. discriminate Ea.
Qed.

(** C3 on the sample machine: root opens a session and the one rule, on
    [/tmp], names root as an override user. *)
Lemma setup_namespace_nothing_needed_witness :
  let w := Sample.with_rules [Sample.tmp_rule] Sample.w0 in
  result (setup_namespace Sample2.root NO_UNMNT) w = PAM_SUCCESS
  /\ w_unshared (after (setup_namespace Sample2.root NO_UNMNT) w) = false
  /\ w_data (after (setup_namespace Sample2.root NO_UNMNT) w) = None
  /\ w_heap (after (setup_namespace Sample2.root NO_UNMNT) w) O = None.
Proof.
  intros w.
  assert (H : forall r, In r (cells (polydirs_ptr Sample2.root) w) ->
              is_overridden r (id_uid Sample2.root) = true
              /\ (NO_UNMNT = NO_UNMNT
                  \/ is_overridden r (setup_req_uid Sample2.root w) = true)).
  { intros r [<- | []]. split; [reflexivity | left; reflexivity]. }
  destruct (setup_namespace_nothing_needed Sample2.root NO_UNMNT w H)
    as (H1 & _ & H3 & H4 & _ & H6).
  split; [exact H1|]. split; [exact H3|]. split; [exact H4|].
  apply H6. reflexivity.
Defined.

(* ===================================================================== *)
(** ** Running the calls *)
(* ===================================================================== *)

Lemma wp_ret {A} (a : A) Q w : Q a w -> wp (ret a) Q w.
Proof. exact (fun H => H). Qed.

Lemma wp_bind {A B} (m : M A) (k : A -> M B) Q w :
  wp m (fun a w1 => wp (k a) Q w1) w -> wp (bind m k) Q w.
Proof. unfold wp. rewrite run_bind. exact (fun H => H). Qed.

Lemma wp_gets {A} (g : world -> A) Q w : Q (g w) w -> wp (gets g) Q w.
Proof. exact (fun H => H). Qed.

Lemma wp_modify (g : world -> world) Q w : Q tt (g w) -> wp (modify g) Q w.
Proof. exact (fun H => H). Qed.

Lemma wp_syslog p s Q w :
  Q tt (set_trace (EvLog p s :: w_trace w) w) -> wp (pam_syslog p s) Q w.
Proof. exact (fun H => H). Qed.

Lemma wp_debug i p s Q w :
  (forall evs, forallb is_log evs = true ->
               Q tt (set_trace (evs ++ w_trace w)%list w)) ->
  wp (debug i p s) Q w.
Proof.
  intros H. unfold wp. destruct (debug_run i p s w) as (evs & L & ->).
  apply H. exact L.
Qed.

Lemma wp_eq {A} (m : M A) Q w r : m w = r -> Q (fst r) (snd r) -> wp m Q w.
Proof. intros <-. exact (fun H => H). Qed.

Lemma child_effect_trace p a s w : w_trace (child_effect p a s w) = w_trace w.
Proof. apply (keeps_child_effect w_trace); intros ? ?; reflexivity. Qed.

Lemma signal_run h w :
  let e := fault (w_os w) (w_trace w) (c_signal h) in
  signal_SIGCHLD h w =
  match h with
  | Some d =>
      if e =? 0 then (Some (w_sigchld w), called (c_signal h) 0 (set_sigchld d w))
      else (None, called (c_signal h) e w)
  | None => (None, called (c_signal h) (if e =? 0 then EINVAL else e) w)
  end.
Proof.
  cbv zeta. unfold signal_SIGCHLD. rewrite run_bind, run_sys.
  destruct h as [d|]; destruct (fault (w_os w) (w_trace w) _ =? 0) eqn:E;
    cbn; rewrite ?E; reflexivity.
Qed.

Lemma access_run p m w :
  access p m w =
  (if access_errno w p m =? 0 then 0 else -1,
   called (c_access p m) (access_errno w p m) w).
Proof.
  unfold access, access_errno. rewrite run_bind, run_sys.
  destruct (fault (w_os w) (w_trace w) _ =? 0) eqn:E.
  - unfold gets, bind, ret. cbn. destruct (w_fs w p) as [i|]; cbn; [|reflexivity].
    destruct (_ && _); reflexivity.
  - cbn. rewrite E. reflexivity.
Qed.

Lemma fork_run p a w :
  let e := fault (w_os w) (w_trace w) (c_fork p a) in
  let pid := Z.pos (child_pid (w_os w) (w_trace w)) in
  fork p a w =
  if e =? 0
  then (pid, called (c_fork p a) 0 (set_children ((pid, (p, a)) :: w_children w) w))
  else (-1, called (c_fork p a) e w).
Proof.
  cbv zeta. unfold fork. rewrite run_bind, run_sys.
  destruct (fault (w_os w) (w_trace w) _ =? 0) eqn:E; cbn;
    [reflexivity | rewrite E; reflexivity].
Qed.

Lemma waitpid_run pid w :
  let e := fault (w_os w) (w_trace w) (c_waitpid pid) in
  let st := child_status (w_os w) (w_trace w) in
  waitpid pid w =
  if e =? 0 then
    match assoc_find pid (w_children w) with
    | Some (p, a) =>
        ((pid, st),
         called (c_waitpid pid) 0
           (child_effect p a st
              (set_children (assoc_remove pid (w_children w)) w)))
    | None => ((-1, 0), called (c_waitpid pid) ECHILD w)
    end
  else ((-1, 0), called (c_waitpid pid) e w).
Proof.
  cbv zeta. unfold waitpid. rewrite run_bind, run_sys.
  destruct (fault (w_os w) (w_trace w) _ =? 0) eqn:E.
  - destruct (assoc_find pid (w_children w)) as [[p a]|]; cbn; [|reflexivity].
    unfold called. rewrite child_effect_trace. reflexivity.
  - cbn. rewrite E. reflexivity.
Qed.

(* ===================================================================== *)
(** ** C4: the init hook runner *)
(* ===================================================================== *)

Lemma access_errno_missing w p m :
  w_fs w p = None -> (access_errno w p m =? 0) = false.
Proof.
  intros H. unfold access_errno. rewrite H.
  destruct (fault _ _ _ =? 0) eqn:E; [reflexivity | exact E].
Qed.

Lemma access_errno_present w p m i :
  fault (w_os w) (w_trace w) (c_access p m) = 0 ->
  w_fs w p = Some i ->
  access_errno w p m =
  if (m =? X_OK) && (Z.land (st_mode i) S_IXUGO =? 0) then 13 else 0.
Proof. intros E H. unfold access_errno. rewrite E, H. reflexivity. Qed.

(** Symbolic execution: [wp_simp] computes the projections of the worlds
    met and the tests on numerals, [wp_step] takes one step of the program,
    [wp_with tac] runs to the end, with [tac] to put in what is known of the
    environment. *)
Ltac wp_simp :=
  cbv zeta;
  cbn [fst snd called set_trace set_fs set_mounts set_fds set_cwd set_sigchld
       set_children set_unshared set_heap set_data
       w_os w_trace w_fs w_mounts w_fds w_next_fd w_cwd w_sigchld w_children
       w_unshared w_heap w_brk w_data assoc_find
       Z.eqb Z.ltb Z.leb Z.compare Pos.eqb Pos.compare Pos.compare_cont
       negb andb orb
       PAM_SUCCESS PAM_SESSION_ERR PAM_SYSTEM_ERR PAM_SERVICE_ERR] in *.

Ltac wp_run :=
  first [ eapply wp_eq; [apply signal_run|]
        | eapply wp_eq; [apply access_run|]
        | eapply wp_eq; [apply fork_run|]
        | eapply wp_eq; [apply waitpid_run|] ].

Ltac wp_split :=
  match goal with
  | |- context [fst (if ?b then _ else _)] => destruct b eqn:?
  | |- context [snd (if ?b then _ else _)] => destruct b eqn:?
  | |- context [fst (match ?x with _ => _ end)] => destruct x eqn:?
  | |- context [snd (match ?x with _ => _ end)] => destruct x eqn:?
  end.

Ltac wp_step :=
  lazymatch goal with
  | |- wp (bind _ _) _ _ => apply wp_bind
  | |- wp (ret _) _ _ => apply wp_ret
  | |- wp (pam_syslog _ _) _ _ => apply wp_syslog
  | |- wp (debug _ _ _) _ _ => apply wp_debug; intros ? ?
  | |- wp (if ?b then _ else _) _ _ => destruct b eqn:?
  | |- wp (match ?x with _ => _ end) _ _ => destruct x eqn:?
  | |- wp _ _ _ => wp_run
  end.

(** Steps over whole functions, by what is proved of them. *)
Ltac wp_sub := fail.

Ltac wp_with tac :=
  wp_simp;
  repeat (first [ progress tac | wp_split | wp_sub | wp_step ]; wp_simp).


(** What the init script leaves behind is the environment's to say. *)
Lemma child_effect_script a st w :
  child_effect NAMESPACE_INIT_SCRIPT a st w
  = set_mounts (snd (script_effect (w_os w) (w_trace w) a (w_fs w, w_mounts w)))
      (set_fs (fst (script_effect (w_os w) (w_trace w) a (w_fs w, w_mounts w))) w).
Proof. reflexivity. Qed.

Lemma child_effect_rm path w :
  child_effect "/bin/rm" ["/bin/rm"; "-rf"; path] 0 w
  = set_fs (fs_remove_tree path (w_fs w)) w.
Proof. reflexivity. Qed.

Lemma WIFEXITED_0 : WIFEXITED 0 = true.
Proof. reflexivity. Qed.

Lemma WIFSIGNALED_0 : WIFSIGNALED 0 = false.
Proof. reflexivity. Qed.

(** A child that ended by a normal exit was not killed by a signal. *)
Lemma WIFEXITED_not_signaled st : WIFEXITED st = true -> WIFSIGNALED st = false.
Proof.
  unfold WIFEXITED, WIFSIGNALED. intros H. apply Z.eqb_eq in H. rewrite H.
  reflexivity.
Qed.

(** The status of a child that ended with [exit(code)]. *)
Lemma exit_status code :
  0 <= code < 256 ->
  WIFEXITED (code * 256) = true /\ WEXITSTATUS (code * 256) = code.
Proof.
  intros Hc. unfold WIFEXITED, WTERMSIG, WEXITSTATUS.
  change (code * 256) with (code * 2 ^ 8). rewrite <- Z.shiftl_mul_pow2 by lia.
  split.
  - apply Z.eqb_eq. change 127 with (Z.ones 7).
    rewrite Z.land_ones by lia. rewrite Z.shiftl_mul_pow2 by lia.
    change (2 ^ 8) with (2 * 2 ^ 7). rewrite Z.mul_assoc. apply Z.mod_mul. lia.
  - change 65280 with (Z.shiftl 255 8). rewrite <- Z.shiftl_land.
    rewrite Z.shiftr_shiftl_l by lia. change (8 - 8) with 0. rewrite Z.shiftl_0_r.
    change 255 with (Z.ones 8). rewrite Z.land_ones by lia.
    apply Z.mod_small. change (2 ^ 8) with 256. lia.
Qed.

(** C4, as the code has it.  Provided signal() installs the default
    disposition of SIGCHLD: a missing script is skipped and the runner
    returns PAM_SUCCESS; a script that is there but not executable gives
    PAM_SESSION_ERR; for a script that is there and executable, the runner
    returns PAM_SESSION_ERR when fork fails, when waitpid fails, and when
    the child does not end by a normal exit (it is killed by a signal), and
    PAM_SUCCESS whenever the child ends by a normal exit, whatever its exit
    code: for every [code] of [exit(code)], 0 or not, the status is
    [code * 256] and the runner returns PAM_SUCCESS. *)
Theorem inst_init_outcomes :
  forall (polyptr : polydir_s) (ipath : string) (idata : instance_data)
         (newdir : Z) (w : world),
    fault (w_os w) (w_trace w) (c_signal (Some SIG_DFL)) = 0 ->
    let rc := result (inst_init polyptr ipath idata newdir) w in
    (w_fs w NAMESPACE_INIT_SCRIPT = None -> rc = PAM_SUCCESS)
    /\ (forall i,
          w_fs w NAMESPACE_INIT_SCRIPT = Some i ->
          access_answered (w_os w) ->
          (Z.land (st_mode i) S_IXUGO = 0 -> rc = PAM_SESSION_ERR)
          /\ (Z.land (st_mode i) S_IXUGO <> 0 ->
              (fork_answer (w_os w) false -> rc = PAM_SESSION_ERR)
              /\ (fork_answer (w_os w) true -> wait_answer (w_os w) false ->
                  rc = PAM_SESSION_ERR)
              /\ (forall st,
                    fork_answer (w_os w) true -> wait_answer (w_os w) true ->
                    children_end_with (w_os w) st ->
                    (WIFEXITED st = false \/ WIFSIGNALED st = true ->
                     rc = PAM_SESSION_ERR)
                    /\ (WIFEXITED st = true -> rc = PAM_SUCCESS)
                    /\ (forall code, 0 <= code < 256 -> st = code * 256 ->
                        WEXITSTATUS st = code /\ rc = PAM_SUCCESS)))).
Proof.
  intros polyptr ipath idata newdir w Hsig rc. subst rc. split.
  { intros Hfs.
    change (wp (inst_init polyptr ipath idata newdir)
               (fun r _ => r = PAM_SUCCESS) w).
    unfold inst_init.
    wp_with ltac:(rewrite ?Hsig; rewrite ?access_errno_missing by exact Hfs).
    all: reflexivity. }
  intros i Hfs Hacc. unfold access_answered in Hacc.
  assert (HF : forall w' z,
             w_os w' = w_os w -> w_fs w' = w_fs w ->
             access_errno w' NAMESPACE_INIT_SCRIPT z
             = if (z =? X_OK) && (Z.land (st_mode i) S_IXUGO =? 0) then 13 else 0).
  { intros w' z Eo Ef. apply access_errno_present;
      [rewrite Eo; apply Hacc | rewrite Ef; exact Hfs]. }
  split.
  { intros Hx.
    change (wp (inst_init polyptr ipath idata newdir)
               (fun r _ => r = PAM_SESSION_ERR) w).
    unfold inst_init.
    wp_with ltac:(rewrite ?Hsig; rewrite ?HF by reflexivity; rewrite ?Hx).
    all: try reflexivity; discriminate. }
  intros Hx. apply Z.eqb_neq in Hx.
  split; [|split].
  - intros Hfork. unfold fork_answer in Hfork.
    change (wp (inst_init polyptr ipath idata newdir)
               (fun r _ => r = PAM_SESSION_ERR) w).
    unfold inst_init.
    wp_with ltac:(rewrite ?Hsig; rewrite ?HF by reflexivity; rewrite ?Hx, ?Hfork).
    all: try reflexivity; discriminate.
  - intros Hfork Hwait. unfold fork_answer in Hfork. unfold wait_answer in Hwait.
    change (wp (inst_init polyptr ipath idata newdir)
               (fun r _ => r = PAM_SESSION_ERR) w).
    unfold inst_init.
    wp_with ltac:(rewrite ?Hsig; rewrite ?HF by reflexivity; rewrite ?Hx, ?Hfork, ?Hwait).
    all: try reflexivity; discriminate.
  - intros st Hfork Hwait Hst.
    unfold fork_answer in Hfork. unfold wait_answer in Hwait.
    unfold children_end_with in Hst.
    assert (Hok : WIFEXITED st = true ->
                  result (inst_init polyptr ipath idata newdir) w = PAM_SUCCESS).
    { intros He. pose proof (WIFEXITED_not_signaled st He) as Hs.
      change (wp (inst_init polyptr ipath idata newdir)
                 (fun r _ => r = PAM_SUCCESS) w).
      unfold inst_init.
      wp_with ltac:(rewrite ?Hsig; rewrite ?HF by reflexivity;
                    rewrite ?Hx, ?Hfork, ?Hwait, ?Hst, ?Pos.eqb_refl, ?He, ?Hs).
      all: try reflexivity; discriminate. }
    split; [|split].
    + intros Hbad.
      assert (Hb : negb (WIFEXITED st) || WIFSIGNALED st = true).
      { destruct Hbad as [-> | ->]; [reflexivity | apply orb_true_r]. }
      change (wp (inst_init polyptr ipath idata newdir)
                 (fun r _ => r = PAM_SESSION_ERR) w).
      unfold inst_init.
      wp_with ltac:(rewrite ?Hsig; rewrite ?HF by reflexivity;
                    rewrite ?Hx, ?Hfork, ?Hwait, ?Hst, ?Pos.eqb_refl, ?Hb).
      all: try reflexivity; discriminate.
    + exact Hok.
    + intros code Hc ->. destruct (exit_status code Hc) as [He Hw].
      split; [exact Hw | exact (Hok He)].
Qed.

(** C4 as stated fails: a child that exits with a code that is not 0 does
    not make the runner fail, the exit code is not looked at.  The init
    script of the sample machine exits with code 1 (status 256), and with
    code 2 (status 512); the runner returns PAM_SUCCESS. *)
Lemma inst_init_exit_code_ignored :
  (WIFEXITED 256 = true /\ WEXITSTATUS 256 = 1
   /\ result (inst_init Sample.tmp_rule "/tmp-inst/alice" Sample.alice 1)
             (Sample2.w_script Sample2.exec_mode 256) = PAM_SUCCESS)
  /\ (WIFEXITED 512 = true /\ WEXITSTATUS 512 = 2
      /\ result (inst_init Sample.tmp_rule "/tmp-inst/alice" Sample.alice 1)
                (Sample2.w_script Sample2.exec_mode 512) = PAM_SUCCESS).
Proof. vm_compute. repeat split. Qed.

(** The outcomes of C4 on the sample machine: no script; a script of mode
    0644; an executable script with fork failing, with waitpid failing, with
    a child killed by signal 9, with a child that exits with 0, and with a
    child that exits with 3. *)
Lemma inst_init_outcomes_witness :
  result (inst_init Sample.tmp_rule "/tmp-inst/alice" Sample.alice 1) Sample.w0
  = PAM_SUCCESS
  /\ result (inst_init Sample.tmp_rule "/tmp-inst/alice" Sample.alice 1)
            (Sample2.w_script Sample2.plain_mode 0) = PAM_SESSION_ERR
  /\ result (inst_init Sample.tmp_rule "/tmp-inst/alice" Sample.alice 1)
            (Sample2.failing Sample2.no_fork (Sample.fs_script Sample2.exec_mode))
     = PAM_SESSION_ERR
  /\ result (inst_init Sample.tmp_rule "/tmp-inst/alice" Sample.alice 1)
            (Sample2.failing Sample2.no_wait (Sample.fs_script Sample2.exec_mode))
     = PAM_SESSION_ERR
  /\ result (inst_init Sample.tmp_rule "/tmp-inst/alice" Sample.alice 1)
            (Sample2.w_script Sample2.exec_mode 9) = PAM_SESSION_ERR
  /\ result (inst_init Sample.tmp_rule "/tmp-inst/alice" Sample.alice 1)
            (Sample2.w_script Sample2.exec_mode 0) = PAM_SUCCESS
  /\ (WEXITSTATUS 768 = 3
      /\ result (inst_init Sample.tmp_rule "/tmp-inst/alice" Sample.alice 1)
                (Sample2.w_script Sample2.exec_mode 768) = PAM_SUCCESS).
Proof.
  pose (p := Sample.tmp_rule). pose (a := Sample.alice).
  split; [|split; [|split; [|split; [|split; [|split]]]]].
  - apply (proj1 (inst_init_outcomes p "/tmp-inst/alice" a 1 Sample.w0 eq_refl)).
    reflexivity.
  - destruct (inst_init_outcomes p "/tmp-inst/alice" a 1
                (Sample2.w_script Sample2.plain_mode 0) eq_refl) as [_ H].
    destruct (H _ eq_refl ltac:(intros t m; reflexivity)) as [H1 _].
    apply H1. reflexivity.
  - destruct (inst_init_outcomes p "/tmp-inst/alice" a 1
                (Sample2.failing Sample2.no_fork
                   (Sample.fs_script Sample2.exec_mode)) eq_refl) as [_ H].
    destruct (H _ eq_refl ltac:(intros t m; reflexivity)) as [_ H2].
    destruct (H2 ltac:(discriminate)) as (H3 & _ & _).
    apply H3. intros t q b. reflexivity.
  - destruct (inst_init_outcomes p "/tmp-inst/alice" a 1
                (Sample2.failing Sample2.no_wait
                   (Sample.fs_script Sample2.exec_mode)) eq_refl) as [_ H].
    destruct (H _ eq_refl ltac:(intros t m; reflexivity)) as [_ H2].
    destruct (H2 ltac:(discriminate)) as (_ & H3 & _).
    apply H3; [intros t q b; reflexivity | intros t q; reflexivity].
  - destruct (inst_init_outcomes p "/tmp-inst/alice" a 1
                (Sample2.w_script Sample2.exec_mode 9) eq_refl) as [_ H].
    destruct (H _ eq_refl ltac:(intros t m; reflexivity)) as [_ H2].
    destruct (H2 ltac:(discriminate)) as (_ & _ & H3).
    destruct (H3 9 ltac:(intros t q b; reflexivity)
                ltac:(intros t q; reflexivity) ltac:(intros t; reflexivity))
      as (H4 & _).
    apply H4. left. reflexivity.
  - destruct (inst_init_outcomes p "/tmp-inst/alice" a 1
                (Sample2.w_script Sample2.exec_mode 0) eq_refl) as [_ H].
    destruct (H _ eq_refl ltac:(intros t m; reflexivity)) as [_ H2].
    destruct (H2 ltac:(discriminate)) as (_ & _ & H3).
    destruct (H3 0 ltac:(intros t q b; reflexivity)
                ltac:(intros t q; reflexivity) ltac:(intros t; reflexivity))
      as (_ & H4 & _).
    apply H4. reflexivity.
  - destruct (inst_init_outcomes p "/tmp-inst/alice" a 1
                (Sample2.w_script Sample2.exec_mode 768) eq_refl) as [_ H].
    destruct (H _ eq_refl ltac:(intros t m; reflexivity)) as [_ H2].
    destruct (H2 ltac:(discriminate)) as (_ & _ & H3).
    destruct (H3 768 ltac:(intros t q b; reflexivity)
                ltac:(intros t q; reflexivity) ltac:(intros t; reflexivity))
      as (_ & _ & H4).
    exact (H4 3 ltac:(lia) eq_refl).
Defined.

(* ===================================================================== *)
(** ** C5: session teardown *)
(* ===================================================================== *)

Lemma wp_keeps {X A} (f : world -> X) (m : M A) (Q : A -> world -> Prop) w :
  keeps f m -> (forall a w', f w' = f w -> Q a w') -> wp m Q w.
Proof. intros K H. apply H. apply K. Qed.

Lemma keeps_orig_loop {X} (f : world -> X) l idata :
  ignores_trace f -> ignores_mounts f -> keeps f (orig_loop l idata).
Proof.
  intros Ht Hm. induction l as [|r l IH]; cbn [orig_loop]; keeps_tac.
Qed.

Lemma keeps_orig_namespace {X} (f : world -> X) idata :
  ignores_trace f -> ignores_mounts f -> ignores_children f ->
  ignores_fs f -> ignores_sigchld f ->
  keeps f (orig_namespace idata).
Proof.
  intros Ht Hm Hc Hf Hs. unfold orig_namespace.
  pose proof (keeps_orig_loop f) as Hl.
  pose proof (keeps_cleanup_tmpdirs f) as Hk. keeps_tac.
Qed.

Lemma close_args_keeps_bit argv fl :
  Z.land fl PAMNS_NO_UNMOUNT_ON_CLOSE = 0 ->
  ~ In "no_unmount_on_close" argv ->
  flag_set (close_args argv fl) PAMNS_NO_UNMOUNT_ON_CLOSE = false.
Proof.
  unfold close_args. revert fl.
  induction argv as [|a argv IH]; intros fl Hfl Hn; cbn [fold_left].
  - unfold flag_set. rewrite Hfl. reflexivity.
  - apply IH.
    + unfold arg_flag.
      destruct (String.eqb_spec a "no_unmount_on_close") as [->|_].
      { exfalso. apply Hn. left. reflexivity. }
      destruct (a =? "ignore_config_error")%string;
        destruct (a =? "debug")%string;
        rewrite ?Z.land_lor_distr_l, ?Hfl; reflexivity.
    + intros Hin. apply Hn. right. exact Hin.
Qed.

Lemma init_flags_no_unmount_bit w :
  Z.land (fst (init_flags w)) PAMNS_NO_UNMOUNT_ON_CLOSE = 0.
Proof.
  unfold init_flags, ctxt_based_inst_needed.
  rewrite run_bind. cbn [gets fst snd].
  destruct (WITH_SELINUX (w_os w)); [|reflexivity].
  rewrite !run_bind. cbn [gets fst snd ret].
  destruct (is_selinux_enabled (w_os w));
    destruct (fst (getexeccon w)) as [rc [c|]]; cbn [ret fst snd];
    try destruct (rc <? 0); reflexivity.
Qed.

(** The flags are the only thing init_flags and the debug lines leave in
    the value; in the world they leave the slot and the heap alone. *)
Lemma keeps_init_flags {X} (f : world -> X) :
  ignores_trace f -> keeps f init_flags.
Proof.
  intros Ht. unfold init_flags, ctxt_based_inst_needed, getexeccon. keeps_tac.
Qed.

Lemma pam_get_item_run it rd w :
  let e := fault (w_os w) (w_trace w) (c_pam_get_item it) in
  pam_get_item it rd w =
  if e =? 0 then ((0, rd (w_os w)), called (c_pam_get_item it) 0 w)
  else ((e, None), called (c_pam_get_item it) e w).
Proof.
  cbv zeta. unfold pam_get_item. rewrite run_bind, run_sys.
  destruct (fault (w_os w) (w_trace w) _ =? 0) eqn:E; reflexivity.
Qed.

Lemma pam_get_data_run w :
  pam_get_data w =
  (match w_data w with
   | None => (PAM_NO_MODULE_DATA, None)
   | Some (d, _) => (PAM_SUCCESS, d)
   end,
   called c_pam_get_data
          (match w_data w with None => PAM_NO_MODULE_DATA | Some _ => PAM_SUCCESS end)
          w).
Proof.
  unfold pam_get_data, bind, gets, record_call, emit, modify, ret.
  destruct (w_data w) as [[d c]|]; reflexivity.
Qed.

(** Replacing what the slot holds: the cleanup of the old data runs, the
    new data is stored, and the call succeeds. *)
Lemma pam_set_data_replace data cl d c w :
  w_data w = Some (d, c) ->
  pam_set_data data cl w =
  (PAM_SUCCESS,
   called (c_pam_set_data data) 0
          (set_data (Some (data, cl))
                    (if c then snd (cleanup_data d w) else w))).
Proof.
  intros H. unfold pam_set_data. unfold bind at 1. unfold gets at 1. rewrite H.
  destruct c; rewrite !run_bind; reflexivity.
Qed.

(** C5 does not hold of the code.  At the close of alice's session the
    unmount of her home fails (EBUSY): orig_namespace returns PAM_SESSION_ERR
    at once, its only call is that umount, and the directory mkdtemp made is
    still there; no cleanup pass has run.  When the unmount succeeds the
    cleanup pass runs and the directory is removed. *)
Theorem orig_namespace_failed_unmount_skips_cleanup :
  (result (orig_namespace Sample2.alice) (Sample2.opened Sample2.no_umount)
   = PAM_SESSION_ERR
   /\ events_of (orig_namespace Sample2.alice) (Sample2.opened Sample2.no_umount)
      = [EvLog LOG_ERR "Unmount of %s failed, %m";
         EvCall (c_umount "/home/alice") 16]
   /\ w_fs (after (orig_namespace Sample2.alice) (Sample2.opened Sample2.no_umount))
           "/home/alice/.inst/abcdef"
      = Sample2.fs_made "/home/alice/.inst/abcdef"
   /\ Sample2.fs_made "/home/alice/.inst/abcdef" <> None)
  /\ (result (orig_namespace Sample2.alice) (Sample2.opened Sample2.all_fine) = 0
      /\ In (EvCall (c_fork "/bin/rm" ["/bin/rm"; "-rf"; "/home/alice/.inst/abcdef"]) 0)
            (events_of (orig_namespace Sample2.alice)
                       (Sample2.opened Sample2.all_fine))
      /\ w_fs (after (orig_namespace Sample2.alice) (Sample2.opened Sample2.all_fine))
              "/home/alice/.inst/abcdef" = None).
Proof.
  split.
  - repeat split; try (vm_compute; reflexivity). vm_compute. discriminate.
  - split; [vm_compute; reflexivity|]. split; [vm_compute; tauto|].
    vm_compute. reflexivity.
Qed.

(* ===================================================================== *)
(** ** What a computation adds to the history *)
(* ===================================================================== *)

Section Adds.
Variable P : call -> Prop.

Lemma adds_ret {A} (a : A) : adds P (ret a).
Proof. intros w. exists []. split; [reflexivity | constructor]. Qed.

Lemma adds_gets {A} (g : world -> A) : adds P (gets g).
Proof. intros w. exists []. split; [reflexivity | constructor]. Qed.

Lemma adds_bind {A B} (m : M A) (k : A -> M B) :
  adds P m -> (forall a, adds P (k a)) -> adds P (bind m k).
Proof.
  intros Hm Hk w. rewrite run_bind.
  destruct (Hm w) as (e1 & E1 & F1).
  destruct (Hk (fst (m w)) (snd (m w))) as (e2 & E2 & F2).
  exists (e2 ++ e1)%list. split.
  - rewrite E2, E1, app_assoc. reflexivity.
  - apply Forall_app. split; assumption.
Qed.

Lemma adds_syslog p s : adds P (pam_syslog p s).
Proof.
  intros w. exists [EvLog p s]. split; [reflexivity|].
  constructor; [exact I | constructor].
Qed.

Lemma adds_debug i p s : adds P (debug i p s).
Proof. unfold debug. destruct flag_set; [apply adds_syslog | apply adds_ret]. Qed.

Lemma adds_sys {A} c (d : A) body :
  P c -> keeps w_trace body -> adds P (sys c d body).
Proof.
  intros Hc Hb w. rewrite run_sys.
  destruct (_ =? 0); cbn [snd set_trace w_trace]; rewrite ?Hb;
    (eexists [_]; split; [reflexivity | constructor; [exact Hc | constructor]]).
Qed.

Lemma adds_signal h : P (c_signal h) -> adds P (signal_SIGCHLD h).
Proof.
  intros Hc. apply adds_bind; [|intros; apply adds_ret].
  apply adds_sys; [exact Hc|]. destruct h; keeps_tac.
  intros w. reflexivity.
Qed.

Lemma adds_access p m : P (c_access p m) -> adds P (access p m).
Proof.
  intros Hc. apply adds_bind; [|intros; apply adds_ret].
  apply adds_sys; [exact Hc|]. keeps_tac.
Qed.

Lemma adds_fork p a : P (c_fork p a) -> adds P (fork p a).
Proof.
  intros Hc. apply adds_bind; [|intros; apply adds_ret].
  apply adds_sys; [exact Hc|]. intros w. reflexivity.
Qed.

Lemma adds_waitpid pid : P (c_waitpid pid) -> adds P (waitpid pid).
Proof.
  intros Hc. apply adds_bind; [|intros; apply adds_ret].
  apply adds_sys; [exact Hc|]. intros w.
  destruct (assoc_find pid (w_children w)) as [[p a]|]; [|reflexivity].
  cbn [snd]. rewrite child_effect_trace. reflexivity.
Qed.

Lemma adds_umount t : P (c_umount t) -> adds P (umount t).
Proof.
  intros Hc. apply adds_bind; [|intros; apply adds_ret].
  apply adds_sys; [exact Hc|]. intros w.
  destruct (w_fs w t); [destruct (existsb _ _)|]; reflexivity.
Qed.

Lemma adds_ns_override r i u : adds P (ns_override r i u).
Proof. apply adds_bind; [apply adds_debug | intros; apply adds_ret]. Qed.
End Adds.

Ltac adds_step :=
  first
    [ apply adds_ret | apply adds_gets | apply adds_syslog | apply adds_debug
    | apply adds_ns_override
    | apply adds_signal; exact I
    | apply adds_access; exact I
    | apply adds_fork; reflexivity
    | apply adds_waitpid; exact I
    | apply adds_umount; solve [exact I | eexists; reflexivity]
    | assumption
    | apply adds_bind; [ | intros ]
    | match goal with
      | |- adds _ (if ?b then _ else _) => destruct b
      | |- adds _ (match ?x with _ => _ end) => destruct x
      end ].

Lemma adds_cleanup_loop l : adds cleanup_call (cleanup_loop l).
Proof. induction l as [|r l IH]; cbn [cleanup_loop]; repeat adds_step. Qed.

(** The cleanup pass makes no call but signal, access, fork of /bin/rm and
    waitpid. *)
Lemma adds_cleanup_tmpdirs idata : adds cleanup_call (cleanup_tmpdirs idata).
Proof.
  unfold cleanup_tmpdirs. repeat first [apply adds_cleanup_loop | adds_step].
Qed.

(* ===================================================================== *)
(** ** C2: a rule fails during setup *)
(* ===================================================================== *)

Lemma wp_any {A} (m : M A) (Q : A -> world -> Prop) w :
  (forall a w', Q a w') -> wp m Q w.
Proof. intros H. apply H. Qed.

Ltac wp_skip :=
  repeat first
    [ apply wp_ret
    | apply wp_bind; apply wp_any; intros
    | match goal with
      | |- wp (if ?b then _ else _) _ _ => destruct b eqn:?
      | |- wp (match ?x with _ => _ end) _ _ => destruct x eqn:?
      end ].

(** unmount_rule leaves the loop only with PAM_SESSION_ERR. *)
Lemma unmount_rule_fails pptr idata w rv :
  fst (unmount_rule pptr idata w) = Some rv -> rv = PAM_SESSION_ERR.
Proof.
  change (wp (unmount_rule pptr idata)
             (fun r _ => r = Some rv -> rv = PAM_SESSION_ERR) w).
  unfold unmount_rule. wp_skip; congruence.
Qed.

(** A turn of the second loop leaves it only with a value that is not
    PAM_SUCCESS. *)
Lemma setup_rule_fails p idata unmnt req w rv :
  fst (setup_rule p idata unmnt req w) = Some rv -> rv <> PAM_SUCCESS.
Proof.
  change (wp (setup_rule p idata unmnt req)
             (fun r _ => r = Some rv -> rv <> PAM_SUCCESS) w).
  unfold setup_rule.
  apply wp_bind, wp_any. intros pptr w1.
  apply wp_bind, wp_any. intros [[|] [|]] w2.
  1: apply wp_ret; discriminate.
  all: apply wp_bind, wp_any; intros _ w3.
  all: apply wp_bind.
  all: match goal with
       | |- wp (if ?b then _ else _) _ _ => destruct b eqn:?
       end.
  all: try (unfold wp at 1;
            match goal with
            | |- context [unmount_rule ?a ?b ?c] =>
                pose proof (unmount_rule_fails a b c) as Hu;
                destruct (fst (unmount_rule a b c)) as [x|];
                [ specialize (Hu x eq_refl); subst x;
                  apply wp_ret; intros E; inversion E; subst; discriminate | ]
            end).
  all: try (apply wp_ret).
  all: wp_skip; try congruence.
  all: intros E; inversion E; subst;
       match goal with
       | H : negb (_ =? PAM_SUCCESS) = true |- _ =>
           apply negb_true_iff, Z.eqb_neq in H; exact H
       end.
Qed.

Lemma setup_loop_fail n i a idata unmnt req w rv wf :
  setup_rule (a, i) idata unmnt req w = (Some rv, wf) ->
  setup_loop (S n) i a idata unmnt req w = (rv, wf).
Proof.
  intros H. cbn [setup_loop]. rewrite (bind_eq _ _ _ _ _ H). reflexivity.
Qed.

(** The loop over the first [k] rules, once it has gone through, is the
    beginning of the loop over more rules. *)
Lemma setup_loop_app k m i a idata unmnt req w wk :
  setup_loop k i a idata unmnt req w = (PAM_SUCCESS, wk) ->
  setup_loop (k + m) i a idata unmnt req w
  = setup_loop m (i + k) a idata unmnt req wk.
Proof.
  revert i w. induction k as [|k IH]; intros i w H.
  - cbn in H. inversion H; subst. rewrite Nat.add_0_r. reflexivity.
  - cbn [setup_loop Nat.add] in *. rewrite run_bind in *.
    pose proof (setup_rule_fails (a, i) idata unmnt req w) as Hf.
    destruct (fst (setup_rule (a, i) idata unmnt req w)) as [rv|].
    + exfalso. cbn in H. inversion H; subst. apply (Hf _ eq_refl). reflexivity.
    + rewrite (IH _ _ H). f_equal. lia.
Qed.

(** What /bin/rm leaves: it only removes, and the mounts are as before. *)
Lemma rm_effect_shrinks a st w q :
  w_fs w q = None -> w_fs (child_effect "/bin/rm" a st w) q = None.
Proof.
  intros H. unfold child_effect.
  change (String.eqb "/bin/rm" "/bin/rm") with true. cbv iota.
  destruct a as [|? [|? [|? [|? ?]]]]; try exact H.
  destruct (String.eqb _ _); [|exact H].
  destruct (_ && _); cbn [w_fs set_fs].
  - unfold fs_remove_tree. destruct (in_tree _ _); [reflexivity | exact H].
  - destruct (_ && _); [reflexivity | exact H].
Qed.

Lemma rm_effect_mounts a st w :
  w_mounts (child_effect "/bin/rm" a st w) = w_mounts w.
Proof.
  unfold child_effect. change (String.eqb "/bin/rm" "/bin/rm") with true.
  cbv iota. destruct a as [|? [|? [|? [|? ?]]]]; try reflexivity.
  destruct (String.eqb _ _); [|reflexivity]. destruct (_ && _); reflexivity.
Qed.

(** The cleanup loop only removes. *)
Lemma cleanup_loop_shrinks l w q :
  w_fs w q = None -> w_fs (snd (cleanup_loop l w)) q = None.
Proof.
  revert w. induction l as [|r l IH]; intros w H; [exact H|].
  change (wp (cleanup_loop (r :: l)) (fun _ w' => w_fs w' q = None) w).
  cbn [cleanup_loop].
  wp_with ltac:(rewrite Pos.eqb_refl).
  all: try exact H.
  all: try (apply IH; wp_simp; try exact H).
  all: try (apply rm_effect_shrinks; exact H).
Qed.

(** The cleanup pass leaves the mount table as it is. *)
Lemma cleanup_loop_mounts l w :
  w_mounts (snd (cleanup_loop l w)) = w_mounts w.
Proof.
  revert w. induction l as [|r l IH]; intros w; [reflexivity|].
  change (wp (cleanup_loop (r :: l)) (fun _ w' => w_mounts w' = w_mounts w) w).
  cbn [cleanup_loop].
  wp_with ltac:(rewrite Pos.eqb_refl).
  all: try reflexivity.
  all: unfold wp; rewrite IH; wp_simp; rewrite ?rm_effect_mounts; wp_simp;
       reflexivity.
Qed.

Lemma cleanup_tmpdirs_mounts idata w :
  w_mounts (snd (cleanup_tmpdirs idata w)) = w_mounts w.
Proof.
  unfold cleanup_tmpdirs. rewrite run_bind.
  set (o := fst (signal_SIGCHLD (Some SIG_DFL) w)).
  set (w1 := snd (signal_SIGCHLD (Some SIG_DFL) w)).
  assert (E1 : w_mounts w1 = w_mounts w).
  { apply (keeps_signal w_mounts); eauto with keeps. }
  clearbody o w1. rewrite !run_bind. cbn [ret snd].
  rewrite (keeps_signal w_mounts) by eauto with keeps.
  destruct o as [h|].
  - rewrite run_bind. cbn [gets fst snd]. rewrite cleanup_loop_mounts. exact E1.
  - rewrite run_bind. exact E1.
Qed.

Lemma in_tree_refl p : in_tree p p = true.
Proof. unfold in_tree. rewrite String.eqb_refl. reflexivity. Qed.

(** Under an environment that does not get in its way the cleanup loop
    leaves no directory of a tmpdir rule behind. *)
Lemma cleanup_loop_removes os l r :
  cleanup_unhindered os -> method r = TMPDIR ->
  forall w, w_os w = os -> In r l ->
  w_fs (snd (cleanup_loop l w)) (instance_prefix r) = None.
Proof.
  intros (Hsig & Hacc & Hfork & Hwait & Hst) Hm.
  induction l as [|h l IH]; intros w Eo Hin; [destruct Hin|].
  assert (Hh : forall w', w_os w' = os ->
               w_fs w' (instance_prefix h) = None
               \/ polymethod_eqb (method h) TMPDIR = false ->
               w_fs (snd (cleanup_loop l w')) (instance_prefix r) = None).
  { intros w' E Hnone. destruct Hin as [<- | Hr]; [|apply IH; assumption].
    destruct Hnone as [Hnone | Hnone].
    - apply cleanup_loop_shrinks. exact Hnone.
    - rewrite Hm in Hnone. discriminate Hnone. }
  change (wp (cleanup_loop (h :: l))
             (fun _ w' => w_fs w' (instance_prefix r) = None) w).
  cbn [cleanup_loop].
  destruct (polymethod_eqb (method h) TMPDIR) eqn:Ht;
    [|apply Hh; [exact Eo | right; reflexivity]].
  apply wp_bind. eapply wp_eq; [apply access_run|]. wp_simp.
  unfold access_errno. rewrite Eo, Hacc.
  destruct (w_fs w (instance_prefix h)) as [i|] eqn:Hfs; wp_simp.
  2: { apply Hh; [exact Eo | left; exact Hfs]. }
  apply wp_bind. eapply wp_eq; [apply fork_run|]. wp_simp.
  rewrite Eo, Hfork. wp_simp.
  apply wp_bind. eapply wp_eq; [apply waitpid_run|]. wp_simp.
  rewrite Eo, Hwait, Hst, Pos.eqb_refl, child_effect_rm. wp_simp.
  rewrite WIFEXITED_0, WIFSIGNALED_0. wp_simp.
  apply wp_bind, wp_ret.
  apply Hh; [exact Eo|]. left. cbn.
  unfold fs_remove_tree. rewrite in_tree_refl. reflexivity.
Qed.

Lemma cleanup_tmpdirs_removes idata w r :
  cleanup_unhindered (w_os w) ->
  In r (cells (polydirs_ptr idata) w) -> method r = TMPDIR ->
  w_fs (snd (cleanup_tmpdirs idata w)) (instance_prefix r) = None.
Proof.
  intros Hc Hin Hm. pose proof Hc as (Hsig & _).
  change (wp (cleanup_tmpdirs idata)
             (fun _ w' => w_fs w' (instance_prefix r) = None) w).
  unfold cleanup_tmpdirs.
  apply wp_bind. eapply wp_eq; [apply signal_run|]. wp_simp.
  rewrite Hsig. wp_simp.
  apply wp_bind. apply wp_bind. apply wp_gets.
  unfold wp at 1.
  apply (wp_keeps w_fs); [keeps_tac|]. intros a w' ->.
  apply (cleanup_loop_removes (w_os w)); try assumption; reflexivity.
Qed.

(* ===================================================================== *)
(** ** Running the calls of the materializer *)
(* ===================================================================== *)

Lemma stat_run p w :
  let e := fault (w_os w) (w_trace w) (c_stat p) in
  stat p w =
  if e =? 0 then
    match w_fs w p with
    | Some i => (Some i, called (c_stat p) 0 w)
    | None => (None, called (c_stat p) ENOENT w)
    end
  else (None, called (c_stat p) e w).
Proof.
  cbv zeta. unfold stat. rewrite run_bind, run_sys.
  destruct (fault (w_os w) (w_trace w) _ =? 0) eqn:E.
  - unfold gets, bind, ret. cbn. destruct (w_fs w p); reflexivity.
  - cbn. rewrite E. reflexivity.
Qed.

Lemma mkdir_run p m w :
  let e := fault (w_os w) (w_trace w) (c_mkdir p m) in
  mkdir p m w =
  if e =? 0 then
    match w_fs w p with
    | Some _ => (EEXIST, called (c_mkdir p m) EEXIST w)
    | None =>
        (0, called (c_mkdir p m) 0
              (set_fs (fs_set p (Some (new_dir (Z.land m (Z.lnot (umask (w_os w)))) w))
                              (w_fs w)) w))
    end
  else (e, called (c_mkdir p m) e w).
Proof.
  cbv zeta. unfold mkdir. rewrite run_bind, run_sys.
  destruct (fault (w_os w) (w_trace w) _ =? 0) eqn:E; [|reflexivity].
  destruct (w_fs w p); reflexivity.
Qed.

Lemma open_dir_run p w :
  let e := fault (w_os w) (w_trace w) (c_open p) in
  open_dir p w =
  if e =? 0 then
    match w_fs w p with
    | Some i =>
        if S_ISDIR (st_mode i)
        then (w_next_fd w,
              called (c_open p) 0
                     (set_fds ((w_next_fd w, p) :: w_fds w) (w_next_fd w + 1) w))
        else (-1, called (c_open p) ENOTDIR w)
    | None => (-1, called (c_open p) ENOENT w)
    end
  else (-1, called (c_open p) e w).
Proof.
  cbv zeta. unfold open_dir. rewrite run_bind, run_sys.
  destruct (fault (w_os w) (w_trace w) _ =? 0) eqn:E.
  - destruct (w_fs w p) as [i|]; [|reflexivity].
    destruct (S_ISDIR (st_mode i)); reflexivity.
  - cbn. rewrite E. reflexivity.
Qed.

Lemma fstat_run fd w :
  let e := fault (w_os w) (w_trace w) (c_fstat fd) in
  fstat fd w =
  if e =? 0 then
    match fd_inode fd w with
    | Some (_, i) => (Some i, called (c_fstat fd) 0 w)
    | None => (None, called (c_fstat fd) EBADF w)
    end
  else (None, called (c_fstat fd) e w).
Proof.
  cbv zeta. unfold fstat. rewrite run_bind, run_sys.
  destruct (fault (w_os w) (w_trace w) _ =? 0) eqn:E.
  - unfold gets, bind, ret. cbn. destruct (fd_inode fd w) as [[? ?]|]; reflexivity.
  - cbn. rewrite E. reflexivity.
Qed.

Lemma on_fd_run c fd f w :
  let e := fault (w_os w) (w_trace w) c in
  on_fd c fd f w =
  if e =? 0 then
    match fd_inode fd w with
    | Some (p, i) =>
        (0, called c 0 (set_fs (fs_set p (Some (f i)) (w_fs w)) w))
    | None => (-1, called c EBADF w)
    end
  else (-1, called c e w).
Proof.
  cbv zeta. unfold on_fd. rewrite run_bind, run_sys.
  destruct (fault (w_os w) (w_trace w) _ =? 0) eqn:E.
  - destruct (fd_inode fd w) as [[? ?]|]; reflexivity.
  - cbn. rewrite E. reflexivity.
Qed.

Lemma close_run fd w :
  let e := fault (w_os w) (w_trace w) (c_close fd) in
  close fd w =
  if e =? 0 then
    match assoc_find fd (w_fds w) with
    | Some _ =>
        (tt, called (c_close fd) 0
                    (set_fds (assoc_remove fd (w_fds w)) (w_next_fd w) w))
    | None => (tt, called (c_close fd) EBADF w)
    end
  else (tt, called (c_close fd) e w).
Proof.
  cbv zeta. unfold close. rewrite run_bind, run_sys.
  destruct (fault (w_os w) (w_trace w) _ =? 0) eqn:E; [|reflexivity].
  destruct (assoc_find fd (w_fds w)); reflexivity.
Qed.

Lemma rmdir_run p w :
  let e := fault (w_os w) (w_trace w) (c_rmdir p) in
  rmdir p w =
  if e =? 0 then
    match w_fs w p with
    | Some i =>
        if S_ISDIR (st_mode i)
        then (tt, called (c_rmdir p) 0 (set_fs (fs_set p None (w_fs w)) w))
        else (tt, called (c_rmdir p) ENOTDIR w)
    | None => (tt, called (c_rmdir p) ENOENT w)
    end
  else (tt, called (c_rmdir p) e w).
Proof.
  cbv zeta. unfold rmdir. rewrite run_bind, run_sys.
  destruct (fault (w_os w) (w_trace w) _ =? 0) eqn:E; [|reflexivity].
  destruct (w_fs w p) as [i|]; [|reflexivity].
  destruct (S_ISDIR (st_mode i)); reflexivity.
Qed.

Lemma mount_run s t ty fl w :
  let e := fault (w_os w) (w_trace w) (c_mount s t ty fl) in
  mount s t ty fl w =
  if e =? 0 then
    if mount_errno w s t fl =? 0
    then (0, called (c_mount s t ty fl) 0
                    (set_mounts ((s, t, ty) :: w_mounts w) w))
    else (-1, called (c_mount s t ty fl) (mount_errno w s t fl) w)
  else (-1, called (c_mount s t ty fl) e w).
Proof.
  cbv zeta. unfold mount. rewrite run_bind, run_sys.
  destruct (fault (w_os w) (w_trace w) _ =? 0) eqn:E.
  - destruct (mount_errno w s t fl =? 0) eqn:E2; cbn; rewrite ?E2; reflexivity.
  - cbn. rewrite E. reflexivity.
Qed.

Ltac wp_run ::=
  first [ eapply wp_eq; [apply signal_run|]
        | eapply wp_eq; [apply access_run|]
        | eapply wp_eq; [apply fork_run|]
        | eapply wp_eq; [apply waitpid_run|]
        | eapply wp_eq; [apply stat_run|]
        | eapply wp_eq; [apply mkdir_run|]
        | eapply wp_eq; [apply open_dir_run|]
        | eapply wp_eq; [apply fstat_run|]
        | eapply wp_eq; [apply on_fd_run|]
        | eapply wp_eq; [apply close_run|]
        | eapply wp_eq; [apply rmdir_run|]
        | eapply wp_eq; [apply mount_run|]
        | apply wp_gets
        | apply wp_modify ].

(** The init hook changes the files and the mounts only through its script:
    a path the script spares is after inst_init what it was before, and so
    is the mount table when the script keeps it. *)
Lemma inst_init_spares polyptr ipath idata newdir w q :
  script_spares (w_os w) q ->
  w_fs (snd (inst_init polyptr ipath idata newdir w)) q = w_fs w q.
Proof.
  intros Hs.
  change (wp (inst_init polyptr ipath idata newdir)
             (fun _ w' => w_fs w' q = w_fs w q) w).
  unfold inst_init.
  wp_with ltac:(rewrite ?Pos.eqb_refl, ?child_effect_script).
  all: try reflexivity.
  all: apply Hs.
Qed.

Lemma inst_init_mounts polyptr ipath idata newdir w :
  script_keeps_mounts (w_os w) ->
  w_mounts (snd (inst_init polyptr ipath idata newdir w)) = w_mounts w.
Proof.
  intros Hs.
  change (wp (inst_init polyptr ipath idata newdir)
             (fun _ w' => w_mounts w' = w_mounts w) w).
  unfold inst_init.
  wp_with ltac:(rewrite ?Pos.eqb_refl, ?child_effect_script).
  all: try reflexivity.
  all: apply Hs.
Qed.

(** With no script installed the init hook leaves the files and the mounts
    alone. *)
Lemma inst_init_no_script_keeps polyptr ipath idata newdir w :
  w_fs w NAMESPACE_INIT_SCRIPT = None ->
  w_fs (snd (inst_init polyptr ipath idata newdir w)) = w_fs w
  /\ w_mounts (snd (inst_init polyptr ipath idata newdir w)) = w_mounts w.
Proof.
  intros Hfs.
  change (wp (inst_init polyptr ipath idata newdir)
             (fun _ w' => w_fs w' = w_fs w /\ w_mounts w' = w_mounts w) w).
  unfold inst_init.
  wp_with ltac:(rewrite ?access_errno_missing by exact Hfs).
  all: try (split; reflexivity).
  all: discriminate.
Qed.

Lemma keeps_inst_init {X} (f : world -> X) polyptr ipath idata newdir :
  ignores_trace f -> ignores_sigchld f -> ignores_children f -> ignores_fs f ->
  ignores_mounts f ->
  keeps f (inst_init polyptr ipath idata newdir).
Proof. intros. unfold inst_init. keeps_tac. Qed.

Lemma keeps_check_inst_parent {X} (f : world -> X) ipath idata :
  ignores_trace f -> keeps f (check_inst_parent ipath idata).
Proof. intros. unfold check_inst_parent. keeps_tac. Qed.

Lemma wp_inst_init polyptr ipath idata newdir (Q : Z -> world -> Prop) w :
  (forall rc w',
      (forall q, script_spares (w_os w) q -> w_fs w' q = w_fs w q) ->
      w_os w' = w_os w -> Q rc w') ->
  wp (inst_init polyptr ipath idata newdir) Q w.
Proof.
  intros H. apply H.
  - intros q Hq. apply inst_init_spares. exact Hq.
  - apply (keeps_inst_init w_os); intros ? ?; reflexivity.
Qed.

Lemma wp_check_inst_parent ipath idata (Q : Z -> world -> Prop) w :
  (forall rc w',
      w_fs w' = w_fs w -> w_os w' = w_os w -> w_fds w' = w_fds w ->
      w_next_fd w' = w_next_fd w -> w_heap w' = w_heap w -> Q rc w') ->
  wp (check_inst_parent ipath idata) Q w.
Proof.
  intros H.
  apply H; apply (keeps_check_inst_parent _ ipath idata); intros ? ?; reflexivity.
Qed.

(** Put in what is known of the worlds that are not spelled out. *)
Ltac subst_world :=
  repeat match goal with
    | H : w_fs ?x = _ |- context [w_fs ?x] => rewrite H
    | H : w_os ?x = _ |- context [w_os ?x] => rewrite H
    | H : w_fds ?x = _ |- context [w_fds ?x] => rewrite H
    | H : w_next_fd ?x = _ |- context [w_next_fd ?x] => rewrite H
    | H : w_heap ?x = _ |- context [w_heap ?x] => rewrite H
    end.

Ltac wp_sub ::=
  lazymatch goal with
  | |- wp (inst_init _ _ _ _) _ _ => apply wp_inst_init; intros ? ? ? ?
  | |- wp (check_inst_parent _ _) _ _ =>
      apply wp_check_inst_parent; intros ? ? ? ? ? ? ?
  end.

Lemma truthy_0 : truthy 0 = false.
Proof. reflexivity. Qed.

Lemma truthy_EEXIST : truthy EEXIST = true.
Proof. reflexivity. Qed.

Lemma EEXIST_eqb : (EEXIST =? EEXIST) = true.
Proof. reflexivity. Qed.

(** Tests that contradict each other. *)
Ltac absurd_tests :=
  exfalso;
  match goal with
  | H : truthy EEXIST = false |- _ => discriminate H
  | H1 : (?e =? 0) = false, H2 : truthy ?e = false |- _ =>
      unfold truthy in H2; rewrite H1 in H2; discriminate H2
  | H1 : (?e =? 0) = true, H2 : truthy ?e = true |- _ =>
      unfold truthy in H2; rewrite H1 in H2; discriminate H2
  end.

Lemma fs_set_same p x fs : fs_set p x fs p = x.
Proof. unfold fs_set. rewrite String.eqb_refl. reflexivity. Qed.

(** A directory that is there is reused: create_dirs makes and changes
    nothing in the file system, whatever it returns; what becomes of a path
    is the init script's doing. *)
Lemma create_dirs_reuse_fs p ipath ic oc idata w i q :
  method (result (load p) w) <> TMPDIR ->
  w_fs w ipath = Some i ->
  script_spares (w_os w) q ->
  w_fs (snd (create_dirs p ipath ic oc idata w)) q = w_fs w q.
Proof.
  intros Hm Hfs Hq.
  change (wp (create_dirs p ipath ic oc idata) (fun _ w' => w_fs w' q = w_fs w q) w).
  unfold create_dirs. apply wp_bind. apply wp_gets.
  change (nth (snd p) (cells (Some (fst p)) w) null_rule)
    with (result (load p) w).
  set (rule := result (load p) w) in *.
  assert (Ht : polymethod_eqb (method rule) TMPDIR = false).
  { destruct (method rule); try reflexivity. contradiction Hm. reflexivity. }
  rewrite Ht.
  wp_with ltac:(first [ progress subst_world | rewrite Hfs ]).
  all: try reflexivity.
  all: subst_world; try reflexivity.
  all: try absurd_tests.
  all: match goal with
       | H : forall q, script_spares _ q -> w_fs ?x q = _ |- context [w_fs ?x _] =>
           rewrite H by (wp_simp; subst_world; exact Hq)
       end.
  all: wp_simp; subst_world; reflexivity.
Qed.

(** A directory that is there is reused without error: when nothing else
    goes wrong (no call is failed, the directory to polyinstantiate and the
    parent of the instance are as they must be, no init script is installed)
    create_dirs returns PAM_SUCCESS. *)
Lemma create_dirs_reuse_ok p ipath ic oc idata w i orig parent :
  method (result (load p) w) <> TMPDIR ->
  w_fs w ipath = Some i ->
  quiet (w_os w) ->
  w_fs w (dir (result (load p) w)) = Some orig ->
  S_ISDIR (st_mode orig) = true ->
  w_fs w (inst_parent_of ipath) = Some parent ->
  S_ISDIR (st_mode parent) = true ->
  Z.land (st_mode parent) S_IRWXUGO = 0 ->
  w_fs w NAMESPACE_INIT_SCRIPT = None ->
  fst (create_dirs p ipath ic oc idata w) = (PAM_SUCCESS, ipath).
Proof.
  intros Hm Hfs Hq Horig Hdir Hpar Hpdir Hpmode Hscript.
  change (wp (create_dirs p ipath ic oc idata)
             (fun r _ => r = (PAM_SUCCESS, ipath)) w).
  unfold create_dirs. apply wp_bind. apply wp_gets.
  change (nth (snd p) (cells (Some (fst p)) w) null_rule)
    with (result (load p) w).
  set (rule := result (load p) w) in *.
  assert (Ht : polymethod_eqb (method rule) TMPDIR = false).
  { destruct (method rule); try reflexivity. contradiction Hm. reflexivity. }
  rewrite Ht. unfold check_inst_parent, inst_init, quiet in *.
  assert (Hp0 : truthy (Z.land (st_mode parent) S_IRWXUGO) = false)
    by (rewrite Hpmode; reflexivity).
  wp_with ltac:(rewrite ?Hq, ?Horig, ?Hdir, ?Hpar, ?Hpdir, ?Hp0, ?andb_false_r,
                 ?Hfs; rewrite ?access_errno_missing by exact Hscript).
  all: try reflexivity.
  all: try discriminate.
Qed.

Lemma mode_bits_of_type m : Z.land (Z.land m S_IFMT) MODE_BITS = 0.
Proof. rewrite <- Z.land_assoc. apply Z.land_0_r. Qed.

Lemma same_attributes_dressed (m u g : Z) (c : string) (orig : inode) :
  u = st_uid orig -> g = st_gid orig ->
  same_attributes
    (mk_inode (Z.lor (Z.land m S_IFMT)
                     (Z.land (Z.land (st_mode orig) MODE_BITS) MODE_BITS))
              u g c)
    orig.
Proof.
  intros -> ->. unfold same_attributes. cbn [st_uid st_gid st_mode].
  split; [reflexivity|]. split; [reflexivity|].
  rewrite Z.land_lor_distr_l, mode_bits_of_type, Z.lor_0_l.
  rewrite <- !Z.land_assoc. reflexivity.
Qed.

Lemma same_owner (a b c d : Z) :
  negb (a =? b) || negb (c =? d) = false -> a = b /\ c = d.
Proof.
  intros H. apply orb_false_iff in H. destruct H as [H1 H2].
  apply negb_false_iff in H1, H2. split; apply Z.eqb_eq; assumption.
Qed.

(** A directory that create_dirs makes gets the owner, the group and the
    mode of the directory to polyinstantiate; the init script runs after
    that. *)
Lemma create_dirs_new_attributes p ipath ic oc idata w orig :
  method (result (load p) w) <> TMPDIR ->
  w_fs w ipath = None ->
  (forall t, fault (w_os w) t (c_mkdir ipath S_IRUSR) <> EEXIST) ->
  w_fs w (dir (result (load p) w)) = Some orig ->
  script_spares (w_os w) ipath ->
  fst (fst (create_dirs p ipath ic oc idata w)) = PAM_SUCCESS ->
  exists i', w_fs (snd (create_dirs p ipath ic oc idata w)) ipath = Some i'
             /\ same_attributes i' orig.
Proof.
  intros Hm Hfs Hmk Horig Hq.
  change (wp (create_dirs p ipath ic oc idata)
             (fun r w' => fst r = PAM_SUCCESS ->
                          exists i', w_fs w' ipath = Some i'
                                     /\ same_attributes i' orig) w).
  unfold create_dirs. apply wp_bind. apply wp_gets.
  change (nth (snd p) (cells (Some (fst p)) w) null_rule)
    with (result (load p) w).
  set (rule := result (load p) w) in *.
  assert (Ht : polymethod_eqb (method rule) TMPDIR = false).
  { destruct (method rule); try reflexivity. contradiction Hm. reflexivity. }
  rewrite Ht. unfold dress_new_dir, fchown, fchmod, fsetfilecon.
  wp_with ltac:(first [ progress subst_world
                      | progress (unfold fd_inode)
                      | progress (cbn [st_mode st_uid st_gid st_con])
                      | rewrite Hfs | rewrite Horig | rewrite Z.eqb_refl
                      | rewrite truthy_0 | rewrite truthy_EEXIST
                      | rewrite fs_set_same ]).
  all: try (intros Hrc; discriminate Hrc).
  all: intros _.
  all: try (apply Z.eqb_eq in Heqb4; exfalso; exact (Hmk _ Heqb4)).
  all: match goal with
       | H : forall q, script_spares _ q -> w_fs ?x q = _ |- context [w_fs ?x _] =>
           rewrite H by (wp_simp; subst_world; exact Hq)
       end.
  all: wp_simp; rewrite ?fs_set_same.
  all: eexists; (split; [reflexivity|]).
  all: apply same_attributes_dressed; try reflexivity.
  all: match goal with
       | E : negb _ || negb _ = false |- _ => apply (same_owner _ _ _ _ E)
       end.
Qed.

(** C7, as the code has it.  For a rule whose method is not tmpdir (a tmpfs
    rule is mounted by ns_setup and never reaches create_dirs), and a
    directory to polyinstantiate that is there:
    - an instance directory that is there already is reused: create_dirs
      itself makes and changes nothing in the file system, so that every
      path the init script leaves alone, the instance directory among them
      when the script spares it, is afterwards what it was before; and when
      nothing else goes wrong (no call is failed, the directory to
      polyinstantiate is a directory, the parent of the instance is a
      directory of mode 000, no init script is installed) it returns
      PAM_SUCCESS;
    - an instance directory that was not there, so that create_dirs makes
      it, has the owner, the group and the permission bits of the directory
      to polyinstantiate whenever create_dirs returns PAM_SUCCESS and the
      init script, which runs last, has left the directory itself as
      create_dirs made it. *)
Theorem create_dirs_attributes p ipath ic oc idata w orig :
  method (result (load p) w) <> TMPDIR ->
  method (result (load p) w) <> TMPFS ->
  w_fs w (dir (result (load p) w)) = Some orig ->
  (forall i, w_fs w ipath = Some i ->
     (forall q, script_spares (w_os w) q ->
        w_fs (snd (create_dirs p ipath ic oc idata w)) q = w_fs w q)
     /\ (forall parent,
           quiet (w_os w) ->
           S_ISDIR (st_mode orig) = true ->
           w_fs w (inst_parent_of ipath) = Some parent ->
           S_ISDIR (st_mode parent) = true ->
           Z.land (st_mode parent) S_IRWXUGO = 0 ->
           w_fs w NAMESPACE_INIT_SCRIPT = None ->
           fst (create_dirs p ipath ic oc idata w) = (PAM_SUCCESS, ipath)))
  /\ (w_fs w ipath = None ->
      (forall t, fault (w_os w) t (c_mkdir ipath S_IRUSR) <> EEXIST) ->
      script_spares (w_os w) ipath ->
      fst (fst (create_dirs p ipath ic oc idata w)) = PAM_SUCCESS ->
      exists i', w_fs (snd (create_dirs p ipath ic oc idata w)) ipath = Some i'
                 /\ same_attributes i' orig).
Proof.
  intros Hm _ Horig. split.
  - intros i Hi. split.
    + intros q Hq.
      exact (create_dirs_reuse_fs p ipath ic oc idata w i q Hm Hi Hq).
    + intros parent Hq Hdir Hpar Hpdir Hpmode Hscript.
      exact (create_dirs_reuse_ok p ipath ic oc idata w i orig parent
               Hm Hi Hq Horig Hdir Hpar Hpdir Hpmode Hscript).
  - intros Hnone Hmk Hsp Hrc.
    exact (create_dirs_new_attributes p ipath ic oc idata w orig
             Hm Hnone Hmk Horig Hsp Hrc).
Qed.

(** On the sample machine the rule for /tmp finds no instance directory of
    alice, makes it, and gives it the owner, group and mode of /tmp; when it
    finds hers it leaves her directory as it is and succeeds. *)
Lemma create_dirs_attributes_witness :
  (exists i',
     w_fs (snd (create_dirs (O, O) "/tmp-inst/alice" None None Sample2.alice
                  Sample3.fresh)) "/tmp-inst/alice" = Some i'
     /\ same_attributes i' Sample3.tmp_dir)
  /\ w_fs (snd (create_dirs (O, O) "/tmp-inst/alice" None None Sample2.alice
                  Sample3.reopened)) "/tmp-inst/alice"
     = Some Sample3.old_instance
  /\ fst (create_dirs (O, O) "/tmp-inst/alice" None None Sample2.alice
            Sample3.reopened) = (PAM_SUCCESS, "/tmp-inst/alice").
Proof.
  split; [|split].
  - refine (proj2 (create_dirs_attributes (O, O) "/tmp-inst/alice" None None
                     Sample2.alice Sample3.fresh Sample3.tmp_dir _ _ _) _ _ _ _).
    + vm_compute. discriminate.
    + vm_compute. discriminate.
    + reflexivity.
    + reflexivity.
    + intros t. vm_compute. discriminate.
    + intros t argv fs ms. reflexivity.
    + vm_compute. reflexivity.
  - refine (proj1 (proj1 (create_dirs_attributes (O, O) "/tmp-inst/alice" None
                     None Sample2.alice Sample3.reopened Sample3.tmp_dir _ _ _)
                     Sample3.old_instance _) "/tmp-inst/alice" _).
    + vm_compute. discriminate.
    + vm_compute. discriminate.
    + reflexivity.
    + reflexivity.
    + intros t argv fs ms. reflexivity.
  - refine (proj2 (proj1 (create_dirs_attributes (O, O) "/tmp-inst/alice" None
                     None Sample2.alice Sample3.reopened Sample3.tmp_dir _ _ _)
                     Sample3.old_instance _)
                  (mk_inode S_IFDIR 0 0 "inst_t") _ _ _ _ _ _).
    + vm_compute. discriminate.
    + vm_compute. discriminate.
    + reflexivity.
    + reflexivity.
    + intros t c. reflexivity.
    + reflexivity.
    + reflexivity.
    + reflexivity.
    + reflexivity.
    + reflexivity.
Defined.

(** C7 as the specification states it fails: an instance directory that is
    there is reused as it is.  The instance directory of alice, owned by her
    with mode 0700, is reused with success for /tmp, which root owns with
    mode 1777. *)
Lemma create_dirs_reused_attributes_differ :
  let r := create_dirs (O, O) "/tmp-inst/alice" None None Sample2.alice
             Sample3.reopened in
  fst (fst r) = PAM_SUCCESS
  /\ w_fs (snd r) "/tmp" = Some Sample3.tmp_dir
  /\ w_fs (snd r) "/tmp-inst/alice" = Some Sample3.old_instance
  /\ ~ same_attributes Sample3.old_instance Sample3.tmp_dir.
Proof.
  cbv zeta. repeat split; try (vm_compute; reflexivity).
  intros (H & _). vm_compute in H. discriminate H.
Qed.

(* ===================================================================== *)
(** ** C8: hashed instance names *)
(* ===================================================================== *)

Lemma length_append (a b : string) :
  String.length (a ++ b) = (String.length a + String.length b)%nat.
Proof. induction a as [|c a IH]; cbn; [reflexivity | rewrite IH; reflexivity]. Qed.

Lemma list_ascii_append (a b : string) :
  list_ascii_of_string (a ++ b)
  = (list_ascii_of_string a ++ list_ascii_of_string b)%list.
Proof. induction a as [|c a IH]; cbn; [reflexivity | rewrite IH; reflexivity]. Qed.

Lemma concat_cons (x : string) (l : list string) :
  String.concat EmptyString (x :: l) = x ++ String.concat EmptyString l.
Proof.
  destruct l as [|y l]; cbn [String.concat].
  - induction x as [|c x IH]; cbn; [reflexivity | rewrite <- IH; reflexivity].
  - reflexivity.
Qed.

Lemma length_take (n : nat) (s : string) :
  (n <= String.length s)%nat -> String.length (CStr.take n s) = n.
Proof.
  revert s. induction n as [|n IH]; intros s H.
  - destruct s; reflexivity.
  - destruct s as [|c s]; cbn in *; [lia|]. rewrite IH; [reflexivity | lia].
Qed.

Lemma MD5_bytes_of_length n x : List.length (MD5.bytes_of n x) = n.
Proof. unfold MD5.bytes_of. rewrite length_map, length_seq. reflexivity. Qed.

Lemma MD5_digest_length msg : List.length (MD5.digest msg) = 16%nat.
Proof.
  unfold MD5.digest. cbv zeta.
  destruct (fold_left MD5.block _ MD5.init) as [[[a b] c] d].
  rewrite !length_app, !MD5_bytes_of_length. reflexivity.
Qed.

Lemma hex_digit_is_hex n : 0 <= n < 16 -> is_hex (hex_digit n) = true.
Proof.
  intros H. destruct n as [|p|p]; [reflexivity | | lia].
  do 4 (destruct p as [p|p|]; try lia; try reflexivity).
Qed.

Lemma hex2_is_hex b : forallb is_hex (list_ascii_of_string (hex2 b)) = true.
Proof.
  unfold hex2. cbn [list_ascii_of_string forallb].
  rewrite !hex_digit_is_hex; [reflexivity | |]; apply Z.mod_pos_bound; lia.
Qed.

Lemma hex_string (l : list Z) :
  String.length (String.concat EmptyString (map hex2 l)) = (2 * List.length l)%nat
  /\ forallb is_hex
       (list_ascii_of_string (String.concat EmptyString (map hex2 l))) = true.
Proof.
  induction l as [|b l [IH1 IH2]]; [split; reflexivity|].
  cbn [map]. rewrite concat_cons. split.
  - rewrite length_append, IH1. cbn [hex2 String.length List.length]. lia.
  - rewrite list_ascii_append, forallb_app, hex2_is_hex, IH2. reflexivity.
Qed.

(** The digest md5hash prints has 32 characters, all of them hexadecimal
    digits. *)
Lemma md5hash_width (name : string) :
  String.length (md5hash name) = 32%nat
  /\ forallb is_hex (list_ascii_of_string (md5hash name)) = true.
Proof.
  unfold md5hash. destruct (hex_string (MD5_of name)) as [H1 H2].
  split; [|exact H2]. rewrite H1. unfold MD5_of. rewrite MD5_digest_length.
  reflexivity.
Qed.

(** The name the end of poly_name leaves, as a function of the computed name,
    of the flags and of the length allowed. *)
Lemma hash_name_value (c : string) (idata : instance_data) (w : world) :
  fst (hash_name c idata w)
  = if flag_set (flags idata) PAMNS_GEN_HASH then md5hash c
    else if NAMESPACE_MAX_DIR_LEN (w_os w) <? CStr.strlen c
         then printf_prec (NAMESPACE_MAX_DIR_LEN (w_os w) - 1
                           - CStr.strlen (md5hash c)) c
              ++ "_" ++ md5hash c
         else c.
Proof.
  unfold hash_name. rewrite run_bind.
  destruct (debug_run idata LOG_DEBUG "poly_name %s" w) as (evs & _ & ->).
  cbn [fst snd]. rewrite run_bind. cbn [gets fst snd set_trace w_os].
  destruct (flag_set (flags idata) PAMNS_GEN_HASH); cbn [orb]; [reflexivity|].
  destruct (_ <? _); reflexivity.
Qed.

Lemma keeps_hash_name {X} (f : world -> X) c idata :
  ignores_trace f -> keeps f (hash_name c idata).
Proof. intros Ht. unfold hash_name. keeps_tac. Qed.

Lemma keeps_form_context {X} (f : world -> X) r idata :
  ignores_trace f -> keeps f (form_context r idata).
Proof.
  intros Ht. unfold form_context, getfilecon, getexeccon, security_compute_member.
  keeps_tac.
Qed.

Lemma keeps_trans_to_raw {X} (f : world -> X) con :
  ignores_trace f -> keeps f (selinux_trans_to_raw_context con).
Proof. intros Ht. unfold selinux_trans_to_raw_context. keeps_tac. Qed.

Lemma ignores_trace_os : ignores_trace w_os.
Proof. intros t w. reflexivity. Qed.

(** What the end of poly_name makes of a computed name [c]. *)
Lemma hash_name_cases (c : string) (idata : instance_data) (w : world) :
  33 <= NAMESPACE_MAX_DIR_LEN (w_os w) ->
  let mx := NAMESPACE_MAX_DIR_LEN (w_os w) in
  let n := fst (hash_name c idata w) in
  (flag_set (flags idata) PAMNS_GEN_HASH = true -> n = md5hash c)
  /\ (flag_set (flags idata) PAMNS_GEN_HASH = false -> mx < CStr.strlen c ->
      n = CStr.take (Z.to_nat (mx - 33)) c ++ "_" ++ md5hash c
      /\ CStr.strlen n = mx)
  /\ (flag_set (flags idata) PAMNS_GEN_HASH = false -> CStr.strlen c <= mx ->
      n = c).
Proof.
  intros Hmx mx n. subst n. rewrite hash_name_value. fold mx.
  destruct (md5hash_width c) as [Hlen _].
  split; [|split].
  - intros ->. reflexivity.
  - intros -> Hlong. apply Z.ltb_lt in Hlong as Hb. rewrite Hb.
    unfold printf_prec, CStr.strlen in *. rewrite Hlen.
    replace (mx - 1 - Z.of_nat 32) with (mx - 33) by lia.
    destruct (mx - 33 <? 0) eqn:E; [apply Z.ltb_lt in E; lia|].
    split; [reflexivity|].
    rewrite !length_append, Hlen, length_take by lia.
    cbn [String.length]. lia.
  - intros -> Hshort. apply Z.ltb_ge in Hshort. rewrite Hshort. reflexivity.
Qed.

(** The raw form of a context, when the translation does not fail. *)
Lemma trans_to_raw_value con w :
  (fst (fst (selinux_trans_to_raw_context con w)) <? 0) = false ->
  snd (fst (selinux_trans_to_raw_context con w))
  = option_map (raw_con (w_os w)) con.
Proof.
  unfold selinux_trans_to_raw_context. destruct con as [c|]; [|reflexivity].
  rewrite run_bind, run_sys.
  destruct (fault (w_os w) (w_trace w) (c_trans_to_raw c) =? 0) eqn:E;
    cbn [fst snd gets bind ret Z.eqb]; [reflexivity|].
  rewrite E. cbn [fst snd]. intros H. discriminate H.
Qed.

(** C8, as the code has it.  For a rule whose method is not tmpdir or tmpfs
    (for these the name is empty and poly_name returns before the hashing
    step), every name poly_name returns comes from the computed name [c]:
    the user name for the user method; for the context and level methods the
    raw form of the instance context poly_name returns, an underscore and
    the user name.  The digest of [c] has 32 hexadecimal digits and is a
    function of [c] alone: with gen_hash the name is the digest; without it,
    a computed name longer than NAMESPACE_MAX_DIR_LEN (at least 33) is cut
    to its first NAMESPACE_MAX_DIR_LEN - 33 characters and followed by an
    underscore and the digest, which makes exactly NAMESPACE_MAX_DIR_LEN
    characters; a name that fits is kept. *)
Theorem poly_name_hashing (r : polydir_s) (idata : instance_data) (w : world)
    (rc : Z) (n : string) (ic oc : option string) :
  method r <> TMPDIR -> method r <> TMPFS ->
  33 <= NAMESPACE_MAX_DIR_LEN (w_os w) ->
  fst (poly_name r idata w) = (rc, Some n, ic, oc) ->
  let mx := NAMESPACE_MAX_DIR_LEN (w_os w) in
  let gen_hash := flag_set (flags idata) PAMNS_GEN_HASH in
  let c := match method r with
           | USER => user idata
           | _ => show_null (option_map (raw_con (w_os w)) ic)
                  ++ "_" ++ user idata
           end in
  rc = PAM_SUCCESS
  /\ String.length (md5hash c) = 32%nat
  /\ forallb is_hex (list_ascii_of_string (md5hash c)) = true
  /\ (gen_hash = true -> n = md5hash c)
  /\ (gen_hash = false -> mx < CStr.strlen c ->
      n = CStr.take (Z.to_nat (mx - 33)) c ++ "_" ++ md5hash c
      /\ CStr.strlen n = mx)
  /\ (gen_hash = false -> CStr.strlen c <= mx -> n = c).
Proof.
  intros Hd Hf Hmx. cbv zeta.
  set (P := fun c : string =>
              rc = PAM_SUCCESS
              /\ String.length (md5hash c) = 32%nat
              /\ forallb is_hex (list_ascii_of_string (md5hash c)) = true
              /\ (flag_set (flags idata) PAMNS_GEN_HASH = true -> n = md5hash c)
              /\ (flag_set (flags idata) PAMNS_GEN_HASH = false ->
                  NAMESPACE_MAX_DIR_LEN (w_os w) < CStr.strlen c ->
                  n = CStr.take (Z.to_nat (NAMESPACE_MAX_DIR_LEN (w_os w) - 33)) c
                      ++ "_" ++ md5hash c
                  /\ CStr.strlen n = NAMESPACE_MAX_DIR_LEN (w_os w))
              /\ (flag_set (flags idata) PAMNS_GEN_HASH = false ->
                  CStr.strlen c <= NAMESPACE_MAX_DIR_LEN (w_os w) -> n = c)).
  change (wp (poly_name r idata)
             (fun res _ =>
                res = (rc, Some n, ic, oc) ->
                P match method r with
                  | USER => user idata
                  | _ => show_null (option_map (raw_con (w_os w)) ic)
                         ++ "_" ++ user idata
                  end) w).
  assert (named : forall c w1 i o,
             w_os w1 = w_os w ->
             wp (h <- hash_name c idata ;; ret (PAM_SUCCESS, Some h, i, o))
                (fun res _ => res = (rc, Some n, ic, oc) -> i = ic /\ P c) w1).
  { intros c w1 i o Hos. unfold wp. rewrite run_bind. cbn [ret fst snd].
    intros E. injection E as <- <- <- _. split; [reflexivity|].
    destruct (md5hash_width c) as [H1 H2].
    rewrite <- Hos in Hmx. unfold P. rewrite <- Hos.
    destruct (hash_name_cases c idata w1 Hmx) as (G1 & G2 & G3).
    split; [reflexivity|]. split; [exact H1|]. split; [exact H2|].
    split; [exact G1|]. split; [exact G2 | exact G3]. }
  assert (labelled : forall icx ocx w1,
             w_os w1 = w_os w ->
             wp (x <- selinux_trans_to_raw_context icx ;;
                 if fst x <? 0 then
                   pam_syslog LOG_ERR "Error translating directory context" ;;
                   ret (PAM_SESSION_ERR, None, None, None)
                 else
                   h <- hash_name (show_null (snd x) ++ "_" ++ user idata) idata ;;
                   ret (PAM_SUCCESS, Some h, icx, ocx))
                (fun res _ =>
                   res = (rc, Some n, ic, oc) ->
                   P (show_null (option_map (raw_con (w_os w)) ic)
                      ++ "_" ++ user idata)) w1).
  { intros icx ocx w1 Hos. apply wp_bind. unfold wp at 1.
    pose proof (trans_to_raw_value icx w1) as Hv.
    pose proof (keeps_trans_to_raw w_os icx ignores_trace_os w1) as Hos2.
    destruct (selinux_trans_to_raw_context icx w1) as [x w2].
    cbn [fst snd] in *. destruct (fst x <? 0).
    - unfold wp. rewrite run_bind. intros E. discriminate E.
    - rewrite (Hv eq_refl), Hos.
      pose proof (named (show_null (option_map (raw_con (w_os w)) icx)
                         ++ "_" ++ user idata) w2 icx ocx
                    ltac:(congruence)) as Hn.
      unfold wp in *. intros E. destruct (Hn E) as [<- HP]. exact HP. }
  unfold poly_name. apply wp_bind, wp_gets. apply wp_bind.
  apply (wp_keeps w_os).
  { destruct (_ && _); [apply keeps_form_context, ignores_trace_os
                       | apply keeps_ret]. }
  intros [[rc0 icx] ocx] w1 Hos.
  destruct (negb (rc0 =? PAM_SUCCESS)); [intros E; discriminate E|].
  destruct (method r) eqn:Em; try contradiction.
  - unfold wp. rewrite run_bind. intros E. discriminate E.
  - pose proof (named (user idata) w1 icx ocx Hos) as Hn.
    unfold wp in *. intros E. exact (proj2 (Hn E)).
  - destruct (WITH_SELINUX (w_os w)).
    + apply labelled. exact Hos.
    + unfold wp. rewrite run_bind. intros E. discriminate E.
  - destruct (WITH_SELINUX (w_os w)).
    + apply labelled. exact Hos.
    + unfold wp. rewrite run_bind. intros E. discriminate E.
Qed.

(** On the sample machine, with gen_hash, the instance of /tmp for alice is
    named by the digest of her name; without it, a user name of 92
    characters is cut to 47 and followed by its digest; and with SELinux the
    instance of the context rule is named by the member context, an
    underscore and her name. *)
Lemma poly_name_hashing_witness :
  (fst (poly_name Sample.tmp_rule (Sample4.session "alice" PAMNS_GEN_HASH)
          Sample3.fresh)
   = (PAM_SUCCESS, Some "6384e2b2184bcbf58eccf10ca7a6563c", None, None)
   /\ "6384e2b2184bcbf58eccf10ca7a6563c" = md5hash "alice")
  /\ (fst (poly_name Sample.tmp_rule (Sample4.session Sample4.long_name 0)
             Sample3.fresh)
      = (PAM_SUCCESS,
         Some (CStr.take 47 Sample4.long_name ++ "_" ++ md5hash Sample4.long_name),
         None, None)
      /\ CStr.strlen
           (CStr.take 47 Sample4.long_name ++ "_" ++ md5hash Sample4.long_name)
         = 80)
  /\ (fst (poly_name Sample11.ctx_rule
             (Sample4.session "alice" PAMNS_SELINUX_ENABLED) Sample11.w_mls)
      = (PAM_SUCCESS, Some "staff_u:object_r:user_tmp_t:s0_alice",
         Some "staff_u:object_r:user_tmp_t:s0", Some "tmp_t")
      /\ "staff_u:object_r:user_tmp_t:s0_alice"
         = "staff_u:object_r:user_tmp_t:s0" ++ "_" ++ "alice").
Proof.
  split; [|split].
  - assert (E : fst (poly_name Sample.tmp_rule
                       (Sample4.session "alice" PAMNS_GEN_HASH) Sample3.fresh)
                = (PAM_SUCCESS, Some "6384e2b2184bcbf58eccf10ca7a6563c", None, None))
      by (vm_compute; reflexivity).
    split; [exact E|].
    destruct (poly_name_hashing Sample.tmp_rule
                (Sample4.session "alice" PAMNS_GEN_HASH) Sample3.fresh
                PAM_SUCCESS "6384e2b2184bcbf58eccf10ca7a6563c" None None
                ltac:(discriminate) ltac:(discriminate)
                ltac:(vm_compute; discriminate) E)
      as (_ & _ & _ & Hn & _).
    apply Hn. reflexivity.
  - assert (E : fst (poly_name Sample.tmp_rule
                       (Sample4.session Sample4.long_name 0) Sample3.fresh)
                = (PAM_SUCCESS,
                   Some (CStr.take 47 Sample4.long_name ++ "_"
                         ++ md5hash Sample4.long_name), None, None))
      by (vm_compute; reflexivity).
    split; [exact E|].
    destruct (poly_name_hashing Sample.tmp_rule
                (Sample4.session Sample4.long_name 0) Sample3.fresh
                PAM_SUCCESS
                (CStr.take 47 Sample4.long_name ++ "_"
                 ++ md5hash Sample4.long_name) None None
                ltac:(discriminate) ltac:(discriminate)
                ltac:(vm_compute; discriminate) E)
      as (_ & _ & _ & _ & Hn & _).
    apply Hn; vm_compute; reflexivity.
  - assert (E : fst (poly_name Sample11.ctx_rule
                       (Sample4.session "alice" PAMNS_SELINUX_ENABLED)
                       Sample11.w_mls)
                = (PAM_SUCCESS, Some "staff_u:object_r:user_tmp_t:s0_alice",
                   Some "staff_u:object_r:user_tmp_t:s0", Some "tmp_t"))
      by (vm_compute; reflexivity).
    split; [exact E|].
    destruct (poly_name_hashing Sample11.ctx_rule
                (Sample4.session "alice" PAMNS_SELINUX_ENABLED) Sample11.w_mls
                PAM_SUCCESS "staff_u:object_r:user_tmp_t:s0_alice"
                (Some "staff_u:object_r:user_tmp_t:s0") (Some "tmp_t")
                ltac:(discriminate) ltac:(discriminate)
                ltac:(vm_compute; discriminate) E)
      as (_ & _ & _ & _ & _ & Hn).
    apply Hn; [reflexivity | vm_compute; discriminate].
Defined.

(** C8 as the specification states it fails for the tmpdir and tmpfs
    methods: with gen_hash, the name poly_name returns for the tmpdir rule of
    the sample machine is the empty name, not a digest. *)
Lemma poly_name_tmpdir_not_hashed :
  flag_set (flags (Sample4.session "alice" PAMNS_GEN_HASH)) PAMNS_GEN_HASH = true
  /\ method Sample.home_rule = TMPDIR
  /\ fst (poly_name Sample.home_rule (Sample4.session "alice" PAMNS_GEN_HASH)
            Sample3.fresh)
     = (PAM_SUCCESS, Some EmptyString, None, None)
  /\ String.length (md5hash EmptyString) = 32%nat.
Proof. repeat split; vm_compute; reflexivity. Qed.

(* ===================================================================== *)
(** ** C9: what the config loader checks *)
(* ===================================================================== *)

Lemma prefix_dots_template (s : string) :
  s <> EmptyString ->
  String.prefix ".." (s ++ "XXXXXX") = String.prefix ".." s.
Proof.
  destruct s as [|a [|b s]]; intros H; [contradiction H; reflexivity | |].
  - cbn [append String.prefix]. destruct (ascii_dec "." a); [|reflexivity].
    destruct (ascii_dec "." "X") as [E|_]; [discriminate E | reflexivity].
  - cbn [append String.prefix].
    destruct (ascii_dec "." a); [destruct (ascii_dec "." b)|]; try reflexivity.
    destruct s; reflexivity.
Qed.

Lemma strstr_dots_template (s : string) :
  CStr.strstr s ".." = None -> CStr.strstr (s ++ "XXXXXX") ".." = None.
Proof.
  induction s as [|a s IH]; intros H; [reflexivity|].
  change (String a s ++ "XXXXXX") with (String a (s ++ "XXXXXX")).
  cbn [CStr.strstr] in *.
  change (String a (s ++ "XXXXXX")) with (String a s ++ "XXXXXX").
  rewrite prefix_dots_template by discriminate.
  destruct (String.prefix ".." (String a s)); [discriminate H|].
  destruct (CStr.strstr s "..") eqn:E; [discriminate H|].
  rewrite IH; reflexivity.
Qed.

Lemma contains_dots_template (s : string) :
  CStr.contains s ".." = false -> CStr.contains (s ++ "XXXXXX") ".." = false.
Proof.
  unfold CStr.contains. intros H.
  destruct (CStr.strstr s "..") eqn:E; [discriminate H|].
  rewrite strstr_dots_template; [reflexivity | exact E].
Qed.

Lemma head_template (s : string) :
  CStr.head s = "/"%char -> CStr.head (s ++ "XXXXXX") = "/"%char.
Proof. destruct s; [discriminate | exact (fun H => H)]. Qed.

Lemma polymethod_eqb_eq (a b : polymethod) :
  polymethod_eqb a b = true <-> a = b.
Proof. destruct a, b; split; intros H; try reflexivity; discriminate H. Qed.

(** The rule process_line builds once its tests have passed satisfies the
    invariant. *)
Lemma checked_rule_ok (d prefix : string) (m : polymethod) (tmpdir : bool)
    (uids : list Z) (excl : Z) :
  polymethod_eqb m NONE = false ->
  negb (Ascii.eqb (CStr.head d) "/")
  || (negb (polymethod_eqb m TMPFS)
      && negb (Ascii.eqb (CStr.head prefix) "/")) = false ->
  CStr.contains d ".." || CStr.contains prefix ".." = false ->
  rule_ok (copy_ent (mk_polydir d (if tmpdir then prefix ++ "XXXXXX" else prefix)
                                m uids excl)).
Proof.
  intros Hm Hs Hd.
  apply orb_false_iff in Hs as [Hs1 Hs2], Hd as [Hd1 Hd2].
  apply negb_false_iff, Ascii.eqb_eq in Hs1.
  unfold rule_ok, copy_ent. cbn [dir instance_prefix method].
  split; [exact Hs1|]. split; [exact Hd1|]. split; [|split].
  - destruct tmpdir; [apply contains_dots_template|]; exact Hd2.
  - intros Ht. apply andb_false_iff in Hs2 as [Hs2|Hs2].
    + apply negb_false_iff, polymethod_eqb_eq in Hs2. contradiction.
    + apply negb_false_iff, Ascii.eqb_eq in Hs2.
      destruct tmpdir; [apply head_template|]; exact Hs2.
  - intros E. rewrite E in Hm. discriminate Hm.
Qed.

Lemma appends_ok_refl idata w : appends_ok idata w idata w.
Proof. exists []. split; [symmetry; apply app_nil_r | constructor]. Qed.

Lemma appends_ok_trans i1 w1 i2 w2 i3 w3 :
  appends_ok i1 w1 i2 w2 -> appends_ok i2 w2 i3 w3 -> appends_ok i1 w1 i3 w3.
Proof.
  intros (a & E1 & F1) (b & E2 & F2). exists (a ++ b)%list. split.
  - rewrite E2, E1, app_assoc. reflexivity.
  - apply Forall_app. split; assumption.
Qed.

(** Steps that leave the heap alone leave the rule list alone. *)
Lemma appends_ok_same idata w w' :
  rules_of idata w' = rules_of idata w -> appends_ok idata w idata w'.
Proof.
  intros E. exists []. split; [rewrite E; symmetry; apply app_nil_r | constructor].
Qed.

Lemma add_polydir_entry_appends idata ent w :
  rule_ok (copy_ent ent) ->
  appends_ok idata w (snd (fst (add_polydir_entry idata ent w)))
             (snd (add_polydir_entry idata ent w)).
Proof.
  intros Hok. unfold add_polydir_entry, appends_ok, rules_of.
  destruct (polydirs_ptr idata) as [a|] eqn:Ep.
  - rewrite run_bind. cbn [modify ret fst snd]. rewrite Ep.
    cbn [cells w_heap set_heap]. rewrite Nat.eqb_refl.
    destruct (w_heap w a) as [l|]; cbn [option_map].
    + exists [copy_ent ent]. split; [reflexivity | constructor; [exact Hok | constructor]].
    + exists []. split; [reflexivity | constructor].
  - cbn [fst snd set_polydirs_ptr polydirs_ptr cells w_heap set_heap].
    rewrite Nat.eqb_refl.
    exists [copy_ent ent]. split; [reflexivity | constructor; [exact Hok | constructor]].
Qed.

Lemma keeps_lookup_uids {X} (f : world -> X) names :
  ignores_trace f -> keeps f (lookup_uids names).
Proof. intros Ht. induction names; cbn [lookup_uids]; keeps_tac. Qed.

Lemma wp_add_polydir_entry idata ent w w1 :
  rule_ok (copy_ent ent) ->
  rules_of idata w1 = rules_of idata w ->
  wp (r <- add_polydir_entry idata ent ;;
      if fst r <? 0 then
        pam_syslog LOG_ERR "Allocation Error" ;;
        ret (PAM_SERVICE_ERR, snd r)
      else ret (0, snd r))
     (fun r w' => appends_ok idata w (snd r) w') w1.
Proof.
  intros Hok E. unfold wp. rewrite run_bind.
  pose proof (add_polydir_entry_appends idata ent w1 Hok) as H.
  destruct (add_polydir_entry idata ent w1) as [[rc i'] w2].
  cbn [fst snd] in *.
  apply (appends_ok_trans _ _ idata w1); [apply appends_ok_same; exact E|].
  destruct (rc <? 0); [rewrite run_bind|]; exact H.
Qed.

(** One line of the configuration file leaves the rule list as it is or
    appends one rule, which satisfies the invariant. *)
Lemma process_line_appends line home idata w :
  appends_ok idata w (snd (fst (process_line line home idata w)))
             (snd (process_line line home idata w)).
Proof.
  change (wp (process_line line home idata)
             (fun r w' => appends_ok idata w (snd r) w') w).
  assert (Hskip : forall msg,
             wp (pam_syslog LOG_NOTICE msg ;; ret (skipping idata, idata))
                (fun r w' => appends_ok idata w (snd r) w') w).
  { intros msg. apply wp_bind, wp_syslog, wp_ret. cbn [snd].
    apply appends_ok_same. reflexivity. }
  unfold process_line. cbv zeta.
  destruct (String.eqb _ _); [apply wp_ret, appends_ok_refl|].
  destruct (CStr.strtok_r _ _) as [[dir_tok t1]|]; [|apply Hskip].
  destruct (CStr.strtok_r t1 _) as [[prefix_tok t2]|]; [|apply Hskip].
  destruct (CStr.strtok_r t2 _) as [[method_tok t3]|]; [|apply Hskip].
  set (d := if String.eqb dir_tok "$HOME" then home else dir_tok).
  set (prefix := CStr.expand_var "$HOME" home
                   (CStr.expand_var "$USER" (user idata) prefix_tok)).
  destruct (_ || _); [apply Hskip|].
  destruct (_ && _); [apply Hskip|].
  apply wp_bind, wp_gets.
  match goal with |- context [polymethod_eqb ?m NONE] => set (pm := m) end.
  destruct (polymethod_eqb pm NONE) eqn:Em; [apply Hskip|].
  destruct (negb _ || _) eqn:Es; [apply Hskip|].
  destruct (CStr.contains d ".." || _) eqn:Ed; [apply Hskip|].
  apply wp_bind.
  destruct (option_map fst (CStr.strtok_r t3 blank)) as [u|].
  - apply wp_bind. apply (wp_keeps (rules_of idata)).
    { apply keeps_lookup_uids. intros t w0. reflexivity. }
    intros l w1 E. apply wp_ret.
    apply wp_add_polydir_entry; [|exact E].
    apply checked_rule_ok; assumption.
  - apply wp_ret. apply wp_add_polydir_entry; [|reflexivity].
    apply checked_rule_ok; assumption.
Qed.

Lemma read_lines_appends lines home idata w :
  appends_ok idata w (snd (fst (read_lines lines home idata w)))
             (snd (read_lines lines home idata w)).
Proof.
  revert idata w. induction lines as [|line rest IH]; intros idata w.
  - apply appends_ok_refl.
  - cbn [read_lines]. destruct (_ <=? 0); [apply appends_ok_refl|].
    rewrite run_bind.
    pose proof (process_line_appends line home idata w) as H.
    destruct (process_line line home idata w) as [[rc i1] w1].
    cbn [fst snd] in *. destruct (negb _).
    + rewrite run_bind. exact H.
    + exact (appends_ok_trans _ _ _ _ _ _ H (IH i1 w1)).
Qed.

Lemma keeps_dump_polydirs {X} (f : world -> X) idata :
  ignores_trace f -> keeps f (dump_polydirs idata).
Proof.
  intros Ht. unfold dump_polydirs. destruct flag_set; [|apply keeps_ret].
  apply keeps_bind; [apply keeps_gets|]. intros l.
  apply keeps_bind; [apply keeps_syslog; exact Ht|]. intros _.
  induction l as [|r l IH]; cbn [fold_right]; [apply keeps_ret|].
  apply keeps_bind; [apply keeps_syslog; exact Ht|]. intros _.
  induction (uid r) as [|x us IHu]; cbn [fold_right]; [exact IH|].
  apply keeps_bind; [apply keeps_syslog; exact Ht | intros _; exact IHu].
Qed.

(** The config loader only appends rules that satisfy the invariant. *)
Lemma parse_config_file_appends idata w :
  appends_ok idata w (snd (fst (parse_config_file idata w)))
             (snd (parse_config_file idata w)).
Proof.
  assert (Ht : forall i, ignores_trace (rules_of i)).
  { intros i t w0. reflexivity. }
  change (wp (parse_config_file idata)
             (fun r w' => appends_ok idata w (snd r) w') w).
  unfold parse_config_file.
  apply wp_bind. apply (wp_keeps (rules_of idata)); [apply keeps_debug, Ht|].
  intros _ w1 E1. apply wp_bind.
  apply (wp_keeps (rules_of idata)); [apply keeps_getpwnam|].
  intros [pw|] w2 E2.
  - apply wp_bind.
    apply (wp_keeps (rules_of idata)); [unfold fopen_lines; keeps_tac|].
    intros [lines|] w3 E3.
    + unfold wp. rewrite run_bind.
      pose proof (read_lines_appends lines (pw_dir pw) idata w3) as H.
      destruct (read_lines lines (pw_dir pw) idata w3) as [[ok i1] w4].
      cbn [fst snd] in *.
      assert (H0 : appends_ok idata w i1 w4).
      { apply (appends_ok_trans _ _ idata w3); [|exact H].
        apply appends_ok_same. congruence. }
      destruct ok; [|exact H0].
      rewrite run_bind. cbn [ret fst snd].
      apply (appends_ok_trans _ _ _ _ _ _ H0).
      apply appends_ok_same. apply (keeps_dump_polydirs (rules_of i1)), Ht.
    + apply wp_bind, wp_syslog, wp_ret. cbn [snd]. apply appends_ok_same.
      transitivity (rules_of idata w3); [reflexivity | congruence].
  - apply wp_bind, wp_syslog, wp_ret. cbn [snd]. apply appends_ok_same.
    transitivity (rules_of idata w2); [reflexivity | congruence].
Qed.

Lemma keeps_poly_name {X} (f : world -> X) r idata :
  ignores_trace f -> keeps f (poly_name r idata).
Proof.
  intros Ht. unfold poly_name. apply keeps_bind; [apply keeps_gets|]. intros ws.
  apply keeps_bind.
  { destruct (_ && _); [apply keeps_form_context, Ht | apply keeps_ret]. }
  intros [[rc0 icx] ocx]. destruct (negb _); [apply keeps_ret|].
  pose proof (keeps_hash_name f) as Kh. pose proof (keeps_trans_to_raw f) as Kt.
  destruct (method r); keeps_tac.
Qed.

Lemma keeps_dress_new_dir {X} (f : world -> X) r ipath sb ic oc idata :
  ignores_trace f -> ignores_fs f -> ignores_fds f -> ignores_sigchld f ->
  ignores_children f -> ignores_mounts f ->
  keeps f (dress_new_dir r ipath sb ic oc idata).
Proof.
  intros Ht Hfs Hfd Hs Hc Hmt. pose proof (keeps_inst_init f) as Ki.
  unfold dress_new_dir, fsetfilecon, fchown, fchmod. keeps_tac.
Qed.

Lemma keeps_create_dirs {X} (f : world -> X) p ipath ic oc idata :
  ignores_trace f -> ignores_fs f -> ignores_fds f -> ignores_sigchld f ->
  ignores_children f -> ignores_heap f -> ignores_mounts f ->
  keeps f (create_dirs p ipath ic oc idata).
Proof.
  intros Ht Hfs Hfd Hs Hc Hh Hmt. pose proof (keeps_inst_init f) as Ki.
  pose proof (keeps_check_inst_parent f) as Kc.
  pose proof (keeps_dress_new_dir f) as Kd.
  unfold create_dirs. keeps_tac.
Qed.

Lemma wp_logs_only {A} (m : M A) (a : A) (Q : A -> world -> Prop) w :
  logs_only m a w ->
  (forall evs, forallb is_log evs = true ->
               Q a (set_trace (evs ++ w_trace w)%list w)) ->
  wp m Q w.
Proof. intros (evs & L & E) H. unfold wp. rewrite E. apply H. exact L. Qed.

Lemma hash_name_run c idata w :
  logs_only (hash_name c idata) (fst (hash_name c idata w)) w.
Proof.
  rewrite hash_name_value. unfold hash_name.
  destruct (debug_run idata LOG_DEBUG "poly_name %s" w) as (evs & L & E).
  exists evs. split; [exact L|]. rewrite (bind_eq _ _ _ _ _ E).
  rewrite run_bind. cbn [gets fst snd w_os set_trace].
  destruct (flag_set (flags idata) PAMNS_GEN_HASH); cbn [orb]; [reflexivity|].
  destruct (_ <? _); reflexivity.
Qed.

(** Without SELinux the name of a rule of the user method is the user name,
    hashed as the flags and the length allowed have it, and poly_name only
    writes to the log. *)
Lemma poly_name_user r idata w :
  method r = USER -> WITH_SELINUX (w_os w) = false ->
  logs_only (poly_name r idata)
            (PAM_SUCCESS, Some (fst (hash_name (user idata) idata w)), None, None)
            w.
Proof.
  intros Hm Hs. unfold poly_name. rewrite Hm.
  destruct (hash_name_run (user idata) idata w) as (evs & L & E).
  exists evs. split; [exact L|].
  rewrite run_bind. cbn [gets fst snd]. rewrite Hs. cbn [andb].
  rewrite run_bind. cbn [ret fst snd Z.eqb PAM_SUCCESS negb].
  rewrite (bind_eq _ _ _ _ _ E). reflexivity.
Qed.

(* ===================================================================== *)
(** ** Further properties: strings and small helpers *)
(* ===================================================================== *)

Lemma split_commas_cons (s : string) :
  exists x l, CStr.split_commas s = x :: l.
Proof.
  induction s as [|a t (x & l & IH)]; [eexists; eexists; reflexivity|].
  cbn [CStr.split_commas]. rewrite IH.
  destruct (Ascii.eqb a ","); eexists; eexists; reflexivity.
Qed.

Lemma concat_comma_cons (x y : string) (l : list string) :
  String.concat "," (x :: y :: l) = x ++ "," ++ String.concat "," (y :: l).
Proof. reflexivity. Qed.

(** The pieces the override field is cut into at its commas give the field
    back when joined with commas, and there is one more piece than there are
    commas: no name is lost or merged, an empty field gives one empty
    name. *)
Theorem split_commas_round_trip (s : string) :
  String.concat "," (CStr.split_commas s) = s
  /\ List.length (CStr.split_commas s) = S (commas s).
Proof.
  induction s as [|a t [IH1 IH2]]; [split; reflexivity|].
  cbn [CStr.split_commas commas].
  destruct (split_commas_cons t) as (x & l & E). rewrite E in *.
  destruct (Ascii.eqb a ",") eqn:Ea.
  - apply Ascii.eqb_eq in Ea. subst a. split.
    + rewrite concat_comma_cons, IH1. reflexivity.
    + cbn [List.length] in *. rewrite IH2. reflexivity.
  - split.
    + destruct l as [|y l].
      * cbn [String.concat] in *. rewrite IH1. reflexivity.
      * rewrite concat_comma_cons. rewrite concat_comma_cons in IH1.
        rewrite <- IH1. reflexivity.
    + cbn [List.length] in *. rewrite IH2. reflexivity.
Qed.

(** The override names are looked up one by one: the uids of the known
    names come back in the order of the names, an unknown name is dropped,
    and nothing but the log is touched. *)
Theorem lookup_uids_known (names : list string) (w : world) :
  result (lookup_uids names) w = known_uids (w_os w) names
  /\ only_logs w (after (lookup_uids names) w).
Proof.
  unfold result, after. revert w.
  induction names as [|n names IH]; intros w.
  - split; [reflexivity | apply only_logs_refl].
  - cbn [lookup_uids known_uids flat_map]. rewrite run_bind.
    cbn [pam_modutil_getpwnam gets fst snd].
    destruct (getpwnam (w_os w) n) as [pw|].
    + rewrite run_bind. destruct (IH w) as [H1 H2]. cbn [ret fst snd].
      rewrite H1. split; [reflexivity | exact H2].
    + rewrite run_bind.
      destruct (IH (snd (pam_syslog LOG_ERR "Unknown user %s in configuration" w)))
        as [H1 H2].
      split; [exact H1|].
      eapply only_logs_trans; [apply only_logs_syslog | exact H2].
Qed.

Lemma length_take_le (n : nat) (s : string) :
  (String.length (CStr.take n s) <= n)%nat.
Proof.
  revert s. induction n as [|n IH]; intros s; [destruct s; cbn; lia|].
  destruct s as [|c s]; cbn; [lia|]. specialize (IH s). lia.
Qed.

Lemma take_all (n : nat) (s : string) :
  (String.length s <= n)%nat -> CStr.take n s = s.
Proof.
  revert s. induction n as [|n IH]; intros s H.
  - destruct s; [reflexivity | cbn in H; lia].
  - destruct s as [|c s]; [reflexivity|]. cbn in *. rewrite IH; [reflexivity | lia].
Qed.

(** The user name kept for the session has at most LOGIN_NAME_MAX - 1
    characters: a name that fits is kept whole, a longer one is cut to its
    first 255 characters. *)
Theorem copy_user_bounded (user_name : string) :
  CStr.strlen (copy_user user_name) <= LOGIN_NAME_MAX - 1
  /\ (CStr.strlen user_name <= LOGIN_NAME_MAX - 1 ->
      copy_user user_name = user_name)
  /\ String.prefix (copy_user user_name) user_name = true.
Proof.
  unfold copy_user, CStr.strlen, LOGIN_NAME_MAX.
  change (Z.to_nat (256 - 1)) with 255%nat. split; [|split].
  - pose proof (length_take_le 255 user_name). lia.
  - intros H. apply take_all. lia.
  - generalize 255%nat. intros n. revert user_name.
    induction n as [|n IH]; intros s; [destruct s; reflexivity|].
    destruct s as [|c s]; [reflexivity|]. cbn.
    destruct (ascii_dec c c) as [_|N]; [apply IH | contradiction N; reflexivity].
Qed.

Lemma strchr_none_strrchr (s : string) (c : ascii) :
  CStr.strchr s c = None -> CStr.strrchr s c = None.
Proof.
  induction s as [|a s IH]; [reflexivity|]. cbn.
  destruct (Ascii.eqb a c); [discriminate|].
  destruct (CStr.strchr s c); [discriminate|]. intros _. rewrite IH; reflexivity.
Qed.

Lemma strrchr_last_slash (p n : string) :
  no_slash n -> CStr.strrchr (p ++ "/" ++ n) "/" = Some (String.length p).
Proof.
  intros H. induction p as [|a p IH].
  - cbn. rewrite (strchr_none_strrchr n "/" H). reflexivity.
  - cbn [append CStr.strrchr String.length] in *. rewrite IH. reflexivity.
Qed.

Lemma strchr_app_found (s r : string) (c : ascii) (k : nat) :
  CStr.strchr s c = Some k ->
  CStr.strchr (s ++ r) c = Some k /\ (k < String.length s)%nat.
Proof.
  revert k. induction s as [|a s IH]; intros k; [discriminate|]. cbn.
  destruct (Ascii.eqb a c); [intros [= <-]; split; [reflexivity | lia]|].
  destruct (CStr.strchr s c) as [j|]; [|discriminate].
  intros [= <-]. destruct (IH j eq_refl) as [H1 H2]. rewrite H1.
  split; [reflexivity | lia].
Qed.

Lemma strchr_app_slash (p n : string) :
  CStr.strchr p "/" = None ->
  CStr.strchr (p ++ "/" ++ n) "/" = Some (String.length p).
Proof.
  induction p as [|a p IH]; [reflexivity|]. cbn.
  destruct (Ascii.eqb a "/"); [discriminate|].
  destruct (CStr.strchr p "/"); [discriminate|]. intros _.
  cbn in IH. rewrite IH; reflexivity.
Qed.

Lemma take_app (p r : string) : CStr.take (String.length p) (p ++ r) = p.
Proof.
  induction p as [|a p IH]; [destruct r; reflexivity|].
  cbn. rewrite IH. reflexivity.
Qed.

(** The parent check_inst_parent looks at is the instance path up to its
    last slash: the path without its last component, and the path itself
    when it has no slash. *)
Lemma inst_parent_of_path (p n : string) :
  no_slash n -> inst_parent_of (p ++ "/" ++ n) = p.
Proof.
  intros H. unfold inst_parent_of. rewrite (strrchr_last_slash p n H).
  apply take_app.
Qed.

(** Before an unmount of the directory [d] the working directory moves to
    [d] without its last component; when the only slash of [d] is the one
    before the last component the move is to the root, also when [d] is a
    relative path; a [d] with no slash is kept. *)
Theorem poly_parent_of_path (p n : string) :
  no_slash n ->
  poly_parent (p ++ "/" ++ n)
  = match CStr.strchr p "/" with
    | Some _ => p
    | None => "/"
    end.
Proof.
  intros H. unfold poly_parent. rewrite (strrchr_last_slash p n H).
  destruct (CStr.strchr p "/") as [k|] eqn:E.
  - destruct (strchr_app_found p ("/" ++ n) "/" k E) as [-> Hk].
    destruct (Nat.eqb k (String.length p)) eqn:Ek.
    + apply Nat.eqb_eq in Ek. lia.
    + apply take_app.
  - rewrite (strchr_app_slash p n E), Nat.eqb_refl. reflexivity.
Qed.

Lemma poly_parent_of_path_witness :
  poly_parent ("/home" ++ "/" ++ "alice") = "/home"
  /\ poly_parent (EmptyString ++ "/" ++ "tmp") = "/"
  /\ poly_parent ("srv" ++ "/" ++ "data") = "/".
Proof.
  split; [|split].
  - apply (poly_parent_of_path "/home" "alice"). reflexivity.
  - apply (poly_parent_of_path EmptyString "tmp"). reflexivity.
  - apply (poly_parent_of_path "srv" "data"). reflexivity.
Defined.

Lemma prefix_app (d s : string) : String.prefix d (d ++ s) = true.
Proof.
  induction d as [|a d IH]; [destruct s; reflexivity|]. cbn.
  destruct (ascii_dec a a) as [_|N]; [exact IH | contradiction N; reflexivity].
Qed.

Lemma prefix_split (d c : string) :
  String.prefix d c = true -> exists s, c = d ++ s.
Proof.
  revert c. induction d as [|a d IH]; intros c H; [exists c; reflexivity|].
  destruct c as [|b c]; [discriminate H|]. cbn in H.
  destruct (ascii_dec a b) as [<-|_]; [|discriminate H].
  destruct (IH c H) as (s & ->). exists s. reflexivity.
Qed.

(** cwd_in compares strings, not paths: when getcwd succeeds it returns 1
    exactly when the working directory starts with the characters of [d],
    be it [d], a directory below [d] or a neighbour whose name [d] starts,
    and 0 otherwise; when getcwd fails it returns -1.  It changes nothing
    but the history. *)
Theorem cwd_in_prefix (d : string) (idata : instance_data) (w : world) :
  let e := fault (w_os w) (w_trace w) c_getcwd in
  (e = 0 ->
   (result (cwd_in d idata) w = 1 <-> exists s, w_cwd w = d ++ s)
   /\ (result (cwd_in d idata) w = 0 <-> ~ exists s, w_cwd w = d ++ s))
  /\ (e <> 0 -> result (cwd_in d idata) w = -1)
  /\ w_cwd (after (cwd_in d idata) w) = w_cwd w
  /\ w_mounts (after (cwd_in d idata) w) = w_mounts w.
Proof.
  cbv zeta. unfold result, after.
  assert (K : forall X (f : world -> X), ignores_trace f ->
                f (snd (cwd_in d idata w)) = f w).
  { intros X f Hf. apply (ltac:(unfold cwd_in; keeps_tac) : keeps f (cwd_in d idata)). }
  split; [|split; [|split]].
  - intros He. unfold cwd_in, getcwd. rewrite !run_bind, run_sys, He.
    cbn [Z.eqb fst snd gets bind ret]. unfold CStr.strncmp_eq.
    destruct (String.prefix d (w_cwd w)) eqn:Ep; rewrite run_bind; cbn [ret fst].
    + destruct (prefix_split d _ Ep) as (s & Es). split; split; intros H.
      * exists s. exact Es.
      * reflexivity.
      * discriminate H.
      * contradiction H. exists s. exact Es.
    + split; split; intros H.
      * discriminate H.
      * destruct H as (s & Es). rewrite Es, prefix_app in Ep. discriminate Ep.
      * intros (s & Es). rewrite Es, prefix_app in Ep. discriminate Ep.
      * reflexivity.
  - intros He. apply Z.eqb_neq in He. unfold cwd_in, getcwd.
    rewrite !run_bind, run_sys, He. cbn [fst snd ret]. rewrite He.
    rewrite run_bind. reflexivity.
  - apply (K _ w_cwd). intros t w0. reflexivity.
  - apply (K _ w_mounts). intros t w0. reflexivity.
Qed.

Lemma cwd_in_prefix_witness :
  result (cwd_in "/tmp" Sample.alice) (set_cwd "/tmpfiles/x" Sample.w0) = 1
  /\ result (cwd_in "/tmp" Sample.alice) Sample.w0 = 0.
Proof.
  split.
  - destruct (cwd_in_prefix "/tmp" Sample.alice
                (set_cwd "/tmpfiles/x" Sample.w0)) as [H _].
    destruct (H eq_refl) as [[_ H1] _]. apply H1.
    exists "files/x". reflexivity.
  - destruct (cwd_in_prefix "/tmp" Sample.alice Sample.w0) as [H _].
    destruct (H eq_refl) as [_ [_ H0]]. apply H0.
    intros (s & E). discriminate E.
Defined.

(* ===================================================================== *)
(** ** Further properties: the materializer *)
(* ===================================================================== *)

(** check_inst_parent, for an instance path [p/n]: when stat is not failed
    by the environment it returns PAM_SUCCESS exactly when [p] is there, is
    a directory and has none of the nine permission bits set, or is a
    directory and ignore_instance_parent_mode is given; in every other case,
    a failed stat included, it returns PAM_SESSION_ERR.  It changes nothing
    but the history. *)
Theorem check_inst_parent_accepts (p n : string) (idata : instance_data)
    (w : world) :
  no_slash n ->
  let rc := result (check_inst_parent (p ++ "/" ++ n) idata) w in
  let accepted :=
    exists i, w_fs w p = Some i
              /\ S_ISDIR (st_mode i) = true
              /\ (flag_set (flags idata) PAMNS_IGN_INST_PARENT_MODE = true
                  \/ Z.land (st_mode i) S_IRWXUGO = 0) in
  (rc = PAM_SUCCESS \/ rc = PAM_SESSION_ERR)
  /\ (fault (w_os w) (w_trace w) (c_stat p) = 0 -> (rc = PAM_SUCCESS <-> accepted))
  /\ (fault (w_os w) (w_trace w) (c_stat p) <> 0 -> rc = PAM_SESSION_ERR)
  /\ (exists t, after (check_inst_parent (p ++ "/" ++ n) idata) w = set_trace t w).
Proof.
  intros Hn. cbv zeta. unfold result, after, check_inst_parent.
  rewrite (inst_parent_of_path p n Hn), run_bind, stat_run. cbv zeta.
  destruct (fault (w_os w) (w_trace w) (c_stat p) =? 0) eqn:E.
  - apply Z.eqb_eq in E. destruct (w_fs w p) as [i|] eqn:Ef; cbn [fst snd].
    + destruct (S_ISDIR (st_mode i)) eqn:Ed; cbn [negb].
      * destruct (flag_set (flags idata) PAMNS_IGN_INST_PARENT_MODE) eqn:Eg;
          cbn [negb andb].
        { split; [left; reflexivity|]. split; [|split].
          - intros _. split; [|reflexivity]. intros _. exists i.
            split; [reflexivity|]. split; [exact Ed | left; reflexivity].
          - intros N. contradiction.
          - eexists. reflexivity. }
        unfold truthy. destruct (Z.land (st_mode i) S_IRWXUGO =? 0) eqn:Em;
          cbn [negb]; [|rewrite run_bind; cbn [ret fst snd]].
        { apply Z.eqb_eq in Em. split; [left; reflexivity|]. split; [|split].
          - intros _. split; [|reflexivity]. intros _. exists i.
            split; [reflexivity|]. split; [exact Ed | right; exact Em].
          - intros N. contradiction.
          - eexists. reflexivity. }
        apply Z.eqb_neq in Em. split; [right; reflexivity|]. split; [|split].
        { intros _. split; [discriminate|].
          intros (j & [= <-] & _ & [H|H]); [discriminate H | contradiction]. }
        { intros N. contradiction. }
        eexists. reflexivity.
      * rewrite run_bind. cbn [ret fst snd].
        split; [right; reflexivity|]. split; [|split].
        { intros _. split; [discriminate|].
          intros (j & [= <-] & H & _). rewrite Ed in H. discriminate H. }
        { intros N. contradiction. }
        eexists. reflexivity.
    + rewrite run_bind. cbn [ret fst snd].
      split; [right; reflexivity|]. split; [|split].
      * intros _. split; [discriminate|]. intros (j & H & _). discriminate H.
      * intros N. contradiction.
      * eexists. reflexivity.
  - cbn [fst snd]. rewrite run_bind. cbn [ret fst snd].
    apply Z.eqb_neq in E.
    split; [right; reflexivity|]. split; [|split].
    + intros N. contradiction.
    + intros _. reflexivity.
    + eexists. reflexivity.
Qed.

Lemma check_inst_parent_accepts_witness :
  result (check_inst_parent ("/tmp-inst" ++ "/" ++ "alice") Sample.alice) Sample.w0
  = PAM_SUCCESS
  /\ result (check_inst_parent ("/home" ++ "/" ++ "alice") Sample.alice) Sample.w0
     = PAM_SESSION_ERR.
Proof.
  split.
  - destruct (check_inst_parent_accepts "/tmp-inst" "alice" Sample.alice Sample.w0
                eq_refl) as (_ & H & _).
    apply (H eq_refl). exists (mk_inode S_IFDIR 0 0 "inst_t").
    split; [reflexivity|]. split; [reflexivity | right; reflexivity].
  - destruct (check_inst_parent_accepts "/home" "alice" Sample.alice Sample.w0
                eq_refl) as ([H|H] & Hiff & _); [|exact H].
    destruct (proj1 (Hiff eq_refl) H) as (i & Hi & _). discriminate Hi.
Defined.

(* ===================================================================== *)
(** ** Further properties: the SIGCHLD discipline *)
(* ===================================================================== *)

Lemma sigchld_bracket {A} (body : option sighandler -> M A) (w : world) :
  (forall o, keeps w_sigchld (body o)) ->
  (forall o, keeps w_os (body o)) ->
  (forall t d, fault (w_os w) t (c_signal (Some d)) = 0) ->
  w_sigchld (snd ((osighand <- signal_SIGCHLD (Some SIG_DFL) ;;
                   rc <- body osighand ;;
                   signal_SIGCHLD osighand ;;
                   ret rc) w)) = w_sigchld w.
Proof.
  intros Ks Ko Hsig. rewrite run_bind, signal_run. cbv zeta.
  rewrite Hsig. cbn [Z.eqb fst snd]. rewrite run_bind.
  set (w1 := called (c_signal (Some SIG_DFL)) 0 (set_sigchld SIG_DFL w)).
  pose proof (Ko (Some (w_sigchld w)) w1) as Ho.
  set (w2 := snd (body (Some (w_sigchld w)) w1)) in *.
  rewrite run_bind, signal_run. cbv zeta. rewrite Ho.
  change (w_os w1) with (w_os w). rewrite Hsig. reflexivity.
Qed.

(** Both functions that wait for a child put the disposition of SIGCHLD
    back: whenever signal() itself is not failed, the disposition after
    inst_init and after cleanup_tmpdirs is the one before, on every path,
    the failures of fork and waitpid included. *)
Theorem sigchld_restored (polyptr : polydir_s) (ipath : string)
    (idata : instance_data) (newdir : Z) (w : world) :
  (forall t d, fault (w_os w) t (c_signal (Some d)) = 0) ->
  w_sigchld (after (inst_init polyptr ipath idata newdir) w) = w_sigchld w
  /\ w_sigchld (after (cleanup_tmpdirs idata) w) = w_sigchld w.
Proof.
  intros Hsig. unfold after. split.
  - unfold inst_init.
    apply (sigchld_bracket
             (fun osighand =>
                match osighand with
                | None => pam_syslog LOG_ERR "Cannot set signal value" ;;
                          ret PAM_SESSION_ERR
                | Some _ => _
                end)); [| |exact Hsig]; intros [o|]; keeps_tac.
  - unfold cleanup_tmpdirs.
    apply (sigchld_bracket
             (fun osighand =>
                match osighand with
                | None => pam_syslog LOG_ERR "Cannot set signal value" ;;
                          ret PAM_SESSION_ERR
                | Some _ => _
                end)); [| |exact Hsig]; intros [o|]; keeps_tac;
      apply keeps_cleanup_loop; eauto with keeps.
Qed.

Lemma sigchld_restored_witness :
  w_sigchld (after (inst_init Sample.tmp_rule "/tmp-inst/alice" Sample.alice 1)
                   (Sample2.w_script Sample2.exec_mode 0)) = SIG_IGN
  /\ w_sigchld (after (cleanup_tmpdirs Sample2.alice)
                      (Sample2.opened Sample2.no_fork)) = SIG_IGN.
Proof.
  split.
  - apply (proj1 (sigchld_restored Sample.tmp_rule "/tmp-inst/alice" Sample.alice 1
                    (Sample2.w_script Sample2.exec_mode 0)
                    ltac:(intros t d; reflexivity))).
  - apply (proj2 (sigchld_restored Sample.tmp_rule "/tmp-inst/alice" Sample2.alice 1
                    (Sample2.opened Sample2.no_fork)
                    ltac:(intros t d; reflexivity))).
Defined.

(* ===================================================================== *)
(** ** Further properties: ns_setup *)
(* ===================================================================== *)

(** When the parent of the instance path has permission bits set and
    ignore_instance_parent_mode is not given, create_dirs returns
    PAM_SESSION_ERR and touches nothing but the history. *)
Lemma create_dirs_bad_parent p ipath ic oc idata w orig parent :
  quiet (w_os w) ->
  w_fs w (dir (result (load p) w)) = Some orig ->
  S_ISDIR (st_mode orig) = true ->
  w_fs w (inst_parent_of ipath) = Some parent ->
  S_ISDIR (st_mode parent) = true ->
  Z.land (st_mode parent) S_IRWXUGO <> 0 ->
  flag_set (flags idata) PAMNS_IGN_INST_PARENT_MODE = false ->
  fst (create_dirs p ipath ic oc idata w) = (PAM_SESSION_ERR, ipath)
  /\ exists t, snd (create_dirs p ipath ic oc idata w) = set_trace t w.
Proof.
  intros Hq Horig Hdir Hpar Hpdir Hpmode Hflag.
  change (wp (create_dirs p ipath ic oc idata)
             (fun r w' => r = (PAM_SESSION_ERR, ipath)
                          /\ exists t, w' = set_trace t w) w).
  unfold create_dirs. apply wp_bind. apply wp_gets.
  change (nth (snd p) (cells (Some (fst p)) w) null_rule)
    with (result (load p) w).
  set (rule := result (load p) w) in *.
  unfold check_inst_parent, quiet in *.
  assert (Hp0 : truthy (Z.land (st_mode parent) S_IRWXUGO) = true).
  { unfold truthy. apply Z.eqb_neq in Hpmode. rewrite Hpmode. reflexivity. }
  wp_with ltac:(rewrite ?Hq, ?Horig, ?Hdir, ?Hpar, ?Hpdir, ?Hp0, ?Hflag).
  all: try discriminate.
  all: split; [reflexivity | eexists; reflexivity].
Qed.

(** The test [retval < 0] that follows create_dirs in ns_setup never holds,
    PAM_SESSION_ERR being positive: when create_dirs fails, here on a parent
    of the instance with permission bits set, the instance directory is
    bind-mounted on the directory all the same, and ns_setup returns the
    error with that mount in place. *)
Theorem ns_setup_mounts_after_failed_create_dirs p idata w i orig parent :
  let r := result (load p) w in
  let ipath := instance_prefix r ++ fst (hash_name (user idata) idata w) in
  method r = USER ->
  quiet (w_os w) ->
  WITH_SELINUX (w_os w) = false ->
  w_fs w (dir r) = Some orig ->
  S_ISDIR (st_mode orig) = true ->
  w_fs w ipath = Some i ->
  w_fs w (inst_parent_of ipath) = Some parent ->
  S_ISDIR (st_mode parent) = true ->
  Z.land (st_mode parent) S_IRWXUGO <> 0 ->
  flag_set (flags idata) PAMNS_IGN_INST_PARENT_MODE = false ->
  result (ns_setup p idata) w = PAM_SESSION_ERR
  /\ w_mounts (after (ns_setup p idata) w)
     = (ipath, dir r, EmptyString) :: w_mounts w.
Proof.
  intros r ipath Hm Hq Hs Horig Hdir Hi Hpar Hpdir Hpmode Hflag.
  change (wp (ns_setup p idata)
             (fun rc w' => rc = PAM_SESSION_ERR
                           /\ w_mounts w'
                              = (ipath, dir r, EmptyString) :: w_mounts w) w).
  unfold ns_setup. apply wp_bind, wp_gets.
  change (nth (snd p) (cells (Some (fst p)) w) null_rule) with r.
  apply wp_bind, wp_debug. intros evs1 L1. rewrite Hm. cbn [polymethod_eqb].
  apply wp_bind.
  apply (wp_logs_only _ _ _ _
           (poly_name_user r idata (set_trace (evs1 ++ w_trace w) w) Hm Hs)).
  intros evs2 L2. cbn [set_trace w_trace w_os].
  replace (fst (hash_name (user idata) idata _))
    with (fst (hash_name (user idata) idata w))
    by (rewrite !hash_name_value; reflexivity).
  cbn [truthy PAM_SUCCESS Z.eqb negb]. apply wp_bind, wp_gets.
  rewrite set_trace_twice.
  change (WITH_SELINUX (w_os (set_trace _ w))) with (WITH_SELINUX (w_os w)).
  rewrite Hs. cbn [andb]. apply wp_bind, wp_ret.
  apply wp_bind, wp_debug. intros evs3 L3. cbn [show_null].
  fold ipath. apply wp_bind.
  match goal with |- wp _ _ ?x => set (w3 := x) end.
  destruct (create_dirs_bad_parent p ipath None None idata w3 orig parent)
    as (Hv & t & Hw); try assumption.
  unfold wp at 1. rewrite Hv, Hw.
  cbn [Z.ltb Z.compare PAM_SESSION_ERR]. apply wp_bind. unfold wp at 1.
  rewrite mount_run. cbv zeta.
  change (w_os (set_trace t w3)) with (w_os w). rewrite Hq. cbn [Z.eqb].
  unfold mount_errno. change (w_fs (set_trace t w3)) with (w_fs w).
  rewrite Horig, Hi. cbn [fst snd Z.ltb Z.compare].
  apply wp_ret. split; reflexivity.
Qed.

Lemma ns_setup_mounts_after_failed_create_dirs_witness :
  result (ns_setup (O, O) Sample2.alice) Sample6.w_loose = PAM_SESSION_ERR
  /\ w_mounts (after (ns_setup (O, O) Sample2.alice) Sample6.w_loose)
     = [("/tmp-inst/alice", "/tmp", EmptyString)].
Proof.
  refine (ns_setup_mounts_after_failed_create_dirs (O, O) Sample2.alice
            Sample6.w_loose Sample3.old_instance Sample3.tmp_dir
            (mk_inode (Z.lor S_IFDIR 493) 0 0 "inst_t") _ _ _ _ _ _ _ _ _ _).
  - reflexivity.
  - intros t c. reflexivity.
  - reflexivity.
  - reflexivity.
  - reflexivity.
  - vm_compute. reflexivity.
  - vm_compute. reflexivity.
  - reflexivity.
  - vm_compute. discriminate.
  - reflexivity.
Defined.

Lemma adds_mount (P : call -> Prop) s t ty fl :
  P (c_mount s t ty fl) -> adds P (mount s t ty fl).
Proof.
  intros Hc. apply adds_bind; [|intros; apply adds_ret].
  apply adds_sys; [exact Hc|]. intros w. cbv zeta.
  destruct (_ =? 0); reflexivity.
Qed.

(** The run of ns_setup on a tmpfs rule: the mount, then the init hook. *)
Lemma ns_setup_tmpfs_run p idata w :
  method (result (load p) w) = TMPFS ->
  exists evs,
    forallb is_log evs = true
    /\ ns_setup p idata w
       = (m <- mount "tmpfs" (dir (result (load p) w)) "tmpfs" 0 ;;
          if m <? 0 then
            pam_syslog LOG_ERR "Error mounting tmpfs on %s, %m" ;;
            ret PAM_SESSION_ERR
          else inst_init (result (load p) w) "tmpfs" idata 1)
         (set_trace (evs ++ w_trace w) w).
Proof.
  intros Hm. unfold ns_setup. rewrite run_bind. cbn [load gets fst snd].
  change (nth (snd p) (cells (Some (fst p)) w) null_rule) with (result (load p) w).
  destruct (debug_run idata LOG_DEBUG "Set namespace for directory %s" w)
    as (evs & L & Ed).
  exists evs. split; [exact L|]. rewrite (bind_eq _ _ _ _ _ Ed), Hm. reflexivity.
Qed.

(** A rule of the tmpfs method gets no instance directory: ns_setup calls
    neither mkdir nor mkdtemp.  When the mount of tmpfs on the directory
    fails, ns_setup returns PAM_SESSION_ERR with the files and the mount
    table as they were: the init script is not run.  When the mount succeeds
    the script runs, whatever it ends with: if it keeps the mount table, the
    table is the old one with the tmpfs mount added; and a path outside the
    directory that the script spares is what it was before. *)
Theorem ns_setup_tmpfs p idata w :
  let r := result (load p) w in
  method r = TMPFS ->
  (forall c e, In (EvCall c e) (events_of (ns_setup p idata) w) ->
     match c with
     | c_mkdir _ _ | c_mkdtemp _ => False
     | _ => True
     end)
  /\ ((forall t, fault (w_os w) t (c_mount "tmpfs" (dir r) "tmpfs" 0) <> 0)
      \/ w_fs w (dir r) = None ->
      result (ns_setup p idata) w = PAM_SESSION_ERR
      /\ w_mounts (after (ns_setup p idata) w) = w_mounts w
      /\ w_fs (after (ns_setup p idata) w) = w_fs w)
  /\ ((forall t, fault (w_os w) t (c_mount "tmpfs" (dir r) "tmpfs" 0) = 0) ->
      w_fs w (dir r) <> None ->
      (script_keeps_mounts (w_os w) ->
       w_mounts (after (ns_setup p idata) w)
       = ("tmpfs", dir r, "tmpfs") :: w_mounts w)
      /\ (forall q, script_spares (w_os w) q -> in_tree (dir r) q = false ->
            w_fs (after (ns_setup p idata) w) q = w_fs w q)).
Proof.
  intros r Hm. split.
  { intros c e Hin.
    set (P := fun c : call => match c with
                              | c_mkdir _ _ | c_mkdtemp _ => False
                              | _ => True
                              end).
    assert (Ha : adds P (m <- mount "tmpfs" (dir r) "tmpfs" 0 ;;
                         if m <? 0 then
                           pam_syslog LOG_ERR "Error mounting tmpfs on %s, %m" ;;
                           ret PAM_SESSION_ERR
                         else inst_init r "tmpfs" idata 1)).
    { apply adds_bind; [apply adds_mount; exact I|]. intros mres.
      destruct (mres <? 0).
      - apply adds_bind; [apply adds_syslog | intros; apply adds_ret].
      - unfold inst_init.
        repeat first
          [ apply adds_ret | apply adds_syslog | apply adds_debug
          | apply adds_signal; exact I | apply adds_access; exact I
          | apply adds_fork; exact I | apply adds_waitpid; exact I
          | apply adds_bind; [ | intros ]
          | match goal with
            | |- adds _ (if ?b then _ else _) => destruct b
            | |- adds _ (match ?x with _ => _ end) => destruct x
            end ]. }
    destruct (ns_setup_tmpfs_run p idata w Hm) as (evs & L & E). fold r in E.
    destruct (Ha (set_trace (evs ++ w_trace w) w)) as (evs2 & Et & Hall).
    rewrite <- E in Et. cbn [w_trace set_trace] in Et.
    rewrite app_assoc in Et.
    rewrite (events_of_trace _ _ _ Et) in Hin.
    apply in_app_or in Hin. destruct Hin as [Hin | Hin].
    - rewrite Forall_forall in Hall. exact (Hall _ Hin).
    - exfalso. exact (In_log_call evs c e L Hin). }
  unfold result, after.
  destruct (ns_setup_tmpfs_run p idata w Hm) as (evs & _ & ->). fold r.
  set (w1 := set_trace (evs ++ w_trace w) w).
  rewrite run_bind, mount_run. cbv zeta.
  change (w_os w1) with (w_os w). change (w_trace w1) with (evs ++ w_trace w)%list.
  unfold mount_errno. change (w_fs w1) with (w_fs w).
  change (Z.land 0 MS_BIND =? 0) with true. cbn [negb].
  destruct (fault (w_os w) (evs ++ w_trace w) (c_mount "tmpfs" (dir r) "tmpfs" 0) =? 0)
    eqn:Ef.
  - destruct (w_fs w (dir r)) as [i|] eqn:Ed.
    + cbn [Z.eqb fst snd Z.ltb Z.compare]. split.
      * intros [H|H]; [|discriminate H].
        apply Z.eqb_eq in Ef. contradiction (H _ Ef).
      * intros _ _. split.
        -- intros Hk. rewrite inst_init_mounts by exact Hk. reflexivity.
        -- intros q Hq _. rewrite inst_init_spares by exact Hq. reflexivity.
    + cbn [Z.eqb fst snd Z.ltb Z.compare ENOENT]. rewrite run_bind. split.
      * intros _. repeat split; reflexivity.
      * intros _ N. contradiction N. reflexivity.
  - cbn [fst snd Z.ltb Z.compare]. rewrite run_bind. split.
    + intros _. repeat split; reflexivity.
    + intros H. rewrite H in Ef. discriminate Ef.
Qed.

Lemma ns_setup_tmpfs_witness :
  w_mounts (after (ns_setup (O, O) Sample2.alice) (Sample6.w_tmpfs Sample2.all_fine))
  = [("tmpfs", "/tmp", "tmpfs")]
  /\ w_fs (after (ns_setup (O, O) Sample2.alice) (Sample6.w_tmpfs Sample2.all_fine))
          "/tmp-inst"
     = Sample.fs "/tmp-inst"
  /\ result (ns_setup (O, O) Sample2.alice) (Sample6.w_tmpfs Sample2.no_mount)
     = PAM_SESSION_ERR.
Proof.
  pose proof (proj2 (proj2 (ns_setup_tmpfs (O, O) Sample2.alice
                              (Sample6.w_tmpfs Sample2.all_fine) eq_refl))
                ltac:(intros t; reflexivity) ltac:(discriminate)) as [H1 H2].
  split; [|split].
  - apply H1. intros t argv fs ms. reflexivity.
  - apply (H2 "/tmp-inst"); [intros t argv fs ms; reflexivity | reflexivity].
  - apply (proj1 (proj2 (ns_setup_tmpfs (O, O) Sample2.alice
                           (Sample6.w_tmpfs Sample2.no_mount) eq_refl))).
    left. intros t. vm_compute. discriminate.
Defined.

(* ===================================================================== *)
(** ** Further properties: setup_namespace before the second loop *)
(* ===================================================================== *)

Lemma overridden_run r idata unmnt req w :
  logs_only (overridden r idata unmnt req)
            (if is_overridden r (id_uid idata)
             then (true, unmnt_op_eqb unmnt NO_UNMNT || is_overridden r req)
             else (false, false)) w.
Proof.
  unfold overridden.
  eapply logs_only_bind; [apply ns_override_run|]. intros w1.
  fold (is_overridden r (id_uid idata)).
  destruct (is_overridden r (id_uid idata)); [|apply logs_only_ret].
  destruct (unmnt_op_eqb unmnt NO_UNMNT); [apply logs_only_ret|].
  eapply logs_only_bind; [apply ns_override_run|]. intros w2.
  apply logs_only_ret.
Qed.

(** The first loop of setup_namespace finds whether some rule of the list
    needs the namespace. *)
Lemma need_poly_scan_run l idata unmnt req w :
  logs_only (need_poly_scan l idata unmnt req)
            (existsb (needs_poly idata unmnt req) l) w.
Proof.
  revert w. induction l as [|r l IH]; intros w; cbn [need_poly_scan existsb].
  - apply logs_only_ret.
  - eapply logs_only_bind; [apply overridden_run|]. intros w1.
    unfold needs_poly at 1.
    destruct (is_overridden r (id_uid idata)); cbn [andb negb orb].
    + destruct (unmnt_op_eqb unmnt NO_UNMNT || is_overridden r req);
        cbn [negb orb].
      * eapply logs_only_bind; [apply debug_run|]. intros w2. apply IH.
      * eapply logs_only_bind; [apply debug_run|]. intros w2. apply logs_only_ret.
    + eapply logs_only_bind; [apply debug_run|]. intros w2. apply logs_only_ret.
Qed.

(** setup_begin up to the test of need_poly: the world has changed in its
    history only. *)
Lemma setup_begin_head idata unmnt w :
  exists t,
    setup_begin idata unmnt w =
    (if existsb (needs_poly idata unmnt (setup_req_uid idata w))
                (cells (polydirs_ptr idata) w)
     then
       s <- pam_set_data (polydirs_ptr idata) true ;;
       if negb (s =? PAM_SUCCESS) then
         pam_syslog LOG_ERR "Unable to set namespace data" ;;
         ret (inl PAM_SYSTEM_ERR)
       else
         u <- unshare CLONE_NEWNS ;;
         if u <? 0 then
           pam_set_data None false ;;
           pam_syslog LOG_ERR "Unable to unshare from parent namespace, %m" ;;
           ret (inl PAM_SESSION_ERR)
         else ret (inr (setup_req_uid idata w))
     else
       del_polydir_list (polydirs_ptr idata) ;;
       ret (inl PAM_SUCCESS)) (set_trace t w).
Proof.
  destruct (debug_run idata LOG_DEBUG "Set up namespace for pid %d" w)
    as (ev1 & L1 & E1).
  assert (Q : setup_req_uid idata w
              = fst (requesting_uid (set_trace (ev1 ++ w_trace w)%list w))).
  { unfold setup_req_uid, after, result. rewrite E1. reflexivity. }
  pose proof (requesting_uid_run (set_trace (ev1 ++ w_trace w)%list w)) as R.
  cbv zeta in R. rewrite R in Q. cbn [fst] in Q.
  set (w1 := set_trace (ev1 ++ w_trace w)%list w) in *.
  set (e := fault (w_os w1) (w_trace w1) (c_pam_get_item PAM_RUSER)) in *.
  set (w2 := set_trace (EvCall (c_pam_get_item PAM_RUSER) e :: w_trace w1) w1) in *.
  destruct (need_poly_scan_run (cells (polydirs_ptr idata) w2) idata unmnt
              (setup_req_uid idata w) w2) as (ev3 & L3 & E3).
  exists (ev3 ++ w_trace w2)%list.
  unfold setup_begin.
  rewrite (bind_eq _ _ w _ _ E1). fold w1.
  rewrite (bind_eq _ _ w1 _ _ R). fold e w2. rewrite <- Q.
  unfold gets at 1. unfold bind at 1.
  rewrite (bind_eq _ _ w2 _ _ E3).
  change (cells (polydirs_ptr idata) w2) with (cells (polydirs_ptr idata) w).
  reflexivity.
Qed.

Lemma unshare_run fl w :
  let e := fault (w_os w) (w_trace w) (c_unshare fl) in
  unshare fl w =
  if e =? 0 then (0, called (c_unshare fl) 0 (set_unshared true w))
  else (-1, called (c_unshare fl) e w).
Proof.
  cbv zeta. unfold unshare. rewrite run_bind, run_sys.
  destruct (fault (w_os w) (w_trace w) _ =? 0) eqn:E; cbn; rewrite ?E; reflexivity.
Qed.

Lemma pam_set_data_first data cl w :
  w_data w = None ->
  let e := fault (w_os w) (w_trace w) (c_pam_set_data data) in
  pam_set_data data cl w =
  if e =? 0 then (0, called (c_pam_set_data data) 0 (set_data (Some (data, cl)) w))
  else (e, called (c_pam_set_data data) e w).
Proof.
  intros H. cbv zeta. unfold pam_set_data. unfold bind at 1. unfold gets at 1.
  rewrite H. rewrite run_bind, run_sys.
  destruct (fault (w_os w) (w_trace w) _ =? 0) eqn:E; reflexivity.
Qed.

(** When some rule needs the namespace, setup_namespace publishes the rule
    list and then calls unshare.  If the list cannot be published (the slot
    is new and pam_set_data fails) it returns PAM_SYSTEM_ERR without calling
    unshare and leaves the list allocated.  If unshare fails it returns
    PAM_SESSION_ERR after putting NULL in the slot, which runs the cleanup
    registered with the list: the list is freed inside setup_namespace.  In
    both cases nothing is mounted. *)
Theorem setup_namespace_cannot_unshare idata unmnt w a :
  polydirs_ptr idata = Some a ->
  existsb (needs_poly idata unmnt (setup_req_uid idata w)) (cells (Some a) w)
  = true ->
  let w' := after (setup_namespace idata unmnt) w in
  (w_data w = None ->
   (forall t, fault (w_os w) t (c_pam_set_data (Some a)) <> 0) ->
   result (setup_namespace idata unmnt) w = PAM_SYSTEM_ERR
   /\ w_data w' = None /\ w_heap w' = w_heap w
   /\ w_unshared w' = w_unshared w /\ w_mounts w' = w_mounts w)
  /\ ((forall t, fault (w_os w) t (c_pam_set_data (Some a)) = 0) ->
      (forall t, fault (w_os w) t (c_unshare CLONE_NEWNS) <> 0) ->
      result (setup_namespace idata unmnt) w = PAM_SESSION_ERR
      /\ w_data w' = Some (None, false) /\ w_heap w' a = None
      /\ w_unshared w' = w_unshared w /\ w_mounts w' = w_mounts w).
Proof.
  intros Hp Hneed. cbv zeta. unfold result, after, setup_namespace.
  destruct (setup_begin_head idata unmnt w) as (t & E).
  rewrite run_bind, E, Hp, Hneed. clear E.
  set (w1 := set_trace t w). split.
  - intros Hd Hf. rewrite run_bind.
    rewrite (pam_set_data_first (Some a) true w1 Hd). cbv zeta.
    change (w_os w1) with (w_os w).
    pose proof (Hf (w_trace w1)) as Hf1. apply Z.eqb_neq in Hf1 as Hb.
    rewrite Hb. cbn [fst snd]. unfold PAM_SUCCESS. rewrite Hb. cbn [negb].
    rewrite run_bind. cbn [ret fst snd pam_syslog emit modify].
    repeat split; assumption.
  - intros Hs Hu. rewrite run_bind.
    assert (S1 : exists w2,
               pam_set_data (Some a) true w1 = (PAM_SUCCESS, w2)
               /\ w_data w2 = Some (Some a, true)
               /\ w_os w2 = w_os w /\ w_unshared w2 = w_unshared w
               /\ w_mounts w2 = w_mounts w).
    { destruct (w_data w1) as [[d c]|] eqn:Ed.
      - rewrite (pam_set_data_replace _ _ d c w1 Ed). eexists. split; [reflexivity|].
        destruct c; [destruct d|]; repeat split.
      - rewrite (pam_set_data_first _ _ w1 Ed). cbv zeta.
        change (w_os w1) with (w_os w). rewrite Hs. cbn [Z.eqb].
        eexists. split; [reflexivity|]. repeat split. }
    destruct S1 as (w2 & -> & Hd2 & Ho2 & Hu2 & Hm2). cbn [fst snd].
    cbn [PAM_SUCCESS Z.eqb negb]. rewrite run_bind, unshare_run. cbv zeta.
    rewrite Ho2. pose proof (Hu (w_trace w2)) as Hu1. apply Z.eqb_neq in Hu1.
    rewrite Hu1. cbn [fst snd Z.ltb Z.compare]. rewrite run_bind.
    rewrite (pam_set_data_replace None false (Some a) true); [|exact Hd2].
    cbn [fst snd]. rewrite run_bind.
    cbn [ret fst snd pam_syslog emit modify cleanup_data del_polydir_list
         called set_trace set_data set_heap w_data w_heap w_unshared w_mounts].
    rewrite Nat.eqb_refl. repeat split; assumption.
Qed.

Lemma setup_namespace_cannot_unshare_witness :
  (result (setup_namespace Sample2.alice NO_UNMNT) (Sample7.w_rules Sample7.no_set_data)
   = PAM_SYSTEM_ERR
   /\ w_heap (after (setup_namespace Sample2.alice NO_UNMNT)
                    (Sample7.w_rules Sample7.no_set_data)) O
      = Some [Sample.tmp_rule])
  /\ (result (setup_namespace Sample2.alice NO_UNMNT) (Sample7.w_rules Sample7.no_unshare)
      = PAM_SESSION_ERR
      /\ w_heap (after (setup_namespace Sample2.alice NO_UNMNT)
                       (Sample7.w_rules Sample7.no_unshare)) O = None).
Proof.
  split.
  - destruct (setup_namespace_cannot_unshare Sample2.alice NO_UNMNT
                (Sample7.w_rules Sample7.no_set_data) O eq_refl)
      as [H _]; [vm_compute; reflexivity|].
    destruct H as (H1 & _ & H2 & _).
    + reflexivity.
    + intros t. vm_compute. discriminate.
    + split; [exact H1 | rewrite H2; reflexivity].
  - destruct (setup_namespace_cannot_unshare Sample2.alice NO_UNMNT
                (Sample7.w_rules Sample7.no_unshare) O eq_refl)
      as [_ H]; [vm_compute; reflexivity|].
    destruct H as (H1 & _ & H2 & _).
    + intros t. reflexivity.
    + intros t. vm_compute. discriminate.
    + split; [exact H1 | exact H2].
Defined.

(* ===================================================================== *)
(** ** Further properties: what the pieces leave alone *)
(* ===================================================================== *)

Lemma keeps_add_polydir_entry {X} (f : world -> X) idata ent :
  ignores_heap f -> keeps f (add_polydir_entry idata ent).
Proof.
  intros Hh. unfold add_polydir_entry.
  destruct (polydirs_ptr idata); [|intros w; apply Hh].
  apply keeps_bind; [intros w; apply Hh | intros; apply keeps_ret].
Qed.

Lemma keeps_process_line {X} (f : world -> X) line home idata :
  ignores_trace f -> ignores_heap f -> keeps f (process_line line home idata).
Proof.
  intros Ht Hh. pose proof (keeps_lookup_uids f) as Kl.
  pose proof (keeps_add_polydir_entry f) as Ka.
  unfold process_line. cbv zeta. keeps_tac.
Qed.

Lemma keeps_read_lines {X} (f : world -> X) lines home idata :
  ignores_trace f -> ignores_heap f -> keeps f (read_lines lines home idata).
Proof.
  intros Ht Hh. revert idata.
  induction lines as [|l lines IH]; intros idata; cbn [read_lines];
    [apply keeps_ret|].
  pose proof (keeps_process_line f) as Kp. keeps_tac.
Qed.

Lemma keeps_parse_config_file {X} (f : world -> X) idata :
  ignores_trace f -> ignores_heap f -> keeps f (parse_config_file idata).
Proof.
  intros Ht Hh. pose proof (keeps_read_lines f) as Kr.
  pose proof (keeps_dump_polydirs f) as Kd.
  unfold parse_config_file, fopen_lines. keeps_tac.
Qed.

Lemma keeps_ns_setup {X} (f : world -> X) p idata :
  ignores_trace f -> ignores_fs f -> ignores_fds f -> ignores_sigchld f ->
  ignores_children f -> ignores_heap f -> ignores_mounts f ->
  keeps f (ns_setup p idata).
Proof.
  intros Ht Hfs Hfd Hs Hc Hh Hm.
  pose proof (keeps_inst_init f) as Ki. pose proof (keeps_poly_name f) as Kp.
  pose proof (keeps_create_dirs f) as Kc.
  unfold ns_setup. keeps_tac.
Qed.

Lemma keeps_cwd_in {X} (f : world -> X) d idata :
  ignores_trace f -> keeps f (cwd_in d idata).
Proof. intros Ht. unfold cwd_in. keeps_tac. Qed.

Lemma keeps_overridden {X} (f : world -> X) r idata unmnt req :
  ignores_trace f -> keeps f (overridden r idata unmnt req).
Proof. intros Ht. unfold overridden. keeps_tac. Qed.

Lemma keeps_setup_rule {X} (f : world -> X) p idata unmnt req :
  ignores_trace f -> ignores_fs f -> ignores_fds f -> ignores_sigchld f ->
  ignores_children f -> ignores_heap f -> ignores_mounts f -> ignores_cwd f ->
  keeps f (setup_rule p idata unmnt req).
Proof.
  intros Ht Hfs Hfd Hs Hc Hh Hm Hw.
  pose proof (keeps_ns_setup f) as Kn. pose proof (keeps_cwd_in f) as Kc.
  pose proof (keeps_overridden f) as Ko.
  unfold setup_rule, unmount_rule. keeps_tac.
Qed.

Lemma keeps_setup_loop {X} (f : world -> X) n i a idata unmnt req :
  ignores_trace f -> ignores_fs f -> ignores_fds f -> ignores_sigchld f ->
  ignores_children f -> ignores_heap f -> ignores_mounts f -> ignores_cwd f ->
  keeps f (setup_loop n i a idata unmnt req).
Proof.
  intros Ht Hfs Hfd Hs Hc Hh Hm Hw. revert i.
  induction n as [|n IH]; intros i; cbn [setup_loop]; [apply keeps_ret|].
  pose proof (keeps_setup_rule f) as Kr. keeps_tac.
Qed.

Lemma keeps_setup_rules {X} (f : world -> X) idata unmnt req :
  ignores_trace f -> ignores_fs f -> ignores_fds f -> ignores_sigchld f ->
  ignores_children f -> ignores_heap f -> ignores_mounts f -> ignores_cwd f ->
  keeps f (setup_rules idata unmnt req).
Proof.
  intros Ht Hfs Hfd Hs Hc Hh Hm Hw.
  pose proof (keeps_setup_loop f) as Kl.
  pose proof (keeps_cleanup_tmpdirs f) as Kc.
  unfold setup_rules. keeps_tac.
Qed.

(** What setup_namespace leaves in the data slot: what was there, the rule
    list with its cleanup, or NULL (after a failed unshare). *)
Lemma setup_namespace_data idata unmnt w :
  let d := w_data (snd (setup_namespace idata unmnt w)) in
  d = w_data w \/ d = Some (polydirs_ptr idata, true) \/ d = Some (None, false).
Proof.
  cbv zeta. unfold setup_namespace.
  destruct (setup_begin_head idata unmnt w) as (t & E).
  rewrite run_bind, E. clear E. set (w1 := set_trace t w).
  destruct (existsb _ _).
  - rewrite run_bind.
    assert (S1 : (exists e, e <> 0
                            /\ pam_set_data (polydirs_ptr idata) true w1
                               = (e, called (c_pam_set_data (polydirs_ptr idata)) e w1))
                 \/ (exists w2, pam_set_data (polydirs_ptr idata) true w1
                                = (PAM_SUCCESS, w2)
                                /\ w_data w2 = Some (polydirs_ptr idata, true))).
    { destruct (w_data w1) as [[d c]|] eqn:Ed.
      - right. rewrite (pam_set_data_replace _ _ d c w1 Ed). eexists.
        split; reflexivity.
      - rewrite (pam_set_data_first _ _ w1 Ed). cbv zeta.
        destruct (fault (w_os w1) (w_trace w1) _ =? 0) eqn:Ef.
        + right. eexists. split; reflexivity.
        + left. eexists. split; [|reflexivity]. apply Z.eqb_neq. exact Ef. }
    destruct S1 as [(e & He & ->) | (w2 & -> & Hd2)]; cbn [fst snd].
    + apply Z.eqb_neq in He. unfold PAM_SUCCESS. rewrite He. cbn [negb].
      rewrite run_bind. left. reflexivity.
    + cbn [PAM_SUCCESS Z.eqb negb]. rewrite run_bind, unshare_run. cbv zeta.
      destruct (fault (w_os w2) (w_trace w2) _ =? 0); cbn [fst snd Z.ltb Z.compare].
      * right. left. cbn [ret fst snd].
        rewrite (keeps_setup_rules w_data); eauto with keeps.
      * right. right. rewrite run_bind.
        rewrite (pam_set_data_replace None false (polydirs_ptr idata) true);
          [|exact Hd2].
        cbn [fst snd]. rewrite run_bind. reflexivity.
  - left. rewrite run_bind. cbn [ret fst snd].
    destruct (polydirs_ptr idata); reflexivity.
Qed.

Lemma del_polydir_list_frees a w :
  w_heap (snd (del_polydir_list (Some a) w)) a = None
  /\ w_data (snd (del_polydir_list (Some a) w)) = w_data w.
Proof. cbn. rewrite Nat.eqb_refl. split; reflexivity. Qed.

(** A failed open can leave the slot pointing at a freed list.  When
    pam_sm_open_session does not return PAM_SUCCESS and ends with a rule
    list in the slot that was empty before, that list has been freed:
    setup_namespace published it, a rule failed, and the entry point freed
    the list without taking it out of the slot. *)
Theorem open_session_failure_frees_published_list (argv : list string)
    (w : world) (a : nat) :
  w_data w = None ->
  result (pam_sm_open_session argv) w <> PAM_SUCCESS ->
  w_data (after (pam_sm_open_session argv) w) = Some (Some a, true) ->
  w_heap (after (pam_sm_open_session argv) w) a = None.
Proof.
  intros Hd.
  change (wp (pam_sm_open_session argv)
             (fun rc w' => rc <> PAM_SUCCESS ->
                           w_data w' = Some (Some a, true) ->
                           w_heap w' a = None) w).
  assert (Stop : forall (rc : Z) w1, w_data w1 = None ->
            rc <> PAM_SUCCESS -> w_data w1 = Some (Some a, true) ->
            w_heap w1 a = None).
  { intros rc w1 H1 _ H2. rewrite H1 in H2. discriminate H2. }
  unfold pam_sm_open_session. apply wp_bind.
  apply (wp_keeps w_data); [apply keeps_init_flags; eauto with keeps|].
  intros fl0 w1 E1. rewrite Hd in E1.
  destruct (open_args argv fl0 NO_UNMNT) as [[fl unmnt]|].
  2:{ apply wp_bind, wp_syslog, wp_ret. apply Stop. exact E1. }
  apply wp_bind. apply (wp_keeps w_data); [apply keeps_debug; eauto with keeps|].
  intros _ w2 E2. rewrite E1 in E2. apply wp_bind.
  apply (wp_keeps w_data); [apply keeps_pam_get_item; eauto with keeps|].
  intros [retval [user_name|]] w3 E3; rewrite E2 in E3.
  2:{ apply wp_bind, wp_syslog, wp_ret. apply Stop. exact E3. }
  destruct (negb (retval =? PAM_SUCCESS)).
  { apply wp_bind, wp_syslog, wp_ret. apply Stop. exact E3. }
  apply wp_bind. apply (wp_keeps w_data); [apply keeps_getpwnam; eauto with keeps|].
  intros [pw|] w4 E4; rewrite E3 in E4.
  2:{ apply wp_bind, wp_syslog, wp_ret. apply Stop. exact E4. }
  apply wp_bind.
  apply (wp_keeps w_data); [apply keeps_parse_config_file; eauto with keeps|].
  intros [retval1 idata] w5 E5. rewrite E4 in E5.
  destruct (negb (retval1 =? PAM_SUCCESS)) eqn:Er1.
  { unfold wp. rewrite run_bind. cbn [ret fst snd]. intros _ H.
    destruct (polydirs_ptr idata) as [b|]; cbn in H; rewrite E5 in H;
      discriminate H. }
  apply negb_false_iff, Z.eqb_eq in Er1. subst retval1.
  destruct (polydirs_ptr idata) as [b|] eqn:Ep.
  - unfold wp. rewrite !run_bind.
    pose proof (setup_namespace_data idata unmnt w5) as Hsd. cbv zeta in Hsd.
    rewrite E5, Ep in Hsd.
    destruct (setup_namespace idata unmnt w5) as [rv w6]. cbn [fst snd] in *.
    destruct (debug_run idata LOG_DEBUG
                (if truthy rv then "namespace setup failed for pid %d"
                 else "namespace setup ok for pid %d") w6) as (evs & _ & Ed).
    rewrite Ed. cbn [fst snd ret].
    destruct (negb (rv =? PAM_SUCCESS)) eqn:Erv.
    + intros _ Hdata.
      destruct (del_polydir_list_frees b (set_trace (evs ++ w_trace w6) w6))
        as [Hfree Hkeep].
      rewrite Hkeep in Hdata. change (w_data (set_trace _ w6)) with (w_data w6) in Hdata.
      destruct Hsd as [H|[H|H]]; rewrite H in Hdata; try discriminate Hdata.
      injection Hdata as <-. exact Hfree.
    + apply negb_false_iff, Z.eqb_eq in Erv. intros N. contradiction.
  - unfold wp. rewrite !run_bind. cbn [ret fst snd].
    intros N. contradiction N. reflexivity.
Qed.

Lemma open_session_failure_frees_published_list_witness :
  result (pam_sm_open_session []) (Sample2.failing Sample2.no_mount Sample.fs)
  = PAM_SESSION_ERR
  /\ w_data (after (pam_sm_open_session [])
                   (Sample2.failing Sample2.no_mount Sample.fs))
     = Some (Some O, true)
  /\ w_heap (after (pam_sm_open_session [])
                   (Sample2.failing Sample2.no_mount Sample.fs)) O = None.
Proof.
  assert (H1 : result (pam_sm_open_session [])
                      (Sample2.failing Sample2.no_mount Sample.fs)
               = PAM_SESSION_ERR) by (vm_compute; reflexivity).
  assert (H2 : w_data (after (pam_sm_open_session [])
                             (Sample2.failing Sample2.no_mount Sample.fs))
               = Some (Some O, true)) by (vm_compute; reflexivity).
  split; [exact H1|]. split; [exact H2|].
  apply (open_session_failure_frees_published_list []
           (Sample2.failing Sample2.no_mount Sample.fs) O).
  - reflexivity.
  - rewrite H1. discriminate.
  - exact H2.
Defined.

(* ===================================================================== *)
(** ** Further properties: the entry points *)
(* ===================================================================== *)

Lemma flag_set_lor_same fl m : m <> 0 -> flag_set (Z.lor fl m) m = true.
Proof.
  intros Hm. unfold flag_set. rewrite Z.land_lor_distr_l, Z.land_diag.
  apply negb_true_iff, Z.eqb_neq. intros H.
  apply Z.lor_eq_0_iff in H. destruct H as [_ H]. contradiction.
Qed.

Lemma flag_set_lor_mono fl m m' :
  flag_set fl m = true -> flag_set (Z.lor fl m') m = true.
Proof.
  unfold flag_set. intros H. apply negb_true_iff, Z.eqb_neq in H.
  apply negb_true_iff, Z.eqb_neq. rewrite Z.land_lor_distr_l. intros E.
  apply Z.lor_eq_0_iff in E. destruct E as [E _]. contradiction.
Qed.

Lemma arg_flag_mono a name mask fl m :
  flag_set fl m = true -> flag_set (arg_flag a name mask fl) m = true.
Proof.
  intros H. unfold arg_flag. destruct (String.eqb a name); [|exact H].
  apply flag_set_lor_mono. exact H.
Qed.

Lemma close_args_mono argv fl m :
  flag_set fl m = true -> flag_set (close_args argv fl) m = true.
Proof.
  unfold close_args. revert fl.
  induction argv as [|a argv IH]; intros fl H; cbn [fold_left]; [exact H|].
  apply IH. do 3 apply arg_flag_mono. exact H.
Qed.

Lemma close_args_sets_bit argv fl :
  In "no_unmount_on_close" argv ->
  flag_set (close_args argv fl) PAMNS_NO_UNMOUNT_ON_CLOSE = true.
Proof.
  unfold close_args. revert fl.
  induction argv as [|a argv IH]; intros fl Hin; [destruct Hin|].
  destruct Hin as [->|Hin]; cbn [fold_left].
  - apply (close_args_mono argv). unfold arg_flag at 1.
    cbn [String.eqb Ascii.eqb Bool.eqb andb]. apply flag_set_lor_same. discriminate.
  - apply IH. exact Hin.
Qed.

Lemma init_flags_trace w : exists t, snd (init_flags w) = set_trace t w.
Proof.
  unfold init_flags, ctxt_based_inst_needed, getexeccon.
  rewrite run_bind. cbn [gets fst snd].
  destruct (WITH_SELINUX (w_os w)).
  - rewrite !run_bind, run_sys. cbn [gets fst snd].
    destruct (fault (w_os w) (w_trace w) c_getexeccon =? 0).
    + rewrite !run_bind. cbn [gets ret fst snd Z.eqb].
      destruct (execcon (w_os w)); cbn [ret fst snd]; eexists; reflexivity.
    + cbn [ret fst snd]. destruct (_ =? 0); cbn; eexists; reflexivity.
  - exists (w_trace w). cbn. symmetry. apply set_trace_same.
Qed.

Lemma debug_trace i p s w : exists t, snd (debug i p s w) = set_trace t w.
Proof. destruct (debug_run i p s w) as (evs & _ & ->). eexists. reflexivity. Qed.

(** pam_sm_close_session leaves the session as it is in three cases.  With
    no_unmount_on_close among the arguments it returns PAM_SUCCESS at once.
    Without it, when PAM_USER cannot be retrieved, is not set or names an
    unknown user it returns PAM_SESSION_ERR; and when the user is known but
    the slot holds no rule list it returns PAM_SUCCESS.  In all three
    nothing is unmounted, removed or freed and the slot is not touched:
    only the history grows. *)
Theorem close_session_leaves_alone (argv : list string) (w : world) :
  let rc := result (pam_sm_close_session argv) w in
  let os := w_os w in
  (In "no_unmount_on_close" argv -> rc = PAM_SUCCESS)
  /\ (~ In "no_unmount_on_close" argv ->
      (forall t, fault os t (c_pam_get_item PAM_USER) <> 0)
      \/ pam_user os = None
      \/ (exists u, pam_user os = Some u /\ getpwnam os u = None) ->
      rc = PAM_SESSION_ERR)
  /\ (~ In "no_unmount_on_close" argv ->
      (forall t, fault os t (c_pam_get_item PAM_USER) = 0) ->
      (exists u pw, pam_user os = Some u /\ getpwnam os u = Some pw) ->
      w_data w = None \/ (exists c, w_data w = Some (None, c)) ->
      rc = PAM_SUCCESS)
  /\ (In "no_unmount_on_close" argv
      \/ (forall t, fault os t (c_pam_get_item PAM_USER) <> 0)
      \/ pam_user os = None
      \/ (exists u, pam_user os = Some u /\ getpwnam os u = None)
      \/ w_data w = None \/ (exists c, w_data w = Some (None, c)) ->
      exists t, after (pam_sm_close_session argv) w = set_trace t w).
Proof.
  cbv zeta. unfold result, after, pam_sm_close_session.
  rewrite run_bind. destruct (init_flags_trace w) as (t0 & E0).
  pose proof (init_flags_no_unmount_bit w) as Hbit.
  set (fl0 := fst (init_flags w)) in *. rewrite E0. clear E0.
  set (fl := close_args argv fl0).
  rewrite run_bind.
  destruct (debug_trace (mk_idata None EmptyString 0 fl) LOG_DEBUG
              "close_session - start" (set_trace t0 w)) as (t1 & E1).
  rewrite E1, set_trace_twice. clear E1.
  destruct (flag_set fl PAMNS_NO_UNMOUNT_ON_CLOSE) eqn:Ef.
  { rewrite run_bind.
    destruct (debug_trace (mk_idata None EmptyString 0 fl) LOG_DEBUG
                "close_session - sucessful" (set_trace t1 w)) as (t2 & E2).
    rewrite E2, set_trace_twice. cbn [ret fst snd].
    assert (Hin : In "no_unmount_on_close" argv).
    { destruct (in_dec string_dec "no_unmount_on_close" argv) as [H|H];
        [exact H|].
      unfold fl in Ef. rewrite (close_args_keeps_bit argv fl0 Hbit H) in Ef.
      discriminate Ef. }
    split; [reflexivity|]. split; [intros N; contradiction|].
    split; [intros N; contradiction|]. intros _. eexists. reflexivity. }
  assert (Hnin : ~ In "no_unmount_on_close" argv).
  { intros H. unfold fl in Ef. rewrite (close_args_sets_bit argv fl0 H) in Ef.
    discriminate Ef. }
  split; [intros H; contradiction|].
  rewrite run_bind, pam_get_item_run. cbv zeta.
  change (w_os (set_trace t1 w)) with (w_os w).
  change (w_trace (set_trace t1 w)) with t1.
  destruct (fault (w_os w) t1 (c_pam_get_item PAM_USER) =? 0) eqn:Eg.
  2:{ cbn [fst snd]. rewrite run_bind. cbn [ret fst snd pam_syslog emit modify].
      apply Z.eqb_neq in Eg.
      split; [intros _ _; reflexivity|].
      split; [intros _ H; contradiction (Eg (H t1))|].
      intros _. eexists. reflexivity. }
  apply Z.eqb_eq in Eg. cbn [fst snd].
  destruct (pam_user (w_os w)) as [u|] eqn:Eu.
  2:{ rewrite run_bind. cbn [ret fst snd pam_syslog emit modify].
      split; [intros _ _; reflexivity|].
      split; [intros _ _ (u & pw & H & _); discriminate H|].
      intros _. eexists. reflexivity. }
  cbn [Z.eqb PAM_SUCCESS negb]. rewrite run_bind.
  cbn [pam_modutil_getpwnam gets fst snd called set_trace w_os].
  destruct (getpwnam (w_os w) u) as [pw|] eqn:Ep.
  2:{ rewrite run_bind. cbn [ret fst snd pam_syslog emit modify].
      split; [intros _ _; reflexivity|].
      split; [intros _ _ (u' & pw & [= <-] & H); rewrite Ep in H; discriminate H|].
      intros _. eexists. reflexivity. }
  rewrite run_bind, pam_get_data_run.
  cbn [fst snd called set_trace w_data].
  split.
  { intros _ [H|[H|(u' & [= <-] & H)]].
    - contradiction (H t1).
    - discriminate H.
    - rewrite Ep in H. discriminate H. }
  destruct (w_data w) as [[[b|] c]|] eqn:Ed; cbn [fst snd ret].
  - split.
    + intros _ _ _ [H|(c' & H)]; discriminate H.
    + intros [H|[H|[H|[(u' & [= <-] & H)|[H|(c' & H)]]]]].
      * contradiction.
      * contradiction (H t1).
      * discriminate H.
      * rewrite Ep in H. discriminate H.
      * discriminate H.
      * discriminate H.
  - split; [intros; reflexivity | intros _; eexists; reflexivity].
  - split; [intros; reflexivity | intros _; eexists; reflexivity].
Qed.

Lemma close_session_leaves_alone_witness :
  result (pam_sm_close_session ["debug"; "no_unmount_on_close"])
         (Sample2.opened Sample2.all_fine) = PAM_SUCCESS
  /\ w_mounts (after (pam_sm_close_session ["debug"; "no_unmount_on_close"])
                     (Sample2.opened Sample2.all_fine))
     = [("/home/alice/.inst/abcdef", "/home/alice", EmptyString)]
  /\ result (pam_sm_close_session []) Sample.w0 = PAM_SUCCESS.
Proof.
  split; [|split].
  - apply (proj1 (close_session_leaves_alone ["debug"; "no_unmount_on_close"]
                    (Sample2.opened Sample2.all_fine))).
    right. left. reflexivity.
  - destruct (proj2 (proj2 (proj2 (close_session_leaves_alone
                                     ["debug"; "no_unmount_on_close"]
                                     (Sample2.opened Sample2.all_fine)))))
      as (t & ->); [|reflexivity].
    left. right. left. reflexivity.
  - apply (proj1 (proj2 (proj2 (close_session_leaves_alone [] Sample.w0)))).
    + intros [].
    + intros t. reflexivity.
    + exists "alice", (mk_passwd 1000 "/home/alice"). split; reflexivity.
    + left. reflexivity.
Defined.

Lemma open_args_require_selinux argv fl unmnt :
  In "require_selinux" argv -> open_args argv fl unmnt = None.
Proof.
  revert fl unmnt. induction argv as [|a argv IH]; intros fl unmnt Hin;
    [destruct Hin|].
  cbn [open_args]. cbv zeta.
  match goal with
  | |- (if ?b then _ else _) = _ => destruct b eqn:Eb; [reflexivity|]
  end.
  destruct Hin as [->|Hin]; [|apply IH; exact Hin].
  exfalso. apply andb_false_iff in Eb. destruct Eb as [Eb|Eb]; [discriminate Eb|].
  unfold truthy in Eb. apply negb_false_iff, Z.eqb_eq in Eb.
  match type of Eb with
  | Z.lnot (Z.land ?x ?m) = 0 =>
      assert (H : 0 <= Z.land x m) by (apply Z.land_nonneg; right; discriminate);
      unfold Z.lnot in Eb; lia
  end.
Qed.

Lemma open_args_total argv fl unmnt :
  ~ In "require_selinux" argv ->
  exists fl' unmnt', open_args argv fl unmnt = Some (fl', unmnt').
Proof.
  revert fl unmnt. induction argv as [|a argv IH]; intros fl unmnt Hn.
  - eexists. eexists. reflexivity.
  - cbn [open_args]. cbv zeta.
    destruct (String.eqb_spec a "require_selinux") as [->|_].
    + contradiction Hn. left. reflexivity.
    + cbn [andb]. apply IH. intros H. apply Hn. right. exact H.
Qed.

(** pam_sm_open_session fails before it reads the configuration in two
    cases.  With require_selinux among the arguments it returns
    PAM_SESSION_ERR in every world, SELinux enabled or not: the test is a
    bitwise complement, which is never zero.  Without it, when PAM_USER
    cannot be retrieved, is not set or names an unknown user, it returns
    PAM_SESSION_ERR.  In both cases only the history grows: no rule list is
    built, nothing is unshared, made or mounted. *)
Theorem open_session_early_failures (argv : list string) (w : world) :
  let os := w_os w in
  (In "require_selinux" argv
   \/ (forall t, fault os t (c_pam_get_item PAM_USER) <> 0)
   \/ pam_user os = None
   \/ (exists u, pam_user os = Some u /\ getpwnam os u = None)) ->
  result (pam_sm_open_session argv) w = PAM_SESSION_ERR
  /\ exists t, after (pam_sm_open_session argv) w = set_trace t w.
Proof.
  cbv zeta. intros H. unfold result, after, pam_sm_open_session.
  rewrite run_bind. destruct (init_flags_trace w) as (t0 & E0).
  set (fl0 := fst (init_flags w)) in *. rewrite E0. clear E0.
  destruct (in_dec string_dec "require_selinux" argv) as [Hin|Hnin].
  { rewrite (open_args_require_selinux argv fl0 NO_UNMNT Hin), run_bind.
    split; [reflexivity | eexists; reflexivity]. }
  destruct H as [H|H]; [contradiction|].
  destruct (open_args_total argv fl0 NO_UNMNT Hnin) as (fl & unmnt & ->).
  rewrite run_bind.
  destruct (debug_trace (mk_idata None EmptyString 0 fl) LOG_DEBUG
              "open_session - start" (set_trace t0 w)) as (t1 & E1).
  rewrite E1, set_trace_twice. clear E1.
  rewrite run_bind, pam_get_item_run. cbv zeta.
  change (w_os (set_trace t1 w)) with (w_os w).
  change (w_trace (set_trace t1 w)) with t1.
  destruct (fault (w_os w) t1 (c_pam_get_item PAM_USER) =? 0) eqn:Eg.
  2:{ cbn [fst snd]. rewrite run_bind.
      split; [reflexivity | eexists; reflexivity]. }
  apply Z.eqb_eq in Eg. cbn [fst snd].
  destruct (pam_user (w_os w)) as [u|] eqn:Eu.
  2:{ rewrite run_bind. split; [reflexivity | eexists; reflexivity]. }
  cbn [Z.eqb PAM_SUCCESS negb]. rewrite run_bind.
  cbn [pam_modutil_getpwnam gets fst snd called set_trace w_os].
  destruct (getpwnam (w_os w) u) as [pw|] eqn:Ep.
  2:{ rewrite run_bind. split; [reflexivity | eexists; reflexivity]. }
  exfalso. destruct H as [H|[H|(u' & [= <-] & H)]].
  - contradiction (H t1).
  - discriminate H.
  - rewrite Ep in H. discriminate H.
Qed.

Lemma open_session_early_failures_witness :
  flag_set (result init_flags Sample8.w_selinux) PAMNS_SELINUX_ENABLED = true
  /\ result (pam_sm_open_session ["gen_hash"; "require_selinux"]) Sample8.w_selinux
     = PAM_SESSION_ERR
  /\ exists t, after (pam_sm_open_session ["gen_hash"; "require_selinux"])
                     Sample8.w_selinux
               = set_trace t Sample8.w_selinux.
Proof.
  split; [reflexivity|].
  apply (open_session_early_failures ["gen_hash"; "require_selinux"]
           Sample8.w_selinux).
  left. right. left. reflexivity.
Defined.

(* ===================================================================== *)
(** ** Further properties: the config loader *)
(* ===================================================================== *)

Lemma skip_space_all (ws : string) :
  all_space ws = true -> CStr.skip_space ws = EmptyString.
Proof.
  unfold all_space. induction ws as [|a ws IH]; [reflexivity|].
  cbn [list_ascii_of_string forallb CStr.skip_space]. intros H.
  apply andb_true_iff in H. destruct H as [Ha Hw]. rewrite Ha. apply IH, Hw.
Qed.

Lemma skip_space_comment (ws rest : string) :
  all_space ws = true ->
  CStr.skip_space (ws ++ String "#" rest) = String "#" rest.
Proof.
  unfold all_space. induction ws as [|a ws IH]; [reflexivity|].
  cbn [list_ascii_of_string forallb append CStr.skip_space]. intros H.
  apply andb_true_iff in H. destruct H as [Ha Hw]. rewrite Ha. apply IH, Hw.
Qed.

(** A line of white space only, its newline included, and a line whose
    first character after the white space is [#] are passed over:
    process_line returns 0 and neither logs nor appends anything. *)
Theorem process_line_blank_or_comment (ws rest home : string)
    (idata : instance_data) (w : world) :
  all_space ws = true ->
  process_line ws home idata w = ((0, idata), w)
  /\ process_line (ws ++ String "#" rest) home idata w = ((0, idata), w).
Proof.
  intros H. unfold process_line. cbv zeta.
  rewrite (skip_space_all ws H), (skip_space_comment ws rest H).
  split; reflexivity.
Qed.

Lemma process_line_blank_or_comment_witness :
  process_line (String "010" EmptyString) "/home/alice" Sample.alice Sample.w0
  = ((0, Sample.alice), Sample.w0)
  /\ process_line ("  " ++ String "#" " /tmp /tmp-inst/ user")
                  "/home/alice" Sample.alice Sample.w0
     = ((0, Sample.alice), Sample.w0).
Proof.
  split.
  - apply (proj1 (process_line_blank_or_comment (String "010" EmptyString)
                    EmptyString "/home/alice" Sample.alice Sample.w0 eq_refl)).
  - apply (proj2 (process_line_blank_or_comment "  " " /tmp /tmp-inst/ user"
                    "/home/alice" Sample.alice Sample.w0 eq_refl)).
Defined.

(** What one line returns: 0, or what the label [skipping] gives, and the
    session comes back with its flags and its user. *)
Lemma process_line_result line home idata w :
  let r := fst (process_line line home idata w) in
  (fst r = 0 \/ fst r = skipping idata)
  /\ flags (snd r) = flags idata /\ user (snd r) = user idata.
Proof.
  cbv zeta.
  change (wp (process_line line home idata)
             (fun r _ => (fst r = 0 \/ fst r = skipping idata)
                         /\ flags (snd r) = flags idata
                         /\ user (snd r) = user idata) w).
  assert (Hskip : forall msg w1,
             wp (pam_syslog LOG_NOTICE msg ;; ret (skipping idata, idata))
                (fun r _ => (fst r = 0 \/ fst r = skipping idata)
                            /\ flags (snd r) = flags idata
                            /\ user (snd r) = user idata) w1).
  { intros msg w1. apply wp_bind, wp_syslog, wp_ret. cbn [fst snd].
    split; [right; reflexivity | split; reflexivity]. }
  assert (Hadd : forall ent w1,
             wp (r <- add_polydir_entry idata ent ;;
                 if fst r <? 0 then
                   pam_syslog LOG_ERR "Allocation Error" ;;
                   ret (PAM_SERVICE_ERR, snd r)
                 else ret (0, snd r))
                (fun r _ => (fst r = 0 \/ fst r = skipping idata)
                            /\ flags (snd r) = flags idata
                            /\ user (snd r) = user idata) w1).
  { intros ent w1. unfold wp, add_polydir_entry. rewrite run_bind.
    destruct (polydirs_ptr idata); [rewrite run_bind|]; cbn [fst snd ret Z.ltb Z.compare];
      (split; [left; reflexivity | split; reflexivity]). }
  unfold process_line. cbv zeta.
  destruct (String.eqb _ _).
  { apply wp_ret. cbn [fst snd]. split; [left; reflexivity | split; reflexivity]. }
  destruct (CStr.strtok_r _ _) as [[dir_tok t1]|]; [|apply Hskip].
  destruct (CStr.strtok_r t1 _) as [[prefix_tok t2]|]; [|apply Hskip].
  destruct (CStr.strtok_r t2 _) as [[method_tok t3]|]; [|apply Hskip].
  destruct (_ || _); [apply Hskip|].
  destruct (_ && _); [apply Hskip|].
  apply wp_bind, wp_gets.
  destruct (polymethod_eqb _ NONE); [apply Hskip|].
  destruct (negb _ || _); [apply Hskip|].
  destruct (CStr.contains _ ".." || _); [apply Hskip|].
  apply wp_bind.
  destruct (option_map fst (CStr.strtok_r t3 blank)) as [u|].
  - apply wp_bind. apply wp_any. intros l w1. apply wp_ret. apply Hadd.
  - apply wp_ret. apply Hadd.
Qed.

Lemma read_lines_tolerant lines home idata w :
  flag_set (flags idata) PAMNS_IGN_CONFIG_ERR = true ->
  fst (fst (read_lines lines home idata w)) = true.
Proof.
  revert idata w. induction lines as [|line rest IH]; intros idata w Hf;
    [reflexivity|].
  cbn [read_lines]. destruct (_ <=? 0); [reflexivity|]. rewrite run_bind.
  destruct (process_line_result line home idata w) as ([H0|H0] & Hfl & _);
    unfold skipping in H0; rewrite ?Hf in H0; rewrite H0;
    cbn [Z.eqb negb]; apply IH; rewrite Hfl; exact Hf.
Qed.

(** With ignore_config_error no line of the configuration file is an error:
    process_line returns 0 for every line, and parse_config_file returns
    PAM_SUCCESS whenever the user has a passwd entry and the file can be
    opened.  Without it a line returns 0 or PAM_SERVICE_ERR. *)
Theorem ignore_config_error_tolerates (idata : instance_data) (w : world) :
  (forall line home,
      fst (result (process_line line home idata) w) = 0
      \/ (flag_set (flags idata) PAMNS_IGN_CONFIG_ERR = false
          /\ fst (result (process_line line home idata) w) = PAM_SERVICE_ERR))
  /\ (flag_set (flags idata) PAMNS_IGN_CONFIG_ERR = true ->
      getpwnam (w_os w) (user idata) <> None ->
      (forall t, fault (w_os w) t (c_fopen PAM_NAMESPACE_CONFIG) = 0) ->
      fst (result (parse_config_file idata) w) = PAM_SUCCESS).
Proof.
  unfold result. split.
  - intros line home.
    destruct (process_line_result line home idata w) as ([H0|H0] & _);
      [left; exact H0|].
    unfold skipping in H0.
    destruct (flag_set (flags idata) PAMNS_IGN_CONFIG_ERR);
      [left; exact H0 | right; split; [reflexivity | exact H0]].
  - intros Hf Hu Ho. unfold parse_config_file. rewrite run_bind.
    destruct (debug_trace idata LOG_DEBUG "Parsing config file %s" w) as (t1 & ->).
    rewrite run_bind. cbn [pam_modutil_getpwnam gets fst snd w_os set_trace].
    destruct (getpwnam (w_os w) (user idata)) as [pw|]; [|contradiction Hu; reflexivity].
    rewrite run_bind. unfold fopen_lines. rewrite run_bind, run_sys.
    cbn [w_os w_trace]. rewrite Ho. cbn [Z.eqb gets bind ret fst snd].
    rewrite run_bind, read_lines_tolerant by exact Hf.
    rewrite run_bind. reflexivity.
Qed.

Lemma ignore_config_error_tolerates_witness :
  fst (result (process_line "/tmp relative/ user" "/home/alice"
                 (Sample4.session "alice" PAMNS_IGN_CONFIG_ERR)) Sample.w0) = 0
  /\ fst (result (process_line "/tmp relative/ user" "/home/alice"
                    (Sample4.session "alice" 0)) Sample.w0) = PAM_SERVICE_ERR
  /\ fst (result (parse_config_file (Sample4.session "alice" PAMNS_IGN_CONFIG_ERR))
                 Sample.w0) = PAM_SUCCESS.
Proof.
  split; [|split].
  - destruct (proj1 (ignore_config_error_tolerates
                       (Sample4.session "alice" PAMNS_IGN_CONFIG_ERR) Sample.w0)
                "/tmp relative/ user" "/home/alice") as [H|[H _]];
      [exact H | discriminate H].
  - destruct (proj1 (ignore_config_error_tolerates
                       (Sample4.session "alice" 0) Sample.w0)
                "/tmp relative/ user" "/home/alice") as [H|[_ H]];
      [vm_compute in H; discriminate H | exact H].
  - apply (proj2 (ignore_config_error_tolerates
                    (Sample4.session "alice" PAMNS_IGN_CONFIG_ERR) Sample.w0)).
    + reflexivity.
    + discriminate.
    + intros t. reflexivity.
Defined.

(* ===================================================================== *)
(** ** Further properties: session teardown *)
(* ===================================================================== *)

Lemma adds_weaken {A} (P Q : call -> Prop) (m : M A) :
  (forall c, P c -> Q c) -> adds P m -> adds Q m.
Proof.
  intros H Hm w. destruct (Hm w) as (evs & E & F). exists evs.
  split; [exact E|]. eapply Forall_impl; [|exact F].
  intros [c e|p s]; [apply H | exact (fun x => x)].
Qed.

Lemma adds_bind_logs {A B} (P : call -> Prop) (m : M A) (k : A -> M B) (a : A) :
  (forall w, logs_only m a w) -> adds P (k a) -> adds P (bind m k).
Proof.
  intros Hm Hk w. destruct (Hm w) as (e1 & L1 & E1).
  rewrite (bind_eq _ _ _ _ _ E1).
  destruct (Hk (set_trace (e1 ++ w_trace w) w)) as (e2 & E2 & F2).
  exists (e2 ++ e1)%list. split.
  - rewrite E2. cbn [w_trace set_trace]. apply app_assoc.
  - apply Forall_app. split; [exact F2|].
    rewrite forallb_forall in L1. apply Forall_forall. intros ev Hev.
    specialize (L1 ev Hev). destruct ev; [discriminate L1 | exact I].
Qed.

Lemma adds_orig_loop l idata : adds (close_call idata l) (orig_loop l idata).
Proof.
  induction l as [|r l IH]; cbn [orig_loop]; [apply adds_ret|].
  apply (adds_bind_logs _ _ _ _ (ns_override_run r idata (id_uid idata))).
  fold (is_overridden r (id_uid idata)).
  destruct (is_overridden r (id_uid idata)) eqn:Eo.
  - eapply adds_weaken; [|exact IH]. intros c [H|(r' & Hin & Ho & Hc)].
    + left. exact H.
    + right. exists r'. split; [right; exact Hin | split; assumption].
  - apply adds_bind; [apply adds_debug|]. intros _.
    apply adds_bind.
    { apply adds_umount. right. exists r. split; [left; reflexivity|].
      split; [exact Eo | reflexivity]. }
    intros e. destruct (truthy e).
    + apply adds_bind; [apply adds_syslog | intros; apply adds_ret].
    + apply adds_bind; [apply adds_debug|]. intros _.
      eapply adds_weaken; [|exact IH]. intros c [H|(r' & Hin & Ho & Hc)].
      * left. exact H.
      * right. exists r'. split; [right; exact Hin | split; assumption].
Qed.

(** A session close touches the mounts of the rules that apply to the user
    only: every call orig_namespace makes is a call of the cleanup pass
    (signal, access, fork of /bin/rm, waitpid) or the unmount of the
    directory of a rule of the list that is not overridden for the session
    uid.  A rule that is overridden for the user is never unmounted on its
    account. *)
Theorem orig_namespace_calls (idata : instance_data) (w : world) :
  forall c e,
    In (EvCall c e) (events_of (orig_namespace idata) w) ->
    close_call idata (rules_of idata w) c.
Proof.
  assert (A : adds (close_call idata (rules_of idata w))
                   (ok <- orig_loop (rules_of idata w) idata ;;
                    if ok then cleanup_tmpdirs idata ;; ret 0
                    else ret PAM_SESSION_ERR)).
  { apply adds_bind; [apply adds_orig_loop|]. intros [|]; [|apply adds_ret].
    apply adds_bind; [|intros; apply adds_ret].
    eapply adds_weaken; [|apply adds_cleanup_tmpdirs]. intros c H. left. exact H. }
  destruct (debug_run idata LOG_DEBUG "orig namespace for pid %d" w)
    as (e1 & L1 & E1).
  destruct (A (set_trace (e1 ++ w_trace w) w)) as (e2 & E2 & F2).
  assert (T : w_trace (snd (orig_namespace idata w)) = ((e2 ++ e1) ++ w_trace w)%list).
  { unfold orig_namespace. rewrite (bind_eq _ _ _ _ _ E1).
    rewrite run_bind. cbn [gets fst snd].
    change (cells (polydirs_ptr idata) (set_trace (e1 ++ w_trace w) w))
      with (rules_of idata w).
    rewrite E2. cbn [w_trace set_trace]. apply app_assoc. }
  intros c e Hin. rewrite (events_of_trace _ _ _ T) in Hin.
  apply in_app_or in Hin. destruct Hin as [Hin|Hin].
  - rewrite Forall_forall in F2. exact (F2 _ Hin).
  - exfalso. exact (In_log_call _ _ _ L1 Hin).
Qed.

Lemma orig_namespace_calls_witness :
  events_of (orig_namespace Sample2.root)
            (set_mounts [("/tmp-inst/root", "/tmp", EmptyString)]
               (Sample.with_rules [Sample.tmp_rule] Sample.w0))
  = [EvCall (c_signal (Some SIG_IGN)) 0; EvCall (c_signal (Some SIG_DFL)) 0]
  /\ close_call Sample2.alice [Sample2.home_made] (c_umount "/home/alice").
Proof.
  split; [vm_compute; reflexivity|].
  apply (orig_namespace_calls Sample2.alice (Sample2.opened Sample2.all_fine)
           (c_umount "/home/alice") 0).
  vm_compute. repeat (first [left; reflexivity | right]).
Defined.

(* ===================================================================== *)
(** ** Further properties: a failed materialization *)
(* ===================================================================== *)

Lemma inst_init_no_script polyptr ipath idata newdir w :
  fault (w_os w) (w_trace w) (c_signal (Some SIG_DFL)) = 0 ->
  w_fs w NAMESPACE_INIT_SCRIPT = None ->
  fst (inst_init polyptr ipath idata newdir w) = PAM_SUCCESS.
Proof.
  intros Hsig Hfs.
  change (wp (inst_init polyptr ipath idata newdir)
             (fun r _ => r = PAM_SUCCESS) w).
  unfold inst_init.
  wp_with ltac:(rewrite ?Hsig; rewrite ?access_errno_missing by exact Hfs).
  all: reflexivity.
Qed.

Lemma wp_inst_init_ok polyptr ipath idata newdir (Q : Z -> world -> Prop) w :
  (forall t, fault (w_os w) t (c_signal (Some SIG_DFL)) = 0) ->
  w_fs w NAMESPACE_INIT_SCRIPT = None ->
  (forall w', w_fs w' = w_fs w -> w_os w' = w_os w -> Q PAM_SUCCESS w') ->
  wp (inst_init polyptr ipath idata newdir) Q w.
Proof.
  intros Hsig Hfs H. unfold wp.
  rewrite (inst_init_no_script polyptr ipath idata newdir w (Hsig _) Hfs).
  apply H.
  - apply inst_init_no_script_keeps. exact Hfs.
  - apply (keeps_inst_init w_os); intros ? ?; reflexivity.
Qed.

Ltac wp_sub ::=
  lazymatch goal with
  | |- wp (inst_init _ _ _ _) _ _ =>
      apply wp_inst_init_ok; [ | | intros ? ? ?]
  | |- wp (check_inst_parent _ _) _ _ =>
      apply wp_check_inst_parent; intros ? ? ? ? ? ? ?
  end.

Lemma fs_set_other p q x fs : String.eqb q p = false -> fs_set p x fs q = fs q.
Proof. intros H. unfold fs_set. rewrite H. reflexivity. Qed.

Lemma fs_set_undo p x y fs q :
  fs p = None -> fs_set p None (fs_set p x (fs_set p y fs)) q = fs q.
Proof.
  intros H. unfold fs_set. destruct (String.eqb_spec q p) as [->|_];
    [symmetry; exact H | reflexivity].
Qed.

Lemma S_ISDIR_new_dir x w :
  S_ISDIR (st_mode (new_dir (Z.land S_IRUSR x) w)) = true.
Proof.
  unfold S_ISDIR, new_dir. cbn [st_mode].
  rewrite Z.land_lor_distr_l.
  replace (Z.land (Z.land S_IRUSR x) S_IFMT) with 0.
  - reflexivity.
  - rewrite (Z.land_comm S_IRUSR x), <- Z.land_assoc.
    change (Z.land S_IRUSR S_IFMT) with 0. symmetry. apply Z.land_0_r.
Qed.

(** A materialization that fails leaves no directory behind.  When the
    instance directory is not there, so that create_dirs makes it, and the
    init hook cannot fail (no script is installed, signal() is not failed),
    every failure after the mkdir (open, fsetfilecon, fstat, fchown or
    fchmod) is followed by an rmdir of the new directory: provided that
    rmdir is not failed, create_dirs returns PAM_SUCCESS or the file system
    is, path by path, what it was before the call. *)
Theorem create_dirs_rolls_back p ipath ic oc idata w :
  method (result (load p) w) <> TMPDIR ->
  w_fs w ipath = None ->
  ipath <> NAMESPACE_INIT_SCRIPT ->
  w_fs w NAMESPACE_INIT_SCRIPT = None ->
  (forall t, fault (w_os w) t (c_signal (Some SIG_DFL)) = 0) ->
  (forall t, fault (w_os w) t (c_rmdir ipath) = 0) ->
  fst (fst (create_dirs p ipath ic oc idata w)) <> PAM_SUCCESS ->
  forall q, w_fs (snd (create_dirs p ipath ic oc idata w)) q = w_fs w q.
Proof.
  intros Hm Hfs Hne Hscript Hsig Hrm.
  change (wp (create_dirs p ipath ic oc idata)
             (fun r w' => fst r <> PAM_SUCCESS ->
                          forall q, w_fs w' q = w_fs w q) w).
  unfold create_dirs. apply wp_bind. apply wp_gets.
  change (nth (snd p) (cells (Some (fst p)) w) null_rule)
    with (result (load p) w).
  set (rule := result (load p) w) in *.
  assert (Ht : polymethod_eqb (method rule) TMPDIR = false).
  { destruct (method rule); try reflexivity. contradiction Hm. reflexivity. }
  rewrite Ht. unfold dress_new_dir, fchown, fchmod, fsetfilecon.
  wp_with ltac:(first [ progress subst_world
                      | progress (unfold fd_inode)
                      | progress (cbn [st_mode st_uid st_gid st_con])
                      | rewrite Hfs | rewrite Hrm | rewrite Hsig
                      | rewrite Z.eqb_refl
                      | rewrite truthy_0 | rewrite truthy_EEXIST
                      | rewrite fs_set_same | rewrite S_ISDIR_new_dir ]).
  all: try exact Hsig.
  all: try (rewrite !fs_set_other
              by (apply String.eqb_neq; intros E; apply Hne; symmetry; exact E);
            exact Hscript).
  all: try (intros Hrc; contradiction Hrc; reflexivity).
  all: try (intros _ q; reflexivity).
  all: try (intros _ q; unfold fs_set;
            destruct (String.eqb_spec q ipath) as [->|_];
            [symmetry; exact Hfs | reflexivity]).
  exact Hscript.
Qed.

Lemma create_dirs_rolls_back_witness :
  fst (fst (create_dirs (O, O) "/tmp-inst/alice" None None Sample2.alice
              (Sample9.w_rules Sample9.no_fchmod))) = PAM_SESSION_ERR
  /\ w_fs (snd (create_dirs (O, O) "/tmp-inst/alice" None None Sample2.alice
                  (Sample9.w_rules Sample9.no_fchmod))) "/tmp-inst/alice" = None.
Proof.
  assert (H : fst (fst (create_dirs (O, O) "/tmp-inst/alice" None None
                          Sample2.alice (Sample9.w_rules Sample9.no_fchmod)))
              = PAM_SESSION_ERR) by (vm_compute; reflexivity).
  split; [exact H|].
  rewrite (create_dirs_rolls_back (O, O) "/tmp-inst/alice" None None
             Sample2.alice (Sample9.w_rules Sample9.no_fchmod)).
  - reflexivity.
  - vm_compute. discriminate.
  - reflexivity.
  - discriminate.
  - reflexivity.
  - intros t. reflexivity.
  - intros t. reflexivity.
  - rewrite H. discriminate.
Defined.


Lemma mkdtemp_run t w :
  let e := fault (w_os w) (w_trace w) (c_mkdtemp t) in
  let name := CStr.take (String.length t - 6) t ++ temp_suffix (w_os w) (w_trace w) in
  mkdtemp t w =
  if e =? 0 then
    if has_template t then
      match w_fs w name with
      | Some _ => (None, called (c_mkdtemp t) EEXIST w)
      | None =>
          (Some name,
           called (c_mkdtemp t) 0
                  (set_fs (fs_set name (Some (new_dir S_IRWXU w)) (w_fs w)) w))
      end
    else (None, called (c_mkdtemp t) EINVAL w)
  else (None, called (c_mkdtemp t) e w).
Proof.
  cbv zeta. unfold mkdtemp. rewrite run_bind, run_sys.
  destruct (fault (w_os w) (w_trace w) _ =? 0) eqn:E.
  - destruct (has_template t); [|reflexivity].
    destruct (w_fs w _); reflexivity.
  - cbn. rewrite E. reflexivity.
Qed.

Lemma wp_inst_init_fds polyptr ipath idata newdir (Q : Z -> world -> Prop) w :
  (forall rc w', w_fds w' = w_fds w -> w_os w' = w_os w -> Q rc w') ->
  wp (inst_init polyptr ipath idata newdir) Q w.
Proof.
  intros H. apply H.
  - apply (keeps_inst_init w_fds); eauto with keeps.
  - apply (keeps_inst_init w_os); eauto with keeps.
Qed.

Ltac wp_sub ::=
  lazymatch goal with
  | |- wp (inst_init _ _ _ _) _ _ => apply wp_inst_init_fds; intros ? ? ? ?
  | |- wp (check_inst_parent _ _) _ _ =>
      apply wp_check_inst_parent; intros ? ? ? ? ? ? ?
  | |- wp (mkdtemp _) _ _ => eapply wp_eq; [apply mkdtemp_run|]
  | |- wp (store _ _) _ _ => apply wp_modify
  end.

(** create_dirs closes the descriptor it opens on the new directory on
    every path but one: when close() and fstat() are not failed, the open
    descriptors after create_dirs are those before it, whatever it returns.
    The path left out is the failure of fstat, which removes the directory
    and returns without closing the descriptor. *)
Theorem create_dirs_closes_descriptor p ipath ic oc idata w :
  0 <= w_next_fd w ->
  (forall t fd, fault (w_os w) t (c_close fd) = 0) ->
  (forall t fd, fault (w_os w) t (c_fstat fd) = 0) ->
  w_fds (snd (create_dirs p ipath ic oc idata w)) = w_fds w.
Proof.
  intros Hfd Hcl Hst.
  change (wp (create_dirs p ipath ic oc idata)
             (fun _ w' => w_fds w' = w_fds w) w).
  unfold create_dirs. apply wp_bind. apply wp_gets.
  change (nth (snd p) (cells (Some (fst p)) w) null_rule)
    with (result (load p) w).
  set (rule := result (load p) w) in *.
  unfold dress_new_dir, fchown, fchmod, fsetfilecon.
  wp_with ltac:(first [ progress subst_world
                      | progress (unfold fd_inode)
                      | progress (cbn [st_mode st_uid st_gid st_con assoc_remove])
                      | rewrite Hcl | rewrite Hst
                      | rewrite Z.eqb_refl
                      | rewrite truthy_0 | rewrite truthy_EEXIST
                      | rewrite fs_set_same ]).
  all: try reflexivity.
  all: try (exfalso; match goal with
                     | H : (_ <? 0) = true |- _ =>
                         apply Z.ltb_lt in H; lia
                     end).
  all: try absurd_tests.
  all: try (exfalso; match goal with
                     | H : Some _ = None |- _ => discriminate H
                     | H : None = Some _ |- _ => discriminate H
                     end).
Qed.

Lemma create_dirs_closes_descriptor_witness :
  w_fds (snd (create_dirs (O, O) "/tmp-inst/alice" None None Sample2.alice
                (Sample9.w_rules Sample9.no_fchmod))) = []
  /\ w_fds (snd (create_dirs (O, O) "/tmp-inst/alice" None None Sample2.alice
                   (Sample9.w_rules Sample9.no_fstat)))
     = [(3, "/tmp-inst/alice")].
Proof.
  split; [|vm_compute; reflexivity].
  apply (create_dirs_closes_descriptor (O, O) "/tmp-inst/alice" None None
           Sample2.alice (Sample9.w_rules Sample9.no_fchmod)).
  - discriminate.
  - intros t fd. reflexivity.
  - intros t fd. reflexivity.
Defined.

Ltac wp_sub ::=
  lazymatch goal with
  | |- wp (inst_init _ _ _ _) _ _ => apply wp_inst_init; intros ? ? ? ?
  | |- wp (check_inst_parent _ _) _ _ =>
      apply wp_check_inst_parent; intros ? ? ? ? ? ? ?
  end.


(* ===================================================================== *)
(** ** Further properties: the cleanup pass *)
(* ===================================================================== *)

Lemma rm_effect_outside a st w q :
  (forall x y path, a = [x; y; path] -> in_tree path q = false) ->
  w_fs (child_effect "/bin/rm" a st w) q = w_fs w q.
Proof.
  intros H. unfold child_effect.
  change (String.eqb "/bin/rm" "/bin/rm") with true. cbv iota.
  destruct a as [|x [|y [|path [|? ?]]]]; try reflexivity.
  destruct (String.eqb _ _); [|reflexivity].
  destruct (_ && _); cbn [w_fs set_fs].
  - unfold fs_remove_tree. rewrite (H x y path eq_refl). reflexivity.
  - rewrite (H x y path eq_refl). reflexivity.
Qed.

Lemma cleanup_loop_scope l w q :
  (forall r, In r l -> method r = TMPDIR ->
             in_tree (instance_prefix r) q = false) ->
  w_fs (snd (cleanup_loop l w)) q = w_fs w q.
Proof.
  revert w. induction l as [|r l IH]; intros w H; [reflexivity|].
  assert (Hl : forall w', w_fs (snd (cleanup_loop l w')) q = w_fs w' q).
  { intros w'. apply IH. intros r' Hr'. apply H. right. exact Hr'. }
  change (wp (cleanup_loop (r :: l)) (fun _ w' => w_fs w' q = w_fs w q) w).
  cbn [cleanup_loop].
  destruct (polymethod_eqb (method r) TMPDIR) eqn:Hm; [|apply Hl].
  apply polymethod_eqb_eq in Hm.
  pose proof (H r (or_introl eq_refl) Hm) as Hq.
  wp_with ltac:(rewrite ?Pos.eqb_refl).
  all: try reflexivity.
  all: try (unfold wp; rewrite Hl; wp_simp; try reflexivity).
  all: rewrite rm_effect_outside
         by (intros x y path E; inversion E; subst; exact Hq).
  all: reflexivity.
Qed.

(** The cleanup pass removes nothing outside the instance directories of
    the rules whose method is tmpdir.  Where these directories lie apart
    from the mounts (no mount is on one of them, above it or below it), a
    path that no mount covers and that is neither such a directory nor below
    one is after cleanup_tmpdirs what it was before.  The directories of
    rules of the other methods, and of a tmpdir rule that create_dirs has
    marked NONE, are out of its reach. *)
Theorem cleanup_tmpdirs_scope (idata : instance_data) (w : world) (q : string) :
  uncovered (w_mounts w) q ->
  (forall r, In r (rules_of idata w) -> method r = TMPDIR ->
             apart (w_mounts w) (instance_prefix r)
             /\ in_tree (instance_prefix r) q = false) ->
  w_fs (after (cleanup_tmpdirs idata) w) q = w_fs w q.
Proof.
  intros _ H. unfold after.
  change (wp (cleanup_tmpdirs idata) (fun _ w' => w_fs w' q = w_fs w q) w).
  unfold cleanup_tmpdirs.
  apply wp_bind.
  apply (wp_keeps (fun x => (w_fs x, rules_of idata x)));
    [apply keeps_signal; intros x x0; reflexivity|].
  intros o w1 E1. injection E1 as Ef Er. apply wp_bind.
  destruct o as [o|].
  - apply wp_bind, wp_gets. unfold wp.
    rewrite run_bind. cbn [ret fst snd].
    rewrite (keeps_signal w_fs) by eauto with keeps.
    rewrite cleanup_loop_scope; [rewrite Ef; reflexivity|].
    unfold rules_of in Er. rewrite Er. intros r Hr Hm.
    exact (proj2 (H r Hr Hm)).
  - unfold wp. rewrite !run_bind. cbn [ret fst snd pam_syslog emit modify].
    rewrite (keeps_signal w_fs) by eauto with keeps.
    cbn [w_fs set_trace]. rewrite Ef. reflexivity.
Qed.

(** The scratch directory of alice is mounted on her home: the cleanup pass
    leaves /tmp-inst, where it was made, and /tmp as they are, and removes
    the scratch directory. *)
Lemma cleanup_tmpdirs_scope_witness :
  w_fs (after (cleanup_tmpdirs Sample2.alice) (Sample10.opened Sample2.all_fine))
       "/tmp-inst"
  = Some (mk_inode S_IFDIR 0 0 "inst_t")
  /\ w_fs (after (cleanup_tmpdirs Sample2.alice) (Sample10.opened Sample2.all_fine))
          "/tmp-inst/abcdef" = None.
Proof.
  split; [|vm_compute; reflexivity].
  rewrite (cleanup_tmpdirs_scope Sample2.alice (Sample10.opened Sample2.all_fine)
             "/tmp-inst"); [reflexivity| |].
  - intros m [<-|[]]. reflexivity.
  - intros r [<-|[]] _. split; [|reflexivity].
    intros m [<-|[]]. split; reflexivity.
Defined.

(* ===================================================================== *)
(** ** Further properties: the unmount before a remount *)
(* ===================================================================== *)

Lemma umount_run d w :
  let e := fault (w_os w) (w_trace w) (c_umount d) in
  umount d w =
  if e =? 0 then
    match w_fs w d with
    | None => (ENOENT, called (c_umount d) ENOENT w)
    | Some _ =>
        if existsb (mounted_on d) (w_mounts w)
        then (0, called (c_umount d) 0
                   (set_mounts (unmount_top d (w_mounts w)) w))
        else (EINVAL, called (c_umount d) EINVAL w)
    end
  else (e, called (c_umount d) e w).
Proof.
  cbv zeta. unfold umount. rewrite run_bind, run_sys.
  destruct (fault (w_os w) (w_trace w) _ =? 0) eqn:E; [|reflexivity].
  destruct (w_fs w d); [|reflexivity].
  destruct (existsb _ _); reflexivity.
Qed.

Lemma getcwd_run w :
  let e := fault (w_os w) (w_trace w) c_getcwd in
  getcwd w =
  if e =? 0 then (Some (w_cwd w), called c_getcwd 0 w)
  else (None, called c_getcwd e w).
Proof.
  cbv zeta. unfold getcwd. rewrite run_bind, run_sys.
  destruct (fault (w_os w) (w_trace w) _ =? 0) eqn:E; cbn; rewrite ?E; reflexivity.
Qed.

Lemma cwd_in_cases d idata w :
  exists t,
    snd (cwd_in d idata w) = set_trace t w
    /\ ((fault (w_os w) (w_trace w) c_getcwd = 0
         /\ (fst (cwd_in d idata w) = 0 \/ fst (cwd_in d idata w) = 1))
        \/ (fault (w_os w) (w_trace w) c_getcwd <> 0
            /\ fst (cwd_in d idata w) = -1)).
Proof.
  unfold cwd_in. rewrite run_bind, getcwd_run. cbv zeta.
  destruct (fault (w_os w) (w_trace w) c_getcwd =? 0) eqn:E; cbn [fst snd].
  - apply Z.eqb_eq in E.
    destruct (CStr.strncmp_eq (w_cwd w) d); rewrite run_bind;
      match goal with
      | |- context [debug ?i ?p ?s ?x] =>
          destruct (debug_run i p s x) as (evs & _ & ->)
      end;
      eexists; (split; [reflexivity|]); left; (split; [exact E|]);
      [right | left]; reflexivity.
  - rewrite run_bind. apply Z.eqb_neq in E.
    eexists. split; [reflexivity|]. right. split; [exact E | reflexivity].
Qed.



(* ===================================================================== *)
(** ** Further properties: the expansion of $USER and $HOME *)
(* ===================================================================== *)

Lemma strstr_found (s v : string) (n : nat) :
  CStr.strstr s v = Some n ->
  String.prefix v (CStr.drop n s) = true /\ (n <= String.length s)%nat.
Proof.
  revert n. induction s as [|a t IH]; intros n H.
  - cbn [CStr.strstr] in H.
    destruct (String.prefix v EmptyString) eqn:E; [|discriminate H].
    injection H as <-. split; [exact E | cbn; lia].
  - cbn [CStr.strstr] in H.
    destruct (String.prefix v (String a t)) eqn:E.
    + injection H as <-. split; [exact E | cbn; lia].
    + destruct (CStr.strstr t v) as [k|]; [|discriminate H].
      injection H as <-. destruct (IH k eq_refl) as [H1 H2].
      split; [exact H1 | cbn; lia].
Qed.

Lemma take_drop (n : nat) (s : string) : CStr.take n s ++ CStr.drop n s = s.
Proof.
  revert s. induction n as [|n IH]; intros s; [destruct s; reflexivity|].
  destruct s as [|a s]; [reflexivity|]. cbn. rewrite IH. reflexivity.
Qed.

Lemma drop_app (v r : string) : CStr.drop (String.length v) (v ++ r) = r.
Proof. induction v as [|a v IH]; [destruct r; reflexivity | exact IH]. Qed.

Lemma drop_add (n k : nat) (s : string) :
  CStr.drop (n + k) s = CStr.drop k (CStr.drop n s).
Proof.
  revert s. induction n as [|n IH]; intros s.
  - destruct s; reflexivity.
  - destruct s as [|a s]; [destruct k; reflexivity|]. cbn. apply IH.
Qed.

(** Where the variable is found the line is the part before it, the
    variable and the part after it. *)
Lemma strstr_split (s v : string) (n : nat) :
  CStr.strstr s v = Some n ->
  s = CStr.take n s ++ v ++ CStr.drop (n + String.length v) s
  /\ String.length (CStr.take n s) = n.
Proof.
  intros H. destruct (strstr_found s v n H) as [Hp Hn].
  destruct (prefix_split v _ Hp) as (r & Er).
  split; [|apply length_take; exact Hn].
  rewrite drop_add, Er, drop_app, <- Er. symmetry. apply take_drop.
Qed.

(** The expansion of a five-character variable fills the buffer the code
    allocates for it and no more: with the variable found, the expanded
    string and its terminator take strlen(val) + strlen(s) - 5 + 1 bytes.
    Only the first occurrence is replaced, so that expanding a variable to
    itself gives the string back; a string without the variable is kept. *)
Theorem expand_var_fits (var val s : string) :
  CStr.strlen var = 5 ->
  (forall n, CStr.strstr s var = Some n ->
     CStr.strlen (CStr.expand_var var val s) + 1
     = CStr.strlen val + CStr.strlen s - 5 + 1)
  /\ CStr.expand_var var var s = s
  /\ (CStr.strstr s var = None -> CStr.expand_var var val s = s).
Proof.
  intros Hv. unfold CStr.expand_var. split; [|split].
  - intros n H. rewrite H. destruct (strstr_split s var n H) as [E L].
    unfold CStr.strlen in *.
    assert (Hs : String.length s
                 = (n + (String.length var
                         + String.length (CStr.drop (n + String.length var) s)))%nat).
    { rewrite E at 1. rewrite !length_append, L. reflexivity. }
    rewrite !length_append, L. lia.
  - destruct (CStr.strstr s var) as [n|] eqn:H; [|reflexivity].
    symmetry. apply (strstr_split s var n H).
  - intros ->. reflexivity.
Qed.

Lemma expand_var_fits_witness :
  CStr.strlen (CStr.expand_var "$USER" "alice" "/tmp-inst/$USER/") + 1
  = 5 + 16 - 5 + 1
  /\ CStr.expand_var "$HOME" "$HOME" "$HOME/.inst/" = "$HOME/.inst/".
Proof.
  split.
  - apply (proj1 (expand_var_fits "$USER" "alice" "/tmp-inst/$USER/" eq_refl) 10%nat).
    reflexivity.
  - apply (proj1 (proj2 (expand_var_fits "$HOME" "alice" "$HOME/.inst/" eq_refl))).
Defined.

(* ===================================================================== *)
(** ** Further properties: a tmpdir rule whose mkdtemp fails *)
(* ===================================================================== *)

Lemma nth_list_set_none (i : nat) (r : polydir_s) (l : list polydir_s) :
  method (nth i (list_set i (set_method NONE r) l) null_rule) = NONE.
Proof.
  revert i. induction l as [|a l IH]; intros i.
  - destruct i; reflexivity.
  - destruct i as [|i]; [reflexivity | apply IH].
Qed.

Ltac wp_sub ::=
  lazymatch goal with
  | |- wp (inst_init _ _ _ _) _ _ => apply wp_inst_init; intros ? ? ? ?
  | |- wp (check_inst_parent _ _) _ _ =>
      apply wp_check_inst_parent; intros ? ? ? ? ? ? ?
  | |- wp (mkdtemp _) _ _ => eapply wp_eq; [apply mkdtemp_run|]
  | |- wp (store _ _) _ _ => apply wp_modify
  end.

(** When mkdtemp fails for a rule of the tmpdir method, create_dirs returns
    PAM_SESSION_ERR, makes nothing in the file system, and sets the method
    of the rule to NONE in the list: the cleanup pass, which looks at tmpdir
    rules only, will not run rm on a template no directory was made from. *)
Theorem create_dirs_failed_mkdtemp p ipath ic oc idata w orig parent :
  let rule := result (load p) w in
  method rule = TMPDIR ->
  (forall t path, fault (w_os w) t (c_stat path) = 0) ->
  w_fs w (dir rule) = Some orig ->
  S_ISDIR (st_mode orig) = true ->
  w_fs w (inst_parent_of ipath) = Some parent ->
  S_ISDIR (st_mode parent) = true ->
  Z.land (st_mode parent) S_IRWXUGO = 0 ->
  (forall t, fault (w_os w) t (c_mkdtemp (instance_prefix rule)) <> 0) ->
  result (create_dirs p ipath ic oc idata) w = (PAM_SESSION_ERR, ipath)
  /\ method (result (load p) (after (create_dirs p ipath ic oc idata) w)) = NONE
  /\ w_fs (after (create_dirs p ipath ic oc idata) w) = w_fs w.
Proof.
  intros rule Hm Hstat Horig Hdir Hpar Hpdir Hpmode Hmk.
  change (wp (create_dirs p ipath ic oc idata)
             (fun r w' => r = (PAM_SESSION_ERR, ipath)
                          /\ method (result (load p) w') = NONE
                          /\ w_fs w' = w_fs w) w).
  unfold create_dirs. apply wp_bind. apply wp_gets.
  change (nth (snd p) (cells (Some (fst p)) w) null_rule) with rule.
  rewrite Hm. unfold check_inst_parent.
  assert (Hp0 : truthy (Z.land (st_mode parent) S_IRWXUGO) = false)
    by (rewrite Hpmode; reflexivity).
  wp_with ltac:(first [ rewrite Hstat | rewrite Horig | rewrite Hdir
                      | rewrite Hpar | rewrite Hpdir | rewrite Hp0
                      | rewrite andb_false_r
                      | progress (cbn [polymethod_eqb]) ]).
  all: try discriminate.
  all: try (exfalso; match goal with
                     | H : (fault _ _ (c_mkdtemp _) =? 0) = true |- _ =>
                         apply Z.eqb_eq in H; exact (Hmk _ H)
                     end).
  all: split; [reflexivity|]; split; [|reflexivity].
  all: unfold result, load, gets, cells; cbn [fst snd w_heap set_heap];
    rewrite Nat.eqb_refl; destruct (w_heap w (fst p)); cbn [option_map];
    [apply nth_list_set_none | destruct (snd p); reflexivity].
Qed.

Lemma create_dirs_failed_mkdtemp_witness :
  result (create_dirs (O, O) "/home/alice/.inst/XXXXXX" None None Sample2.alice)
         (Sample.with_rules [Sample.home_rule]
            (Sample2.failing Sample9.no_mkdtemp Sample.fs))
  = (PAM_SESSION_ERR, "/home/alice/.inst/XXXXXX")
  /\ method (result (load (O, O))
               (after (create_dirs (O, O) "/home/alice/.inst/XXXXXX" None None
                         Sample2.alice)
                      (Sample.with_rules [Sample.home_rule]
                         (Sample2.failing Sample9.no_mkdtemp Sample.fs)))) = NONE.
Proof.
  destruct (create_dirs_failed_mkdtemp (O, O) "/home/alice/.inst/XXXXXX" None None
              Sample2.alice
              (Sample.with_rules [Sample.home_rule]
                 (Sample2.failing Sample9.no_mkdtemp Sample.fs))
              (mk_inode (Z.lor S_IFDIR 448) 1000 1000 "home_t")
              (mk_inode S_IFDIR 0 0 "inst_t")) as (H1 & H2 & _).
  - reflexivity.
  - intros t path. reflexivity.
  - reflexivity.
  - reflexivity.
  - vm_compute. reflexivity.
  - reflexivity.
  - reflexivity.
  - intros t. vm_compute. discriminate.
  - split; [exact H1 | exact H2].
Defined.

Ltac wp_sub ::=
  lazymatch goal with
  | |- wp (inst_init _ _ _ _) _ _ => apply wp_inst_init; intros ? ? ? ?
  | |- wp (check_inst_parent _ _) _ _ =>
      apply wp_check_inst_parent; intros ? ? ? ? ? ? ?
  end.

(* ===================================================================== *)
(** ** Further properties: a well-formed line *)
(* ===================================================================== *)

Lemma plain_cons a s :
  plain (String a s) = true ->
  CStr.is_delim blank a = false /\ Ascii.eqb a "#" = false
  /\ Ascii.eqb a "010" = false /\ plain s = true.
Proof.
  unfold plain. cbn [list_ascii_of_string forallb]. unfold plain_char at 1.
  intros H. apply andb_true_iff in H. destruct H as [H Hs].
  apply andb_true_iff in H. destruct H as [H H3].
  apply andb_true_iff in H. destruct H as [H1 H2].
  apply negb_true_iff in H1, H2, H3. repeat split; assumption.
Qed.

Lemma span_token_field (tok rest : string) :
  plain tok = true ->
  CStr.span_token blank (tok ++ String " " rest) = (tok, rest).
Proof.
  induction tok as [|a tok IH]; intros H; [reflexivity|].
  destruct (plain_cons a tok H) as (Ha & _ & _ & Ht).
  cbn [append CStr.span_token]. rewrite Ha, (IH Ht). reflexivity.
Qed.

Lemma strtok_r_field (a : ascii) (tok rest : string) :
  plain (String a tok) = true ->
  CStr.strtok_r (String a tok ++ String " " rest) blank = Some (String a tok, rest).
Proof.
  intros H. destruct (plain_cons a tok H) as (Ha & _).
  unfold CStr.strtok_r. cbn [append CStr.skip_delim]. rewrite Ha.
  change (String a (tok ++ String " " rest)) with (String a tok ++ String " " rest).
  rewrite (span_token_field _ rest H). reflexivity.
Qed.

Lemma strchr_plain (s r : string) (c : ascii) :
  (forall a t, plain (String a t) = true -> Ascii.eqb a c = false) ->
  plain s = true -> CStr.strchr r c = None -> CStr.strchr (s ++ r) c = None.
Proof.
  intros Hc. induction s as [|a s IH]; intros H Hr; [exact Hr|].
  destruct (plain_cons a s H) as (_ & _ & _ & Hs).
  cbn [append CStr.strchr]. rewrite (Hc a s H), (IH Hs Hr). reflexivity.
Qed.

Lemma cut_at_none c s : CStr.strchr s c = None -> CStr.cut_at c s = s.
Proof. unfold CStr.cut_at. intros ->. reflexivity. Qed.

Lemma expand_var_none var val s :
  CStr.contains s var = false -> CStr.expand_var var val s = s.
Proof.
  unfold CStr.contains, CStr.expand_var.
  destruct (CStr.strstr s var); [discriminate | reflexivity].
Qed.

(** A line that gives a directory, an instance prefix and the method user,
    separated by single blanks, is taken as the rule it spells out: when
    both names start with a slash, hold no blank, no comment sign, no
    newline, no two dots in a row and are shorter than PATH_MAX, and the
    prefix holds no variable, process_line returns 0 and appends the rule
    with these two names, the user method and no override uids, in the way
    add_polydir_entry appends it. *)
Theorem process_line_user_rule (d pfx home : string) (idata : instance_data)
    (w : world) :
  let dir_name := String "/" d in
  let prefix := String "/" pfx in
  let rule := mk_polydir dir_name prefix USER [] 0 in
  plain dir_name = true -> plain prefix = true ->
  CStr.strlen dir_name < PATH_MAX -> CStr.strlen prefix < PATH_MAX ->
  CStr.contains dir_name ".." = false -> CStr.contains prefix ".." = false ->
  CStr.contains prefix "$USER" = false -> CStr.contains prefix "$HOME" = false ->
  process_line (dir_name ++ String " " (prefix ++ String " " "user")) home idata w
  = ((0, snd (result (add_polydir_entry idata rule) w)),
     after (add_polydir_entry idata rule) w)
  /\ (polydirs_ptr idata = None ->
      rules_of (snd (result (add_polydir_entry idata rule) w))
               (after (add_polydir_entry idata rule) w) = [rule]).
Proof.
  intros dir_name prefix rule Hd Hp Ld Lp Dd Dp Eu Eh. split.
  2:{ intros Hn. unfold result, after, add_polydir_entry, rules_of. rewrite Hn.
      cbn [fst snd set_polydirs_ptr polydirs_ptr cells w_heap set_heap].
      rewrite Nat.eqb_refl. reflexivity. }
  assert (Hash : forall a t, plain (String a t) = true -> Ascii.eqb a "#" = false).
  { intros a t H. apply (plain_cons a t H). }
  assert (Hnl : forall a t, plain (String a t) = true -> Ascii.eqb a "010" = false).
  { intros a t H. apply (plain_cons a t H). }
  unfold process_line. cbv zeta.
  change (CStr.skip_space (dir_name ++ String " " (prefix ++ String " " "user")))
    with (dir_name ++ String " " (prefix ++ String " " "user")).
  rewrite (cut_at_none "#")
    by (apply (strchr_plain _ _ _ Hash Hd); cbn [CStr.strchr Ascii.eqb Bool.eqb];
        cbn [option_map];
        rewrite (strchr_plain _ _ _ Hash Hp); reflexivity).
  rewrite (cut_at_none "010")
    by (apply (strchr_plain _ _ _ Hnl Hd); cbn [CStr.strchr Ascii.eqb Bool.eqb];
        cbn [option_map];
        rewrite (strchr_plain _ _ _ Hnl Hp); reflexivity).
  change (String.eqb (dir_name ++ String " " (prefix ++ String " " "user"))
                     EmptyString) with false. cbn iota.
  unfold dir_name at 1, prefix at 1.
  rewrite (strtok_r_field "/" d _ Hd), (strtok_r_field "/" pfx _ Hp).
  change (CStr.strtok_r "user" blank) with (Some ("user", EmptyString)).
  cbn iota. change (CStr.strtok_r EmptyString blank) with (@None (string * string)).
  cbn [option_map].
  change (String.eqb (String "/" d) "$HOME") with false. cbn iota.
  fold dir_name prefix.
  rewrite (expand_var_none "$USER" _ prefix Eu), (expand_var_none "$HOME" _ prefix Eh).
  apply Z.ltb_lt in Ld, Lp. rewrite Z.ltb_antisym in Ld, Lp.
  apply negb_true_iff in Ld, Lp. rewrite Ld, Lp. cbn [orb].
  change (String.eqb "user" "tmpdir") with false.
  change (String.eqb "user" "user") with true.
  change (String.eqb "user" "tmpfs") with false.
  change (String.eqb "user" "level") with false.
  change (String.eqb "user" "context") with false.
  cbn [andb]. rewrite run_bind. cbn [gets fst snd]. rewrite !andb_false_r.
  cbn [polymethod_eqb]. unfold dir_name at 1, prefix at 1.
  cbn [CStr.head Ascii.eqb Bool.eqb negb andb orb].
  fold prefix. rewrite Dd, Dp. cbn [orb]. rewrite !run_bind. cbn [ret fst snd].
  fold rule. unfold result, after.
  assert (Hz : fst (fst (add_polydir_entry idata rule w)) = 0).
  { unfold add_polydir_entry. destruct (polydirs_ptr idata);
      [rewrite run_bind|]; reflexivity. }
  rewrite Hz. reflexivity.
Qed.

Lemma process_line_user_rule_witness :
  rules_of
    (snd (result (process_line "/tmp /tmp-inst/ user" "/home/alice" Sample.alice)
                 Sample.w0))
    (after (process_line "/tmp /tmp-inst/ user" "/home/alice" Sample.alice)
           Sample.w0)
  = [mk_polydir "/tmp" "/tmp-inst/" USER [] 0].
Proof.
  assert (Hn : polydirs_ptr Sample.alice = None) by reflexivity.
  pose proof (process_line_user_rule "tmp" "tmp-inst/" "/home/alice"
                Sample.alice Sample.w0 eq_refl eq_refl eq_refl eq_refl
                eq_refl eq_refl eq_refl eq_refl) as [E R].
  change (String "/" "tmp" ++ String " " (String "/" "tmp-inst/" ++ String " " "user"))
    with "/tmp /tmp-inst/ user" in E.
  unfold result, after. rewrite E. exact (R Hn).
Defined.

(* ===================================================================== *)
(** ** C10: the close of a session whose teardown fails *)
(* ===================================================================== *)

(** In a list that is cut at an element with the property [P], once in a
    place where nothing before or after has it, the cut is that place. *)
Lemma split_unique {A} (P : A -> Prop) (post pre front rest : list A) (x f : A) :
  (post ++ x :: pre = front ++ f :: rest)%list ->
  P x ->
  (forall y, In y front -> ~ P y) ->
  (forall y, In y rest -> ~ P y) ->
  post = front /\ x = f /\ pre = rest.
Proof.
  revert front. induction post as [|p post IH]; intros front E Hx Hf Hr.
  - destruct front as [|a front]; cbn in E; injection E as E1 E2.
    + repeat split; assumption.
    + exfalso. apply (Hf a (or_introl eq_refl)). rewrite <- E1. exact Hx.
  - destruct front as [|a front]; cbn in E; injection E as E1 E2.
    + exfalso. apply (Hr x); [|exact Hx]. rewrite <- E2.
      apply in_or_app. right. left. reflexivity.
    + destruct (IH front E2 Hx) as (-> & -> & ->).
      * intros y Hy. apply Hf. right. exact Hy.
      * exact Hr.
      * subst p. repeat split.
Qed.

Lemma wp_adds {A} (P : call -> Prop) (m : M A) (Q : A -> world -> Prop) w :
  adds P m ->
  (forall a w' evs,
      w_trace w' = (evs ++ w_trace w)%list -> Forall (event_ok P) evs ->
      w' = snd (m w) -> Q a w') ->
  wp m Q w.
Proof.
  intros Ha H. destruct (Ha w) as (evs & E & F). apply (H _ _ evs E F eq_refl).
Qed.

(** The history of the unmount loop of a session close: either every
    unmount succeeded, or the loop ended right after the first one that
    failed, with the failure logged. *)
Lemma orig_loop_trace l idata w :
  exists evs,
    w_trace (snd (orig_loop l idata w)) = (evs ++ w_trace w)%list
    /\ (forall c e, In (EvCall c e) evs -> exists d, c = c_umount d)
    /\ if fst (orig_loop l idata w)
       then forall d e, In (EvCall (c_umount d) e) evs -> e = 0
       else exists d e rest,
              e <> 0
              /\ evs = EvLog LOG_ERR "Unmount of %s failed, %m"
                       :: EvCall (c_umount d) e :: rest
              /\ (forall d' e', In (EvCall (c_umount d') e') rest -> e' = 0).
Proof.
  revert w. induction l as [|r l IH]; intros w.
  - exists []. cbn. repeat split; intros; contradiction.
  - cbn [orig_loop]. rewrite run_bind.
    destruct (ns_override_run r idata (id_uid idata) w) as (e1 & L1 & E1).
    rewrite E1. cbn [fst snd].
    set (w1 := set_trace (e1 ++ w_trace w) w).
    assert (Hlog : forall evs c e, forallb is_log evs = true ->
                     In (EvCall c e) evs -> False).
    { intros evs c e L Hin. exact (In_log_call evs c e L Hin). }
    destruct (truthy _).
    + destruct (IH w1) as (evs & Et & Hc & Hr).
      exists (evs ++ e1)%list.
      split; [rewrite Et; unfold w1; cbn [w_trace set_trace];
              rewrite app_assoc; reflexivity|].
      split.
      * intros c e Hin. apply in_app_or in Hin. destruct Hin as [Hin|Hin];
          [exact (Hc c e Hin) | contradiction (Hlog e1 c e L1 Hin)].
      * destruct (fst (orig_loop l idata w1)).
        -- intros d e Hin. apply in_app_or in Hin. destruct Hin as [Hin|Hin];
             [exact (Hr d e Hin) | contradiction (Hlog e1 _ e L1 Hin)].
        -- destruct Hr as (d & e & rest & He & -> & Hrest).
           exists d, e, (rest ++ e1)%list. split; [exact He|].
           split; [reflexivity|].
           intros d' e' Hin. apply in_app_or in Hin. destruct Hin as [Hin|Hin];
             [exact (Hrest d' e' Hin) | contradiction (Hlog e1 _ e' L1 Hin)].
    + rewrite run_bind.
      destruct (debug_run idata LOG_DEBUG
                  "Unmounting instance dir for user %d & dir %s" w1)
        as (e2 & L2 & E2).
      rewrite E2. cbn [fst snd].
      set (w2 := set_trace (e2 ++ w_trace w1) w1).
      rewrite run_bind.
      set (u := fst (umount (dir r) w2)).
      assert (Eu : exists w3,
                 snd (umount (dir r) w2)
                 = called (c_umount (dir r)) u w3
                 /\ w_trace w3 = w_trace w2).
      { subst u. rewrite umount_run. cbv zeta.
        destruct (_ =? 0);
          [destruct (w_fs w2 (dir r)); [destruct (existsb _ _)|]|];
          cbn [fst snd]; eexists; (split; [reflexivity|]); reflexivity. }
      destruct Eu as (w3 & Eu & Et3). rewrite Eu.
      destruct (truthy u) eqn:Tu.
      * rewrite run_bind. cbn [pam_syslog emit modify ret fst snd].
        exists (EvLog LOG_ERR "Unmount of %s failed, %m"
                :: EvCall (c_umount (dir r)) u :: e2 ++ e1)%list.
        split.
        { cbn [w_trace set_trace called]. rewrite Et3. subst w2 w1.
          cbn [w_trace set_trace]. rewrite app_assoc. reflexivity. }
        split.
        { intros c e [Hin|[Hin|Hin]]; [discriminate Hin | |].
          - injection Hin as <- _. eexists. reflexivity.
          - apply in_app_or in Hin. destruct Hin as [Hin|Hin];
              [contradiction (Hlog e2 c e L2 Hin)
              | contradiction (Hlog e1 c e L1 Hin)]. }
        exists (dir r), u, (e2 ++ e1)%list. split.
        { intros ->. discriminate Tu. }
        split; [reflexivity|].
        intros d' e' Hin. apply in_app_or in Hin. destruct Hin as [Hin|Hin];
          [contradiction (Hlog e2 _ e' L2 Hin)
          | contradiction (Hlog e1 _ e' L1 Hin)].
      * rewrite run_bind.
        destruct (debug_run idata LOG_DEBUG "Unmount of %s succeeded"
                    (called (c_umount (dir r)) u w3))
          as (e4 & L4 & E4).
        rewrite E4. cbn [fst snd].
        set (w4 := set_trace _ _).
        destruct (IH w4) as (evs & Et & Hc & Hr).
        assert (Hu0 : u = 0).
        { unfold truthy in Tu. apply negb_false_iff, Z.eqb_eq in Tu. exact Tu. }
        exists (evs ++ e4 ++ EvCall (c_umount (dir r)) u :: e2 ++ e1)%list.
        split.
        { rewrite Et. subst w4. cbn [w_trace set_trace called]. rewrite Et3.
          subst w2 w1. cbn [w_trace set_trace].
          rewrite <- !app_assoc. cbn [app]. rewrite <- !app_assoc. reflexivity. }
        assert (Hmid : forall c e,
                   In (EvCall c e) (e4 ++ EvCall (c_umount (dir r)) u :: e2 ++ e1)%list ->
                   c = c_umount (dir r) /\ e = 0).
        { intros c e Hin. apply in_app_or in Hin. destruct Hin as [Hin|Hin];
            [contradiction (Hlog e4 c e L4 Hin)|].
          destruct Hin as [Hin|Hin].
          - injection Hin as <- <-. split; [reflexivity | exact Hu0].
          - apply in_app_or in Hin. destruct Hin as [Hin|Hin];
              [contradiction (Hlog e2 c e L2 Hin)
              | contradiction (Hlog e1 c e L1 Hin)]. }
        split.
        { intros c e Hin. apply in_app_or in Hin. destruct Hin as [Hin|Hin];
            [exact (Hc c e Hin)|].
          destruct (Hmid c e Hin) as [-> _]. eexists. reflexivity. }
        destruct (fst (orig_loop l idata w4)).
        -- intros d e Hin. apply in_app_or in Hin. destruct Hin as [Hin|Hin];
             [exact (Hr d e Hin) | exact (proj2 (Hmid _ e Hin))].
        -- destruct Hr as (d & e & rest & He & -> & Hrest).
           exists d, e,
             (rest ++ e4 ++ EvCall (c_umount (dir r)) u :: e2 ++ e1)%list.
           split; [exact He|]. split; [reflexivity|].
           intros d' e' Hin. apply in_app_or in Hin. destruct Hin as [Hin|Hin];
             [exact (Hrest d' e' Hin) | exact (proj2 (Hmid _ e' Hin))].
Qed.

Lemma orig_namespace_trace idata w :
  exists evs,
    w_trace (snd (orig_namespace idata w)) = (evs ++ w_trace w)%list
    /\ ((forall d e, In (EvCall (c_umount d) e) evs -> e = 0)
        \/ exists d e rest,
             e <> 0
             /\ evs = EvLog LOG_ERR "Unmount of %s failed, %m"
                      :: EvCall (c_umount d) e :: rest
             /\ (forall d' e', In (EvCall (c_umount d') e') rest -> e' = 0)).
Proof.
  unfold orig_namespace. rewrite run_bind.
  destruct (debug_run idata LOG_DEBUG "orig namespace for pid %d" w)
    as (e0 & L0 & E0).
  rewrite E0. cbn [fst snd]. set (w1 := set_trace (e0 ++ w_trace w) w).
  rewrite run_bind. cbn [gets fst snd]. rewrite run_bind.
  destruct (orig_loop_trace (cells (polydirs_ptr idata) w1) idata w1)
    as (el & Et & Hc & Hr).
  assert (Hlog : forall c e, In (EvCall c e) e0 -> False).
  { intros c e Hin. exact (In_log_call e0 c e L0 Hin). }
  destruct (fst (orig_loop (cells (polydirs_ptr idata) w1) idata w1)).
  - rewrite run_bind. cbn [ret snd].
    destruct (adds_cleanup_tmpdirs idata
                (snd (orig_loop (cells (polydirs_ptr idata) w1) idata w1)))
      as (ec & Ec & Fc).
    exists (ec ++ el ++ e0)%list. split.
    { rewrite Ec, Et. unfold w1. cbn [w_trace set_trace].
      rewrite <- !app_assoc. reflexivity. }
    left. intros d e Hin. apply in_app_or in Hin. destruct Hin as [Hin|Hin].
    + rewrite Forall_forall in Fc. contradiction (Fc _ Hin).
    + apply in_app_or in Hin. destruct Hin as [Hin|Hin];
        [exact (Hr d e Hin) | contradiction (Hlog _ e Hin)].
  - cbn [ret snd]. destruct Hr as (d & e & rest & He & -> & Hrest).
    exists (EvLog LOG_ERR "Unmount of %s failed, %m"
            :: EvCall (c_umount d) e :: rest ++ e0)%list.
    split.
    { rewrite Et. unfold w1. cbn [w_trace set_trace app].
      rewrite <- app_assoc. reflexivity. }
    right. exists d, e, (rest ++ e0)%list. split; [exact He|].
    split; [reflexivity|].
    intros d' e' Hin. apply in_app_or in Hin. destruct Hin as [Hin|Hin];
      [exact (Hrest d' e' Hin) | contradiction (Hlog _ e' Hin)].
Qed.

Lemma adds_init_flags : adds (fun c => c = c_getexeccon) init_flags.
Proof.
  unfold init_flags, ctxt_based_inst_needed, getexeccon.
  repeat first
    [ apply adds_ret | apply adds_gets
    | apply adds_sys; [reflexivity | keeps_tac]
    | apply adds_bind; [ | intros ]
    | match goal with
      | |- adds _ (if ?b then _ else _) => destruct b
      | |- adds _ (match ?x with _ => _ end) => destruct x
      end ].
Qed.

(** The run of a session close that retrieves the list: its value, the slot
    and the heap at the end, and its history in three parts: what follows
    the teardown, the teardown, and what comes before it. *)
Lemma close_session_run :
  forall (argv : list string) (w : world) (a : nat) (user_name : string)
         (pw : passwd),
    ~ In "no_unmount_on_close" argv ->
    (forall t, fault (w_os w) t (c_pam_get_item PAM_USER) = 0) ->
    pam_user (w_os w) = Some user_name ->
    getpwnam (w_os w) user_name = Some pw ->
    w_data w = Some (Some a, true) ->
    result (pam_sm_close_session argv) w = PAM_SUCCESS
    /\ w_data (after (pam_sm_close_session argv) w) = Some (None, false)
    /\ w_heap (after (pam_sm_close_session argv) w) a = None
    /\ exists evA evB evC,
         w_trace (after (pam_sm_close_session argv) w)
         = ((evA ++ evB ++ evC) ++ w_trace w)%list
         /\ In (EvCall (c_pam_set_data None) 0) evA
         /\ (forall c e, In (EvCall c e) evA -> c = c_pam_set_data None)
         /\ (forall d e, ~ In (EvCall (c_umount d) e) evC)
         /\ ((forall d e, In (EvCall (c_umount d) e) evB -> e = 0)
             \/ exists d e rest,
                  e <> 0
                  /\ evB = EvLog LOG_ERR "Unmount of %s failed, %m"
                           :: EvCall (c_umount d) e :: rest
                  /\ (forall d' e', In (EvCall (c_umount d') e') rest -> e' = 0)).
Proof.
  intros argv w a user_name pw Hargv Hitem Huser Hpw Hdata.
  unfold result, after.
  change (wp (pam_sm_close_session argv)
             (fun r w' =>
                r = PAM_SUCCESS /\ w_data w' = Some (None, false)
                /\ w_heap w' a = None
                /\ exists evA evB evC,
                     w_trace w' = ((evA ++ evB ++ evC) ++ w_trace w)%list
                     /\ In (EvCall (c_pam_set_data None) 0) evA
                     /\ (forall c e, In (EvCall c e) evA -> c = c_pam_set_data None)
                     /\ (forall d e, ~ In (EvCall (c_umount d) e) evC)
                     /\ ((forall d e, In (EvCall (c_umount d) e) evB -> e = 0)
                         \/ exists d e rest,
                              e <> 0
                              /\ evB = EvLog LOG_ERR "Unmount of %s failed, %m"
                                       :: EvCall (c_umount d) e :: rest
                              /\ (forall d' e',
                                    In (EvCall (c_umount d') e') rest -> e' = 0))) w).
  unfold pam_sm_close_session.
  apply wp_bind. unfold wp at 1.
  pose proof (init_flags_no_unmount_bit w) as Hbit.
  pose proof (keeps_init_flags (fun w => (w_os w, w_data w))
                ltac:(intros ? ?; reflexivity) w) as E1.
  inversion E1 as [[Eo1 Ed1]]. clear E1.
  destruct (adds_init_flags w) as (e0 & Et0 & F0).
  set (fl0 := fst (init_flags w)) in *. set (w1 := snd (init_flags w)) in *.
  clearbody fl0 w1.
  rewrite (close_args_keeps_bit argv fl0 Hbit Hargv).
  apply wp_bind. apply wp_debug. intros ev1 L1.
  apply wp_bind. eapply wp_eq; [apply pam_get_item_run|].
  wp_simp. rewrite Eo1, Hitem, Huser. wp_simp.
  apply wp_bind. unfold pam_modutil_getpwnam. apply wp_gets. wp_simp.
  rewrite Eo1, Hpw.
  apply wp_bind. eapply wp_eq; [apply pam_get_data_run|].
  wp_simp. rewrite Ed1, Hdata. wp_simp.
  apply wp_bind. apply wp_debug. intros ev2 L2. wp_simp.
  apply wp_bind. unfold wp at 1.
  match goal with
  | |- context [orig_namespace ?i ?x] =>
      destruct (orig_namespace_trace i x) as (evB & EtB & HB);
      pose proof (keeps_orig_namespace w_data i
                    ltac:(intros ? ?; reflexivity) ltac:(intros ? ?; reflexivity)
                    ltac:(intros ? ?; reflexivity) ltac:(intros ? ?; reflexivity)
                    ltac:(intros ? ?; reflexivity) x) as Ed2;
      set (w2 := snd (orig_namespace i x)) in *;
      set (rv := fst (orig_namespace i x)) in *;
      clearbody w2 rv
  end.
  wp_simp.
  apply wp_bind. apply wp_debug. intros ev3 L3. wp_simp.
  apply wp_bind.
  eapply wp_eq.
  { apply (pam_set_data_replace None false (Some a) true).
    cbn. rewrite Ed2, Ed1. exact Hdata. }
  wp_simp. apply wp_ret. wp_simp.
  split; [reflexivity|]. split; [reflexivity|].
  split.
  { unfold cleanup_data, del_polydir_list, modify. cbn.
    rewrite Nat.eqb_refl. reflexivity. }
  exists (EvCall (c_pam_set_data None) 0 :: ev3), evB,
    (ev2 ++ EvCall c_pam_get_data PAM_SUCCESS
         :: EvCall (c_pam_get_item PAM_USER) 0 :: ev1 ++ e0)%list.
  split.
  { unfold cleanup_data, del_polydir_list, modify.
    cbn [snd w_trace set_heap set_trace]. rewrite EtB, Et0.
    cbn [app]. rewrite <- !app_assoc. cbn [app]. rewrite <- !app_assoc.
    reflexivity. }
  split; [left; reflexivity|].
  split.
  { intros c e [Hin|Hin]; [injection Hin as <- _; reflexivity|].
    contradiction (In_log_call ev3 c e L3 Hin). }
  split; [|exact HB].
  intros d e Hin. apply in_app_or in Hin. destruct Hin as [Hin|Hin];
    [exact (In_log_call ev2 _ e L2 Hin)|].
  destruct Hin as [Hin|[Hin|Hin]]; [discriminate Hin | discriminate Hin |].
  apply in_app_or in Hin. destruct Hin as [Hin|Hin];
    [exact (In_log_call ev1 _ e L1 Hin)|].
  rewrite Forall_forall in F0. specialize (F0 _ Hin). discriminate F0.
Qed.

(** C10.  A session close that retrieves the published list
    (no_unmount_on_close is not given, PAM_USER is there and known, the slot
    holds a list, which is live) returns PAM_SUCCESS in every environment,
    whatever becomes of the unmounts and of the cleanup pass, and the slot
    is cleared afterwards: it holds NULL, and the cleanup registered with
    the list has freed it.  An unmount that fails is logged and is the last
    one: wherever the history of the close has an unmount that failed, what
    follows it holds the line [Unmount of %s failed] and no call but the
    pam_set_data that clears the slot: no further unmount, and no cleanup
    pass either. *)
Theorem close_session_succeeds :
  forall (argv : list string) (w : world) (a : nat) (l : list polydir_s)
         (user_name : string) (pw : passwd),
    ~ In "no_unmount_on_close" argv ->
    (forall t, fault (w_os w) t (c_pam_get_item PAM_USER) = 0) ->
    pam_user (w_os w) = Some user_name ->
    getpwnam (w_os w) user_name = Some pw ->
    w_data w = Some (Some a, true) ->
    w_heap w a = Some l ->
    result (pam_sm_close_session argv) w = PAM_SUCCESS
    /\ w_data (after (pam_sm_close_session argv) w) = Some (None, false)
    /\ w_heap (after (pam_sm_close_session argv) w) a = None
    /\ (forall post d e pre,
          events_of (pam_sm_close_session argv) w
          = (post ++ EvCall (c_umount d) e :: pre)%list ->
          e <> 0 ->
          In (EvLog LOG_ERR "Unmount of %s failed, %m") post
          /\ In (EvCall (c_pam_set_data None) 0) post
          /\ (forall c e', In (EvCall c e') post -> c = c_pam_set_data None)).
Proof.
  intros argv w a l user_name pw Hargv Hitem Huser Hpw Hdata _.
  destruct (close_session_run argv w a user_name pw Hargv Hitem Huser Hpw Hdata)
    as (H1 & H2 & H3 & evA & evB & evC & Et & HA0 & HA & HC & HB).
  split; [exact H1|]. split; [exact H2|]. split; [exact H3|].
  intros post d e pre Ev He.
  rewrite (events_of_trace _ _ _ Et) in Ev.
  set (P := fun x : event => exists d e, x = EvCall (c_umount d) e /\ e <> 0).
  assert (Px : P (EvCall (c_umount d) e)) by (exists d, e; split; [reflexivity | exact He]).
  assert (PA : forall y, In y evA -> ~ P y).
  { intros y Hy (d' & e' & -> & _). discriminate (HA _ _ Hy). }
  assert (PC : forall y, In y evC -> ~ P y).
  { intros y Hy (d' & e' & -> & _). exact (HC _ _ Hy). }
  destruct HB as [HB | (d0 & e0 & rest & He0 & -> & Hrest)].
  - exfalso.
    assert (Hin : In (EvCall (c_umount d) e) (evA ++ evB ++ evC)%list).
    { rewrite Ev. apply in_or_app. right. left. reflexivity. }
    apply in_app_or in Hin. destruct Hin as [Hin|Hin]; [exact (PA _ Hin Px)|].
    apply in_app_or in Hin. destruct Hin as [Hin|Hin]; [|exact (PC _ Hin Px)].
    exact (He (HB _ _ Hin)).
  - assert (E : (post ++ EvCall (c_umount d) e :: pre
                 = (evA ++ [EvLog LOG_ERR "Unmount of %s failed, %m"])
                   ++ EvCall (c_umount d0) e0 :: (rest ++ evC))%list).
    { rewrite <- Ev. rewrite <- !app_assoc. reflexivity. }
    destruct (split_unique P _ _ _ _ _ _ E Px) as (-> & _ & _).
    + intros y Hy. apply in_app_or in Hy. destruct Hy as [Hy|[<-|[]]];
        [exact (PA _ Hy)|].
      intros (d' & e' & Hd & _). discriminate Hd.
    + intros y Hy. apply in_app_or in Hy. destruct Hy as [Hy|Hy];
        [|exact (PC _ Hy)].
      intros (d' & e' & -> & Hn). exact (Hn (Hrest _ _ Hy)).
    + split; [apply in_or_app; right; left; reflexivity|].
      split; [apply in_or_app; left; exact HA0|].
      intros c e' Hin. apply in_app_or in Hin. destruct Hin as [Hin|[Hin|[]]];
        [exact (HA _ _ Hin) | discriminate Hin].
Qed.

(** C10 on the sample machine, with the unmount of alice's home failing
    (EBUSY): the close returns PAM_SUCCESS, the slot is cleared, and the
    history of the close ends with the failed unmount, the line of the log
    and the call that clears the slot. *)
Lemma close_session_succeeds_witness :
  events_of (pam_sm_close_session []) (Sample2.opened Sample2.no_umount)
  = [EvCall (c_pam_set_data None) 0;
     EvLog LOG_ERR "Unmount of %s failed, %m";
     EvCall (c_umount "/home/alice") 16;
     EvCall c_pam_get_data 0;
     EvCall (c_pam_get_item PAM_USER) 0]
  /\ result (pam_sm_close_session []) (Sample2.opened Sample2.no_umount)
     = PAM_SUCCESS
  /\ w_data (after (pam_sm_close_session []) (Sample2.opened Sample2.no_umount))
     = Some (None, false)
  /\ w_heap (after (pam_sm_close_session []) (Sample2.opened Sample2.no_umount)) O
     = None
  /\ In (EvLog LOG_ERR "Unmount of %s failed, %m")
        [EvCall (c_pam_set_data None) 0;
         EvLog LOG_ERR "Unmount of %s failed, %m"].
Proof.
  assert (Ev : events_of (pam_sm_close_session [])
                 (Sample2.opened Sample2.no_umount)
               = ([EvCall (c_pam_set_data None) 0;
                   EvLog LOG_ERR "Unmount of %s failed, %m"]
                  ++ EvCall (c_umount "/home/alice") 16
                  :: [EvCall c_pam_get_data 0;
                      EvCall (c_pam_get_item PAM_USER) 0])%list)
    by (vm_compute; reflexivity).
  destruct (close_session_succeeds [] (Sample2.opened Sample2.no_umount) O
              [Sample2.home_made] "alice" (mk_passwd 1000 "/home/alice")
              ltac:(intros [])
              ltac:(intros t; reflexivity) eq_refl eq_refl eq_refl eq_refl)
    as (H1 & H2 & H3 & H4).
  split; [exact Ev|]. split; [exact H1|]. split; [exact H2|].
  split; [exact H3|].
  exact (proj1 (H4 _ _ _ _ Ev ltac:(discriminate))).
Defined.

(* ===================================================================== *)
(** ** C2: what a failed setup leaves of the earlier mounts *)
(* ===================================================================== *)

Lemma holds_ret {A} (P : world -> Prop) (a : A) : holds P (ret a).
Proof. intros w H. exact H. Qed.

Lemma holds_bind {A B} (P : world -> Prop) (m : M A) (k : A -> M B) :
  holds P m -> (forall a, holds P (k a)) -> holds P (bind m k).
Proof. intros Hm Hk w H. rewrite run_bind. apply Hk, Hm, H. Qed.

(** An invariant that is read off what a computation keeps. *)
Lemma holds_keeps {X A} (f : world -> X) (P : world -> Prop) (m : M A) :
  (forall w w', f w' = f w -> P w -> P w') -> keeps f m -> holds P m.
Proof. intros Hf K w H. exact (Hf w _ (K w) H). Qed.

Lemma holds_sys {A} (P : world -> Prop) c (d : A) body :
  (forall t w, P w -> P (set_trace t w)) ->
  holds P body -> holds P (sys c d body).
Proof.
  intros Ht Hb w H. rewrite run_sys.
  destruct (_ =? 0); cbn [snd]; apply Ht; [apply Hb|]; exact H.
Qed.

(** One step of an invariant proof: a hypothesis, the frame [f], a bind or a
    test. *)
Ltac holds_step f Hf :=
  first
    [ solve [eauto 2]
    | apply (holds_keeps f _ _ Hf); solve [eauto 3 with keeps]
    | apply holds_bind; [ | intros ]
    | match goal with
      | |- holds _ (if ?b then _ else _) => destruct b
      | |- holds _ (match ?x with _ => _ end) => destruct x
      end ].

Ltac holds_tac f Hf := repeat holds_step f Hf.

(** What a field of the world does not depend on, for the frame lemmas. *)
Ltac frame_facts f :=
  try (assert (ignores_trace f) by (intros ? ?; reflexivity));
  try (assert (ignores_fs f) by (intros ? ?; reflexivity));
  try (assert (ignores_mounts f) by (intros ? ?; reflexivity));
  try (assert (ignores_fds f) by (intros ? ? ?; reflexivity));
  try (assert (ignores_cwd f) by (intros ? ?; reflexivity));
  try (assert (ignores_sigchld f) by (intros ? ?; reflexivity));
  try (assert (ignores_children f) by (intros ? ?; reflexivity));
  try (assert (ignores_heap f) by (intros ? ? ?; reflexivity)).

(** *** The mount table *)

Lemma has_mount_frame os mnt w w' :
  (w_os w', w_mounts w') = (w_os w, w_mounts w) ->
  has_mount os mnt w -> has_mount os mnt w'.
Proof.
  intros E [H1 H2]. injection E as E1 E2. split; congruence.
Qed.

Lemma has_mount_trace os mnt t w :
  has_mount os mnt w -> has_mount os mnt (set_trace t w).
Proof. intros H. exact H. Qed.

(** A mount adds to the table. *)
Lemma holds_mount os mnt s t ty fl :
  holds (has_mount os mnt) (mount s t ty fl).
Proof.
  apply holds_bind; [|intros; apply holds_ret].
  apply holds_sys; [apply has_mount_trace|].
  intros w [H1 H2]. cbv zeta. destruct (_ =? 0); cbn [snd]; split; try assumption.
  right. exact H2.
Qed.

Lemma unmount_top_other t mnt l :
  mount_target mnt <> t -> In mnt l -> In mnt (unmount_top t l).
Proof.
  intros Hne. induction l as [|m l IH]; intros Hin; [exact Hin|].
  cbn [unmount_top]. destruct (mounted_on t m) eqn:E.
  - destruct Hin as [->|Hin]; [|exact Hin].
    apply String.eqb_eq in E. contradiction.
  - destruct Hin as [->|Hin]; [left; reflexivity | right; apply IH, Hin].
Qed.

(** An unmount takes a mount on its own target only. *)
Lemma holds_umount os mnt t :
  mount_target mnt <> t -> holds (has_mount os mnt) (umount t).
Proof.
  intros Hne.
  apply holds_bind; [|intros; apply holds_ret].
  apply holds_sys; [apply has_mount_trace|].
  intros w [H1 H2]. destruct (w_fs w t); [|split; assumption].
  destruct (existsb _ _); cbn [snd]; split; try assumption.
  apply unmount_top_other; assumption.
Qed.

(** A child that ends: rm changes no mount, and the init script is asked to
    leave them. *)
Lemma holds_waitpid os mnt pid :
  script_keeps_mounts os -> holds (has_mount os mnt) (waitpid pid).
Proof.
  intros Hs.
  apply holds_bind; [|intros; apply holds_ret].
  apply holds_sys; [apply has_mount_trace|].
  intros w [H1 H2].
  destruct (assoc_find pid (w_children w)) as [[p a]|]; [|split; assumption].
  cbn [snd]. unfold child_effect.
  destruct (String.eqb p "/bin/rm").
  - destruct a as [|? [|? [|? [|? ?]]]]; try (split; assumption).
    destruct (String.eqb _ _); [|split; assumption].
    destruct (_ && _); split; assumption.
  - cbv zeta. split; [exact H1|].
    cbn [w_mounts set_mounts set_fs set_children w_os w_fs w_trace].
    rewrite H1, Hs. exact H2.
Qed.

Section Mounts.

Variable os : oracle.
Variable mnt : string * string * string.
Hypothesis Hscript : script_keeps_mounts os.

Let f := fun w : world => (w_os w, w_mounts w).

Lemma holds_mount_inst_init polyptr ipath idata newdir :
  holds (has_mount os mnt) (inst_init polyptr ipath idata newdir).
Proof.
  frame_facts f.
  pose proof (holds_waitpid os mnt) as Hw.
  pose proof (has_mount_frame os mnt) as Hf.
  unfold inst_init. holds_tac f Hf.
Qed.

Lemma holds_mount_dress_new_dir r ipath sb ic oc idata :
  holds (has_mount os mnt) (dress_new_dir r ipath sb ic oc idata).
Proof.
  frame_facts f.
  pose proof holds_mount_inst_init as Hi.
  pose proof (has_mount_frame os mnt) as Hf.
  unfold dress_new_dir, fsetfilecon, fchown, fchmod. holds_tac f Hf.
Qed.

Lemma holds_mount_create_dirs p ipath ic oc idata :
  holds (has_mount os mnt) (create_dirs p ipath ic oc idata).
Proof.
  frame_facts f.
  pose proof holds_mount_inst_init as Hi.
  pose proof holds_mount_dress_new_dir as Hd.
  pose proof (keeps_check_inst_parent f) as Kc.
  pose proof (has_mount_frame os mnt) as Hf.
  unfold create_dirs. holds_tac f Hf.
Qed.

Lemma holds_mount_ns_setup p idata :
  holds (has_mount os mnt) (ns_setup p idata).
Proof.
  frame_facts f.
  pose proof holds_mount_inst_init as Hi.
  pose proof holds_mount_create_dirs as Hc.
  pose proof (holds_mount os mnt) as Hm.
  pose proof (keeps_poly_name f) as Kp.
  pose proof (has_mount_frame os mnt) as Hf.
  unfold ns_setup. holds_tac f Hf.
Qed.

Lemma holds_mount_unmount_rule pptr idata :
  mount_target mnt <> dir pptr ->
  holds (has_mount os mnt) (unmount_rule pptr idata).
Proof.
  intros Hne. frame_facts f.
  pose proof (holds_umount os mnt (dir pptr) Hne) as Hu.
  pose proof (keeps_cwd_in f) as Kc.
  pose proof (has_mount_frame os mnt) as Hf.
  unfold unmount_rule. holds_tac f Hf.
Qed.

(** One turn of the second loop keeps a mount when the loop unmounts
    nothing or the rule of the turn is on another directory. *)
Lemma setup_rule_keeps_mount p idata unmnt req w :
  has_mount os mnt w ->
  unmnt = NO_UNMNT \/ dir_of_cell p w <> mount_target mnt ->
  has_mount os mnt (snd (setup_rule p idata unmnt req w)).
Proof.
  intros Hw Hc. frame_facts f.
  pose proof (has_mount_frame os mnt) as Hf.
  pose proof holds_mount_ns_setup as Hn.
  unfold setup_rule. rewrite run_bind.
  change (snd (load p w)) with w.
  change (dir_of_cell p w) with (dir (fst (load p w))) in Hc.
  set (pptr := fst (load p w)) in *. clearbody pptr.
  revert w Hw. change (holds (has_mount os mnt)
    (o <- overridden pptr idata unmnt req ;;
     match o with
     | (true, true) => ret None
     | _ =>
         let dir_unmnt := if fst o then UNMNT_ONLY else unmnt in
         debug idata LOG_DEBUG "Setting poly ns for user %d for dir %s" ;;
         u <- (if unmnt_op_eqb dir_unmnt UNMNT_REMNT
                  || unmnt_op_eqb dir_unmnt UNMNT_ONLY
               then unmount_rule pptr idata
               else ret None) ;;
         match u with
         | Some retval => ret (Some retval)
         | None =>
             if negb (unmnt_op_eqb dir_unmnt UNMNT_ONLY) then
               retval <- ns_setup p idata ;;
               if negb (retval =? PAM_SUCCESS) then ret (Some retval)
               else ret None
             else ret None
         end
     end)).
  destruct Hc as [-> | Hne].
  - intros w Hw.
    destruct (overridden_run pptr idata NO_UNMNT req w) as (evs & L & E).
    rewrite (bind_eq _ _ _ _ _ E).
    assert (Hw' : has_mount os mnt (set_trace (evs ++ w_trace w)%list w))
      by exact Hw.
    revert Hw'. generalize (set_trace (evs ++ w_trace w)%list w).
    cbn [unmnt_op_eqb orb].
    destruct (is_overridden pptr (id_uid idata)); cbn [fst snd].
    + intros w1 Hx. exact Hx.
    + cbn [unmnt_op_eqb orb negb]. change (holds (has_mount os mnt)
        (debug idata LOG_DEBUG "Setting poly ns for user %d for dir %s" ;;
         u <- ret None ;;
         match u with
         | Some retval => ret (Some retval)
         | None =>
             retval <- ns_setup p idata ;;
             if negb (retval =? PAM_SUCCESS) then ret (Some retval)
             else ret None
         end)).
      holds_tac f Hf.
  - assert (Hu : holds (has_mount os mnt) (unmount_rule pptr idata)).
    { apply holds_mount_unmount_rule. congruence. }
    pose proof (keeps_overridden f) as Ko.
    holds_tac f Hf.
Qed.

End Mounts.

(** *** The dirs of the rule list *)

Lemma list_set_dir i r (l : list polydir_s) :
  dir r = dir (nth i l null_rule) ->
  map dir (list_set i r l) = map dir l.
Proof.
  revert i. induction l as [|x l IH]; intros [|i] H; cbn in *;
    try reflexivity.
  - rewrite H. reflexivity.
  - rewrite IH by exact H. reflexivity.
Qed.

Lemma list_set_nth_dir i j r (l : list polydir_s) :
  dir r = dir (nth i l null_rule) ->
  dir (nth j (list_set i r l) null_rule) = dir (nth j l null_rule).
Proof.
  intros H. rewrite <- (map_nth dir), <- (map_nth dir l).
  rewrite list_set_dir by exact H. reflexivity.
Qed.

(** A store into the cell at [p] that keeps its dir keeps the dirs of every
    list. *)
Lemma holds_dirs_store a D p r :
  holds (has_dirs a D p (dir r)) (store p r).
Proof.
  intros w [H1 H2]. unfold has_dirs, dirs_at, dir_of_cell, store, modify, cells in *.
  cbn [snd fst w_heap set_heap]. rewrite Nat.eqb_refl.
  destruct (Nat.eqb a (fst p)) eqn:E.
  - apply Nat.eqb_eq in E. subst a.
    destruct (w_heap w (fst p)) as [l|]; cbn [option_map]; [|split; assumption].
    split.
    + rewrite list_set_dir; [exact H1 | symmetry; exact H2].
    + rewrite list_set_nth_dir; [exact H2 | symmetry; exact H2].
  - split; [exact H1|].
    destruct (w_heap w (fst p)) as [l|]; cbn [option_map]; [|exact H2].
    rewrite list_set_nth_dir; [exact H2 | symmetry; exact H2].
Qed.

Lemma has_dirs_frame a D p d w w' :
  (dirs_at a w', dir_of_cell p w') = (dirs_at a w, dir_of_cell p w) ->
  has_dirs a D p d w -> has_dirs a D p d w'.
Proof.
  intros E [H1 H2]. injection E as E1 E2. split; congruence.
Qed.

Lemma keeps_dirs_create_dirs a p ipath ic oc idata :
  keeps (dirs_at a) (create_dirs p ipath ic oc idata).
Proof.
  intros w.
  set (f := fun w : world => (dirs_at a w, dir_of_cell p w)).
  frame_facts f.
  pose proof (keeps_inst_init f) as Ki.
  pose proof (keeps_check_inst_parent f) as Kc.
  pose proof (keeps_dress_new_dir f) as Kd.
  unfold create_dirs. rewrite run_bind.
  change (snd (load p w)) with w.
  assert (Hd : dir (fst (load p w)) = dir_of_cell p w) by reflexivity.
  set (polyptr := fst (load p w)) in *. clearbody polyptr.
  pose proof (has_dirs_frame a (dirs_at a w) p (dir polyptr)) as Hf.
  assert (Hs1 : holds (has_dirs a (dirs_at a w) p (dir polyptr))
                      (store p (set_method NONE polyptr)))
    by exact (holds_dirs_store a (dirs_at a w) p (set_method NONE polyptr)).
  assert (Hs2 : forall name,
             holds (has_dirs a (dirs_at a w) p (dir polyptr))
                   (store p (set_instance_prefix name polyptr)))
    by (intros name;
        exact (holds_dirs_store a (dirs_at a w) p
                 (set_instance_prefix name polyptr))).
  assert (Hw : has_dirs a (dirs_at a w) p (dir polyptr) w)
    by (split; [reflexivity | symmetry; exact Hd]).
  cbv beta.
  match goal with
  | |- dirs_at a (snd (?m w)) = _ =>
      assert (Hh : holds (has_dirs a (dirs_at a w) p (dir polyptr)) m)
  end.
  { clear Hw Hd. revert Hs1 Hs2 Hf. generalize (dirs_at a w) as D.
    intros D Hs1 Hs2 Hf. holds_tac f Hf. }
  destruct (Hh w Hw) as [E _]. exact E.
Qed.

Lemma keeps_dirs_ns_setup a p idata : keeps (dirs_at a) (ns_setup p idata).
Proof.
  frame_facts (dirs_at a).
  pose proof (keeps_inst_init (dirs_at a)) as Ki.
  pose proof (keeps_poly_name (dirs_at a)) as Kp.
  pose proof (keeps_dirs_create_dirs a) as Kc.
  unfold ns_setup. keeps_tac.
Qed.

Lemma keeps_dirs_setup_rule a p idata unmnt req :
  keeps (dirs_at a) (setup_rule p idata unmnt req).
Proof.
  frame_facts (dirs_at a).
  pose proof (keeps_dirs_ns_setup a) as Kn.
  pose proof (keeps_cwd_in (dirs_at a)) as Kc.
  pose proof (keeps_overridden (dirs_at a)) as Ko.
  unfold setup_rule, unmount_rule. keeps_tac.
Qed.

Lemma keeps_dirs_setup_loop b n i a idata unmnt req :
  keeps (dirs_at b) (setup_loop n i a idata unmnt req).
Proof.
  revert i. induction n as [|n IH]; intros i; cbn [setup_loop].
  - intros w. reflexivity.
  - pose proof (keeps_dirs_setup_rule b) as Kr. keeps_tac.
Qed.

Lemma keeps_os_setup_loop n i a idata unmnt req :
  keeps w_os (setup_loop n i a idata unmnt req).
Proof. apply keeps_setup_loop; intros ? ?; try intros ?; reflexivity. Qed.

Lemma dir_of_cell_nth a i w :
  dir_of_cell (a, i) w = nth i (dirs_at a w) EmptyString.
Proof.
  unfold dir_of_cell, dirs_at. cbn [fst snd].
  change EmptyString with (dir null_rule). rewrite map_nth. reflexivity.
Qed.

(** The second loop over [n] rules from the one at [i] keeps a mount when
    it unmounts nothing or none of these rules is on the mount's target. *)
Lemma setup_loop_keeps_mount os mnt idata unmnt req a :
  script_keeps_mounts os ->
  forall n i w,
    has_mount os mnt w ->
    unmnt = NO_UNMNT
    \/ (forall i', (i <= i' < i + n)%nat ->
                   dir_of_cell (a, i') w <> mount_target mnt) ->
    has_mount os mnt (snd (setup_loop n i a idata unmnt req w)).
Proof.
  intros Hs. induction n as [|n IH]; intros i w Hw Hc; cbn [setup_loop].
  - exact Hw.
  - rewrite run_bind.
    assert (H1 : has_mount os mnt (snd (setup_rule (a, i) idata unmnt req w))).
    { apply setup_rule_keeps_mount; [exact Hs | exact Hw |].
      destruct Hc as [Hc|Hc]; [left; exact Hc | right; apply Hc; lia]. }
    destruct (fst (setup_rule (a, i) idata unmnt req w)); [exact H1|].
    apply IH; [exact H1|].
    destruct Hc as [Hc|Hc]; [left; exact Hc | right].
    intros i' Hi'. rewrite dir_of_cell_nth, keeps_dirs_setup_rule.
    rewrite <- dir_of_cell_nth. apply Hc. lia.
Qed.

Lemma cleanup_tmpdirs_os idata w :
  w_os (snd (cleanup_tmpdirs idata w)) = w_os w.
Proof. apply (keeps_cleanup_tmpdirs w_os); intros ? ?; reflexivity. Qed.




(* ===================================================================== *)
(** ** C9: the setup of a rule does not look at its names *)
(* ===================================================================== *)

Ltac wp_sub ::=
  lazymatch goal with
  | |- wp (inst_init _ _ _ _) _ _ =>
      apply wp_inst_init_ok; [ | | intros ? ? ?]
  | |- wp (mkdtemp _) _ _ => eapply wp_eq; [apply mkdtemp_run|]
  | |- wp (store _ _) _ _ => apply wp_modify
  end.

Lemma create_dirs_user_ok p ipath ic oc idata w orig parent :
  method (result (load p) w) <> TMPDIR ->
  quiet (w_os w) ->
  WITH_SELINUX (w_os w) = false ->
  w_fs w (dir (result (load p) w)) = Some orig ->
  S_ISDIR (st_mode orig) = true ->
  w_fs w (inst_parent_of ipath) = Some parent ->
  S_ISDIR (st_mode parent) = true ->
  Z.land (st_mode parent) S_IRWXUGO = 0 ->
  w_fs w NAMESPACE_INIT_SCRIPT = None ->
  ipath <> NAMESPACE_INIT_SCRIPT ->
  0 <= w_next_fd w ->
  fst (create_dirs p ipath ic oc idata w) = (PAM_SUCCESS, ipath)
  /\ w_os (snd (create_dirs p ipath ic oc idata w)) = w_os w
  /\ (exists i, w_fs (snd (create_dirs p ipath ic oc idata w)) ipath = Some i)
  /\ (forall q, q <> ipath ->
        w_fs (snd (create_dirs p ipath ic oc idata w)) q = w_fs w q).
Proof.
  intros Hm Hq Hse Horig Hdir Hpar Hpdir Hpmode Hscript Hne Hfd.
  assert (Hp0 : truthy (Z.land (st_mode parent) S_IRWXUGO) = false)
    by (rewrite Hpmode; reflexivity).
  change (wp (create_dirs p ipath ic oc idata)
             (fun r w' => r = (PAM_SUCCESS, ipath)
                          /\ w_os w' = w_os w
                          /\ (exists i, w_fs w' ipath = Some i)
                          /\ (forall q, q <> ipath -> w_fs w' q = w_fs w q)) w).
  unfold create_dirs. apply wp_bind. apply wp_gets.
  change (nth (snd p) (cells (Some (fst p)) w) null_rule)
    with (result (load p) w).
  set (rule := result (load p) w) in *.
  assert (Ht : polymethod_eqb (method rule) TMPDIR = false).
  { destruct (method rule); try reflexivity. contradiction Hm. reflexivity. }
  rewrite Ht.
  unfold dress_new_dir, fchown, fchmod, fsetfilecon, check_inst_parent, quiet in *.
  destruct (w_fs w ipath) as [i|] eqn:Hfs.
  all: wp_with ltac:(first [ progress subst_world
                      | progress (unfold fd_inode)
                      | progress (cbn [st_mode st_uid st_gid st_con])
                      | rewrite Hq | rewrite Hse
                      | rewrite Hfs | rewrite Horig | rewrite Hdir
                      | rewrite Hpar | rewrite Hpdir | rewrite Hp0
                      | rewrite andb_false_r | rewrite Z.eqb_refl
                      | rewrite truthy_0 | rewrite truthy_EEXIST
                      | rewrite S_ISDIR_new_dir
                      | rewrite fs_set_same ]).
  all: try discriminate.
  all: try (intros; apply Hq).
  all: try (unfold fs_set;
            destruct (String.eqb_spec NAMESPACE_INIT_SCRIPT ipath);
            [congruence | exact Hscript]).
  all: try exact Hscript.
  all: try (exfalso; apply Z.ltb_lt in Heqb0; lia).
  all: split; [reflexivity|]; split; [reflexivity|].
  all: split; [eexists; first [reflexivity | exact Hfs]|].
  all: intros q Hq'; rewrite ?fs_set_other by (apply String.eqb_neq; exact Hq').
  all: reflexivity.
Qed.

Lemma S_ISDIR_new_dir_rwx w : S_ISDIR (st_mode (new_dir S_IRWXU w)) = true.
Proof. reflexivity. Qed.

Lemma create_dirs_tmpdir_ok p ipath ic oc idata w orig parent :
  let r := result (load p) w in
  let made t := CStr.take (String.length (instance_prefix r) - 6)
                          (instance_prefix r)
                ++ temp_suffix (w_os w) t in
  method r = TMPDIR ->
  quiet (w_os w) ->
  WITH_SELINUX (w_os w) = false ->
  w_fs w (dir r) = Some orig ->
  S_ISDIR (st_mode orig) = true ->
  w_fs w (inst_parent_of ipath) = Some parent ->
  S_ISDIR (st_mode parent) = true ->
  Z.land (st_mode parent) S_IRWXUGO = 0 ->
  w_fs w NAMESPACE_INIT_SCRIPT = None ->
  has_template (instance_prefix r) = true ->
  (forall t, w_fs w (made t) = None /\ made t <> NAMESPACE_INIT_SCRIPT) ->
  0 <= w_next_fd w ->
  exists t,
    fst (create_dirs p ipath ic oc idata w) = (PAM_SUCCESS, made t)
    /\ w_os (snd (create_dirs p ipath ic oc idata w)) = w_os w
    /\ (exists i, w_fs (snd (create_dirs p ipath ic oc idata w)) (made t) = Some i)
    /\ (forall q, q <> made t ->
          w_fs (snd (create_dirs p ipath ic oc idata w)) q = w_fs w q).
Proof.
  intros r made Hm Hq Hse Horig Hdir Hpar Hpdir Hpmode Hscript Htpl Hfree Hfd.
  assert (Hp0 : truthy (Z.land (st_mode parent) S_IRWXUGO) = false)
    by (rewrite Hpmode; reflexivity).
  change (wp (create_dirs p ipath ic oc idata)
             (fun v w' => exists t, v = (PAM_SUCCESS, made t)
                          /\ w_os w' = w_os w
                          /\ (exists i, w_fs w' (made t) = Some i)
                          /\ (forall q, q <> made t -> w_fs w' q = w_fs w q)) w).
  unfold create_dirs. apply wp_bind. apply wp_gets.
  change (nth (snd p) (cells (Some (fst p)) w) null_rule) with r.
  rewrite Hm. cbn [polymethod_eqb]. unfold made in *. clear made.
  unfold dress_new_dir, fchown, fchmod, fsetfilecon, check_inst_parent, quiet in *.
  wp_with ltac:(first [ progress subst_world
                      | progress (unfold fd_inode)
                      | progress (cbn [st_mode st_uid st_gid st_con])
                      | rewrite Hq | rewrite Hse
                      | rewrite Horig | rewrite Hdir
                      | rewrite Hpar | rewrite Hpdir | rewrite Hp0
                      | rewrite andb_false_r | rewrite Z.eqb_refl
                      | rewrite truthy_0 | rewrite Htpl
                      | rewrite S_ISDIR_new_dir_rwx
                      | rewrite fs_set_same
                      | rewrite (proj1 (Hfree _)) ]).
  all: try discriminate.
  all: try (intros; apply Hq).
  all: try (exfalso; apply Z.ltb_lt in Heqb0; lia).
  all: try (unfold fs_set;
            match goal with
            | |- context [temp_suffix _ ?t] =>
                destruct (String.eqb_spec NAMESPACE_INIT_SCRIPT
                            (CStr.take (String.length (instance_prefix r) - 6)
                                       (instance_prefix r)
                             ++ temp_suffix (w_os w) t)) as [E|_];
                [exfalso; exact (proj2 (Hfree t) (eq_sym E)) | exact Hscript]
            end).
  all: eexists; split; [reflexivity|]; split; [reflexivity|].
  all: split; [eexists; rewrite ?fs_set_same; reflexivity|].
  all: intros q Hq'; rewrite ?fs_set_other by (apply String.eqb_neq; exact Hq').
  all: reflexivity.
Qed.

Lemma append_empty (s : string) : (s ++ EmptyString)%string = s.
Proof. induction s as [|a s IH]; cbn; [reflexivity | rewrite IH; reflexivity]. Qed.

(** Without SELinux the name of a rule of the tmpdir method is empty, and
    poly_name writes nothing. *)
Lemma poly_name_tmpdir r idata w :
  method r = TMPDIR -> WITH_SELINUX (w_os w) = false ->
  logs_only (poly_name r idata) (PAM_SUCCESS, Some EmptyString, None, None) w.
Proof.
  intros Hm Hs. exists []. split; [reflexivity|].
  unfold poly_name. rewrite Hm.
  rewrite run_bind. cbn [gets fst snd]. rewrite Hs. cbn [andb].
  rewrite run_bind. cbn [ret fst snd Z.eqb PAM_SUCCESS negb app].
  destruct w; reflexivity.
Qed.

(** The bind mount that ends ns_setup goes through when both ends are
    there. *)
Lemma wp_bind_mount src tgt (Q : Z -> world -> Prop) w i o :
  quiet (w_os w) ->
  w_fs w src = Some i -> w_fs w tgt = Some o ->
  (forall w', In (src, tgt, EmptyString) (w_mounts w') -> Q 0 w') ->
  wp (mount src tgt EmptyString MS_BIND) Q w.
Proof.
  intros Hq Hs Ht H. unfold wp. rewrite mount_run. cbv zeta.
  rewrite Hq. cbn [Z.eqb]. unfold mount_errno. rewrite Ht, Hs.
  cbn [Z.eqb negb Z.land MS_BIND Pos.land fst snd].
  apply H. left. reflexivity.
Qed.

(** A rule of the user method is set up whatever its two path names look
    like: neither is tested again. *)
Lemma ns_setup_user_ok p idata w orig parent :
  let r := result (load p) w in
  let ipath := instance_prefix r ++ fst (hash_name (user idata) idata w) in
  method r = USER ->
  quiet (w_os w) ->
  WITH_SELINUX (w_os w) = false ->
  w_fs w (dir r) = Some orig ->
  S_ISDIR (st_mode orig) = true ->
  w_fs w (inst_parent_of ipath) = Some parent ->
  S_ISDIR (st_mode parent) = true ->
  Z.land (st_mode parent) S_IRWXUGO = 0 ->
  w_fs w NAMESPACE_INIT_SCRIPT = None ->
  ipath <> NAMESPACE_INIT_SCRIPT ->
  0 <= w_next_fd w ->
  fst (ns_setup p idata w) = PAM_SUCCESS
  /\ In (ipath, dir r, EmptyString) (w_mounts (snd (ns_setup p idata w))).
Proof.
  intros r ipath Hm Hq Hs Horig Hdir Hpar Hpdir Hpmode Hscript Hne Hfd.
  change (wp (ns_setup p idata)
             (fun rc w' => rc = PAM_SUCCESS
                           /\ In (ipath, dir r, EmptyString) (w_mounts w')) w).
  unfold ns_setup. apply wp_bind, wp_gets.
  change (nth (snd p) (cells (Some (fst p)) w) null_rule) with r.
  apply wp_bind, wp_debug. intros evs1 L1. rewrite Hm. cbn [polymethod_eqb].
  apply wp_bind.
  apply (wp_logs_only _ _ _ _
           (poly_name_user r idata (set_trace (evs1 ++ w_trace w) w) Hm Hs)).
  intros evs2 L2. cbn [set_trace w_trace w_os].
  replace (fst (hash_name (user idata) idata _))
    with (fst (hash_name (user idata) idata w))
    by (rewrite !hash_name_value; reflexivity).
  cbn [truthy PAM_SUCCESS Z.eqb negb]. apply wp_bind, wp_gets.
  rewrite set_trace_twice.
  change (WITH_SELINUX (w_os (set_trace _ w))) with (WITH_SELINUX (w_os w)).
  rewrite Hs. cbn [andb]. apply wp_bind, wp_ret.
  apply wp_bind, wp_debug. intros evs3 L3. cbn [show_null].
  fold ipath. apply wp_bind.
  match goal with |- wp _ _ ?x => set (w3 := x) end.
  assert (Hr3 : result (load p) w3 = r) by reflexivity.
  destruct (create_dirs_user_ok p ipath None None idata w3 orig parent)
    as (Hv & Ho & (i & Hi) & Hother);
    rewrite ?Hr3; try assumption.
  { rewrite Hm. discriminate. }
  unfold wp at 1. rewrite Hv.
  set (w4 := snd (create_dirs p ipath None None idata w3)) in *.
  cbn [Z.ltb Z.compare PAM_SUCCESS]. apply wp_bind.
  assert (Hd4 : exists o, w_fs w4 (dir r) = Some o).
  { destruct (String.eqb_spec (dir r) ipath) as [E|E].
    - rewrite E. exists i. exact Hi.
    - exists orig. rewrite Hother by exact E. exact Horig. }
  destruct Hd4 as (o & Hd4).
  apply (wp_bind_mount ipath (dir r) _ w4 i o); try assumption.
  { rewrite Ho. exact Hq. }
  intros w5 Hin. cbn [Z.ltb Z.compare]. apply wp_ret. split; [reflexivity | exact Hin].
Qed.

(** A rule of the tmpdir method is set up whatever its two path names look
    like, when mkdtemp finds its template at the end of the prefix. *)
Lemma ns_setup_tmpdir_ok p idata w orig parent :
  let r := result (load p) w in
  let made t := CStr.take (String.length (instance_prefix r) - 6)
                          (instance_prefix r)
                ++ temp_suffix (w_os w) t in
  method r = TMPDIR ->
  quiet (w_os w) ->
  WITH_SELINUX (w_os w) = false ->
  w_fs w (dir r) = Some orig ->
  S_ISDIR (st_mode orig) = true ->
  w_fs w (inst_parent_of (instance_prefix r)) = Some parent ->
  S_ISDIR (st_mode parent) = true ->
  Z.land (st_mode parent) S_IRWXUGO = 0 ->
  w_fs w NAMESPACE_INIT_SCRIPT = None ->
  has_template (instance_prefix r) = true ->
  (forall t, w_fs w (made t) = None /\ made t <> NAMESPACE_INIT_SCRIPT) ->
  0 <= w_next_fd w ->
  fst (ns_setup p idata w) = PAM_SUCCESS
  /\ exists t, In (made t, dir r, EmptyString)
                  (w_mounts (snd (ns_setup p idata w))).
Proof.
  intros r made Hm Hq Hs Horig Hdir Hpar Hpdir Hpmode Hscript Htpl Hfree Hfd.
  change (wp (ns_setup p idata)
             (fun rc w' => rc = PAM_SUCCESS
                           /\ exists t, In (made t, dir r, EmptyString)
                                           (w_mounts w')) w).
  unfold ns_setup. apply wp_bind, wp_gets.
  change (nth (snd p) (cells (Some (fst p)) w) null_rule) with r.
  apply wp_bind, wp_debug. intros evs1 L1. rewrite Hm. cbn [polymethod_eqb].
  apply wp_bind.
  apply (wp_logs_only _ _ _ _
           (poly_name_tmpdir r idata (set_trace (evs1 ++ w_trace w) w) Hm Hs)).
  intros evs2 L2. cbn [set_trace w_trace w_os].
  cbn [truthy PAM_SUCCESS Z.eqb negb]. apply wp_bind, wp_gets.
  rewrite set_trace_twice.
  change (WITH_SELINUX (w_os (set_trace _ w))) with (WITH_SELINUX (w_os w)).
  rewrite Hs. cbn [andb]. apply wp_bind, wp_ret.
  apply wp_bind, wp_debug. intros evs3 L3. cbn [show_null].
  rewrite append_empty. apply wp_bind.
  match goal with |- wp _ _ ?x => set (w3 := x) end.
  assert (Hr3 : result (load p) w3 = r) by reflexivity.
  destruct (create_dirs_tmpdir_ok p (instance_prefix r) None None idata w3
              orig parent)
    as (t & Hv & Ho & (i & Hi) & Hother);
    rewrite ?Hr3; try assumption.
  unfold wp at 1. rewrite Hr3 in Hv, Hi, Hother. rewrite Hv.
  set (w4 := snd (create_dirs p (instance_prefix r) None None idata w3)) in *.
  change (w_os w3) with (w_os w) in *. fold (made t) in Hi, Hother |- *.
  cbn [Z.ltb Z.compare PAM_SUCCESS]. apply wp_bind.
  assert (Hd4 : exists o, w_fs w4 (dir r) = Some o).
  { destruct (String.eqb_spec (dir r) (made t)) as [E|E].
    - rewrite E. exists i. exact Hi.
    - exists orig. rewrite Hother by exact E. exact Horig. }
  destruct Hd4 as (o & Hd4).
  apply (wp_bind_mount (made t) (dir r) _ w4 i o); try assumption.
  { rewrite Ho. exact Hq. }
  intros w5 Hin. cbn [Z.ltb Z.compare]. apply wp_ret.
  split; [reflexivity | exists t; exact Hin].
Qed.

(** A rule of the tmpfs method is set up whatever its directory is called,
    when the directory is there. *)
Lemma ns_setup_tmpfs_ok p idata w orig :
  let r := result (load p) w in
  method r = TMPFS ->
  quiet (w_os w) ->
  w_fs w (dir r) = Some orig ->
  w_fs w NAMESPACE_INIT_SCRIPT = None ->
  fst (ns_setup p idata w) = PAM_SUCCESS
  /\ In ("tmpfs", dir r, "tmpfs") (w_mounts (snd (ns_setup p idata w))).
Proof.
  intros r Hm Hq Horig Hscript.
  destruct (ns_setup_tmpfs_run p idata w Hm) as (evs & L & E).
  rewrite E. fold r. set (w1 := set_trace (evs ++ w_trace w) w).
  rewrite run_bind, mount_run. cbv zeta.
  change (w_os w1) with (w_os w). rewrite Hq. cbn [Z.eqb].
  unfold mount_errno. change (w_fs w1) with (w_fs w). rewrite Horig.
  cbn [Z.land negb Z.eqb fst snd Z.ltb Z.compare].
  match goal with |- context [inst_init r "tmpfs" idata 1 ?x] => set (w2 := x) end.
  split.
  - apply inst_init_no_script; [apply Hq | exact Hscript].
  - destruct (inst_init_no_script_keeps r "tmpfs" idata 1 w2 Hscript) as (_ & Hmt).
    rewrite Hmt. left. reflexivity.
Qed.


